(** * Chat-driven scheduling assistant: dispatch and auto-booking pipeline

    A shallow embedding of the chat service ([app/services/chat.py]), the
    completion adapter ([app/services/openai.py]), the date helper
    ([app/utils/date.py]) and the chat router ([app/api/routers/chat.py]),
    followed by the properties of the specification that concern them.

    Python values that flow through the code untyped (tool-call arguments,
    handler results) are values of [pyval]; text is [string] (bytes, with the
    ASCII reading of [lower], [isspace] and the regular-expression classes);
    the outside world (calendar provider, completion endpoint, clock, uuid
    source) is a record of oracles that may answer differently at every call,
    and every call is recorded in a log. *)

From Stdlib Require Import ZArith Lia Ascii String List Bool DecimalString.
From Stdlib Require DecimalPos.
From stdpp Require Import base option list gmap strings.

Set Warnings "-register-all".

Local Open Scope string_scope.
Local Open Scope Z_scope.

(** ** Text *)

Module PyStr.

Definition dquote : ascii := ascii_of_nat 34.
Definition squote : ascii := ascii_of_nat 39.
Definition backslash : ascii := ascii_of_nat 92.

Definition code (c : ascii) : Z := Z.of_nat (nat_of_ascii c).

Definition in_range (lo hi : Z) (c : ascii) : bool :=
  (lo <=? code c) && (code c <=? hi).

Definition is_upper (c : ascii) : bool := in_range 65 90 c.
Definition is_lower (c : ascii) : bool := in_range 97 122 c.
Definition is_digit (c : ascii) : bool := in_range 48 57 c.
Definition is_alpha (c : ascii) : bool := is_upper c || is_lower c.

(** [str.isspace] on the ASCII range: TAB..CR, FS..US and the blank. *)
Definition is_space (c : ascii) : bool :=
  in_range 9 13 c || in_range 28 32 c.

Definition lower_char (c : ascii) : ascii :=
  if is_upper c then ascii_of_nat (nat_of_ascii c + 32) else c.

(** [str.lower()] *)
Fixpoint lower (s : string) : string :=
  match s with
  | EmptyString => EmptyString
  | String c r => String (lower_char c) (lower r)
  end.

(** [s.startswith(p)] *)
Fixpoint startswith (p s : string) : bool :=
  match p, s with
  | EmptyString, _ => true
  | String a p', String b s' => if Ascii.eqb a b then startswith p' s' else false
  | String _ _, EmptyString => false
  end.

(** [needle in hay] for two strings. *)
Fixpoint contains (needle hay : string) : bool :=
  startswith needle hay ||
  match hay with
  | EmptyString => false
  | String _ r => contains needle r
  end.

Fixpoint has_char (c : ascii) (s : string) : bool :=
  match s with
  | EmptyString => false
  | String a r => Ascii.eqb a c || has_char c r
  end.

Fixpoint lstrip (s : string) : string :=
  match s with
  | EmptyString => EmptyString
  | String c r => if is_space c then lstrip r else s
  end.

Fixpoint rstrip (s : string) : string :=
  match s with
  | EmptyString => EmptyString
  | String c r =>
      match rstrip r with
      | EmptyString => if is_space c then EmptyString else String c EmptyString
      | r' => String c r'
      end
  end.

(** [str.strip()] *)
Definition strip (s : string) : string := rstrip (lstrip s).

Definition len (s : string) : Z := Z.of_nat (String.length s).

(** [str(n)] for an integer. *)
Definition of_Z (n : Z) : string := NilZero.string_of_int (Z.to_int n).

Fixpoint zeros (n : nat) : string :=
  match n with
  | O => EmptyString
  | S k => String "0" (zeros k)
  end.

(** ["%0wd" % n] and [f"{n:0wd}"] for a non-negative [n]. *)
Definition zpad (w : nat) (n : Z) : string :=
  zeros (w - String.length (of_Z n)) ++ of_Z n.

Definition fmt02 (n : Z) : string := zpad 2 n.

(** [s[a:b]] for [0 <= a <= b]. *)
Definition slice (a b : nat) (s : string) : string := substring a (b - a) s.

(** [s[a:]] *)
Fixpoint drop (a : nat) (s : string) : string :=
  match a, s with
  | O, _ => s
  | S k, String _ r => drop k r
  | S _, EmptyString => EmptyString
  end.

(** [s[:n]] *)
Fixpoint take (n : nat) (s : string) : string :=
  match n, s with
  | S k, String c r => String c (take k r)
  | _, _ => EmptyString
  end.

(** [s.find(c)]: the index of the first [c], if any. *)
Fixpoint find_char (c : ascii) (s : string) : option nat :=
  match s with
  | EmptyString => None
  | String a r => if Ascii.eqb a c then Some O else option_map S (find_char c r)
  end.

Definition digit_val (c : ascii) : Z := code c - 48.

Fixpoint int_digits_acc (acc : Z) (s : string) : Z :=
  match s with
  | EmptyString => acc
  | String c r => int_digits_acc (10 * acc + digit_val c) r
  end.

(** [int(s)] on a string of decimal digits (what [\d+] captures). *)
Definition int_of_digits (s : string) : Z := int_digits_acc 0 s.

Fixpoint all_digits (s : string) : bool :=
  match s with
  | EmptyString => true
  | String c r => is_digit c && all_digits r
  end.

Definition hex_digit (n : Z) : ascii :=
  if n <? 10 then ascii_of_nat (Z.to_nat (48 + n))
  else ascii_of_nat (Z.to_nat (87 + n)).

(** One character inside [repr] of a string quoted with [q]. *)
Definition repr_char (q c : ascii) : string :=
  if Ascii.eqb c backslash then String backslash (String backslash EmptyString)
  else if Ascii.eqb c q then String backslash (String q EmptyString)
  else if code c =? 9 then String backslash "t"
  else if code c =? 10 then String backslash "n"
  else if code c =? 13 then String backslash "r"
  else if (code c <? 32) || (code c =? 127) then
    String backslash
      (String "x" (String (hex_digit (code c / 16))
                     (String (hex_digit (code c mod 16)) EmptyString)))
  else String c EmptyString.

Fixpoint repr_body (q : ascii) (s : string) : string :=
  match s with
  | EmptyString => EmptyString
  | String c r => repr_char q c ++ repr_body q r
  end.

(** [repr(s)]: single quotes, unless the text has a single quote and no
    double quote. *)
Definition repr (s : string) : string :=
  let q := if has_char squote s && negb (has_char dquote s) then dquote else squote in
  String q (repr_body q s ++ String q EmptyString).

End PyStr.

(** ** Dynamically typed values *)

Inductive pyval : Type :=
| PNone
| PBool (b : bool)
| PInt (n : Z)
| PStr (s : string)
| PList (l : list pyval)
| PDict (d : list (string * pyval)).

Module Py.

(** Truth value of an object, as [if x:] and [not x] take it. *)
Definition truthy (v : pyval) : bool :=
  match v with
  | PNone => false
  | PBool b => b
  | PInt n => negb (n =? 0)
  | PStr s => negb (String.eqb s EmptyString)
  | PList l => match l with [] => false | _ => true end
  | PDict d => match d with [] => false | _ => true end
  end.

(** Integers and booleans compare and subtract as numbers. *)
Definition as_int (v : pyval) : option Z :=
  match v with
  | PInt n => Some n
  | PBool b => Some (if b then 1 else 0)
  | _ => None
  end.

Fixpoint assoc (k : string) (d : list (string * pyval)) : option pyval :=
  match d with
  | [] => None
  | (k', v) :: r => if String.eqb k k' then Some v else assoc k r
  end.

(** [a == b] *)
Fixpoint eqb (a b : pyval) {struct a} : bool :=
  let fix list_eqb (l1 l2 : list pyval) {struct l1} : bool :=
    match l1, l2 with
    | [], [] => true
    | x :: r1, y :: r2 => eqb x y && list_eqb r1 r2
    | _, _ => false
    end in
  let fix sub_dict (d1 d2 : list (string * pyval)) {struct d1} : bool :=
    match d1 with
    | [] => true
    | (k, v) :: r =>
        match assoc k d2 with
        | Some w => eqb v w && sub_dict r d2
        | None => false
        end
    end in
  match a, b with
  | PNone, PNone => true
  | PStr s, PStr t => String.eqb s t
  | PList l1, PList l2 => list_eqb l1 l2
  | PDict d1, PDict d2 => (length d1 =? length d2)%nat && sub_dict d1 d2
  | (PInt _ | PBool _), (PInt _ | PBool _) =>
      match as_int a, as_int b with
      | Some m, Some n => m =? n
      | _, _ => false
      end
  | _, _ => false
  end.

Definition sep_join (parts : list string) : string :=
  match parts with
  | [] => EmptyString
  | p :: r => fold_left (fun acc q => acc ++ ", " ++ q) r p
  end.

(** [repr(v)] *)
Fixpoint repr (v : pyval) : string :=
  match v with
  | PNone => "None"
  | PBool true => "True"
  | PBool false => "False"
  | PInt n => PyStr.of_Z n
  | PStr s => PyStr.repr s
  | PList l => "[" ++ sep_join (map repr l) ++ "]"
  | PDict d =>
      "{" ++ sep_join (map (fun kv => PyStr.repr (fst kv) ++ ": " ++ repr (snd kv)) d) ++ "}"
  end.

(** [str(v)] *)
Definition str (v : pyval) : string :=
  match v with
  | PStr s => s
  | _ => repr v
  end.

(** [eval(str(d))] of a result mapping made of text, integers, [None],
    lists and mappings rebuilds the mapping. *)
Definition eval_of_str (v : pyval) : pyval := v.

End Py.

(** ** Regular expressions

    The fragment of [re] the code uses, with the backtracking order of the
    library: greedy repetition, alternatives left to right, the leftmost
    match for [re.search]. *)

Module Re.

Inductive re : Type :=
| Chr (p : ascii -> bool)
| Lit (s : string)
| Plus (p : ascii -> bool)
| Seq (a b : re)
| Alt (a b : re)
| Opt (a : re)
| Grp (a : re).

(** What a successful match leaves: the groups, in order, and the text
    after the match. *)
Definition found : Type := (list string * string)%type.

Fixpoint plus_k (p : ascii -> bool) (s : string) (k : string -> option found)
  : option found :=
  match s with
  | EmptyString => None
  | String c r =>
      if p c then
        match plus_k p r k with
        | Some x => Some x
        | None => k r
        end
      else None
  end.

Fixpoint run (r : re) (s : string) (caps : list string)
  (k : string -> list string -> option found) : option found :=
  match r with
  | Chr p =>
      match s with
      | String c t => if p c then k t caps else None
      | EmptyString => None
      end
  | Lit l =>
      if PyStr.startswith l s then k (PyStr.drop (String.length l) s) caps else None
  | Plus p => plus_k p s (fun t => k t caps)
  | Seq a b => run a s caps (fun t caps' => run b t caps' k)
  | Alt a b =>
      match run a s caps k with
      | Some x => Some x
      | None => run b s caps k
      end
  | Opt a =>
      match run a s caps k with
      | Some x => Some x
      | None => k s caps
      end
  | Grp a =>
      run a s caps
        (fun t caps' =>
           k t (caps' ++ [PyStr.take (String.length s - String.length t) s])%list)
  end.

(** [re.match(r, s)] *)
Definition match_ (r : re) (s : string) : option found :=
  run r s [] (fun t caps => Some (caps, t)).

(** [re.search(r, s)]: the groups of the leftmost match. *)
Fixpoint search (r : re) (s : string) : option (list string) :=
  match match_ r s with
  | Some (caps, _) => Some caps
  | None =>
      match s with
      | EmptyString => None
      | String _ t => search r t
      end
  end.

Definition group (n : nat) (caps : list string) : string :=
  nth (n - 1) caps EmptyString.

Definition is_char (c : ascii) : ascii -> bool := fun a => Ascii.eqb a c.
Definition one_of (s : string) : ascii -> bool := fun a => PyStr.has_char a s.

Fixpoint alts (l : list string) : re :=
  match l with
  | [] => Lit EmptyString
  | [s] => Lit s
  | s :: r => Alt (Lit s) (alts r)
  end.

Fixpoint seqs (l : list re) : re :=
  match l with
  | [] => Lit EmptyString
  | [r] => r
  | r :: t => Seq r (seqs t)
  end.

Definition alnum (c : ascii) : bool := PyStr.is_alpha c || PyStr.is_digit c.

(** [for\s+([^(]+)] *)
Definition name_re : re :=
  seqs [Lit "for"; Plus PyStr.is_space; Grp (Plus (fun c => negb (is_char "(" c)))].

(** [([a-zA-Z0-9_.+-]+@[a-zA-Z0-9-]+\.[a-zA-Z0-9-.]+)] *)
Definition email_re : re :=
  Grp (seqs [Plus (fun c => alnum c || one_of "_.+-" c);
             Lit "@";
             Plus (fun c => alnum c || is_char "-" c);
             Lit ".";
             Plus (fun c => alnum c || one_of "-." c)]).

Definition month_names : list string :=
  ["January"; "February"; "March"; "April"; "May"; "June"; "July";
   "August"; "September"; "October"; "November"; "December"].

(** [(January|...|December)\s+(\d+)(?:st|nd|rd|th)?] *)
Definition date_re : re :=
  seqs [Grp (alts month_names); Plus PyStr.is_space; Grp (Plus PyStr.is_digit);
        Opt (alts ["st"; "nd"; "rd"; "th"])].

(** [(\d+):(\d+)] *)
Definition time_re : re :=
  seqs [Grp (Plus PyStr.is_digit); Lit ":"; Grp (Plus PyStr.is_digit)].

(** The pattern [_strptime] builds for ["%Y-%m-%d"]. *)
Definition ymd_re : re :=
  let d := PyStr.is_digit in
  let r19 := PyStr.in_range 49 57 in
  seqs [Grp (seqs [Chr d; Chr d; Chr d; Chr d]);
        Lit "-";
        Grp (Alt (Seq (Lit "1") (Chr (PyStr.in_range 48 50)))
               (Alt (Seq (Lit "0") (Chr r19)) (Chr r19)));
        Lit "-";
        Grp (Alt (Seq (Lit "3") (Chr (PyStr.in_range 48 49)))
               (Alt (Seq (Chr (PyStr.in_range 49 50)) (Chr d))
                  (Alt (Seq (Lit "0") (Chr r19))
                     (Alt (Chr r19) (Seq (Lit " ") (Chr r19))))))].

End Re.

(** ** Exceptions *)

Inductive exn_class : Type :=
| AppException | NotFoundError | ValidationError | APIError
| CalComAPIError | OpenAIAPIError
| TypeError | ValueError | AttributeError | OverflowError | OtherError.

(** An exception with [str(e)]. *)
Record exn : Type := Exn { exn_cls : exn_class; exn_msg : string }.

Definition result (A : Type) : Type := (exn + A)%type.

Definition exn_class_eqb (a b : exn_class) : bool :=
  match a, b with
  | AppException, AppException | NotFoundError, NotFoundError
  | ValidationError, ValidationError | APIError, APIError
  | CalComAPIError, CalComAPIError | OpenAIAPIError, OpenAIAPIError
  | TypeError, TypeError | ValueError, ValueError
  | AttributeError, AttributeError | OverflowError, OverflowError
  | OtherError, OtherError => true
  | _, _ => false
  end.

(** ** Dates and times

    A [datetime] keeps its date as the proleptic Gregorian ordinal
    ([toordinal()]: day 1 is 0001-01-01, a Monday); year, month and day
    are derived with the library's own conversion when it is printed. *)

Module DateTime.

Record datetime : Type := mk {
  ordinal : Z;
  hour : Z;
  minute : Z;
  second : Z;
  microsecond : Z;
  utcoffset : option Z  (* seconds east of UTC; [None] for a naive value *)
}.

Definition MINORDINAL : Z := 1.
Definition MAXORDINAL : Z := 3652059.

Definition is_leap (y : Z) : bool :=
  (y mod 4 =? 0) && (negb (y mod 100 =? 0) || (y mod 400 =? 0)).

Definition days_before_year (year : Z) : Z :=
  let y := year - 1 in y * 365 + y / 4 - y / 100 + y / 400.

Definition DAYS_IN_MONTH : list Z := [31; 28; 31; 30; 31; 30; 31; 31; 30; 31; 30; 31].
Definition DAYS_BEFORE_MONTH : list Z :=
  [0; 31; 59; 90; 120; 151; 181; 212; 243; 273; 304; 334].

Definition days_in_month (year month : Z) : Z :=
  if (month =? 2) && is_leap year then 29
  else nth (Z.to_nat (month - 1)) DAYS_IN_MONTH 0.

Definition days_before_month (year month : Z) : Z :=
  nth (Z.to_nat (month - 1)) DAYS_BEFORE_MONTH 0
  + (if (2 <? month) && is_leap year then 1 else 0).

Definition ymd2ord (year month day : Z) : Z :=
  days_before_year year + days_before_month year month + day.

Definition ord2ymd (n0 : Z) : Z * Z * Z :=
  let n := n0 - 1 in
  let n400 := n / 146097 in
  let n := n mod 146097 in
  let n100 := n / 36524 in
  let n := n mod 36524 in
  let n4 := n / 1461 in
  let n := n mod 1461 in
  let n1 := n / 365 in
  let n := n mod 365 in
  let year := n400 * 400 + 1 + n100 * 100 + n4 * 4 + n1 in
  if (n1 =? 4) || (n100 =? 4) then (year - 1, 12, 31)
  else
    let leapyear := (n1 =? 3) && (negb (n4 =? 24) || (n100 =? 3)) in
    let month := Z.shiftr (n + 50) 5 in
    let preceding :=
      nth (Z.to_nat (month - 1)) DAYS_BEFORE_MONTH 0
      + (if (2 <? month) && leapyear then 1 else 0) in
    if n <? preceding then
      let month' := month - 1 in
      let preceding' :=
        preceding - (nth (Z.to_nat (month' - 1)) DAYS_IN_MONTH 0
                     + (if (month' =? 2) && leapyear then 1 else 0)) in
      (year, month', n - preceding' + 1)
    else (year, month, n - preceding + 1).

(** [toordinal() + 6) % 7]: Monday is 0. *)
Definition weekday (d : datetime) : Z := (ordinal d + 6) mod 7.

(** [d + timedelta(days=n)] *)
Definition add_days (d : datetime) (n : Z) : result datetime :=
  let o := ordinal d + n in
  if (MINORDINAL <=? o) && (o <=? MAXORDINAL) then
    inr (mk o (hour d) (minute d) (second d) (microsecond d) (utcoffset d))
  else inl (Exn OverflowError "date value out of range").

(** [d.replace(hour=h, minute=m, second=s)] *)
Definition replace_hms (d : datetime) (h m s : Z) : datetime :=
  mk (ordinal d) h m s (microsecond d) (utcoffset d).

(** The constructor's checks. *)
Definition make (y mo d h mi s us : Z) (off : option Z) : result datetime :=
  if negb ((1 <=? y) && (y <=? 9999)) then
    inl (Exn ValueError ("year " ++ PyStr.of_Z y ++ " is out of range"))
  else if negb ((1 <=? mo) && (mo <=? 12)) then inl (Exn ValueError "month must be in 1..12")
  else if negb ((1 <=? d) && (d <=? days_in_month y mo)) then
    inl (Exn ValueError "day is out of range for month")
  else if negb ((0 <=? h) && (h <=? 23)) then inl (Exn ValueError "hour must be in 0..23")
  else if negb ((0 <=? mi) && (mi <=? 59)) then inl (Exn ValueError "minute must be in 0..59")
  else if negb ((0 <=? s) && (s <=? 59)) then inl (Exn ValueError "second must be in 0..59")
  else inr (mk (ymd2ord y mo d) h mi s us off).

(** [datetime.strptime(s, "%Y-%m-%d")] *)
Definition strptime_ymd (s : string) : result datetime :=
  match Re.match_ Re.ymd_re s with
  | Some ([y; mo; d], EmptyString) =>
      make (PyStr.int_of_digits y) (PyStr.int_of_digits mo)
        (PyStr.int_of_digits (PyStr.lstrip d)) 0 0 0 0 None
  | Some (_, rest) => inl (Exn ValueError ("unconverted data remains: " ++ rest))
  | None =>
      inl (Exn ValueError
             ("time data " ++ PyStr.repr s ++ " does not match format '%Y-%m-%d'"))
  end.

Definition fmt_date (o : Z) : string :=
  let '(y, mo, d) := ord2ymd o in
  PyStr.zpad 4 y ++ "-" ++ PyStr.zpad 2 mo ++ "-" ++ PyStr.zpad 2 d.

(** [d.strftime("%Y-%m-%d")]: the C library writes the year as the number
    it is, so a year below 1000 comes out with fewer than four digits. *)
Definition strftime_ymd (d : datetime) : string :=
  let '(y, mo, dd) := ord2ymd (ordinal d) in
  PyStr.of_Z y ++ "-" ++ PyStr.zpad 2 mo ++ "-" ++ PyStr.zpad 2 dd.

Definition fmt_offset (off : option Z) : string :=
  match off with
  | None => EmptyString
  | Some o =>
      let sign := if o <? 0 then "-" else "+" in
      let a := Z.abs o in
      sign ++ PyStr.zpad 2 (a / 3600) ++ ":" ++ PyStr.zpad 2 (a mod 3600 / 60)
      ++ (if a mod 60 =? 0 then EmptyString else ":" ++ PyStr.zpad 2 (a mod 60))
  end.

(** [d.isoformat()] *)
Definition isoformat (d : datetime) : string :=
  fmt_date (ordinal d) ++ "T"
  ++ PyStr.zpad 2 (hour d) ++ ":" ++ PyStr.zpad 2 (minute d) ++ ":" ++ PyStr.zpad 2 (second d)
  ++ (if microsecond d =? 0 then EmptyString else "." ++ PyStr.zpad 6 (microsecond d))
  ++ fmt_offset (utcoffset d).

Definition digits_n (n : nat) (s : string) : option Z :=
  if (String.length s =? n)%nat && PyStr.all_digits s
  then Some (PyStr.int_of_digits s) else None.

Definition char_at (i : nat) (s : string) : option ascii := String.get i s.

Definition is_at (i : nat) (c : ascii) (s : string) : bool :=
  match char_at i s with
  | Some a => Ascii.eqb a c
  | None => false
  end.

(** [HH[:MM[:SS[.fff[fff]]]]] *)
Definition parse_hh_mm_ss_ff (t : string) : option (Z * Z * Z * Z) :=
  let n := String.length t in
  h ← digits_n 2 (PyStr.slice 0 2 t);
  if (n =? 2)%nat then Some (h, 0, 0, 0)
  else if negb (is_at 2 ":" t) then None
  else
    m ← digits_n 2 (PyStr.slice 3 5 t);
    if (n =? 5)%nat then Some (h, m, 0, 0)
    else if negb (is_at 5 ":" t) then None
    else
      s ← digits_n 2 (PyStr.slice 6 8 t);
      if (n =? 8)%nat then Some (h, m, s, 0)
      else if negb (is_at 8 "." t) then None
      else if (n =? 12)%nat then
        f ← digits_n 3 (PyStr.drop 9 t); Some (h, m, s, f * 1000)
      else if (n =? 15)%nat then
        f ← digits_n 6 (PyStr.drop 9 t); Some (h, m, s, f)
      else None.

(** The time part: the clock fields and the offset in seconds. *)
Definition parse_isoformat_time (t : string) : option (Z * Z * Z * Z * option Z) :=
  if (String.length t <? 2)%nat then None
  else
    let tz_pos :=
      match PyStr.find_char "-" t with
      | Some i => Some (i, -1)
      | None =>
          match PyStr.find_char "+" t with
          | Some i => Some (i, 1)
          | None => None
          end
      end in
    match tz_pos with
    | None =>
        '(h, m, s, f) ← parse_hh_mm_ss_ff t; Some (h, m, s, f, None)
    | Some (i, sign) =>
        '(h, m, s, f) ← parse_hh_mm_ss_ff (PyStr.take i t);
        let tzstr := PyStr.drop (S i) t in
        let n := String.length tzstr in
        if negb ((n =? 5)%nat || (n =? 8)%nat || (n =? 15)%nat) then None
        else
          '(oh, om, os, _) ← parse_hh_mm_ss_ff tzstr;
          let off := sign * (oh * 3600 + om * 60 + os) in
          if (-86400 <? off) && (off <? 86400) then Some (h, m, s, f, Some off)
          else None
    end.

(** [datetime.fromisoformat(s)], for the texts [isoformat()] writes:
    [YYYY-MM-DD], one separator character, then the time part. *)
Definition fromisoformat (s : string) : result datetime :=
  let bad := Exn ValueError ("Invalid isoformat string: " ++ PyStr.repr s) in
  let dstr := PyStr.slice 0 10 s in
  let tstr := PyStr.drop 11 s in
  match digits_n 4 (PyStr.slice 0 4 dstr),
        digits_n 2 (PyStr.slice 5 7 dstr),
        digits_n 2 (PyStr.slice 8 10 dstr) with
  | Some y, Some mo, Some d =>
      if negb (is_at 4 "-" dstr && is_at 7 "-" dstr) then inl bad
      else
        match tstr with
        | EmptyString => make y mo d 0 0 0 0 None
        | _ =>
            match parse_isoformat_time tstr with
            | Some (h, m, sec, f, off) => make y mo d h m sec f off
            | None => inl bad
            end
        end
  | _, _, _ => inl bad
  end.

(** [int((b - a).total_seconds() / 60)]: minutes between two instants,
    truncated toward zero; mixing a naive and an aware value is a
    [TypeError]. *)
Definition minutes_between (a b : datetime) : result Z :=
  let secs (d : datetime) (off : Z) :=
    (ordinal d * 86400 + hour d * 3600 + minute d * 60 + second d - off) * 1000000
    + microsecond d in
  match utcoffset a, utcoffset b with
  | None, None => inr (Z.quot (secs b 0 - secs a 0) 60000000)
  | Some oa, Some ob => inr (Z.quot (secs b ob - secs a oa) 60000000)
  | _, _ => inl (Exn TypeError "can't subtract offset-naive and offset-aware datetimes")
  end.

End DateTime.


(** ** More on dynamically typed values *)

Module PyOps.

Definition type_name (v : pyval) : string :=
  match v with
  | PNone => "NoneType"
  | PBool _ => "bool"
  | PInt _ => "int"
  | PStr _ => "str"
  | PList _ => "list"
  | PDict _ => "dict"
  end.

(** [d.get(k, default)]; only a mapping has the method. *)
Definition get_default (d : pyval) (k : string) (default : pyval) : result pyval :=
  match d with
  | PDict l =>
      inr (match Py.assoc k l with Some v => v | None => default end)
  | _ =>
      inl (Exn AttributeError
             ("'" ++ type_name d ++ "' object has no attribute 'get'"))
  end.

(** [d.get(k)] *)
Definition get (d : pyval) (k : string) : result pyval := get_default d k PNone.

(** [len(v)] *)
Definition len (v : pyval) : result Z :=
  match v with
  | PStr s => inr (PyStr.len s)
  | PList l => inr (Z.of_nat (length l))
  | PDict d => inr (Z.of_nat (length d))
  | _ => inl (Exn TypeError ("object of type '" ++ type_name v ++ "' has no len()"))
  end.

(** [needle in hay], with a text as the needle. *)
Definition str_in (needle : string) (hay : pyval) : result bool :=
  match hay with
  | PStr s => inr (PyStr.contains needle s)
  | PList l => inr (existsb (Py.eqb (PStr needle)) l)
  | PDict d => inr (existsb (fun kv => String.eqb needle (fst kv)) d)
  | _ =>
      inl (Exn TypeError
             ("argument of type '" ++ type_name hay ++ "' is not iterable"))
  end.

(** [for x in v]: the elements a loop or comprehension visits. *)
Definition iter (v : pyval) : result (list pyval) :=
  match v with
  | PList l => inr l
  | PStr s => inr (map (fun c => PStr (String c EmptyString)) (list_ascii_of_string s))
  | PDict d => inr (map (fun kv => PStr (fst kv)) d)
  | _ =>
      inl (Exn TypeError ("'" ++ type_name v ++ "' object is not iterable"))
  end.

(** [a + ":00"] *)
Definition add_str (a : pyval) (s : string) : result string :=
  match a with
  | PStr t => inr (t ++ s)
  | PList _ =>
      inl (Exn TypeError
             ("can only concatenate list (not "
              ++ String PyStr.dquote ("str" ++ String PyStr.dquote ") to list")))
  | _ =>
      inl (Exn TypeError
             ("unsupported operand type(s) for +: '" ++ type_name a ++ "' and 'str'"))
  end.

Definition of_opt_str (o : option string) : pyval :=
  match o with
  | Some s => PStr s
  | None => PNone
  end.

End PyOps.


(** ** Models ([app/models/chat.py], [app/models/calcom.py]) *)

Inductive ChatRole : Type := SYSTEM | USER | ASSISTANT | FUNCTION.

Definition ChatRole_eqb (a b : ChatRole) : bool :=
  match a, b with
  | SYSTEM, SYSTEM | USER, USER | ASSISTANT, ASSISTANT | FUNCTION, FUNCTION => true
  | _, _ => false
  end.

Module ChatMessage.
Record t : Type := mk {
  role : ChatRole;
  content : string;
  name : option string;
  function_call : option pyval
}.
End ChatMessage.

Module ChatFunction.
Record t : Type := mk {
  name : string;
  description : string;
  parameters : pyval
}.
End ChatFunction.

(** One entry of [function_calls]: [{"name": ..., "arguments": ...}]. *)
Module FunctionCall.
Record t : Type := mk {
  name : string;
  arguments : pyval
}.
End FunctionCall.

(** [ChatHistory]: the list behind [messages]. *)
Module ChatHistory.
Abbreviation t := (list ChatMessage.t) (only parsing).
Definition empty : t := [].
Definition add_message (h : t) (m : ChatMessage.t) : t := (h ++ [m])%list.
Definition get_messages (h : t) : list ChatMessage.t := h.
Definition clear (h : t) : t := [].
End ChatHistory.

(** The service's [ChatResponse]. *)
Module ServiceResponse.
Record t : Type := mk {
  message : ChatMessage.t;
  function_calls : option (list FunctionCall.t);
  function_results : option (gmap string pyval)
}.
End ServiceResponse.

Module EventType.
Record t : Type := mk {
  id : Z;
  slug : string;
  title : string;
  description : option string;
  length : Z;
  hidden : bool
}.
End EventType.

Module AvailableSlot.
Record t : Type := mk {
  start : DateTime.datetime;
  end_ : DateTime.datetime
}.
End AvailableSlot.

Module Attendee.
Record t : Type := mk {
  email : string;
  name : string;
  timezone : option string
}.
End Attendee.

Module Booking.
Record t : Type := mk {
  id : Z;
  uid : string;
  title : string;
  description : option string;
  start_time : DateTime.datetime;
  end_time : DateTime.datetime;
  status : string;
  attendees : list Attendee.t;
  event_type_id : Z
}.
End Booking.

(** Schemas of the endpoint ([app/schemas/chat.py]). *)
Module ChatRequest.
Record t : Type := mk {
  message : string;
  user_id : option string;
  session_id : option string
}.
End ChatRequest.

Module ChatResponse.
Record t : Type := mk {
  response : string;
  session_id : string;
  requires_action : bool;
  action_details : option FunctionCall.t
}.
End ChatResponse.

(** ** The outside world *)

(** What the completion endpoint sends back, before [parse_response]. *)
Module Raw.
Record tool_call : Type := mk_tool_call {
  type_ : string;
  fn_name : string;
  (** [json.loads(tool_call.function.arguments)], or what it raises *)
  fn_arguments : result pyval
}.
Record message : Type := mk_message {
  content : option string;
  tool_calls : list tool_call
}.
Record completion : Type := mk_completion {
  choices : list message
}.
End Raw.

(** Every call that leaves the process, with its arguments. *)
Inductive Call : Type :=
| GetEventTypes
| GetAvailableSlots (event_type_id : pyval) (start_date end_date : DateTime.datetime)
    (timezone : pyval)
| BookEvent (event_type_id : pyval) (start_time end_time : DateTime.datetime)
    (name email title description timezone language : pyval)
| GetBookings (email : pyval) (start_date end_date : DateTime.datetime) (status : pyval)
| CancelBooking (booking_id reason : pyval)
| RescheduleBooking (booking_id : pyval) (start_time end_time : DateTime.datetime)
    (reason : pyval)
| CompletionsCreate (messages : list ChatMessage.t) (tools : list ChatFunction.t)
    (temperature_tenths : Z)
| Now
| Uuid4.

(** The answers of the world. Each oracle sees the whole log, which ends
    with the call it answers, so one call may be answered differently from
    the next. The calendar oracles stand for the methods of
    [CalComService], the completion oracle for
    [client.chat.completions.create]. *)
Record Env : Type := mkEnv {
  get_event_types : list Call -> result (list EventType.t);
  get_available_slots : list Call -> result (list AvailableSlot.t);
  book_event : list Call -> result Booking.t;
  get_bookings : list Call -> result (list Booking.t);
  cancel_booking : list Call -> result pyval;
  reschedule_booking : list Call -> result Booking.t;
  completions_create : list Call -> result Raw.completion;
  now : list Call -> DateTime.datetime;
  uuid4 : list Call -> string
}.

(** The state a request runs in: the [ChatService] object (its session
    map and its system prompt) and the log of calls made so far. *)
Record World : Type := mkWorld {
  sessions : gmap string ChatHistory.t;
  system_prompt : string;
  log : list Call
}.

(** ** Computations: state and exceptions *)

Definition M (A : Type) : Type := World -> result A * World.

#[global] Instance M_ret : MRet M := fun A (a : A) w => (inr a, w).

#[global] Instance M_bind : MBind M := fun A B (f : A -> M B) (m : M A) w =>
  match m w with
  | (inr a, w') => f a w'
  | (inl e, w') => (inl e, w')
  end.

Definition raise {A : Type} (e : exn) : M A := fun w => (inl e, w).

(** [try: m  except Exception as e: h e] *)
Definition try_except {A : Type} (m : M A) (h : exn -> M A) : M A := fun w =>
  match m w with
  | (inr a, w') => (inr a, w')
  | (inl e, w') => h e w'
  end.

Definition lift {A : Type} (r : result A) : M A := fun w => (r, w).

(** A call to the world: log it, then ask. *)
Definition call {A : Type} (c : Call) (oracle : list Call -> result A) : M A := fun w =>
  let l := (log w ++ [c])%list in
  (oracle l, mkWorld (sessions w) (system_prompt w) l).

Definition call_total {A : Type} (c : Call) (oracle : list Call -> A) : M A :=
  call c (fun l => inr (oracle l)).

Definition get_sessions : M (gmap string ChatHistory.t) := fun w => (inr (sessions w), w).

Definition put_sessions (s : gmap string ChatHistory.t) : M unit := fun w =>
  (inr tt, mkWorld s (system_prompt w) (log w)).

Definition get_system_prompt : M string := fun w => (inr (system_prompt w), w).

Fixpoint mapM {A B : Type} (f : A -> M B) (l : list A) : M (list B) :=
  match l with
  | [] => mret []
  | x :: r => y ← f x; ys ← mapM f r; mret (y :: ys)
  end.

(** ** The completion adapter ([app/services/openai.py]) *)

(** What a caller passes as [functions]: [ChatFunction] objects, or, from
    the date helper, plain mappings. *)
Inductive fn_arg : Type :=
| FnObj (f : ChatFunction.t)
| FnDict (d : pyval).

Section Services.

Context (env : Env).

(** [function.name], [function.description], [function.parameters] *)
Definition fn_attributes (f : fn_arg) : result ChatFunction.t :=
  match f with
  | FnObj c => inr c
  | FnDict d =>
      inl (Exn AttributeError
             ("'" ++ PyOps.type_name d ++ "' object has no attribute 'name'"))
  end.

Fixpoint convert_functions (l : list fn_arg) : result (list ChatFunction.t) :=
  match l with
  | [] => inr []
  | f :: r =>
      match fn_attributes f with
      | inl e => inl e
      | inr c =>
          match convert_functions r with
          | inl e => inl e
          | inr cs => inr (c :: cs)
          end
      end
  end.

(** [OpenAIService.chat_completion] *)
Definition chat_completion (messages : list ChatMessage.t) (functions : list fn_arg)
  (temperature_tenths : Z) : M Raw.completion :=
  try_except
    (openai_functions ← lift (convert_functions functions);
     call (CompletionsCreate messages openai_functions temperature_tenths)
       (completions_create env))
    (fun e => raise (Exn OpenAIAPIError ("OpenAI API error: " ++ exn_msg e))).

Fixpoint parse_tool_calls (l : list Raw.tool_call) : result (list FunctionCall.t) :=
  match l with
  | [] => inr []
  | tc :: r =>
      if String.eqb (Raw.type_ tc) "function" then
        match Raw.fn_arguments tc with
        | inl e => inl e
        | inr args =>
            match parse_tool_calls r with
            | inl e => inl e
            | inr fcs => inr (FunctionCall.mk (Raw.fn_name tc) args :: fcs)
            end
        end
      else parse_tool_calls r
  end.

(** What [parse_response] returns: the assistant message and the calls
    ([None] when there is none). *)
Definition parsed : Type := (ChatMessage.t * option (list FunctionCall.t))%type.

(** [OpenAIService.parse_response] *)
Definition parse_response (response : Raw.completion) : result parsed :=
  let wrap (e : exn) : result parsed :=
    inl (Exn OpenAIAPIError ("Error parsing OpenAI response: " ++ exn_msg e)) in
  match Raw.choices response with
  | [] => wrap (Exn OtherError "list index out of range")
  | message :: _ =>
      match parse_tool_calls (Raw.tool_calls message) with
      | inl e => wrap e
      | inr function_calls =>
          inr (ChatMessage.mk ASSISTANT
                 (match Raw.content message with
                  | Some c => c
                  | None => EmptyString
                  end)
                 None None,
               match function_calls with
               | [] => None
               | _ => Some function_calls
               end)
      end
  end.

(** ** The date helper ([app/utils/date.py]) *)

Definition extract_datetime_schema : pyval :=
  PDict
    [("name", PStr "extract_datetime");
     ("description", PStr "Extract date and time information from text");
     ("parameters",
       PDict
         [("type", PStr "object");
          ("properties",
            PDict
              [("date",
                 PDict [("type", PStr "string");
                        ("description", PStr "The extracted date in ISO format (YYYY-MM-DD)")]);
               ("start_time",
                 PDict [("type", PStr "string");
                        ("description",
                          PStr "The extracted start time in 24-hour format (HH:MM), or null if not present")]);
               ("end_time",
                 PDict [("type", PStr "string");
                        ("description",
                          PStr "The extracted end time in 24-hour format (HH:MM), or null if not present")]);
               ("is_specific",
                 PDict [("type", PStr "boolean");
                        ("description", PStr "Whether the date/time is specific or approximate")])]);
          ("required", PList [PStr "date"; PStr "is_specific"])])].

Definition extraction_system_prompt : string :=
  "You are a helpful assistant that extracts date and time information from text.
                Extract the date, start time, and end time if present. Return ISO format dates and 24-hour times.
                If no specific date is mentioned, assume today's date. If no specific time is mentioned, return null for times.".

Fixpoint first_named (n : string) (l : list FunctionCall.t) : option pyval :=
  match l with
  | [] => None
  | fc :: r =>
      if String.eqb (FunctionCall.name fc) n then Some (FunctionCall.arguments fc)
      else first_named n r
  end.

(** [parse_date_with_llm]: the arguments of the [extract_datetime] call, or
    [None]; whatever is raised on the way is logged and gives [None]. *)
Definition parse_date_with_llm (date_str : string) : M (option pyval) :=
  try_except
    (let messages :=
       [ChatMessage.mk SYSTEM extraction_system_prompt None None;
        ChatMessage.mk USER ("Parse the following date/time: " ++ date_str) None None] in
     let functions := [FnDict extract_datetime_schema] in
     completion ← chat_completion messages functions 1;
     parsed_response ← lift (parse_response completion);
     match snd parsed_response with
     | Some function_calls => mret (first_named "extract_datetime" function_calls)
     | None => mret None
     end)
    (fun _ => mret None).

End Services.

(** ** The chat service ([app/services/chat.py]) *)

Definition day_names : list string :=
  ["Monday"; "Tuesday"; "Wednesday"; "Thursday"; "Friday"; "Saturday"; "Sunday"].

(** [d.strftime("%A, %B %d, %Y")] *)
Definition strftime_long (d : DateTime.datetime) : string :=
  let '(y, mo, dd) := DateTime.ord2ymd (DateTime.ordinal d) in
  nth (Z.to_nat (DateTime.weekday d)) day_names EmptyString ++ ", "
  ++ nth (Z.to_nat (mo - 1)) Re.month_names EmptyString ++ " "
  ++ PyStr.zpad 2 dd ++ ", " ++ PyStr.of_Z y.

Definition system_prompt_text (current_date : string) : string :=
  "
        Cal.com Scheduling Assistant - Today is " ++ current_date ++ " (PDT)
        
        Your primary function is to help users manage their Cal.com calendar by booking, listing, canceling, and rescheduling events.
        
        Booking workflow:
        • Check availability with get_available_slots when a user requests a meeting
        • If the slot is available, immediately book it with book_event
        • Don't request information the user has already provided (date, time, name, email, reason)
        • Complete the booking in a single step when possible
        
        For listing events:
        • Request email if not provided, then show all scheduled events
        
        For cancellations:
        • Request email if needed, locate the event, then cancel it
        
        For rescheduling:
        • Request email if needed, locate the event, ask for new time if needed, then reschedule
        
        Always prioritize efficiency and minimize back-and-forth with users.
        ".

Definition prop (ty description : string) : pyval :=
  PDict [("type", PStr ty); ("description", PStr description)].

Definition schema (properties : list (string * pyval)) (required : list string) : pyval :=
  PDict [("type", PStr "object");
         ("properties", PDict properties);
         ("required", PList (map PStr required))].

(** [ChatService._get_cal_functions] *)
Definition _get_cal_functions : list ChatFunction.t :=
  [ChatFunction.mk "get_event_types" "Get available event types for booking"
     (schema [] []);
   ChatFunction.mk "get_available_slots" "Get available time slots for booking a meeting"
     (schema
        [("date", prop "string" "The date to check for available slots (YYYY-MM-DD)");
         ("event_type_id",
           prop "integer" "The event type ID (optional, will use default if not provided)");
         ("duration",
           prop "integer" "The desired meeting duration in minutes (optional, default is 30)");
         ("timezone",
           prop "string" "The timezone for the slots (optional, default is America/Los_Angeles)")]
        ["date"]);
   ChatFunction.mk "book_event" "Book a new event"
     (schema
        [("event_type_id",
           prop "integer" "The event type ID (optional, will use default if not provided)");
         ("start_time", prop "string" "The start time of the event (ISO format)");
         ("end_time", prop "string" "The end time of the event (ISO format)");
         ("duration",
           prop "integer"
             "The duration of the meeting in minutes (optional, calculated from start and end times if not provided)");
         ("name", prop "string" "The name of the attendee");
         ("email", prop "string" "The email of the attendee");
         ("title", prop "string" "The title of the event");
         ("description", prop "string" "The description of the event");
         ("timezone",
           prop "string" "The timezone for the event (optional, default is America/Los_Angeles)");
         ("language", prop "string" "The language for the event (optional, default is en)")]
        ["start_time"; "end_time"; "name"; "email"]);
   ChatFunction.mk "list_events" "List events for a user"
     (schema
        [("email", prop "string" "The email of the user");
         ("start_date", prop "string" "The start date for filtering events (YYYY-MM-DD)");
         ("end_date", prop "string" "The end date for filtering events (YYYY-MM-DD)");
         ("status",
           prop "string"
             "The status of the events to filter (ACCEPTED, PENDING, CANCELLED, etc.)")]
        ["email"]);
   ChatFunction.mk "cancel_event" "Cancel an event"
     (schema
        [("booking_id", prop "string" "The booking ID");
         ("reason", prop "string" "The reason for cancellation")]
        ["booking_id"]);
   ChatFunction.mk "reschedule_event" "Reschedule an event"
     (schema
        [("booking_id", prop "string" "The booking ID");
         ("start_time", prop "string" "The new start time of the event (ISO format)");
         ("end_time", prop "string" "The new end time of the event (ISO format)");
         ("reason", prop "string" "The reason for rescheduling")]
        ["booking_id"; "start_time"; "end_time"])].

(** [next((x for x in l if p x), None)] *)
Fixpoint next_or_none {A : Type} (p : A -> bool) (l : list A) : option A :=
  match l with
  | [] => None
  | x :: r => if p x then Some x else next_or_none p r
  end.

(** [l.sort(key=key)]: the sort is stable, so the outcome is the one of
    any stable sort; insertion is the simplest. *)
Fixpoint insert_by {A : Type} (key : A -> Z) (x : A) (l : list A) : list A :=
  match l with
  | [] => [x]
  | y :: r => if key x <=? key y then x :: y :: r else y :: insert_by key x r
  end.

Fixpoint sort_by {A : Type} (key : A -> Z) (l : list A) : list A :=
  match l with
  | [] => []
  | x :: r => insert_by key x (sort_by key r)
  end.

(** The default event type of [_get_available_slots] and [_book_event]
    (the two handlers carry the same lines): the first event type of the
    requested duration, else the head of the list sorted by the distance to
    it. The list is known to be non-empty here. *)
Definition closest_event_type (event_types : list EventType.t) (duration : pyval)
  : result EventType.t :=
  match next_or_none (fun et => Py.eqb (PInt (EventType.length et)) duration) event_types with
  | Some et => inr et
  | None =>
      match Py.as_int duration with
      | Some d =>
          match sort_by (fun et => Z.abs (EventType.length et - d)) event_types with
          | et :: _ => inr et
          | [] => inl (Exn OtherError "list index out of range")
          end
      | None =>
          inl (Exn TypeError
                 ("unsupported operand type(s) for -: 'int' and '"
                  ++ PyOps.type_name duration ++ "'"))
      end
  end.

Definition slot_entry (slot : AvailableSlot.t) : pyval :=
  PDict [("start", PStr (DateTime.isoformat (AvailableSlot.start slot)));
         ("end", PStr (DateTime.isoformat (AvailableSlot.end_ slot)));
         ("date", PStr (DateTime.strftime_ymd (AvailableSlot.start slot)))].

Definition attendee_entry (a : Attendee.t) : pyval :=
  PDict [("email", PStr (Attendee.email a)); ("name", PStr (Attendee.name a))].

(** [datetime.fromisoformat(v)] on a value *)
Definition py_fromisoformat (v : pyval) : result DateTime.datetime :=
  match v with
  | PStr s => DateTime.fromisoformat s
  | _ => inl (Exn TypeError "fromisoformat: argument must be str")
  end.

(** [datetime.strptime(v, "%Y-%m-%d")] on a value *)
Definition py_strptime_ymd (v : pyval) : result DateTime.datetime :=
  match v with
  | PStr s => DateTime.strptime_ymd s
  | _ =>
      inl (Exn TypeError
             ("strptime() argument 1 must be str, not " ++ PyOps.type_name v))
  end.

Definition known_functions : list string :=
  ["get_event_types"; "get_available_slots"; "book_event"; "list_events";
   "cancel_event"; "reschedule_event"].

Definition is_known (name : string) : bool :=
  existsb (String.eqb name) known_functions.

Section ChatService.

Context (env : Env).

(** [ChatService.__init__]: an empty session map and the prompt with the
    date of the moment. *)
Definition ChatService_init (l : list Call) : World :=
  let l' := (l ++ [Now])%list in
  mkWorld ∅ (system_prompt_text (strftime_long (now env l'))) l'.

(** [history.add_message(m)] on the history object of a session. *)
Definition add_message (session_id : string) (m : ChatMessage.t) : M unit := fun w =>
  (inr tt,
   mkWorld (alter (fun h => ChatHistory.add_message h m) session_id (sessions w))
     (system_prompt w) (log w)).

(** [_get_or_create_session], from the membership test on: the session
    stored under the identifier, made and seeded with the system message if
    there is none. *)
Definition session_for (session_id : string) : M string :=
  ss ← get_sessions;
  match ss !! session_id with
  | Some _ => mret session_id
  | None =>
      put_sessions (<[session_id := ChatHistory.empty]> ss);;
      sp ← get_system_prompt;
      add_message session_id (ChatMessage.mk SYSTEM sp None None);;
      mret session_id
  end.

(** [_get_or_create_session]; the history it returns is the object stored
    under the identifier, which the identifier stands for here. *)
Definition _get_or_create_session (session_id : option string) : M string :=
  session_id ←
    match session_id with
    | Some s => if String.eqb s EmptyString then call_total Uuid4 (uuid4 env) else mret s
    | None => call_total Uuid4 (uuid4 env)
    end;
  session_for session_id.

Definition get_history (session_id : string) : M ChatHistory.t := fun w =>
  (inr (default [] (sessions w !! session_id)), w).

(** [_get_event_types] *)
Definition _get_event_types (args : pyval) : M pyval :=
  try_except
    (event_types ← call GetEventTypes (get_event_types env);
     mret
       (PDict
          [("event_types",
             PList
               (map (fun et =>
                       PDict [("id", PInt (EventType.id et));
                              ("title", PStr (EventType.title et));
                              ("description", PyOps.of_opt_str (EventType.description et));
                              ("length", PInt (EventType.length et))])
                  event_types));
           ("total", PInt (Z.of_nat (length event_types)))]))
    (fun e => raise (Exn AppException ("Error getting event types: " ++ exn_msg e))).

(** The lines both handlers run when [event_type_id] is not given. *)
Definition select_event_type (duration : pyval) : M pyval :=
  event_types ← call GetEventTypes (get_event_types env);
  match event_types with
  | [] => raise (Exn ValidationError "No event types available")
  | _ =>
      matching_event_type ← lift (closest_event_type event_types duration);
      mret (PInt (EventType.id matching_event_type))
  end.

(** The name under which a result reports the event type. *)
Definition event_type_name_of (event_type_id : pyval) : M string :=
  event_types ← call GetEventTypes (get_event_types env);
  match next_or_none (fun et => Py.eqb (PInt (EventType.id et)) event_type_id) event_types with
  | Some et => mret (EventType.title et)
  | None => mret ("Event Type " ++ Py.str event_type_id)
  end.

(** [_get_available_slots], up to the [try]: the date, the event type and
    the time zone the lookup runs with. *)
Definition slots_request (args : pyval) : M (pyval * pyval * pyval) :=
  date_str ← lift (PyOps.get args "date");
  event_type_id ← lift (PyOps.get args "event_type_id");
  duration ← lift (PyOps.get_default args "duration" (PInt 30));
  timezone ← lift (PyOps.get_default args "timezone" (PStr "America/Los_Angeles"));
  (if negb (Py.truthy date_str) then raise (Exn ValidationError "Date is required")
   else mret tt);;
  event_type_id ←
    (if negb (Py.truthy event_type_id) then select_event_type duration
     else mret event_type_id);
  mret (date_str, event_type_id, timezone).

(** [_get_available_slots], the body of the [try]. *)
Definition slots_lookup (date_str event_type_id timezone : pyval) : M pyval :=
  date ← lift (py_strptime_ymd date_str);
  let start_date := date in
  end_date ← lift (DateTime.add_days date 7);
  slots ← call (GetAvailableSlots event_type_id start_date end_date timezone)
            (get_available_slots env);
  match slots with
  | [] =>
      alternative_start ← lift (DateTime.add_days date 1);
      alternative_end ← lift (DateTime.add_days alternative_start 14);
      alternative_slots ←
        call (GetAvailableSlots event_type_id alternative_start alternative_end
                (PStr "America/Los_Angeles"))
          (get_available_slots env);
      event_type_name ← event_type_name_of event_type_id;
      mret
        (PDict
           [("slots", PList []);
            ("message",
              PStr ("No available slots found for " ++ event_type_name ++ " on "
                    ++ Py.str date_str ++ "."));
            ("alternative_slots", PList (map slot_entry (firstn 10 alternative_slots)));
            ("event_type_id", event_type_id);
            ("event_type_name", PStr event_type_name)])
  | _ =>
      event_type_name ← event_type_name_of event_type_id;
      mret
        (PDict
           [("slots", PList (map slot_entry slots));
            ("event_type_id", event_type_id);
            ("event_type_name", PStr event_type_name)])
  end.

(** [_get_available_slots] *)
Definition _get_available_slots (args : pyval) : M pyval :=
  request ← slots_request args;
  let '(date_str, event_type_id, timezone) := request in
  try_except
    (slots_lookup date_str event_type_id timezone)
    (fun e => raise (Exn AppException ("Error getting available slots: " ++ exn_msg e))).

Definition booking_attendees (b : Booking.t) : pyval :=
  PList (map attendee_entry (Booking.attendees b)).

(** [_book_event] *)
Definition _book_event (args : pyval) : M pyval :=
  event_type_id ← lift (PyOps.get args "event_type_id");
  start_time_str ← lift (PyOps.get args "start_time");
  end_time_str ← lift (PyOps.get args "end_time");
  name ← lift (PyOps.get args "name");
  email ← lift (PyOps.get args "email");
  title ← lift (PyOps.get args "title");
  description ← lift (PyOps.get args "description");
  timezone ← lift (PyOps.get_default args "timezone" (PStr "America/Los_Angeles"));
  language ← lift (PyOps.get_default args "language" (PStr "en"));
  event_type_id ←
    (if negb (Py.truthy event_type_id) then
       duration_minutes ←
         (if Py.truthy start_time_str && Py.truthy end_time_str then
            start_time ← lift (py_fromisoformat start_time_str);
            end_time ← lift (py_fromisoformat end_time_str);
            lift (DateTime.minutes_between start_time end_time)
          else mret 30);
       select_event_type (PInt duration_minutes)
     else mret event_type_id);
  (if negb (Py.truthy start_time_str) then raise (Exn ValidationError "Start time is required")
   else if negb (Py.truthy end_time_str) then raise (Exn ValidationError "End time is required")
   else if negb (Py.truthy name) then raise (Exn ValidationError "Name is required")
   else if negb (Py.truthy email) then raise (Exn ValidationError "Email is required")
   else mret tt);;
  try_except
    (start_time ← lift (py_fromisoformat start_time_str);
     end_time ← lift (py_fromisoformat end_time_str);
     booking ←
       call (BookEvent event_type_id start_time end_time name email title description
               timezone language)
         (book_event env);
     mret
       (PDict
          [("booking_id", PStr (Booking.uid booking));
           ("title", PStr (Booking.title booking));
           ("start_time", PStr (DateTime.isoformat (Booking.start_time booking)));
           ("end_time", PStr (DateTime.isoformat (Booking.end_time booking)));
           ("status", PStr (Booking.status booking));
           ("attendees", booking_attendees booking)]))
    (fun e => raise (Exn AppException ("Error booking event: " ++ exn_msg e))).

(** [_list_events] *)
Definition _list_events (args : pyval) : M pyval :=
  email ← lift (PyOps.get args "email");
  start_date_str ← lift (PyOps.get args "start_date");
  end_date_str ← lift (PyOps.get args "end_date");
  status ← lift (PyOps.get args "status");
  (if negb (Py.truthy email) then raise (Exn ValidationError "Email is required")
   else mret tt);;
  try_except
    (today ← call_total Now (now env);
     start_of_week ← lift (DateTime.add_days today (- DateTime.weekday today));
     end_of_week ← lift (DateTime.add_days start_of_week 6);
     let start_date := start_of_week in
     let end_date := DateTime.replace_hms end_of_week 23 59 59 in
     bookings ← call (GetBookings email start_date end_date status) (get_bookings env);
     mret
       (PDict
          [("events",
             PList
               (map (fun booking =>
                       PDict
                         [("id", PStr (Booking.uid booking));
                          ("title", PStr (Booking.title booking));
                          ("start_time", PStr (DateTime.isoformat (Booking.start_time booking)));
                          ("end_time", PStr (DateTime.isoformat (Booking.end_time booking)));
                          ("status", PStr (Booking.status booking));
                          ("attendees", booking_attendees booking)])
                  bookings));
           ("total", PInt (Z.of_nat (length bookings)))]))
    (fun e => raise (Exn AppException ("Error listing events: " ++ exn_msg e))).

(** [_cancel_event] *)
Definition _cancel_event (args : pyval) : M pyval :=
  booking_id ← lift (PyOps.get args "booking_id");
  reason ← lift (PyOps.get args "reason");
  (if negb (Py.truthy booking_id) then raise (Exn ValidationError "Booking ID is required")
   else mret tt);;
  try_except
    (_ ← call (CancelBooking booking_id reason) (cancel_booking env);
     mret
       (PDict [("success", PBool true);
               ("booking_id", booking_id);
               ("status", PStr "CANCELLED")]))
    (fun e => raise (Exn AppException ("Error cancelling event: " ++ exn_msg e))).

(** [_reschedule_event] *)
Definition _reschedule_event (args : pyval) : M pyval :=
  booking_id ← lift (PyOps.get args "booking_id");
  start_time_str ← lift (PyOps.get args "start_time");
  end_time_str ← lift (PyOps.get args "end_time");
  reason ← lift (PyOps.get args "reason");
  (if negb (Py.truthy booking_id) then raise (Exn ValidationError "Booking ID is required")
   else if negb (Py.truthy start_time_str) then raise (Exn ValidationError "Start time is required")
   else if negb (Py.truthy end_time_str) then raise (Exn ValidationError "End time is required")
   else mret tt);;
  try_except
    (start_time ← lift (py_fromisoformat start_time_str);
     end_time ← lift (py_fromisoformat end_time_str);
     booking ←
       call (RescheduleBooking booking_id start_time end_time reason)
         (reschedule_booking env);
     mret
       (PDict
          [("success", PBool true);
           ("booking_id", PStr (Booking.uid booking));
           ("title", PStr (Booking.title booking));
           ("start_time", PStr (DateTime.isoformat (Booking.start_time booking)));
           ("end_time", PStr (DateTime.isoformat (Booking.end_time booking)));
           ("status", PStr (Booking.status booking))]))
    (fun e => raise (Exn AppException ("Error rescheduling event: " ++ exn_msg e))).

(** The [if name == ...: ... else: raise] chain of [_process_function_calls]. *)
Definition dispatch (name : string) (args : pyval) : M pyval :=
  if String.eqb name "get_event_types" then _get_event_types args
  else if String.eqb name "get_available_slots" then _get_available_slots args
  else if String.eqb name "book_event" then _book_event args
  else if String.eqb name "list_events" then _list_events args
  else if String.eqb name "cancel_event" then _cancel_event args
  else if String.eqb name "reschedule_event" then _reschedule_event args
  else raise (Exn ValidationError ("Unknown function: " ++ name)).

(** One round of the loop of [_process_function_calls]. *)
Definition process_function_call (session_id : string) (results : gmap string pyval)
  (function_call : FunctionCall.t) : M (gmap string pyval) :=
  let name := FunctionCall.name function_call in
  let args := FunctionCall.arguments function_call in
  try_except
    (result ← dispatch name args;
     add_message session_id (ChatMessage.mk FUNCTION (Py.str result) (Some name) None);;
     mret (<[name := result]> results))
    (fun e =>
       add_message session_id
         (ChatMessage.mk FUNCTION ("Error: " ++ exn_msg e) (Some name) None);;
       mret (<[name := PDict [("error", PStr (exn_msg e))]]> results)).

Fixpoint process_function_calls_from (session_id : string) (results : gmap string pyval)
  (function_calls : list FunctionCall.t) : M (gmap string pyval) :=
  match function_calls with
  | [] => mret results
  | function_call :: rest =>
      results' ← process_function_call session_id results function_call;
      process_function_calls_from session_id results' rest
  end.

(** [_process_function_calls]; [history] is the history object of
    [session_id]. *)
Definition _process_function_calls (function_calls : list FunctionCall.t)
  (session_id : string) : M (gmap string pyval) :=
  process_function_calls_from session_id ∅ function_calls.

(** [process_message] *)
Definition process_message (message : string) (user_id session_id : option string)
  : M ServiceResponse.t :=
  session_id ← _get_or_create_session session_id;
  add_message session_id (ChatMessage.mk USER message None None);;
  let functions := map FnObj _get_cal_functions in
  history ← get_history session_id;
  completion ← chat_completion env (ChatHistory.get_messages history) functions 7;
  parsed_response ← lift (parse_response completion);
  add_message session_id (fst parsed_response);;
  function_results ←
    match snd parsed_response with
    | Some function_calls =>
        r ← _process_function_calls function_calls session_id; mret (Some r)
    | None => mret None
    end;
  mret (ServiceResponse.mk (fst parsed_response) (snd parsed_response) function_results).

End ChatService.

(** ** The chat router ([app/api/routers/chat.py]) *)

#[global] Instance result_ret : MRet result := fun A (a : A) => inr a.

#[global] Instance result_bind : MBind result := fun A B (f : A -> result B) (r : result A) =>
  match r with
  | inr a => f a
  | inl e => inl e
  end.

Definition booking_keywords : list string :=
  ["book"; "schedule"; "appointment"; "meeting"; "reserve"].

(** [any(keyword in request.message.lower() for keyword in booking_keywords)] *)
Definition is_booking_request (message : string) : bool :=
  existsb (fun keyword => PyStr.contains keyword (PyStr.lower message)) booking_keywords.

(** [l.index(x)] *)
Fixpoint index_of (x : string) (l : list string) : option Z :=
  match l with
  | [] => None
  | y :: r => if String.eqb x y then Some 0 else option_map Z.succ (index_of x r)
  end.

(** [int(s)] on a run of decimal digits (what [\d+] captures): beyond
    4300 digits the conversion is refused. *)
Definition int_of_text (s : string) : result Z :=
  if (4300 <? String.length s)%nat then
    inl (Exn ValueError
           ("Exceeds the limit (4300 digits) for integer string conversion: value has "
            ++ PyStr.of_Z (PyStr.len s)
            ++ " digits; use sys.set_int_max_str_digits() to increase the limit"))
  else inr (PyStr.int_of_digits s).

(** The date read off the message: a month name and a day, in 2025. *)
Definition direct_date (message : string) : result pyval :=
  match Re.search Re.date_re message with
  | Some date_match =>
      let month_name := Re.group 1 date_match in
      day ← int_of_text (Re.group 2 date_match);
      match index_of month_name Re.month_names with
      | Some i =>
          let month := i + 1 in
          let year := 2025 in
          inr (PStr (PyStr.of_Z year ++ "-" ++ PyStr.fmt02 month ++ "-" ++ PyStr.fmt02 day))
      | None => inl (Exn ValueError (PyStr.repr month_name ++ " is not in list"))
      end
  | None => inr PNone
  end.

(** The time read off the message: [H:MM], moved to the afternoon when the
    message says pm. *)
Definition direct_time (message : string) : result (option string) :=
  match Re.search Re.time_re message with
  | Some time_match =>
      hour ← int_of_text (Re.group 1 time_match);
      minute ← int_of_text (Re.group 2 time_match);
      let hour :=
        if PyStr.contains "pm" (PyStr.lower message) && (hour <? 12) then hour + 12
        else hour in
      inr (Some (PyStr.fmt02 hour ++ ":" ++ PyStr.fmt02 minute ++ ":00"))
  | None => inr None
  end.

(** [date_info and date_info.get('date') and date_info.get('start_time')] *)
Definition llm_gave_date_and_time (date_info : option pyval) : result bool :=
  match date_info with
  | None => inr false
  | Some di =>
      if Py.truthy di then
        d ← PyOps.get di "date";
        if Py.truthy d then s ← PyOps.get di "start_time"; mret (Py.truthy s)
        else mret false
      else inr false
  end.

(** The branch that trusts the extraction. *)
Definition target_from_llm (date_info : option pyval) : result (pyval * option string) :=
  let di := default PNone date_info in
  d ← PyOps.get di "date";
  s ← PyOps.get di "start_time";
  t ← PyOps.add_str s ":00";
  mret (d, Some t).

(** The branch that reads the message itself. *)
Definition target_from_message (message : string) : result (pyval * option string) :=
  d ← direct_date message;
  t ← direct_time message;
  mret (d, t).

(** Target date and time: from the extraction if it has both, else from
    the message; then the fixed pair for the message that names March 14th
    and 2:30. The time is [None] or a text. *)
Definition resolve_target (message : string) (date_info : option pyval)
  : result (pyval * option string) :=
  from_llm ← llm_gave_date_and_time date_info;
  target ← (if from_llm : bool then target_from_llm date_info
            else target_from_message message);
  if PyStr.contains "March 14th" message && PyStr.contains "2:30" message
  then mret (PStr "2025-03-14", Some "14:30:00")
  else mret target.

(** The loop that looks for the slot of the target date whose start
    contains the target time; [None] when it ends without [break]. *)
Fixpoint exact_slot (target_date : pyval) (target_time : string) (slots : list pyval)
  : result pyval :=
  match slots with
  | [] => inr PNone
  | slot :: rest =>
      d ← PyOps.get slot "date";
      if Py.eqb d target_date then
        st ← PyOps.get slot "start";
        hit ← PyOps.str_in target_time st;
        if hit : bool then mret slot else exact_slot target_date target_time rest
      else exact_slot target_date target_time rest
  end.

(** [[slot for slot in slots if slot.get('date') == target_date]] *)
Fixpoint date_matches (target_date : pyval) (slots : list pyval) : result (list pyval) :=
  match slots with
  | [] => inr []
  | slot :: rest =>
      d ← PyOps.get slot "date";
      r ← date_matches target_date rest;
      mret (if Py.eqb d target_date then slot :: r else r)
  end.

(** The pairs logged before the search: every slot is asked for its date
    and its start. *)
Fixpoint available_slots (slots : list pyval) : result (list (pyval * pyval)) :=
  match slots with
  | [] => inr []
  | slot :: rest =>
      d ← PyOps.get slot "date";
      st ← PyOps.get slot "start";
      r ← available_slots rest;
      mret ((d, st) :: r)
  end.

(** The slot to book: the exact one, else the first of the day, else
    [None]. *)
Definition find_target_slot (target_date : pyval) (target_time : string)
  (slots : list pyval) : result pyval :=
  _ ← available_slots slots;
  target_slot ← exact_slot target_date target_time slots;
  if Py.truthy target_slot then mret target_slot
  else
    ms ← date_matches target_date slots;
    match ms with
    | m :: _ => mret m
    | [] => mret target_slot
    end.

Definition confirmation (name : string) (target_date : pyval) (target_time uid : string)
  : string :=
  "Appointment booked successfully for " ++ name ++ " on " ++ Py.str target_date
  ++ " at " ++ target_time ++ ". Booking ID: " ++ uid.

(** The guard of the auto-booking block, for the first call [function_name]
    once its result is known to be among the results. *)
Definition auto_booking_triggered (function_name message : string) : bool :=
  String.eqb function_name "get_available_slots" && is_booking_request message.

(** What the auto-booking block has settled once a slot is chosen. *)
Module BookingPlan.
Record t : Type := mk {
  event_type_id : pyval;
  name : string;
  email : string;
  target_date : pyval;
  target_time : string;
  target_slot : pyval
}.
End BookingPlan.

Section Router.

Context (env : Env).

(** The first half of the auto-booking block, up to the choice of the
    slot: [None] wherever the block is left without booking. *)
Definition plan_booking (request : ChatRequest.t) (slots_data : pyval)
  : M (option BookingPlan.t) :=
  let message := ChatRequest.message request in
  slots ← lift (PyOps.get slots_data "slots");
  has_slots ←
    (if Py.truthy slots then n ← lift (PyOps.len slots); mret (0 <? n) else mret false);
  if negb has_slots then mret None
  else
    event_type_id ← lift (PyOps.get slots_data "event_type_id");
    match Re.search Re.name_re message, Re.search Re.email_re message with
    | Some name_match, Some email_match =>
        if negb (Py.truthy event_type_id) then mret None
        else
          let name := PyStr.strip (Re.group 1 name_match) in
          let email := Re.group 1 email_match in
          date_info ← parse_date_with_llm env message;
          target ← lift (resolve_target message date_info);
          match target with
          | (target_date, Some target_time) =>
              if negb (Py.truthy target_date && Py.truthy (PStr target_time))
              then mret None
              else
                slot_list ← lift (s ← PyOps.get_default slots_data "slots" (PList []);
                                  PyOps.iter s);
                target_slot ← lift (find_target_slot target_date target_time slot_list);
                if negb (Py.truthy target_slot) then mret None
                else
                  mret (Some (BookingPlan.mk event_type_id name email target_date
                                target_time target_slot))
          | (_, None) => mret None
          end
    | _, _ => mret None
    end.

(** The second half: the booking of the chosen slot and the response that
    reports it. *)
Definition book_planned (plan : BookingPlan.t) (chat_response : ChatResponse.t)
  : M ChatResponse.t :=
  let name := BookingPlan.name plan in
  let target_slot := BookingPlan.target_slot plan in
  start_time ← lift (s ← PyOps.get target_slot "start"; py_fromisoformat s);
  end_time ← lift (s ← PyOps.get target_slot "end"; py_fromisoformat s);
  booking ←
    call (BookEvent (BookingPlan.event_type_id plan) start_time end_time
            (PStr name) (PStr (BookingPlan.email plan))
            (PStr ("Appointment with " ++ name))
            (PStr ("Scheduled appointment for " ++ name))
            (PStr "America/Los_Angeles") (PStr "en"))
      (book_event env);
  mret
    (ChatResponse.mk
       (confirmation name (BookingPlan.target_date plan) (BookingPlan.target_time plan)
          (Booking.uid booking))
       (ChatResponse.session_id chat_response)
       false
       None).

(** The auto-booking block: what becomes of [chat_response]. *)
Definition auto_book (request : ChatRequest.t) (slots_data : pyval)
  (chat_response : ChatResponse.t) : M ChatResponse.t :=
  plan ← plan_booking request slots_data;
  match plan with
  | Some p => book_planned p chat_response
  | None => mret chat_response
  end.

(** The function results block: the result of the first call becomes the
    response, then auto-booking may replace it. *)
Definition include_function_results (request : ChatRequest.t)
  (response : ServiceResponse.t) (chat_response : ChatResponse.t) : M ChatResponse.t :=
  match ServiceResponse.function_results response with
  | Some function_results =>
      if bool_decide (function_results = ∅) then mret chat_response
      else
        match ServiceResponse.function_calls response with
        | Some (first :: _) =>
            let function_name := FunctionCall.name first in
            match function_results !! function_name with
            | Some result =>
                let chat_response :=
                  ChatResponse.mk (Py.str result)
                    (ChatResponse.session_id chat_response)
                    (ChatResponse.requires_action chat_response)
                    (ChatResponse.action_details chat_response) in
                if auto_booking_triggered function_name (ChatRequest.message request)
                then auto_book request (Py.eval_of_str result) chat_response
                else mret chat_response
            | None => mret chat_response
            end
        | _ => mret chat_response
        end
  | None => mret chat_response
  end.

(** [x or y] on an optional text. *)
Definition or_text (x : option string) (y : string) : string :=
  match x with
  | Some s => if String.eqb s EmptyString then y else s
  | None => y
  end.

(** The response as first created, before the results are looked at. *)
Definition create_response (request : ChatRequest.t) (response : ServiceResponse.t)
  : ChatResponse.t :=
  let function_calls := default [] (ServiceResponse.function_calls response) in
  ChatResponse.mk
    (or_text (Some (ChatMessage.content (ServiceResponse.message response)))
       "I'll check your scheduled events.")
    (or_text (ChatRequest.session_id request) "new_session")
    (match function_calls with [] => false | _ => true end)
    (head function_calls).

(** The [except] clauses of [send_message]: what the request raises for
    an exception [e] of its body. *)
Definition on_error (e : exn) : exn :=
  match exn_cls e with
  | ValidationError | OpenAIAPIError => e
  | _ => Exn AppException ("Error processing message: " ++ exn_msg e)
  end.

(** [send_message]; the world it runs in holds the injected chat service. *)
Definition send_message (request : ChatRequest.t) : M ChatResponse.t :=
  try_except
    (response ←
       process_message env (ChatRequest.message request) (ChatRequest.user_id request)
         (ChatRequest.session_id request);
     include_function_results request response (create_response request response))
    (fun e => raise (on_error e)).

(** [get_chat_service] followed by [send_message]: every request gets a
    chat service of its own. *)
Definition handle_request (l : list Call) (request : ChatRequest.t)
  : result ChatResponse.t * World :=
  send_message request (ChatService_init env l).

End Router.

(** ** More of the date helper ([app/utils/date.py]) *)

(** A [date] is kept as its ordinal. *)
Module Date.

(** [d.weekday()]: Monday is 0. *)
Definition weekday (d : Z) : Z := (d + 6) mod 7.

(** [d + timedelta(days=n)] *)
Definition add_days (d n : Z) : result Z :=
  let o := d + n in
  if (DateTime.MINORDINAL <=? o) && (o <=? DateTime.MAXORDINAL) then inr o
  else inl (Exn OverflowError "date value out of range").

(** [date(y, m, d)] *)
Definition make (y m d : Z) : result Z :=
  if negb ((1 <=? y) && (y <=? 9999)) then
    inl (Exn ValueError ("year " ++ PyStr.of_Z y ++ " is out of range"))
  else if negb ((1 <=? m) && (m <=? 12)) then inl (Exn ValueError "month must be in 1..12")
  else if negb ((1 <=? d) && (d <=? DateTime.days_in_month y m)) then
    inl (Exn ValueError "day is out of range for month")
  else inr (DateTime.ymd2ord y m d).

End Date.

(** [format_date(date_obj)], the format left at its default
    ([%Y-%m-%d]). *)
Definition format_date (date_obj : DateTime.datetime) : string :=
  DateTime.strftime_ymd date_obj.

(** [is_valid_date]: only the [ValueError] of the parse is caught. *)
Definition is_valid_date (date_str : pyval) : result bool :=
  match py_strptime_ymd date_str with
  | inr _ => inr true
  | inl e => if exn_class_eqb (exn_cls e) ValueError then inr false else inl e
  end.

Section DateHelper.

Context (env : Env).

(** [get_date_range]; without a reference date the clock is asked. *)
Definition get_date_range (range_type : string) (reference_date : option Z) : M (Z * Z) :=
  reference_date ←
    match reference_date with
    | Some d => mret d
    | None => today ← call_total Now (now env); mret (DateTime.ordinal today)
    end;
  if String.eqb range_type "today" then mret (reference_date, reference_date)
  else if String.eqb range_type "tomorrow" then
    tomorrow ← lift (Date.add_days reference_date 1);
    mret (tomorrow, tomorrow)
  else if String.eqb range_type "this_week" then
    start ← lift (Date.add_days reference_date (- Date.weekday reference_date));
    end_ ← lift (Date.add_days start 6);
    mret (start, end_)
  else if String.eqb range_type "next_week" then
    start ← lift (Date.add_days reference_date (7 - Date.weekday reference_date));
    end_ ← lift (Date.add_days start 6);
    mret (start, end_)
  else if String.eqb range_type "this_month" then
    let '(year, month, _) := DateTime.ord2ymd reference_date in
    start ← lift (Date.make year month 1);
    first ← lift (if month =? 12 then Date.make (year + 1) 1 1
                  else Date.make year (month + 1) 1);
    end_ ← lift (Date.add_days first (-1));
    mret (start, end_)
  else mret (reference_date, reference_date).

End DateHelper.

(** ** The calendar service ([app/services/calcom.py]) *)

(** The classes of [app/exceptions/base.py]. *)
Module AppClass.

Inductive t : Type :=
| AppException | NotFoundError | ValidationError | APIError
| CalComAPIError | OpenAIAPIError.

(** [cls.__name__] *)
Definition name (c : t) : string :=
  match c with
  | AppException => "AppException"
  | NotFoundError => "NotFoundError"
  | ValidationError => "ValidationError"
  | APIError => "APIError"
  | CalComAPIError => "CalComAPIError"
  | OpenAIAPIError => "OpenAIAPIError"
  end.

(** [issubclass(c, d)] *)
Definition is_a (c d : t) : bool :=
  match d, c with
  | AppException, _ => true
  | APIError, (APIError | CalComAPIError | OpenAIAPIError) => true
  | NotFoundError, NotFoundError
  | ValidationError, ValidationError
  | CalComAPIError, CalComAPIError
  | OpenAIAPIError, OpenAIAPIError => true
  | _, _ => false
  end.

End AppClass.

(** What a method of the service or an endpoint raises: an [AppException]
    with its class, message, status code and details, or another
    exception. *)
Inductive raised : Type :=
| App (cls : AppClass.t) (message : string) (status_code : Z)
    (details : list (string * pyval))
| Other (e : exn).

(** [str(e)]: an [AppException] passes its message to [Exception]. *)
Definition raised_str (e : raised) : string :=
  match e with
  | App _ message _ _ => message
  | Other e => exn_msg e
  end.

(** The constructors of the classes: [details or {}], and the status code
    each class fixes. *)
Definition AppException_ (message : string) : raised :=
  App AppClass.AppException message 500 [].

Definition NotFoundError_ (message : string) (details : option (list (string * pyval)))
  : raised :=
  App AppClass.NotFoundError message 404 (default [] details).

Definition ValidationError_ (message : string) (details : option (list (string * pyval)))
  : raised :=
  App AppClass.ValidationError message 400 (default [] details).

Definition CalComAPIError_ (message : string) (status_code : Z)
  (details : option (list (string * pyval))) : raised :=
  App AppClass.CalComAPIError message status_code (default [] details).

(** What [httpx] is asked, and what comes of it. *)
Module Http.

Record request : Type := mk {
  method : string;
  url : string;
  headers : list (string * pyval);
  params : list (string * pyval);
  json : pyval;
  timeout : Z
}.

(** The outcome of [client.request], [raise_for_status] and [json]: the
    decoded body, an [HTTPStatusError] with the status code and the text of
    the response, a [RequestError] with its [str], or another exception. *)
Inductive answer : Type :=
| Json (body : pyval)
| HTTPStatusError (status_code : Z) (text : string)
| RequestError (message : string)
| Failure (e : exn).

End Http.

(** Computations of the service: the log of the requests made so far, and
    exceptions. *)
Definition IO (A : Type) : Type := list Http.request -> (raised + A) * list Http.request.

#[global] Instance IO_ret : MRet IO := fun A (a : A) l => (inr a, l).

#[global] Instance IO_bind : MBind IO := fun A B (f : A -> IO B) (m : IO A) l =>
  match m l with
  | (inr a, l') => f a l'
  | (inl e, l') => (inl e, l')
  end.

Definition io_raise {A : Type} (e : raised) : IO A := fun l => (inl e, l).

(** [try: m  except Exception as e: h e] *)
Definition io_try {A : Type} (m : IO A) (h : raised -> IO A) : IO A := fun l =>
  match m l with
  | (inr a, l') => (inr a, l')
  | (inl e, l') => h e l'
  end.

(** A step that makes no request; what it raises is no [AppException]. *)
Definition io_lift {A : Type} (r : result A) : IO A := fun l =>
  (match r with
   | inr a => inr a
   | inl e => inl (Other e)
   end, l).

(** A comprehension [[f x for x in l]] whose [f] may raise. *)
Fixpoint traverse {A B : Type} (f : A -> result B) (l : list A) : result (list B) :=
  match l with
  | [] => inr []
  | x :: r => y ← f x; ys ← traverse f r; mret (y :: ys)
  end.

(** [d[k] = v] *)
Fixpoint dict_set (k : string) (v : pyval) (d : list (string * pyval))
  : list (string * pyval) :=
  match d with
  | [] => [(k, v)]
  | (k', v') :: r =>
      if String.eqb k' k then (k', v) :: r else (k', v') :: dict_set k v r
  end.

(** [s.replace(c, t)] for a one-character [c] *)
Fixpoint replace_char (c : ascii) (t s : string) : string :=
  match s with
  | EmptyString => EmptyString
  | String a r =>
      (if Ascii.eqb a c then t else String a EmptyString) ++ replace_char c t r
  end.

(** [v.replace(c, t)] on a value *)
Definition py_replace (v : pyval) (c : ascii) (t : string) : result pyval :=
  match v with
  | PStr s => inr (PStr (replace_char c t s))
  | _ =>
      inl (Exn AttributeError
             ("'" ++ PyOps.type_name v ++ "' object has no attribute 'replace'"))
  end.

(** [v.lower()] on a value *)
Definition py_lower (v : pyval) : result string :=
  match v with
  | PStr s => inr (PyStr.lower s)
  | _ =>
      inl (Exn AttributeError
             ("'" ++ PyOps.type_name v ++ "' object has no attribute 'lower'"))
  end.

(** [d + timedelta(minutes=n)]: the clock is advanced and the days carried
    over; the offset is kept. Outside the calendar it is an
    [OverflowError]. *)
Definition add_minutes (d : DateTime.datetime) (n : Z) : result DateTime.datetime :=
  let secs := DateTime.hour d * 3600 + DateTime.minute d * 60 + DateTime.second d + n * 60 in
  let o := DateTime.ordinal d + secs / 86400 in
  let s := secs mod 86400 in
  if (DateTime.MINORDINAL <=? o) && (o <=? DateTime.MAXORDINAL) then
    inr (DateTime.mk o (s / 3600) (s mod 3600 / 60) (s mod 60)
           (DateTime.microsecond d) (DateTime.utcoffset d))
  else inl (Exn OverflowError "date value out of range").

(** [Event] of [app/models/calcom.py]. *)
Module Event.
Record t : Type := mk {
  id : Z;
  uid : string;
  title : string;
  description : option string;
  start_time : DateTime.datetime;
  end_time : DateTime.datetime;
  status : string;
  attendees : list Attendee.t;
  event_type : EventType.t
}.
End Event.

Module CalCom.

Definition base_url : string := "https://api.cal.com/v1".

Definition headers : list (string * pyval) :=
  [("Content-Type", PStr "application/json")].

(** The duration of a slot: the length of the event type, or thirty
    minutes when the length is zero. *)
Definition duration_of (event_type : EventType.t) : Z :=
  if EventType.length event_type =? 0 then 30 else EventType.length event_type.

(** The body of the loop over the slots of a day, for the value under
    [time]: a [Z] is written as an offset, and a text that is no date and
    time is passed over ([except ValueError]). *)
Definition slot_at (duration : Z) (start_time_str : pyval)
  : result (option AvailableSlot.t) :=
  z ← PyOps.str_in "Z" start_time_str;
  start_time_str ← (if z : bool then py_replace start_time_str "Z" "+00:00"
                    else inr start_time_str);
  match (start_time ← py_fromisoformat start_time_str;
         end_time ← add_minutes start_time duration;
         mret (AvailableSlot.mk start_time end_time)) with
  | inr slot => inr (Some slot)
  | inl e => if exn_class_eqb (exn_cls e) ValueError then inr None else inl e
  end.

(** [for slot in time_slots] *)
Fixpoint day_slots (duration : Z) (time_slots : list pyval)
  (available_slots : list AvailableSlot.t) : result (list AvailableSlot.t) :=
  match time_slots with
  | [] => inr available_slots
  | slot :: rest =>
      match slot with
      | PDict d =>
          match Py.assoc "time" d with
          | Some start_time_str =>
              parsed ← slot_at duration start_time_str;
              day_slots duration rest (available_slots ++ option_list parsed)%list
          | None => day_slots duration rest available_slots
          end
      | _ => day_slots duration rest available_slots
      end
  end.

(** [for date_str, time_slots in slots_data.items()] *)
Fixpoint all_slots (duration : Z) (items : list (string * pyval))
  (available_slots : list AvailableSlot.t) : result (list AvailableSlot.t) :=
  match items with
  | [] => inr available_slots
  | (date_str, time_slots) :: rest =>
      match time_slots with
      | PList l =>
          available_slots ← day_slots duration l available_slots;
          all_slots duration rest available_slots
      | _ => all_slots duration rest available_slots
      end
  end.

(** What [get_available_slots] makes of the answer to the slots request. *)
Definition parse_slots (duration : Z) (response : pyval) : result (list AvailableSlot.t) :=
  match response with
  | PDict d =>
      match Py.assoc "slots" d with
      | Some (PDict items) => all_slots duration items []
      | Some slots_data =>
          inl (Exn AttributeError
                 ("'" ++ PyOps.type_name slots_data ++ "' object has no attribute 'items'"))
      | None => inr []
      end
  | _ => inr []
  end.

(** [any(attendee.email.lower() == email.lower() for attendee in attendees)] *)
Fixpoint is_attendee (email : pyval) (attendees : list Attendee.t) : result bool :=
  match attendees with
  | [] => inr false
  | attendee :: rest =>
      e ← py_lower email;
      if String.eqb (PyStr.lower (Attendee.email attendee)) e then inr true
      else is_attendee email rest
  end.

(** The loop that keeps the bookings of an attendee. A [Booking] has no
    attribute [user], so [is_owner] is always false. *)
Fixpoint filter_bookings (email : pyval) (bookings : list Booking.t)
  : result (list Booking.t) :=
  match bookings with
  | [] => inr []
  | booking :: rest =>
      is_attendee ← is_attendee email (Booking.attendees booking);
      let is_owner := false in
      filtered ← filter_bookings email rest;
      mret (if is_attendee || is_owner then booking :: filtered else filtered)
  end.

(** The body sent to book an event; [location] is the value of the
    location, the one entry the retry changes. *)
Definition booking_data (event_type_id : pyval) (start_time end_time : DateTime.datetime)
  (name email title description timezone language : pyval) (location : string) : pyval :=
  PDict [("eventTypeId", event_type_id);
         ("start", PStr (DateTime.isoformat start_time));
         ("end", PStr (DateTime.isoformat end_time));
         ("responses",
          PDict [("name", name); ("email", email);
                 ("location",
                  PDict [("value", PStr location); ("optionValue", PStr EmptyString)])]);
         ("timeZone", timezone);
         ("language", language);
         ("title",
          if Py.truthy title then title else PStr ("Meeting with " ++ Py.str name));
         ("description", description);
         ("metadata", PDict [])].

(** What [_make_request] makes of an answer: the body is returned, the two
    errors of [httpx] are raised as [CalComAPIError], anything else is let
    through. *)
Definition response_of (a : Http.answer) : raised + pyval :=
  match a with
  | Http.Json body => inr body
  | Http.HTTPStatusError status_code text =>
      inl (CalComAPIError_ ("Cal.com API error: " ++ PyStr.of_Z status_code) status_code
             (Some [("response", PStr text)]))
  | Http.RequestError message =>
      inl (CalComAPIError_ ("Cal.com API request error: " ++ message) 500
             (Some [("error", PStr message)]))
  | Http.Failure e => inl (Other e)
  end.

Section Service.

(** The network, the settings, and the constructors of the models:
    [EventType], [Attendee] and [Booking] built from a mapping, then
    [Booking] and [Event] built from keyword arguments. *)
Context (transport : list Http.request -> Http.answer).
Context (api_key : string) (timeout_seconds : Z).
Context (EventType_ : pyval -> result EventType.t).
Context (Attendee_ : pyval -> result Attendee.t).
Context (Booking_ : pyval -> result Booking.t).
Context (Booking_of :
  pyval -> pyval -> pyval -> DateTime.datetime -> DateTime.datetime -> string ->
  list Attendee.t -> pyval -> result Booking.t).
Context (Event_of :
  pyval -> pyval -> pyval -> pyval -> DateTime.datetime -> DateTime.datetime -> pyval ->
  list Attendee.t -> EventType.t -> result Event.t).

Definition _make_request (method endpoint : string)
  (params : option (list (string * pyval))) (data : pyval) : IO pyval := fun l =>
  let url := base_url ++ "/" ++ endpoint in
  let params := dict_set "apiKey" (PStr api_key) (default [] params) in
  let l' := (l ++ [Http.mk method url headers params data timeout_seconds])%list in
  (response_of (transport l'), l').

Definition get_event_types : IO (list EventType.t) :=
  response ← _make_request "GET" "event-types" None PNone;
  event_types ← io_lift (PyOps.get_default response "event_types" (PList []));
  event_types ← io_lift (PyOps.iter event_types);
  io_lift (traverse EventType_ event_types).

Definition get_available_slots (event_type_id : pyval)
  (start_date end_date : DateTime.datetime) (timezone : pyval)
  : IO (list AvailableSlot.t) :=
  event_types ← get_event_types;
  match next_or_none (fun et => Py.eqb (PInt (EventType.id et)) event_type_id)
          event_types with
  | None => mret []
  | Some event_type =>
      let params :=
        [("eventTypeId", event_type_id);
         ("startTime", PStr (DateTime.isoformat start_date));
         ("endTime", PStr (DateTime.isoformat end_date));
         ("timeZone", timezone)] in
      io_try
        (response ← _make_request "GET" "slots" (Some params) PNone;
         io_lift (parse_slots (duration_of event_type) response))
        (fun _ => mret [])
  end.

(** The [Booking] made of the answer to a booking request. *)
Definition booking_of_response (response : pyval) (event_type_id : pyval)
  (start_time end_time : DateTime.datetime) (name email title timezone : pyval)
  : result Booking.t :=
  has_booking ← PyOps.str_in "booking" response;
  if has_booking : bool then
    booking ← PyOps.get_default response "booking" (PDict []);
    Booking_ booking
  else
    has_id ← PyOps.str_in "id" response;
    if has_id : bool then Booking_ response
    else
      id ← PyOps.get_default response "id" (PInt 0);
      uid ← PyOps.get_default response "uid" (PStr "unknown");
      attendee ← Attendee_ (PDict [("email", email); ("name", name);
                                    ("timezone", timezone)]);
      Booking_of id uid
        (if Py.truthy title then title else PStr ("Meeting with " ++ Py.str name))
        start_time end_time "ACCEPTED" [attendee] event_type_id.

Definition book_event (event_type_id : pyval) (start_time end_time : DateTime.datetime)
  (name email title description timezone language : pyval) : IO Booking.t :=
  let data :=
    booking_data event_type_id start_time end_time name email title description
      timezone language in
  let attempt (location : string) : IO Booking.t :=
    response ← _make_request "POST" "bookings" None (data location);
    io_lift (booking_of_response response event_type_id start_time end_time
               name email title timezone) in
  io_try (attempt "inPerson")
    (fun e =>
       match e with
       | App AppClass.CalComAPIError _ _ details =>
           if PyStr.contains "no_available_users_found_error" (Py.str (PDict details))
           then attempt "userPhone"
           else io_raise e
       | _ => io_raise e
       end).

Definition get_bookings (email : pyval) (start_date end_date : option DateTime.datetime)
  (status : pyval) : IO (list Booking.t) :=
  let params :=
    ((if Py.truthy email then [("email", email)] else [])
     ++ match start_date with
        | Some d => [("startDate", PStr (DateTime.isoformat d))]
        | None => []
        end
     ++ match end_date with
        | Some d => [("endDate", PStr (DateTime.isoformat d))]
        | None => []
        end
     ++ (if Py.truthy status then [("status", status)] else []))%list in
  response ← _make_request "GET" "bookings" (Some params) PNone;
  bookings ← io_lift (PyOps.get_default response "bookings" (PList []));
  bookings ← io_lift (PyOps.iter bookings);
  bookings ← io_lift (traverse Booking_ bookings);
  if Py.truthy email then io_lift (filter_bookings email bookings)
  else mret bookings.

Definition cancel_booking (booking_id reason : pyval) : IO pyval :=
  let data := if Py.truthy reason then PDict [("reason", reason)] else PDict [] in
  _make_request "DELETE" ("bookings/" ++ Py.str booking_id) None data.

Definition reschedule_booking (booking_id : pyval)
  (start_time end_time : DateTime.datetime) (reason : pyval) : IO Booking.t :=
  let data :=
    ([("start", PStr (DateTime.isoformat start_time));
      ("end", PStr (DateTime.isoformat end_time))]
     ++ (if Py.truthy reason then [("reason", reason)] else []))%list in
  response ← _make_request "PATCH" ("bookings/" ++ Py.str booking_id) None (PDict data);
  booking ← io_lift (PyOps.get_default response "booking" (PDict []));
  io_lift (Booking_ booking).

Definition get_event (booking_id : pyval) : IO Event.t :=
  response ← _make_request "GET" ("bookings/" ++ Py.str booking_id) None PNone;
  booking_data ← io_lift (PyOps.get_default response "booking" (PDict []));
  event_type_id ← io_lift (PyOps.get booking_data "eventTypeId");
  event_type_response ←
    _make_request "GET" ("event-types/" ++ Py.str event_type_id) None PNone;
  event_type_data ← io_lift (PyOps.get_default event_type_response "eventType" (PDict []));
  io_lift (
    attendees ← PyOps.get_default booking_data "attendees" (PList []);
    attendees ← PyOps.iter attendees;
    attendees ← traverse Attendee_ attendees;
    id ← PyOps.get booking_data "id";
    uid ← PyOps.get booking_data "uid";
    title ← PyOps.get booking_data "title";
    description ← PyOps.get booking_data "description";
    start ← PyOps.get booking_data "startTime";
    start_time ← py_fromisoformat start;
    end_ ← PyOps.get booking_data "endTime";
    end_time ← py_fromisoformat end_;
    status ← PyOps.get booking_data "status";
    event_type ← EventType_ event_type_data;
    Event_of id uid title description start_time end_time status attendees event_type).

End Service.

End CalCom.

(** ** What is logged ([app/utils/logging.py]) *)

Definition sensitive_fields : list string :=
  ["api_key"; "key"; "secret"; "password"; "token"; "authorization";
   "access_token"; "refresh_token"; "private_key"; "email"].

(** [any(field in key.lower() for field in sensitive_fields)] *)
Definition is_sensitive (key : string) : bool :=
  existsb (fun field => PyStr.contains field (PyStr.lower key)) sensitive_fields.

(** What the loop of [sanitize_sensitive_data] puts under [key]: a mapping
    is sanitized in turn, a text under a sensitive key is masked, anything
    else is kept. *)
Fixpoint sanitize_value (key : string) (v : pyval) {struct v} : pyval :=
  match v with
  | PDict d => PDict (map (fun kv => (fst kv, sanitize_value (fst kv) (snd kv))) d)
  | PStr _ => if is_sensitive key then PStr "********" else v
  | _ => v
  end.

Definition sanitize_sensitive_data (data : list (string * pyval)) : list (string * pyval) :=
  map (fun kv => (fst kv, sanitize_value (fst kv) (snd kv))) data.

(** The line [log_request] writes, if it writes one: nothing unless the
    debug setting is on. *)
Definition log_request (debug : bool) (request_data : list (string * pyval))
  : option string :=
  if negb debug then None
  else Some ("Request data: " ++ Py.str (PDict (sanitize_sensitive_data request_data))).

Definition log_response (debug : bool) (response_data : list (string * pyval))
  : option string :=
  if negb debug then None
  else Some ("Response data: " ++ Py.str (PDict (sanitize_sensitive_data response_data))).

(** ** Error responses ([app/utils/error.py]) *)

Definition format_error_response (error : raised) (status_code : Z) (error_code : string)
  (details : option (list (string * pyval))) : pyval :=
  let message := raised_str error in
  let status_code :=
    match error with
    | App _ _ code _ => code
    | Other _ => status_code
    end in
  let details :=
    match error with
    | App _ _ _ d => Some d
    | Other _ => details
    end in
  PDict [("error",
          PDict ([("code", PStr error_code);
                  ("message", PStr message);
                  ("status_code", PInt status_code)]
                 ++ match details with
                    | Some (entry :: rest) => [("details", PDict (entry :: rest))]
                    | _ => []
                    end)%list)].

Module JSONResponse.
Record t : Type := mk {
  status_code : Z;
  content : pyval
}.
End JSONResponse.

(** The handler registered for [AppException] and its subclasses. *)
Definition app_exception_handler (cls : AppClass.t) (message : string) (status_code : Z)
  (details : list (string * pyval)) : JSONResponse.t :=
  JSONResponse.mk status_code
    (format_error_response (App cls message status_code details) status_code
       (PyStr.lower (AppClass.name cls)) (Some details)).

(** ** The calendar endpoints ([app/api/routers/calcom.py])

    The endpoints are modelled with the requests they cause and what they
    return or raise. Their calls of [log_request] and [log_response] write
    a line or nothing and raise nothing, so they leave no trace here. *)

(** Schemas of the endpoints ([app/schemas/calcom.py]). *)
Module AttendeeSchema.
Record t : Type := mk {
  email : string;
  name : string;
  timezone : option string
}.
End AttendeeSchema.

Module BookEventRequest.
Record t : Type := mk {
  event_type_id : Z;
  start_time : DateTime.datetime;
  end_time : DateTime.datetime;
  title : option string;
  description : option string;
  attendees : list AttendeeSchema.t
}.
End BookEventRequest.

Module BookEventResponse.
Record t : Type := mk {
  booking_id : string;
  event_title : string;
  start_time : DateTime.datetime;
  end_time : DateTime.datetime;
  attendees : list AttendeeSchema.t;
  status : string
}.
End BookEventResponse.

Module ListEventsRequest.
Record t : Type := mk {
  user_email : string;
  start_date : option DateTime.datetime;
  end_date : option DateTime.datetime;
  status : option string
}.
End ListEventsRequest.

Module EventSchema.
Record t : Type := mk {
  id : string;
  title : string;
  description : option string;
  start_time : DateTime.datetime;
  end_time : DateTime.datetime;
  status : string;
  attendees : list AttendeeSchema.t
}.
End EventSchema.

Module ListEventsResponse.
Record t : Type := mk {
  events : list EventSchema.t;
  total : Z
}.
End ListEventsResponse.

Module CancelEventResponse.
Record t : Type := mk {
  success : bool;
  booking_id : string;
  status : string
}.
End CancelEventResponse.

Module RescheduleEventRequest.
Record t : Type := mk {
  booking_id : string;
  new_start_time : DateTime.datetime;
  new_end_time : DateTime.datetime;
  reason : option string
}.
End RescheduleEventRequest.

Module RescheduleEventResponse.
Record t : Type := mk {
  success : bool;
  booking_id : string;
  event_title : string;
  start_time : DateTime.datetime;
  end_time : DateTime.datetime;
  status : string
}.
End RescheduleEventResponse.

(** The mapping [list_events] builds for one event. *)
Module EventEntry.
Record t : Type := mk {
  id : string;
  title : string;
  description : option string;
  start_time : DateTime.datetime;
  end_time : DateTime.datetime;
  status : string;
  attendees : list Attendee.t
}.
End EventEntry.

Module CalComRouter.

(** The [except] clauses that close an endpoint: an exception of one of
    the classes named is raised again as it is, any other becomes an
    [AppException] whose message says what was being done. *)
Definition on_failure (passed : list AppClass.t) (what : string) (e : raised) : raised :=
  match e with
  | App cls _ _ _ =>
      if existsb (AppClass.is_a cls) passed then e
      else AppException_ (what ++ raised_str e)
  | Other _ => AppException_ (what ++ raised_str e)
  end.

(** [event_type.dict()] *)
Definition event_type_dict (et : EventType.t) : pyval :=
  PDict [("id", PInt (EventType.id et));
         ("slug", PStr (EventType.slug et));
         ("title", PStr (EventType.title et));
         ("description", PyOps.of_opt_str (EventType.description et));
         ("length", PInt (EventType.length et));
         ("hidden", PBool (EventType.hidden et))].

Definition slot_times_entry (slot : AvailableSlot.t) : pyval :=
  PDict [("start", PStr (DateTime.isoformat (AvailableSlot.start slot)));
         ("end", PStr (DateTime.isoformat (AvailableSlot.end_ slot)))].

Definition entry_of (event : Event.t) : EventEntry.t :=
  EventEntry.mk (Event.uid event) (Event.title event) (Event.description event)
    (Event.start_time event) (Event.end_time event) (Event.status event)
    (Event.attendees event).

Section Endpoints.

(** The service behind the endpoints, and the constructor of the
    response of [list_events], which validates the entries. *)
Context (transport : list Http.request -> Http.answer).
Context (api_key : string) (timeout_seconds : Z).
Context (EventType_ : pyval -> result EventType.t).
Context (Attendee_ : pyval -> result Attendee.t).
Context (Booking_ : pyval -> result Booking.t).
Context (Booking_of :
  pyval -> pyval -> pyval -> DateTime.datetime -> DateTime.datetime -> string ->
  list Attendee.t -> pyval -> result Booking.t).
Context (Event_of :
  pyval -> pyval -> pyval -> pyval -> DateTime.datetime -> DateTime.datetime -> pyval ->
  list Attendee.t -> EventType.t -> result Event.t).
Context (ListEventsResponse_ : list EventEntry.t -> Z -> result ListEventsResponse.t).

Definition get_event_types : IO (list pyval) :=
  io_try
    (event_types ← CalCom.get_event_types transport api_key timeout_seconds EventType_;
     mret (map event_type_dict event_types))
    (fun e =>
       io_raise (on_failure [AppClass.CalComAPIError] "Error getting event types: " e)).

Definition get_available_slots (event_type_id : Z) (date : string) : IO (list pyval) :=
  io_try
    (range ←
       match DateTime.strptime_ymd date with
       | inr start_date => mret (start_date, DateTime.replace_hms start_date 23 59 59)
       | inl e =>
           if exn_class_eqb (exn_cls e) ValueError
           then io_raise (ValidationError_
                            ("Invalid date format: " ++ date
                             ++ ". Expected format: YYYY-MM-DD") None)
           else io_raise (Other e)
       end;
     slots ← CalCom.get_available_slots transport api_key timeout_seconds EventType_
               (PInt event_type_id) (fst range) (snd range) (PStr "America/Los_Angeles");
     mret (map slot_times_entry slots))
    (fun e =>
       io_raise (on_failure [AppClass.ValidationError; AppClass.CalComAPIError]
                   "Error getting available slots: " e)).

Definition book_event (request : BookEventRequest.t) : IO BookEventResponse.t :=
  io_try
    (match BookEventRequest.attendees request with
     | [] =>
         io_raise (ValidationError_ "At least one attendee is required"
                     (Some [("field", PStr "attendees")]))
     | attendee :: _ =>
         booking ← CalCom.book_event transport api_key timeout_seconds
                     Attendee_ Booking_ Booking_of
                     (PInt (BookEventRequest.event_type_id request))
                     (BookEventRequest.start_time request)
                     (BookEventRequest.end_time request)
                     (PStr (AttendeeSchema.name attendee))
                     (PStr (AttendeeSchema.email attendee))
                     (PyOps.of_opt_str (BookEventRequest.title request))
                     (PyOps.of_opt_str (BookEventRequest.description request))
                     (PyOps.of_opt_str (AttendeeSchema.timezone attendee))
                     (PStr "en");
         mret (BookEventResponse.mk (Booking.uid booking) (Booking.title booking)
                 (Booking.start_time booking) (Booking.end_time booking)
                 (BookEventRequest.attendees request) (Booking.status booking))
     end)
    (fun e =>
       io_raise (on_failure [AppClass.ValidationError; AppClass.CalComAPIError]
                   "Error booking event: " e)).

(** The loop of [list_events] over the bookings: an event that cannot be
    had is left out. *)
Fixpoint event_entries (bookings : list Booking.t) (events : list EventEntry.t)
  : IO (list EventEntry.t) :=
  match bookings with
  | [] => mret events
  | booking :: rest =>
      events ←
        io_try
          (event ← CalCom.get_event transport api_key timeout_seconds
                     EventType_ Attendee_ Event_of (PStr (Booking.uid booking));
           mret (events ++ [entry_of event])%list)
          (fun _ => mret events);
      event_entries rest events
  end.

Definition list_events (request : ListEventsRequest.t) : IO ListEventsResponse.t :=
  io_try
    (bookings ← CalCom.get_bookings transport api_key timeout_seconds Booking_
                  (PStr (ListEventsRequest.user_email request))
                  (ListEventsRequest.start_date request)
                  (ListEventsRequest.end_date request)
                  (PyOps.of_opt_str (ListEventsRequest.status request));
     events ← event_entries bookings [];
     io_lift (ListEventsResponse_ events (Z.of_nat (length events))))
    (fun e =>
       io_raise (on_failure [AppClass.ValidationError; AppClass.CalComAPIError]
                   "Error listing events: " e)).

(** [Check if booking exists]: whatever goes wrong with the lookup, the
    booking is said not to be found. *)
Definition check_booking (booking_id : string) : IO unit :=
  io_try
    (_ ← CalCom.get_event transport api_key timeout_seconds EventType_ Attendee_ Event_of
           (PStr booking_id);
     mret tt)
    (fun _ =>
       io_raise (NotFoundError_ ("Booking with ID " ++ booking_id ++ " not found")
                   (Some [("booking_id", PStr booking_id)]))).

Definition cancel_event (booking_id : string) (reason : option string)
  : IO CancelEventResponse.t :=
  io_try
    (_ ← check_booking booking_id;
     _ ← CalCom.cancel_booking transport api_key timeout_seconds
           (PStr booking_id) (PyOps.of_opt_str reason);
     mret (CancelEventResponse.mk true booking_id "CANCELLED"))
    (fun e =>
       io_raise (on_failure [AppClass.NotFoundError; AppClass.CalComAPIError]
                   "Error cancelling event: " e)).

Definition reschedule_event (booking_id : string) (request : RescheduleEventRequest.t)
  : IO RescheduleEventResponse.t :=
  io_try
    (_ ← check_booking booking_id;
     booking ← CalCom.reschedule_booking transport api_key timeout_seconds Booking_
                 (PStr booking_id)
                 (RescheduleEventRequest.new_start_time request)
                 (RescheduleEventRequest.new_end_time request)
                 (PyOps.of_opt_str (RescheduleEventRequest.reason request));
     mret (RescheduleEventResponse.mk true (Booking.uid booking) (Booking.title booking)
             (Booking.start_time booking) (Booking.end_time booking)
             (Booking.status booking)))
    (fun e =>
       io_raise (on_failure [AppClass.NotFoundError; AppClass.ValidationError;
                             AppClass.CalComAPIError]
                   "Error rescheduling event: " e)).

End Endpoints.

End CalComRouter.

(** ** Notions the properties are stated with *)

(** [kw] occurs in [message] up to the case of its letters. *)
Definition ci_substring (kw message : string) : Prop :=
  exists pre mid post,
    message = (pre ++ mid ++ post)%string /\ PyStr.lower mid = PyStr.lower kw.

(** [s] occurs in [t]. *)
Definition substring_of (s t : string) : Prop :=
  exists pre post, t = (pre ++ s ++ post)%string.

(** [chat_response.response = text] *)
Definition with_response (chat_response : ChatResponse.t) (text : string) : ChatResponse.t :=
  ChatResponse.mk text
    (ChatResponse.session_id chat_response)
    (ChatResponse.requires_action chat_response)
    (ChatResponse.action_details chat_response).

(** The first call of the turn is [get_available_slots] and its result is
    among the results. *)
Definition slots_result_echoed (response : ServiceResponse.t) (result : pyval) : Prop :=
  exists first rest results,
    ServiceResponse.function_calls response = Some (first :: rest)
    /\ ServiceResponse.function_results response = Some results
    /\ results !! FunctionCall.name first = Some result
    /\ FunctionCall.name first = "get_available_slots".

(** The message carries a booking keyword. *)
Definition has_booking_keyword (message : string) : Prop :=
  exists kw, In kw booking_keywords /\ ci_substring kw message.

(** A slot entry with the fields the search reads: a mapping whose date
    and start are texts (what [slot_entry] writes). *)
Definition slot_fields (slot : pyval) (date start : string) : Prop :=
  exists d,
    slot = PDict d
    /\ Py.assoc "date" d = Some (PStr date)
    /\ Py.assoc "start" d = Some (PStr start).

Definition well_formed_slot (slot : pyval) : Prop :=
  exists date start, slot_fields slot date start.

(** The date field equals the target date. *)
Definition date_match (target_date : pyval) (slot : pyval) : Prop :=
  exists date start, slot_fields slot date start /\ target_date = PStr date.

(** The date field equals the target date and the start contains the
    target time of day. *)
Definition exact_match (target_date : pyval) (target_time : string) (slot : pyval) : Prop :=
  exists date start,
    slot_fields slot date start /\ target_date = PStr date
    /\ substring_of target_time start.

(** [x] is the first element of [l], in list order, that satisfies [P]. *)
Definition first_such {A : Type} (P : A -> Prop) (l : list A) (x : A) : Prop :=
  exists pre post,
    l = (pre ++ x :: post)%list /\ P x /\ forall y, In y pre -> ~ P y.

(** A computation that makes no call and leaves the world as it is. *)
Definition pure_M {A : Type} (m : M A) : Prop :=
  forall w, exists r, m w = (r, w).

(** The booking call of a plan, for the parsed bounds of its slot. *)
Definition booking_call (p : BookingPlan.t) (start_time end_time : DateTime.datetime)
  : Call :=
  BookEvent (BookingPlan.event_type_id p) start_time end_time
    (PStr (BookingPlan.name p)) (PStr (BookingPlan.email p))
    (PStr ("Appointment with " ++ BookingPlan.name p))
    (PStr ("Scheduled appointment for " ++ BookingPlan.name p))
    (PStr "America/Los_Angeles") (PStr "en").

(** The response that reports a booking. *)
Definition booked_response (p : BookingPlan.t) (chat_response : ChatResponse.t)
  (booking : Booking.t) : ChatResponse.t :=
  ChatResponse.mk
    (confirmation (BookingPlan.name p) (BookingPlan.target_date p)
       (BookingPlan.target_time p) (Booking.uid booking))
    (ChatResponse.session_id chat_response) false None.

(** A run to try the properties on: one event type of 30 minutes, one
    free slot on 2025-03-14 at 14:30 (UTC-7), a completion that asks for
    the slots of that day, and a provider that accepts the booking. *)
Module Scenario.

Definition pdt (o h m : Z) : DateTime.datetime :=
  DateTime.mk o h m 0 0 (Some (-25200)).

Definition event_type_30 : EventType.t :=
  EventType.mk 123 "30min" "30 Min Meeting" None 30 false.

Definition slot_1430 : AvailableSlot.t :=
  AvailableSlot.mk (pdt 739324 14 30) (pdt 739324 15 0).

Definition slot_next_day : AvailableSlot.t :=
  AvailableSlot.mk (pdt 739325 9 0) (pdt 739325 9 30).

Definition booking : Booking.t :=
  Booking.mk 1 "abc123" "Appointment with Jane Doe" None
    (pdt 739324 14 30) (pdt 739324 15 0) "ACCEPTED"
    [Attendee.mk "jane@example.com" "Jane Doe" None] 123.

Definition completion : Raw.completion :=
  Raw.mk_completion
    [Raw.mk_message None
       [Raw.mk_tool_call "function" "get_available_slots"
          (inr (PDict [("date", PStr "2025-03-14")]))]].

Definition wednesday_afternoon : DateTime.datetime :=
  DateTime.mk 739322 15 42 10 0 None.

Definition fresh_id : string := "123e4567-e89b-42d3-a456-426614174000".

Definition env_with (slots : list AvailableSlot.t) : Env :=
  mkEnv
    (fun _ => inr [event_type_30])
    (fun _ => inr slots)
    (fun _ => inr booking)
    (fun _ => inr [])
    (fun _ => inr PNone)
    (fun _ => inr booking)
    (fun _ => inr completion)
    (fun _ => wednesday_afternoon)
    (fun _ => fresh_id).

Definition env : Env := env_with [slot_1430].

Definition env_other_day : Env := env_with [slot_next_day].

Definition message : string :=
  "Book an appointment for Jane Doe (jane@example.com) on March 14th at 2:30pm".

Definition request : ChatRequest.t := ChatRequest.mk message None None.

(** [n] times the digit 1. *)
Fixpoint ones (n : nat) : string :=
  match n with
  | O => EmptyString
  | S k => String (ascii_of_nat 49) (ones k)
  end.

(** The same request for a day written with 4301 digits. *)
Definition long_day_message : string :=
  "Book an appointment for Jane Doe (jane@example.com) on March "
  ++ ones (Z.to_nat 4301) ++ " at 2:30pm".

Definition long_day_request : ChatRequest.t := ChatRequest.mk long_day_message None None.

Definition slots_call : FunctionCall.t :=
  FunctionCall.mk "get_available_slots" (PDict [("date", PStr "2025-03-14")]).

(** A service response made by hand, to stand where a run gives none. *)
Definition odd_result : pyval :=
  PDict [("slots",
           PList [PDict [("start", PStr "half past two");
                         ("end", PStr "three");
                         ("date", PStr "2025-03-14")]]);
         ("event_type_id", PInt 123);
         ("event_type_name", PStr "30 Min Meeting")].

Definition odd_response : ServiceResponse.t :=
  ServiceResponse.mk (ChatMessage.mk ASSISTANT EmptyString None None)
    (Some [slots_call])
    (Some {[ "get_available_slots" := odd_result ]}).

(** A world with one session, and a turn of two calls of which the first
    names no function. *)
Definition w_session : World :=
  mkWorld {[ "s1" := [ChatMessage.mk SYSTEM "prompt" None None] ]} "prompt" [].

Definition calls_mixed : list FunctionCall.t :=
  [FunctionCall.mk "fly_to_the_moon" (PDict []);
   FunctionCall.mk "get_event_types" (PDict [])].

(** Arguments of [list_events] that ask for January. *)
Definition list_args : list (string * pyval) :=
  [("email", PStr "jane@example.com");
   ("start_date", PStr "2025-01-01");
   ("end_date", PStr "2025-01-31")].

(** A provider with nothing free in the week asked for and twelve slots
    in the two weeks after. *)
Definition twelve_slots : list AvailableSlot.t :=
  map (fun i => AvailableSlot.mk (pdt (739326 + i) 9 0) (pdt (739326 + i) 9 30))
    [0; 1; 2; 3; 4; 5; 6; 7; 8; 9; 10; 11].

Definition env_alternatives : Env :=
  mkEnv
    (fun _ => inr [event_type_30])
    (fun l => if (length l <=? 1)%nat then inr [] else inr twelve_slots)
    (fun _ => inr booking)
    (fun _ => inr [])
    (fun _ => inr PNone)
    (fun _ => inr booking)
    (fun _ => inr completion)
    (fun _ => wednesday_afternoon)
    (fun _ => fresh_id).

Definition slots_args : pyval :=
  PDict [("date", PStr "2025-03-14"); ("event_type_id", PInt 123)].


(** Four event types; for 30 minutes the 15-minute and the 45-minute ones
    are equally near. *)
Definition four_types : list EventType.t :=
  [EventType.mk 11 "quarter" "15 Min Meeting" None 15 false;
   EventType.mk 12 "long" "45 Min Meeting" None 45 false;
   EventType.mk 13 "hour" "60 Min Meeting" None 60 false;
   EventType.mk 14 "quick" "Quick Chat" None 15 false].

Definition env_four_types : Env :=
  mkEnv
    (fun _ => inr four_types)
    (fun _ => inr [slot_1430])
    (fun _ => inr booking)
    (fun _ => inr [])
    (fun _ => inr PNone)
    (fun _ => inr booking)
    (fun _ => inr completion)
    (fun _ => wednesday_afternoon)
    (fun _ => fresh_id).

Definition book_args : list (string * pyval) :=
  [("start_time", PStr "2025-03-14T14:30:00-07:00");
   ("end_time", PStr "2025-03-14T15:00:00-07:00");
   ("name", PStr "Jane Doe");
   ("email", PStr "jane@example.com")].

Definition extraction_messages : list ChatMessage.t :=
  [ChatMessage.mk SYSTEM extraction_system_prompt None None;
   ChatMessage.mk USER ("Parse the following date/time: " ++ message) None None].

(** The world of a request: a chat service just made. *)
Definition w0 : World := ChatService_init env [].

Definition ok {A : Type} (d : A) (r : result A) : A :=
  match r with
  | inr a => a
  | inl _ => d
  end.

(** What the service returns for the message, and the world it leaves. *)
Definition service_response : ServiceResponse.t :=
  ok odd_response (fst (process_message env message None None w0)).

Definition w1 : World := snd (process_message env message None None w0).

(** What the request returns, and the world it leaves. *)
Definition answer : ChatResponse.t :=
  ok (ChatResponse.mk EmptyString EmptyString false None)
    (fst (send_message env request w0)).

Definition w2 : World := snd (send_message env request w0).

(** The same provider, except that it refuses the booking. *)
Definition env_refusing : Env :=
  mkEnv
    (fun _ => inr [event_type_30])
    (fun _ => inr [slot_1430])
    (fun _ => inl (Exn CalComAPIError "Cal.com API error: 400"))
    (fun _ => inr [])
    (fun _ => inr PNone)
    (fun _ => inr booking)
    (fun _ => inr completion)
    (fun _ => wednesday_afternoon)
    (fun _ => fresh_id).

End Scenario.

(** A computation that leaves the chat service's sessions and prompt as
    they are (it may make calls). *)
Definition keeps_sessions {A : Type} (m : M A) : Prop :=
  forall w r w', m w = (r, w') ->
    sessions w' = sessions w /\ system_prompt w' = system_prompt w.

(** What a dispatched call leaves in the results: its result, or the
    in-band error. *)
Definition outcome_value (r : result pyval) : pyval :=
  match r with
  | inr v => v
  | inl e => PDict [("error", PStr (exn_msg e))]
  end.

(** The tool-result turn a dispatched call appends. *)
Definition tool_turn (name : string) (r : result pyval) : ChatMessage.t :=
  ChatMessage.mk FUNCTION
    (match r with
     | inr v => Py.str v
     | inl e => "Error: " ++ exn_msg e
     end)
    (Some name) None.

(** The in-band result of a call to a function that does not exist. *)
Definition unknown_error (name : string) : pyval :=
  PDict [("error", PStr ("Unknown function: " ++ name))].

(** The world after a turn is appended to the history of a session. *)
Definition with_turn (w : World) (session_id : string) (t : ChatMessage.t) : World :=
  mkWorld (alter (fun h => ChatHistory.add_message h t) session_id (sessions w))
    (system_prompt w) (log w).

(** A history that starts with its only system turn. *)
Definition one_system_turn (h : ChatHistory.t) : Prop :=
  exists prompt rest,
    h = ChatMessage.mk SYSTEM prompt None None :: rest
    /\ Forall (fun m => ChatMessage.role m <> SYSTEM) rest.

(** Every session of a store has that shape. *)
Definition sessions_ok (ss : gmap string ChatHistory.t) : Prop :=
  forall session_id h, ss !! session_id = Some h -> one_system_turn h.

Definition store_ok (w : World) : Prop := sessions_ok (sessions w).

(** A computation that keeps a property of the store, whatever it
    returns or raises. *)
Definition preserves {A : Type} (P : gmap string ChatHistory.t -> Prop) (m : M A) : Prop :=
  forall w r w', P (sessions w) -> m w = (r, w') -> P (sessions w').

(** The worlds a chat service goes through: made by [ChatService_init],
    then used by [_get_or_create_session] and [process_message], whatever
    they return or raise and whatever the world answers; the router's
    [send_message] runs in the same world. *)
Inductive reachable (env : Env) : World -> Prop :=
| reach_init (l : list Call) : reachable env (ChatService_init env l)
| reach_session (w : World) (session_id : option string) :
    reachable env w ->
    reachable env (snd (_get_or_create_session env session_id w))
| reach_message (w : World) (message : string) (user_id session_id : option string) :
    reachable env w ->
    reachable env (snd (process_message env message user_id session_id w))
| reach_request (w : World) (request : ChatRequest.t) :
    reachable env w ->
    reachable env (snd (send_message env request w)).

(** The system message a new session is seeded with. *)
Definition system_turn (w : World) : ChatMessage.t :=
  ChatMessage.mk SYSTEM (system_prompt w) None None.

(** The turn of a dispatched call: a tool-result turn that carries the
    name of the function. *)
Definition turn_of_call (fc : FunctionCall.t) (t : ChatMessage.t) : Prop :=
  ChatMessage.role t = FUNCTION /\ ChatMessage.name t = Some (FunctionCall.name fc).

(** The store holds one session, under [u], and its history starts with
    the two given turns. *)
Definition recorded_under (u : string) (first second : ChatMessage.t)
  (ss : gmap string ChatHistory.t) : Prop :=
  exists rest, ss = {[ u := first :: second :: rest ]}.

(** The same time of day, [n] days later. *)
Definition shift_days (d : DateTime.datetime) (n : Z) : DateTime.datetime :=
  DateTime.mk (DateTime.ordinal d + n) (DateTime.hour d) (DateTime.minute d)
    (DateTime.second d) (DateTime.microsecond d) (DateTime.utcoffset d).

(** The date is far enough from both ends of the calendar for [n] days to
    be added. *)
Definition in_calendar (d : DateTime.datetime) (n : Z) : Prop :=
  DateTime.MINORDINAL <= DateTime.ordinal d + n <= DateTime.MAXORDINAL.

(** [args.get(k)] for the arguments [d] of a call. *)
Definition arg (d : list (string * pyval)) (k : string) : pyval :=
  match Py.assoc k d with
  | Some v => v
  | None => PNone
  end.

(** [args.get(k, default)] for the arguments [d] of a call. *)
Definition arg_or (d : list (string * pyval)) (k : string) (default : pyval) : pyval :=
  match Py.assoc k d with
  | Some v => v
  | None => default
  end.

(** [x] is the first element of [l], in list order, among those of least
    key. *)
Definition is_first_min {A : Type} (key : A -> Z) (l : list A) (x : A) : Prop :=
  exists pre post,
    l = (pre ++ x :: post)%list
    /\ (forall y, In y pre -> key x < key y)
    /\ (forall y, In y post -> key x <= key y).

(** The distance of an event type to the requested duration. *)
Definition distance (duration : Z) (et : EventType.t) : Z :=
  Z.abs (EventType.length et - duration).

(** The world after one more call. *)
Definition after_call (w : World) (c : Call) : World :=
  mkWorld (sessions w) (system_prompt w) (log w ++ [c])%list.

(** *** The adapter, the service and the router as a whole *)

(** The [ChatFunction] objects among the functions passed to the adapter. *)
Definition function_objects (functions : list fn_arg) : list ChatFunction.t :=
  omap (fun f => match f with FnObj c => Some c | FnDict _ => None end) functions.

(** One of the functions is a plain mapping. *)
Definition has_mapping (functions : list fn_arg) : Prop :=
  exists d, In (FnDict d) functions.

(** What the adapter makes of the endpoint's answer. *)
Definition wrap_openai (r : result Raw.completion) : result Raw.completion :=
  match r with
  | inr c => inr c
  | inl e => inl (Exn OpenAIAPIError ("OpenAI API error: " ++ exn_msg e))
  end.

(** The tool calls [parse_response] keeps: those of type [function]. *)
Definition function_tool_calls (m : Raw.message) : list Raw.tool_call :=
  filter (fun tc => String.eqb (Raw.type_ tc) "function" = true) (Raw.tool_calls m).

(** A parsed call carries the name and the decoded arguments of a tool call. *)
Definition call_of_tool_call (fc : FunctionCall.t) (tc : Raw.tool_call) : Prop :=
  FunctionCall.name fc = Raw.fn_name tc
  /\ Raw.fn_arguments tc = inr (FunctionCall.arguments fc).

(** The user turn of a message. *)
Definition user_turn (message : string) : ChatMessage.t :=
  ChatMessage.mk USER message None None.

(** The history a turn of the conversation starts from: the one stored
    under the identifier, or the system turn of a session just made. *)
Definition history_before (w : World) (session_id : string) : ChatHistory.t :=
  match sessions w !! session_id with
  | Some h => h
  | None => [system_turn w]
  end.

(** The sessions other than [session_id] are the same in both worlds. *)
Definition others_kept (w w' : World) (session_id : string) : Prop :=
  forall other, other <> session_id -> sessions w' !! other = sessions w !! other.

(** The identifier is the one the caller gave, if it gave one. *)
Definition names_session (given : option string) (session_id : string) : Prop :=
  forall s, given = Some s -> s <> EmptyString -> session_id = s.

(** The completion request of a turn. *)
Definition completion_call (h : ChatHistory.t) (message : string) : Call :=
  CompletionsCreate (h ++ [user_turn message])%list _get_cal_functions 7.

Module Cases.

(** A completion endpoint that is down. *)
Definition env_down : Env :=
  mkEnv
    (fun _ => inr [Scenario.event_type_30])
    (fun _ => inr [Scenario.slot_1430])
    (fun _ => inr Scenario.booking)
    (fun _ => inr [])
    (fun _ => inr PNone)
    (fun _ => inr Scenario.booking)
    (fun _ => inl (Exn OtherError "Connection error."))
    (fun _ => Scenario.wednesday_afternoon)
    (fun _ => Scenario.fresh_id).

(** A turn that calls the same function twice. *)
Definition calls_repeated : list FunctionCall.t :=
  [FunctionCall.mk "get_event_types" (PDict []);
   FunctionCall.mk "fly_to_the_moon" (PDict []);
   FunctionCall.mk "get_event_types" (PDict [("again", PBool true)])].

(** A question about free times, with no booking keyword. *)
Definition question : ChatRequest.t :=
  ChatRequest.mk "What times are open March 14th?" None None.

End Cases.

(** Every history of [ss0] is still there in [ss], with turns appended
    that are no system turns. *)
Definition grown_from (ss0 ss : gmap string ChatHistory.t) : Prop :=
  forall session_id h,
    ss0 !! session_id = Some h ->
    exists turns,
      ss !! session_id = Some (h ++ turns)%list
      /\ Forall (fun m => ChatMessage.role m <> SYSTEM) turns.

(** The names of the calls of a turn. *)
Definition call_names (calls : list FunctionCall.t) : list string :=
  map FunctionCall.name calls.

(** The response of a request that made no booking: a text, the session
    identifier of the request or the placeholder, and the first call of the
    turn if there is one. *)
Definition plain_response (request : ChatRequest.t) (text : string)
  (first : option FunctionCall.t) : ChatResponse.t :=
  ChatResponse.mk text (or_text (ChatRequest.session_id request) "new_session")
    (match first with Some _ => true | None => false end) first.

(** The text of a reply, or the fixed sentence when the reply is empty. *)
Definition reply_text (response : ServiceResponse.t) : string :=
  or_text (Some (ChatMessage.content (ServiceResponse.message response)))
    "I'll check your scheduled events.".

(** The request has a first call that asks for slots and carries a booking
    keyword: the auto-booking block is entered. *)
Definition enters_auto_booking (request : ChatRequest.t) (response : ServiceResponse.t)
  : Prop :=
  exists first rest,
    ServiceResponse.function_calls response = Some (first :: rest)
    /\ auto_booking_triggered (FunctionCall.name first) (ChatRequest.message request) = true.

(** The arguments a handler checks before it does anything else, in the
    order of its checks, each with the message of its [ValidationError]. *)
Definition required_arguments (name : string) : list (string * string) :=
  if String.eqb name "get_available_slots" then [("date", "Date is required")]
  else if String.eqb name "book_event" then
    [("start_time", "Start time is required"); ("end_time", "End time is required");
     ("name", "Name is required"); ("email", "Email is required")]
  else if String.eqb name "list_events" then [("email", "Email is required")]
  else if String.eqb name "cancel_event" then [("booking_id", "Booking ID is required")]
  else if String.eqb name "reschedule_event" then
    [("booking_id", "Booking ID is required"); ("start_time", "Start time is required");
     ("end_time", "End time is required")]
  else [].

(** The message for the first required argument that is missing, [None],
    empty or zero. *)
Fixpoint first_missing (required : list (string * string)) (d : list (string * pyval))
  : option string :=
  match required with
  | [] => None
  | (k, msg) :: rest =>
      if Py.truthy (arg d k) then first_missing rest d else Some msg
  end.

(** *** Dates and their texts *)

(** The number a decimal numeral stands for, read from the left with an
    accumulator, as [int_digits_acc] reads its text. *)
Fixpoint uint_val (acc : Z) (d : Decimal.uint) : Z :=
  match d with
  | Decimal.Nil => acc
  | Decimal.D0 l => uint_val (10 * acc) l
  | Decimal.D1 l => uint_val (10 * acc + 1) l
  | Decimal.D2 l => uint_val (10 * acc + 2) l
  | Decimal.D3 l => uint_val (10 * acc + 3) l
  | Decimal.D4 l => uint_val (10 * acc + 4) l
  | Decimal.D5 l => uint_val (10 * acc + 5) l
  | Decimal.D6 l => uint_val (10 * acc + 6) l
  | Decimal.D7 l => uint_val (10 * acc + 7) l
  | Decimal.D8 l => uint_val (10 * acc + 8) l
  | Decimal.D9 l => uint_val (10 * acc + 9) l
  end.

(** A text of [w] decimal digits that reads as [n]. *)
Definition digits_of (w : nat) (n : Z) (s : string) : Prop :=
  String.length s = w /\ PyStr.all_digits s = true /\ PyStr.int_of_digits s = n.

(** The month and the day of the [n]-th day (from 0) of a year, as
    [ord2ymd] finds them: an estimate of the month, corrected by one when
    it is too far. *)
Definition month_day (leapyear : bool) (n : Z) : Z * Z :=
  let month := Z.shiftr (n + 50) 5 in
  let preceding :=
    nth (Z.to_nat (month - 1)) DateTime.DAYS_BEFORE_MONTH 0
    + (if (2 <? month) && leapyear then 1 else 0) in
  if n <? preceding then
    let month' := month - 1 in
    let preceding' :=
      preceding - (nth (Z.to_nat (month' - 1)) DateTime.DAYS_IN_MONTH 0
                   + (if (month' =? 2) && leapyear then 1 else 0)) in
    (month', n - preceding' + 1)
  else (month, n - preceding + 1).

(** [month_day] is right for day [n] of year [y]. *)
Definition month_day_ok (y n : Z) : bool :=
  let '(m, d) := month_day (DateTime.is_leap y) n in
  (1 <=? m) && (m <=? 12) && (1 <=? d) && (d <=? DateTime.days_in_month y m)
  && (DateTime.days_before_month y m + d =? n + 1).

(** [f] holds of [fuel] numbers in a row from [a]. *)
Fixpoint all_from (f : Z -> bool) (fuel : nat) (a : Z) : bool :=
  match fuel with
  | O => true
  | S k => f a && all_from f k (a + 1)
  end.

(** A date of the calendar: what [date(y, m, d)] accepts. *)
Definition valid_ymd (y m d : Z) : Prop :=
  1 <= y <= 9999 /\ 1 <= m <= 12 /\ 1 <= d <= DateTime.days_in_month y m.

(** The plan of the scenario's booking, and the response before it. *)
Definition plan_1430 : BookingPlan.t :=
  BookingPlan.mk (PInt 123) "Jane Doe" "jane@example.com" (PStr "2025-03-14") "14:30:00"
    (slot_entry Scenario.slot_1430).

Definition pending_response : ChatResponse.t :=
  ChatResponse.mk EmptyString "s1" true None.


(** A [datetime] the library can hold: a day of the calendar, a time of
    day, and an offset of less than a day if there is one. *)
Definition valid_datetime (d : DateTime.datetime) : Prop :=
  DateTime.MINORDINAL <= DateTime.ordinal d <= DateTime.MAXORDINAL
  /\ 0 <= DateTime.hour d <= 23
  /\ 0 <= DateTime.minute d <= 59
  /\ 0 <= DateTime.second d <= 59
  /\ 0 <= DateTime.microsecond d <= 999999
  /\ match DateTime.utcoffset d with
     | Some o => -86400 < o < 86400
     | None => True
     end.

(** *** Date ranges and written dates *)

(** A day of the calendar. *)
Definition valid_date (d : Z) : Prop :=
  DateTime.MINORDINAL <= d <= DateTime.MAXORDINAL.

(** The range types [get_date_range] knows that look ahead of the
    reference date. *)
Definition looks_ahead (range_type : string) : bool :=
  String.eqb range_type "tomorrow" || String.eqb range_type "next_week".

(** The range types [get_date_range] knows. *)
Definition known_range (range_type : string) : bool :=
  existsb (String.eqb range_type)
    ["today"; "tomorrow"; "this_week"; "next_week"; "this_month"].

(** The three groups of the pattern of [%Y-%m-%d]. *)
Definition year_re : Re.re :=
  Re.Grp (Re.seqs [Re.Chr PyStr.is_digit; Re.Chr PyStr.is_digit; Re.Chr PyStr.is_digit;
                   Re.Chr PyStr.is_digit]).

Definition month_re : Re.re :=
  let r19 := PyStr.in_range 49 57 in
  Re.Grp (Re.Alt (Re.Seq (Re.Lit "1") (Re.Chr (PyStr.in_range 48 50)))
            (Re.Alt (Re.Seq (Re.Lit "0") (Re.Chr r19)) (Re.Chr r19))).

Definition day_re : Re.re :=
  let d := PyStr.is_digit in
  let r19 := PyStr.in_range 49 57 in
  Re.Grp (Re.Alt (Re.Seq (Re.Lit "3") (Re.Chr (PyStr.in_range 48 49)))
            (Re.Alt (Re.Seq (Re.Chr (PyStr.in_range 49 50)) (Re.Chr d))
               (Re.Alt (Re.Seq (Re.Lit "0") (Re.Chr r19))
                  (Re.Alt (Re.Chr r19) (Re.Seq (Re.Lit " ") (Re.Chr r19)))))).

(** The day of a [datetime], at midnight and without offset: what
    [strptime] makes of a date. *)
Definition midnight (d : DateTime.datetime) : DateTime.datetime :=
  DateTime.mk (DateTime.ordinal d) 0 0 0 0 None.

(** The year of a day. *)
Definition year_of (d : DateTime.datetime) : Z :=
  let '(y, _, _) := DateTime.ord2ymd (DateTime.ordinal d) in y.

(** *** The calendar service *)

(** The request [_make_request] sends for a method, an endpoint, the
    parameters of the caller and a body. *)
Definition request_of (api_key : string) (timeout_seconds : Z) (method endpoint : string)
  (params : list (string * pyval)) (data : pyval) : Http.request :=
  Http.mk method (CalCom.base_url ++ "/" ++ endpoint) CalCom.headers
    (dict_set "apiKey" (PStr api_key) params) data timeout_seconds.


(** A computation adds at most [n] requests to the log, all of them with
    the property [P], and removes none. *)
Definition sends {A : Type} (n : nat) (P : Http.request -> Prop) (m : IO A) : Prop :=
  forall l, exists added,
    snd (m l) = (l ++ added)%list /\ (length added <= n)%nat /\ Forall P added.

(** The test of [get_available_slots] on an event type: its identifier
    equals the one asked for. *)
Definition wanted (event_type_id : pyval) (et : EventType.t) : bool :=
  Py.eqb (PInt (EventType.id et)) event_type_id.

(** The parameters of the slots request, before the key is added. *)
Definition slots_params (event_type_id : pyval) (start_date end_date : DateTime.datetime)
  (timezone : pyval) : list (string * pyval) :=
  [("eventTypeId", event_type_id);
   ("startTime", PStr (DateTime.isoformat start_date));
   ("endTime", PStr (DateTime.isoformat end_date));
   ("timeZone", timezone)].

(** A slot lasts [duration] minutes: its end is its start moved by that
    many minutes, and that many minutes lie between the two. *)
Definition lasts (duration : Z) (s : AvailableSlot.t) : Prop :=
  add_minutes (AvailableSlot.start s) duration = inr (AvailableSlot.end_ s)
  /\ DateTime.minutes_between (AvailableSlot.start s) (AvailableSlot.end_ s) = inr duration.

(** The values found under [time] in the slots of a day, and in the days
    of an answer, in the order the loops meet them. *)
Definition day_times (time_slots : list pyval) : list pyval :=
  omap (fun slot => match slot with PDict d => Py.assoc "time" d | _ => None end) time_slots.

Definition slot_times (items : list (string * pyval)) : list pyval :=
  concat (map (fun kv => match snd kv with PList l => day_times l | _ => [] end) items).

(** The slot a text stands for, if it is a date and time. *)
Definition slot_of_text (duration : Z) (t : string) : option AvailableSlot.t :=
  match DateTime.fromisoformat (replace_char "Z" "+00:00" t) with
  | inr start_time =>
      match add_minutes start_time duration with
      | inr end_time => Some (AvailableSlot.mk start_time end_time)
      | inl _ => None
      end
  | inl _ => None
  end.

(** Moving the time a text stands for by [duration] minutes stays inside
    the calendar. *)
Definition fits (duration : Z) (t : string) : Prop :=
  forall start_time,
    DateTime.fromisoformat (replace_char "Z" "+00:00" t) = inr start_time ->
    exists end_time, add_minutes start_time duration = inr end_time.


(** A calendar to run the service against: one event type of thirty
    minutes, and a day with one slot, one text that is no time and one
    entry that is no slot. *)
Module Office.

(** A reading of [EventType] from a mapping: the identifier and the
    length are integers. *)
Definition EventType_ (v : pyval) : result EventType.t :=
  match v with
  | PDict d =>
      match Py.assoc "id" d, Py.assoc "length" d with
      | Some (PInt i), Some (PInt n) => inr (EventType.mk i "meeting" "Meeting" None n false)
      | _, _ => inl (Exn OtherError "validation error for EventType")
      end
  | _ => inl (Exn TypeError "argument after ** must be a mapping")
  end.

Definition event_types_body : pyval :=
  PDict [("event_types", PList [PDict [("id", PInt 7); ("length", PInt 30)]])].

Definition slots_body : pyval :=
  PDict [("slots",
          PDict [("2024-03-14",
                  PList [PDict [("time", PStr "2024-03-14T14:30:00.000Z")];
                         PDict [("time", PStr "soon")];
                         PStr "closed"]);
                 ("note", PStr "none")])].

(** Readings of [Attendee] and [Booking] from a mapping. *)
Definition Attendee_ (v : pyval) : result Attendee.t :=
  match v with
  | PDict d =>
      match Py.assoc "email" d, Py.assoc "name" d with
      | Some (PStr e), Some (PStr n) => inr (Attendee.mk e n None)
      | _, _ => inl (Exn OtherError "validation error for Attendee")
      end
  | _ => inl (Exn TypeError "argument after ** must be a mapping")
  end.

Definition Booking_ (v : pyval) : result Booking.t :=
  match v with
  | PDict d =>
      match Py.assoc "id" d, Py.assoc "uid" d, Py.assoc "title" d, Py.assoc "startTime" d,
            Py.assoc "endTime" d, Py.assoc "status" d, Py.assoc "attendees" d,
            Py.assoc "eventTypeId" d with
      | Some (PInt i), Some (PStr u), Some (PStr t), Some s, Some e, Some (PStr st),
        Some (PList l), Some (PInt k) =>
          start_time ← py_fromisoformat s;
          end_time ← py_fromisoformat e;
          attendees ← traverse Attendee_ l;
          mret (Booking.mk i u t None start_time end_time st attendees k)
      | _, _, _, _, _, _, _, _ => inl (Exn OtherError "validation error for Booking")
      end
  | _ => inl (Exn TypeError "argument after ** must be a mapping")
  end.

Definition booking_entry (i : Z) (uid email name : string) : pyval :=
  PDict [("id", PInt i); ("uid", PStr uid); ("title", PStr "Meeting");
         ("startTime", PStr "2024-03-14T14:30:00+00:00");
         ("endTime", PStr "2024-03-14T15:00:00+00:00");
         ("status", PStr "ACCEPTED");
         ("attendees", PList [PDict [("email", PStr email); ("name", PStr name)]]);
         ("eventTypeId", PInt 7)].

Definition booking_of (i : Z) (uid email name : string) : Booking.t :=
  Booking.mk i uid "Meeting" None (DateTime.mk 738959 14 30 0 0 (Some 0))
    (DateTime.mk 738959 15 0 0 0 (Some 0)) "ACCEPTED" [Attendee.mk email name None] 7.

Definition bookings_body : pyval :=
  PDict [("bookings",
          PList [booking_entry 1 "b-1" "ada@example.com" "Ada";
                 booking_entry 2 "b-2" "bob@example.com" "Bob";
                 booking_entry 3 "b-3" "ADA@example.com" "Ada"])].

(** The network answers by the address of the last request; the first
    booking posted finds no user available. *)
Definition transport (l : list Http.request) : Http.answer :=
  match last l with
  | Some r =>
      if String.eqb (Http.url r) "https://api.cal.com/v1/event-types"
      then Http.Json event_types_body
      else if String.eqb (Http.url r) "https://api.cal.com/v1/slots"
      then Http.Json slots_body
      else if String.eqb (Http.url r) "https://api.cal.com/v1/bookings"
      then
        if String.eqb (Http.method r) "GET" then Http.Json bookings_body
        else if (length l <=? 1)%nat
        then Http.HTTPStatusError 400 "{'message': 'no_available_users_found_error'}"
        else Http.Json (PDict [("booking", booking_entry 4 "b-4" "ada@example.com" "Ada")])
      else Http.HTTPStatusError 404 "not found"
  | None => Http.RequestError "nothing was asked"
  end.

Definition day : DateTime.datetime := DateTime.mk 738959 0 0 0 0 None.

Definition day_end : DateTime.datetime := DateTime.mk 738959 23 59 59 0 None.

End Office.


(** The failure of a booking request that makes [book_event] try again:
    an error of the calendar whose details, written out, mention that no
    user is available. *)
Definition asks_retry (r : raised + pyval) : bool :=
  match r with
  | inl (App AppClass.CalComAPIError _ _ details) =>
      PyStr.contains "no_available_users_found_error" (Py.str (PDict details))
  | _ => false
  end.

(** A step without requests, as it ends inside the service. *)
Definition lifted {A : Type} (r : result A) : raised + A :=
  match r with
  | inr a => inr a
  | inl e => inl (Other e)
  end.


(** The parameters of the bookings request, before the key is added: only
    what is given and not empty. *)
Definition bookings_params (email : pyval) (start_date end_date : option DateTime.datetime)
  (status : pyval) : list (string * pyval) :=
  ((if Py.truthy email then [("email", email)] else [])
   ++ match start_date with
      | Some d => [("startDate", PStr (DateTime.isoformat d))]
      | None => []
      end
   ++ match end_date with
      | Some d => [("endDate", PStr (DateTime.isoformat d))]
      | None => []
      end
   ++ (if Py.truthy status then [("status", status)] else []))%list.

(** The bookings read from the answer to the bookings request. *)
Definition bookings_of (Booking_ : pyval -> result Booking.t) (response : pyval)
  : result (list Booking.t) :=
  bookings ← PyOps.get_default response "bookings" (PList []);
  bookings ← PyOps.iter bookings;
  traverse Booking_ bookings.

(** One of the attendees of a booking has this address, letter case
    apart. *)
Definition attends (email : string) (b : Booking.t) : bool :=
  existsb (fun a => String.eqb (PyStr.lower (Attendee.email a)) (PyStr.lower email))
    (Booking.attendees b).

(** *** Logging, errors and the endpoints of the calendar *)

(** The value found by following keys through nested mappings. *)
Fixpoint reach (path : list string) (v : pyval) : option pyval :=
  match path with
  | [] => Some v
  | k :: rest =>
      match v with
      | PDict d =>
          match Py.assoc k d with
          | Some x => reach rest x
          | None => None
          end
      | _ => None
      end
  end.

(** The error of the two endpoints that look a booking up first. *)
Definition not_found (booking_id : string) : raised :=
  App AppClass.NotFoundError ("Booking with ID " ++ booking_id ++ " not found") 404
    [("booking_id", PStr booking_id)].

(** The requests that cancel and reschedule a booking. *)
Definition cancel_request (api_key : string) (timeout_seconds : Z) (booking_id : string)
  (reason : option string) : Http.request :=
  request_of api_key timeout_seconds "DELETE" ("bookings/" ++ booking_id) []
    (match reason with
     | Some (String c r) => PDict [("reason", PStr (String c r))]
     | _ => PDict []
     end).

Definition reschedule_request (api_key : string) (timeout_seconds : Z) (booking_id : string)
  (start_time end_time : DateTime.datetime) (reason : option string) : Http.request :=
  request_of api_key timeout_seconds "PATCH" ("bookings/" ++ booking_id) []
    (PDict ([("start", PStr (DateTime.isoformat start_time));
             ("end", PStr (DateTime.isoformat end_time))]
            ++ match reason with
               | Some (String c r) => [("reason", PStr (String c r))]
               | _ => []
               end)%list).

(** A request that only reads. *)
Definition is_get (r : Http.request) : Prop := Http.method r = "GET".


(** Every failure of a computation has the property [P]. *)
Definition fails_only {A : Type} (P : raised -> Prop) (m : IO A) : Prop :=
  forall l e, fst (m l) = inl e -> P e.

(** What the service raises: an error of the calendar, or an exception
    that is none of the application. *)
Definition service_failure (e : raised) : Prop :=
  match e with
  | App cls _ _ _ => cls = AppClass.CalComAPIError
  | Other _ => True
  end.

(** What an endpoint of the calendar raises: an exception of the
    application, with the status code of its class. *)
Definition endpoint_failure (e : raised) : Prop :=
  match e with
  | App AppClass.AppException _ status_code details => status_code = 500 /\ details = []
  | App AppClass.NotFoundError _ status_code _ => status_code = 404
  | App AppClass.ValidationError _ status_code _ => status_code = 400
  | App AppClass.CalComAPIError _ _ _ => True
  | _ => False
  end.


(** What is raised inside an endpoint, before its [except] clauses: a
    failure of the service, or a refusal of the endpoint itself. *)
Definition inner_failure (e : raised) : Prop :=
  service_failure e \/ endpoint_failure e.

(** The entries of a listing, booking by booking: [get booking] looks up
    the event of a booking. A booking whose event is had gives the entry
    of that event, a booking whose lookup fails gives none, and the
    lookups follow one another in the order of the bookings, each one
    after the requests of those before it. *)
Inductive fetched (get : Booking.t -> IO Event.t)
  : list Booking.t -> list Http.request -> list EventEntry.t -> list Http.request -> Prop :=
| fetched_none (l : list Http.request) : fetched get [] l [] l
| fetched_had (booking : Booking.t) (rest : list Booking.t) (l l1 l2 : list Http.request)
    (event : Event.t) (entries : list EventEntry.t) :
    get booking l = (inr event, l1) ->
    fetched get rest l1 entries l2 ->
    fetched get (booking :: rest) l
      (EventEntry.mk (Event.uid event) (Event.title event) (Event.description event)
         (Event.start_time event) (Event.end_time event) (Event.status event)
         (Event.attendees event) :: entries) l2
| fetched_left_out (booking : Booking.t) (rest : list Booking.t)
    (l l1 l2 : list Http.request) (e : raised) (entries : list EventEntry.t) :
    get booking l = (inl e, l1) ->
    fetched get rest l1 entries l2 ->
    fetched get (booking :: rest) l entries l2.

(** ** Text lemmas *)

Lemma append_nil_l (s : string) : (EmptyString ++ s)%string = s.
Proof. reflexivity. Qed.

Lemma append_cons (c : ascii) (a b : string) :
  (String c a ++ b)%string = String c (a ++ b)%string.
Proof. reflexivity. Qed.

Ltac sapp := rewrite ?append_cons, ?append_nil_l.
Ltac sapp_in H := rewrite ?append_cons, ?append_nil_l in H.

Lemma append_nil_r (s : string) : (s ++ EmptyString)%string = s.
Proof. induction s as [|c s IH]; sapp; [reflexivity | now rewrite IH]. Qed.

Lemma append_assoc (a b c : string) : ((a ++ b) ++ c)%string = (a ++ (b ++ c))%string.
Proof. induction a as [|x a IH]; sapp; [reflexivity | now rewrite IH]. Qed.

Lemma startswith_spec (p s : string) :
  PyStr.startswith p s = true <-> exists post, s = (p ++ post)%string.
Proof.
  revert s. induction p as [|a p IH]; intros s; simpl.
  - split; [intros _; now exists s | reflexivity].
  - destruct s as [|b s].
    + split; [discriminate | intros [post H]; sapp_in H; discriminate].
    + destruct (Ascii.eqb_spec a b) as [->|Hne].
      * rewrite IH. split; intros [post H]; exists post.
        -- sapp. now rewrite H.
        -- sapp_in H. now inversion H.
      * split; [discriminate | intros [post H]; sapp_in H; congruence].
Qed.

Lemma contains_spec (needle hay : string) :
  PyStr.contains needle hay = true <-> substring_of needle hay.
Proof.
  unfold substring_of. induction hay as [|c hay IH]; simpl.
  - rewrite orb_false_r, startswith_spec. split.
    + intros [post H]. now exists EmptyString, post.
    + intros [pre [post H]]. destruct pre; sapp_in H; [now exists post | discriminate].
  - rewrite orb_true_iff, startswith_spec, IH. split.
    + intros [[post H] | [pre [post H]]].
      * now exists EmptyString, post.
      * exists (String c pre), post. sapp. now rewrite H.
    + intros [[|x pre] [post H]]; sapp_in H.
      * left. now exists post.
      * right. inversion H. now exists pre, post.
Qed.

Lemma lower_app (a b : string) :
  PyStr.lower (a ++ b) = (PyStr.lower a ++ PyStr.lower b)%string.
Proof. induction a as [|c a IH]; sapp; simpl; sapp; [reflexivity | now rewrite IH]. Qed.

Lemma lower_split (s a b : string) :
  PyStr.lower s = (a ++ b)%string ->
  exists s1 s2, s = (s1 ++ s2)%string /\ PyStr.lower s1 = a /\ PyStr.lower s2 = b.
Proof.
  revert s. induction a as [|x a IH]; intros s H; sapp_in H.
  - exists EmptyString, s. auto.
  - destruct s as [|c s]; simpl in H; [discriminate |].
    inversion H as [[Hc Hs]]. destruct (IH _ Hs) as (s1 & s2 & -> & H1 & H2).
    exists (String c s1), s2. sapp. simpl. rewrite H1. auto.
Qed.
(** A lowercase needle is found in the lowered text exactly when it occurs
    in the text up to case. *)
Lemma contains_lower_spec (kw message : string) :
  PyStr.lower kw = kw ->
  PyStr.contains kw (PyStr.lower message) = true <-> ci_substring kw message.
Proof.
  intros Hkw. rewrite contains_spec. unfold substring_of, ci_substring. split.
  - intros (pre & post & H).
    destruct (lower_split _ _ _ H) as (s1 & s23 & -> & H1 & H23).
    destruct (lower_split _ _ _ H23) as (s2 & s3 & -> & H2 & H3).
    exists s1, s2, s3. split; [reflexivity | now rewrite Hkw].
  - intros (pre & mid & post & -> & Hmid).
    exists (PyStr.lower pre), (PyStr.lower post).
    rewrite !lower_app, Hmid, Hkw. reflexivity.
Qed.

Lemma booking_keywords_lower (kw : string) :
  In kw booking_keywords -> PyStr.lower kw = kw.
Proof.
  unfold booking_keywords. simpl.
  intros [<- | [<- | [<- | [<- | [<- | []]]]]]; reflexivity.
Qed.

Lemma is_booking_request_spec (message : string) :
  is_booking_request message = true <-> has_booking_keyword message.
Proof.
  unfold is_booking_request, has_booking_keyword. rewrite existsb_exists. split.
  - intros (kw & Hin & H). exists kw. split; [exact Hin |].
    now apply contains_lower_spec; [apply booking_keywords_lower |].
  - intros (kw & Hin & H). exists kw. split; [exact Hin |].
    now apply contains_lower_spec; [apply booking_keywords_lower |].
Qed.

Lemma auto_booking_triggered_spec (function_name message : string) :
  auto_booking_triggered function_name message = true
  <-> function_name = "get_available_slots" /\ has_booking_keyword message.
Proof.
  unfold auto_booking_triggered.
  rewrite andb_true_iff, String.eqb_eq, is_booking_request_spec. reflexivity.
Qed.

(** ** Unfolding computations *)

Ltac munfold :=
  unfold mbind, mret, M_bind, M_ret, result_bind, result_ret,
    lift, call_total, call, raise, try_except,
    get_sessions, put_sessions, get_system_prompt in *.

Lemma bind_run {A B : Type} (m : M A) (f : A -> M B) (w : World) :
  (x ← m; f x) w
  = match m w with
    | (inr a, w') => f a w'
    | (inl e, w') => (inl e, w')
    end.
Proof. reflexivity. Qed.

Lemma bind_run_inr {A B : Type} (m : M A) (f : A -> M B) (w w' : World) (a : A) :
  m w = (inr a, w') -> (x ← m; f x) w = f a w'.
Proof. intros H. rewrite bind_run, H. reflexivity. Qed.

Lemma bind_run_inl {A B : Type} (m : M A) (f : A -> M B) (w w' : World) (e : exn) :
  m w = (inl e, w') -> (x ← m; f x) w = (inl e, w').
Proof. intros H. rewrite bind_run, H. reflexivity. Qed.

Lemma try_except_run {A : Type} (m : M A) (h : exn -> M A) (w : World) :
  try_except m h w
  = match m w with
    | (inr a, w') => (inr a, w')
    | (inl e, w') => h e w'
    end.
Proof. reflexivity. Qed.

(** The extraction through the completion adapter never gets as far as the
    endpoint: the adapter reads [function.name] on the mapping that
    describes [extract_datetime], the [AttributeError] comes back as an
    [OpenAIAPIError], and the helper turns that into [None]. *)
Lemma chat_completion_dict_functions (env : Env) (messages : list ChatMessage.t)
  (d : pyval) (rest : list fn_arg) (temperature : Z) (w : World) :
  chat_completion env messages (FnDict d :: rest) temperature w
  = (inl (Exn OpenAIAPIError
            ("OpenAI API error: '" ++ PyOps.type_name d
             ++ "' object has no attribute 'name'")), w).
Proof. reflexivity. Qed.

Lemma parse_date_with_llm_none (env : Env) (date_str : string) (w : World) :
  parse_date_with_llm env date_str w = (inr None, w).
Proof. reflexivity. Qed.

Lemma with_response_id (chat_response : ChatResponse.t) :
  with_response chat_response (ChatResponse.response chat_response) = chat_response.
Proof. destruct chat_response; reflexivity. Qed.

(** ** The results stage *)

Lemma include_function_results_found (env : Env) (request : ChatRequest.t)
  (response : ServiceResponse.t) (chat_response : ChatResponse.t)
  (first : FunctionCall.t) (rest : list FunctionCall.t) (results : gmap string pyval)
  (result : pyval) :
  ServiceResponse.function_calls response = Some (first :: rest) ->
  ServiceResponse.function_results response = Some results ->
  results !! FunctionCall.name first = Some result ->
  include_function_results env request response chat_response
  = if auto_booking_triggered (FunctionCall.name first) (ChatRequest.message request)
    then auto_book env request result (with_response chat_response (Py.str result))
    else mret (with_response chat_response (Py.str result)).
Proof.
  intros Hc Hr Hl. unfold include_function_results. rewrite Hr, Hc, Hl.
  case_bool_decide as He; [subst results; rewrite lookup_empty in Hl; discriminate |].
  reflexivity.
Qed.

Lemma include_function_results_triggered (env : Env) (request : ChatRequest.t)
  (response : ServiceResponse.t) (chat_response : ChatResponse.t) (result : pyval) :
  slots_result_echoed response result ->
  has_booking_keyword (ChatRequest.message request) ->
  include_function_results env request response chat_response
  = auto_book env request result (with_response chat_response (Py.str result)).
Proof.
  intros (first & rest & results & Hc & Hr & Hl & Hn) Hkw.
  rewrite (include_function_results_found _ _ _ _ _ _ _ _ Hc Hr Hl).
  assert (Ht : auto_booking_triggered (FunctionCall.name first)
                 (ChatRequest.message request) = true)
    by (apply auto_booking_triggered_spec; auto).
  now rewrite Ht.
Qed.

Lemma include_function_results_not_triggered (env : Env) (request : ChatRequest.t)
  (response : ServiceResponse.t) (chat_response : ChatResponse.t) :
  ~ has_booking_keyword (ChatRequest.message request)
  \/ ~ (exists result, slots_result_echoed response result) ->
  forall w, exists text,
    include_function_results env request response chat_response w
    = (inr (with_response chat_response text), w).
Proof.
  intros Hno w. unfold include_function_results.
  destruct (ServiceResponse.function_results response) as [results|] eqn:Hr;
    [| exists (ChatResponse.response chat_response); now rewrite with_response_id].
  case_bool_decide as He;
    [exists (ChatResponse.response chat_response); now rewrite with_response_id |].
  destruct (ServiceResponse.function_calls response) as [[|first rest]|] eqn:Hc;
    try (exists (ChatResponse.response chat_response); now rewrite with_response_id).
  destruct (results !! FunctionCall.name first) as [result|] eqn:Hl;
    [| exists (ChatResponse.response chat_response); now rewrite with_response_id].
  destruct (auto_booking_triggered (FunctionCall.name first)
              (ChatRequest.message request)) eqn:Ht.
  - apply auto_booking_triggered_spec in Ht as [Hn Hkw].
    exfalso. destruct Hno as [Hno | Hno]; [now apply Hno |].
    apply Hno. exists result, first, rest, results. auto.
  - exists (Py.str result). reflexivity.
Qed.

(** ** C2: which slot is booked *)

Lemma py_eqb_str (s : string) (v : pyval) : Py.eqb (PStr s) v = true <-> v = PStr s.
Proof.
  destruct v; simpl; try (split; [discriminate | intros H; discriminate]).
  rewrite String.eqb_eq. split; [intros -> | intros [= ->]]; reflexivity.
Qed.

Lemma slot_fields_get (slot : pyval) (date start : string) :
  slot_fields slot date start ->
  PyOps.get slot "date" = inr (PStr date)
  /\ PyOps.get slot "start" = inr (PStr start)
  /\ Py.truthy slot = true.
Proof.
  intros (d & -> & Hd & Hs). unfold PyOps.get, PyOps.get_default.
  rewrite Hd, Hs. repeat split. destruct d; [discriminate | reflexivity].
Qed.

Lemma slot_fields_fun (slot : pyval) (d1 s1 d2 s2 : string) :
  slot_fields slot d1 s1 -> slot_fields slot d2 s2 -> d1 = d2 /\ s1 = s2.
Proof.
  intros (d & -> & Hd & Hs) (d' & [= <-] & Hd' & Hs'). split; congruence.
Qed.

Lemma date_match_dec (target_date slot : pyval) (date start : string) :
  slot_fields slot date start ->
  (Py.eqb (PStr date) target_date = true <-> date_match target_date slot).
Proof.
  intros Hf. rewrite py_eqb_str. split.
  - intros ->. now exists date, start.
  - intros (d' & s' & Hf' & ->). destruct (slot_fields_fun _ _ _ _ _ Hf Hf') as [-> _].
    reflexivity.
Qed.

Lemma exact_match_dec (target_date : pyval) (target_time : string) (slot : pyval)
  (date start : string) :
  slot_fields slot date start ->
  (Py.eqb (PStr date) target_date && PyStr.contains target_time start = true
   <-> exact_match target_date target_time slot).
Proof.
  intros Hf. rewrite andb_true_iff, py_eqb_str, contains_spec. split.
  - intros [-> Hc]. now exists date, start.
  - intros (d' & s' & Hf' & -> & Hc).
    destruct (slot_fields_fun _ _ _ _ _ Hf Hf') as [-> ->]. auto.
Qed.

Lemma available_slots_well_formed (slots : list pyval) :
  Forall well_formed_slot slots -> exists l, available_slots slots = inr l.
Proof.
  induction 1 as [|slot rest (date & start & Hf) _ [l IH]]; simpl.
  - now exists [].
  - destruct (slot_fields_get _ _ _ Hf) as (Hd & Hs & _).
    rewrite Hd, Hs, IH. munfold. eauto.
Qed.

Lemma exact_slot_step (target_date : pyval) (target_time : string) (slot : pyval)
  (rest : list pyval) (date start : string) :
  slot_fields slot date start ->
  exact_slot target_date target_time (slot :: rest)
  = if Py.eqb (PStr date) target_date && PyStr.contains target_time start
    then inr slot else exact_slot target_date target_time rest.
Proof.
  intros Hf. destruct (slot_fields_get _ _ _ Hf) as (Hd & Hs & _).
  cbn [exact_slot]. rewrite Hd. munfold. cbv beta iota.
  destruct (Py.eqb (PStr date) target_date); cbn [andb]; [| reflexivity].
  rewrite Hs. cbn [PyOps.str_in].
  destruct (PyStr.contains target_time start); reflexivity.
Qed.

Lemma exact_slot_none (target_date : pyval) (target_time : string) (slots : list pyval) :
  Forall well_formed_slot slots ->
  (forall y, In y slots -> ~ exact_match target_date target_time y) ->
  exact_slot target_date target_time slots = inr PNone.
Proof.
  induction 1 as [|slot rest (date & start & Hf) _ IH]; intros Hno; [reflexivity |].
  rewrite (exact_slot_step _ _ _ _ _ _ Hf).
  destruct (Py.eqb (PStr date) target_date && PyStr.contains target_time start) eqn:E.
  - exfalso. apply (Hno slot); [now left |]. now apply (exact_match_dec _ _ _ _ _ Hf).
  - apply IH. intros y Hy. apply Hno. now right.
Qed.

Lemma exact_slot_first (target_date : pyval) (target_time : string)
  (slots : list pyval) (s : pyval) :
  Forall well_formed_slot slots ->
  first_such (exact_match target_date target_time) slots s ->
  exact_slot target_date target_time slots = inr s.
Proof.
  intros Hwf (pre & post & -> & Hs & Hpre).
  induction pre as [|y pre IH]; simpl app in *.
  - inversion Hwf as [|? ? (date & start & Hf) _]; subst.
    rewrite (exact_slot_step _ _ _ _ _ _ Hf).
    apply (exact_match_dec _ _ _ _ _ Hf) in Hs. now rewrite Hs.
  - inversion Hwf as [|? ? (date & start & Hf) Hwf']; subst.
    rewrite (exact_slot_step _ _ _ _ _ _ Hf).
    destruct (Py.eqb (PStr date) target_date && PyStr.contains target_time start) eqn:E.
    + exfalso. apply (Hpre y); [now left |]. now apply (exact_match_dec _ _ _ _ _ Hf).
    + apply IH; [exact Hwf' |]. intros z Hz. apply Hpre. now right.
Qed.

Lemma date_matches_step (target_date slot : pyval) (rest : list pyval)
  (date start : string) :
  slot_fields slot date start ->
  date_matches target_date (slot :: rest)
  = match date_matches target_date rest with
    | inl e => inl e
    | inr r => inr (if Py.eqb (PStr date) target_date then slot :: r else r)
    end.
Proof.
  intros Hf. destruct (slot_fields_get _ _ _ Hf) as (Hd & _ & _).
  cbn [date_matches]. rewrite Hd. munfold. cbv beta iota.
  destruct (date_matches target_date rest); reflexivity.
Qed.

Lemma date_matches_none (target_date : pyval) (slots : list pyval) :
  Forall well_formed_slot slots ->
  (forall y, In y slots -> ~ date_match target_date y) ->
  date_matches target_date slots = inr [].
Proof.
  induction 1 as [|slot rest (date & start & Hf) _ IH]; intros Hno; [reflexivity |].
  rewrite (date_matches_step _ _ _ _ _ Hf), IH by (intros y Hy; apply Hno; now right).
  destruct (Py.eqb (PStr date) target_date) eqn:E; [| reflexivity].
  exfalso. apply (Hno slot); [now left |]. now apply (date_match_dec _ _ _ _ Hf).
Qed.

Lemma date_matches_total (target_date : pyval) (slots : list pyval) :
  Forall well_formed_slot slots -> exists r, date_matches target_date slots = inr r.
Proof.
  induction 1 as [|slot rest (date & start & Hf) _ [r IH]]; [now exists [] |].
  rewrite (date_matches_step _ _ _ _ _ Hf), IH. eauto.
Qed.

Lemma date_matches_first (target_date : pyval) (slots : list pyval) (s : pyval) :
  Forall well_formed_slot slots ->
  first_such (date_match target_date) slots s ->
  exists r, date_matches target_date slots = inr (s :: r).
Proof.
  intros Hwf (pre & post & -> & Hs & Hpre).
  induction pre as [|y pre IH]; simpl app in *.
  - inversion Hwf as [|? ? (date & start & Hf) Hwf']; subst.
    destruct (date_matches_total target_date post Hwf') as [r Hr].
    rewrite (date_matches_step _ _ _ _ _ Hf), Hr.
    apply (date_match_dec _ _ _ _ Hf) in Hs. rewrite Hs. eauto.
  - inversion Hwf as [|? ? (date & start & Hf) Hwf']; subst.
    destruct IH as [r Hr]; [exact Hwf' | intros z Hz; apply Hpre; now right |].
    rewrite (date_matches_step _ _ _ _ _ Hf), Hr.
    destruct (Py.eqb (PStr date) target_date) eqn:E; [| eauto].
    exfalso. apply (Hpre y); [now left |]. now apply (date_match_dec _ _ _ _ Hf).
Qed.

Lemma find_target_slot_exact (target_date : pyval) (target_time : string)
  (slots : list pyval) (s : pyval) :
  Forall well_formed_slot slots ->
  first_such (exact_match target_date target_time) slots s ->
  find_target_slot target_date target_time slots = inr s.
Proof.
  intros Hwf Hs. unfold find_target_slot.
  destruct (available_slots_well_formed _ Hwf) as [l Hl].
  rewrite Hl, (exact_slot_first _ _ _ _ Hwf Hs). munfold.
  destruct Hs as (pre & post & -> & (date & start & Hf & _) & _).
  destruct (slot_fields_get _ _ _ Hf) as (_ & _ & Ht). now rewrite Ht.
Qed.

Lemma find_target_slot_same_day (target_date : pyval) (target_time : string)
  (slots : list pyval) (s : pyval) :
  Forall well_formed_slot slots ->
  (forall y, In y slots -> ~ exact_match target_date target_time y) ->
  first_such (date_match target_date) slots s ->
  find_target_slot target_date target_time slots = inr s.
Proof.
  intros Hwf Hno Hs. unfold find_target_slot.
  destruct (available_slots_well_formed _ Hwf) as [l Hl].
  destruct (date_matches_first _ _ _ Hwf Hs) as [r Hr].
  rewrite Hl, (exact_slot_none _ _ _ Hwf Hno). munfold. simpl. now rewrite Hr.
Qed.

Lemma find_target_slot_none (target_date : pyval) (target_time : string)
  (slots : list pyval) :
  Forall well_formed_slot slots ->
  (forall y, In y slots -> ~ date_match target_date y) ->
  find_target_slot target_date target_time slots = inr PNone.
Proof.
  intros Hwf Hno. unfold find_target_slot.
  destruct (available_slots_well_formed _ Hwf) as [l Hl].
  rewrite Hl, exact_slot_none, (date_matches_none _ _ Hwf Hno); [reflexivity | exact Hwf |].
  intros y Hy (date & start & Hf & Hd & _). apply (Hno y Hy). now exists date, start.
Qed.

(** ** The auto-booking block *)

Lemma pure_ret {A : Type} (a : A) : pure_M (mret a).
Proof. intros w. now exists (inr a). Qed.

Lemma pure_lift {A : Type} (r : result A) : pure_M (lift r).
Proof. intros w. now exists r. Qed.

Lemma pure_bind {A B : Type} (m : M A) (f : A -> M B) :
  pure_M m -> (forall a, pure_M (f a)) -> pure_M (x ← m; f x).
Proof.
  intros Hm Hf w. rewrite bind_run.
  destruct (Hm w) as [[e|a] ->]; [now exists (inl e) |]. apply Hf.
Qed.

Lemma pure_parse_date (env : Env) (s : string) : pure_M (parse_date_with_llm env s).
Proof. intros w. now exists (inr None). Qed.

Ltac pure_step :=
  match goal with
  | |- pure_M (mbind _ _) => apply pure_bind; [| intros ?]
  | |- pure_M (lift _) => apply pure_lift
  | |- pure_M (mret _) => apply pure_ret
  | |- pure_M (parse_date_with_llm _ _) => apply pure_parse_date
  | |- pure_M (match ?x with _ => _ end) => destruct x
  end.

(** Choosing the slot makes no call. *)
Lemma plan_booking_pure (env : Env) (request : ChatRequest.t) (slots_data : pyval) :
  pure_M (plan_booking env request slots_data).
Proof. unfold plan_booking. repeat pure_step. Qed.

Ltac step_in H :=
  rewrite ?parse_date_with_llm_none in H;
  cbv beta iota in H;
  match type of H with
  | context [match ?x with _ => _ end] =>
      let E := fresh "E" in destruct x eqn:E; try discriminate H
  end.

(** What a plan records. *)
Lemma plan_booking_some (env : Env) (request : ChatRequest.t) (slots_data : pyval)
  (w w' : World) (p : BookingPlan.t) :
  plan_booking env request slots_data w = (inr (Some p), w') ->
  exists slots name_match email_match,
    (s ← PyOps.get_default slots_data "slots" (PList []); PyOps.iter s) = inr slots
    /\ Re.search Re.name_re (ChatRequest.message request) = Some name_match
    /\ Re.search Re.email_re (ChatRequest.message request) = Some email_match
    /\ BookingPlan.name p = PyStr.strip (Re.group 1 name_match)
    /\ BookingPlan.email p = Re.group 1 email_match
    /\ PyOps.get slots_data "event_type_id" = inr (BookingPlan.event_type_id p)
    /\ resolve_target (ChatRequest.message request) None
       = inr (BookingPlan.target_date p, Some (BookingPlan.target_time p))
    /\ find_target_slot (BookingPlan.target_date p) (BookingPlan.target_time p) slots
       = inr (BookingPlan.target_slot p)
    /\ Py.truthy (BookingPlan.target_slot p) = true.
Proof.
  unfold plan_booking. intros H. munfold.
  repeat step_in H.
  inversion H; subst; clear H. cbn.
  match goal with
  | E1 : Re.search Re.name_re _ = Some ?a, E2 : Re.search Re.email_re _ = Some ?b,
    E3 : _ = inr ?l, E4 : negb (Py.truthy ?t) = false |- _ =>
      exists l, a, b; repeat split; auto; now destruct (Py.truthy t)
  end.
Qed.

Lemma auto_book_run (env : Env) (request : ChatRequest.t) (slots_data : pyval)
  (chat_response : ChatResponse.t) (w : World) :
  auto_book env request slots_data chat_response w
  = match plan_booking env request slots_data w with
    | (inr (Some p), w') => book_planned env p chat_response w'
    | (inr None, w') => (inr chat_response, w')
    | (inl e, w') => (inl e, w')
    end.
Proof.
  unfold auto_book. rewrite bind_run.
  destruct (plan_booking env request slots_data w) as [[e|[p|]] w']; reflexivity.
Qed.

Lemma book_planned_cases (env : Env) (p : BookingPlan.t) (chat_response : ChatResponse.t)
  (w w' : World) (r : result ChatResponse.t) :
  book_planned env p chat_response w = (r, w') ->
  (exists e, r = inl e /\ w' = w)
  \/ (exists start_time end_time,
        log w' = (log w ++ [booking_call p start_time end_time])%list
        /\ sessions w' = sessions w
        /\ r = match book_event env (log w') with
               | inr booking => inr (booked_response p chat_response booking)
               | inl e => inl e
               end).
Proof.
  unfold book_planned. intros H. munfold.
  repeat step_in H; inversion H; subst; clear H; cbn;
    try (left; eexists; split; reflexivity).
  - right. eexists _, _. repeat split. cbn.
    match goal with E : book_event _ _ = _ |- _ => cbn in E; rewrite E end. reflexivity.
  - right. eexists _, _. repeat split. cbn.
    match goal with E : book_event _ _ = _ |- _ => cbn in E; rewrite E end. reflexivity.
Qed.

Lemma plan_booking_no_date_match (env : Env) (request : ChatRequest.t)
  (d : list (string * pyval)) (slots : list pyval) (target_date : pyval)
  (target_time : string) (w : World) :
  Py.assoc "slots" d = Some (PList slots) ->
  Forall well_formed_slot slots ->
  resolve_target (ChatRequest.message request) None = inr (target_date, Some target_time) ->
  (forall y, In y slots -> ~ date_match target_date y) ->
  plan_booking env request (PDict d) w = (inr None, w).
Proof.
  intros Hs Hwf Hres Hno.
  unfold plan_booking, PyOps.get, PyOps.get_default. rewrite Hs.
  munfold. cbv beta iota. cbn [Py.truthy PyOps.len PyOps.iter].
  destruct slots as [|s0 slots']; [reflexivity |].
  cbv beta iota.
  replace (0 <? Z.of_nat (length (s0 :: slots'))) with true
    by (symmetry; apply Z.ltb_lt; simpl length; lia).
  cbn [negb].
  destruct (Re.search Re.name_re (ChatRequest.message request)); [| reflexivity].
  destruct (Re.search Re.email_re (ChatRequest.message request)); [| reflexivity].
  destruct (negb _); [reflexivity |].
  rewrite parse_date_with_llm_none. cbv beta iota. rewrite Hres.
  destruct (negb _); [reflexivity |].
  rewrite (find_target_slot_none _ _ _ Hwf Hno). reflexivity.
Qed.

(** A slot that the search returns becomes the slot of the plan. *)
Lemma plan_booking_selected (env : Env) (request : ChatRequest.t)
  (d : list (string * pyval)) (slots : list pyval) (target_date : pyval)
  (target_time : string) (s : pyval) (name_match email_match : list string) (w : World) :
  Py.assoc "slots" d = Some (PList slots) ->
  Py.truthy (arg d "event_type_id") = true ->
  Re.search Re.name_re (ChatRequest.message request) = Some name_match ->
  Re.search Re.email_re (ChatRequest.message request) = Some email_match ->
  resolve_target (ChatRequest.message request) None = inr (target_date, Some target_time) ->
  Py.truthy target_date = true ->
  target_time <> EmptyString ->
  find_target_slot target_date target_time slots = inr s ->
  Py.truthy s = true ->
  plan_booking env request (PDict d) w
  = (inr (Some (BookingPlan.mk (arg d "event_type_id")
                  (PyStr.strip (Re.group 1 name_match)) (Re.group 1 email_match)
                  target_date target_time s)), w).
Proof.
  intros Hs Heid Hn He Hres Htd Htt Hfind Hts.
  assert (Hne : slots <> []).
  { intros ->. cbn in Hfind. inversion Hfind; subst s. discriminate Hts. }
  unfold plan_booking, PyOps.get, PyOps.get_default. rewrite Hs.
  change (match Py.assoc "event_type_id" d with Some v => v | None => PNone end)
    with (arg d "event_type_id").
  munfold. cbv beta iota. cbn [Py.truthy PyOps.len PyOps.iter].
  destruct slots as [|s0 slots']; [contradiction |].
  cbv beta iota.
  replace (0 <? Z.of_nat (length (s0 :: slots'))) with true
    by (symmetry; apply Z.ltb_lt; simpl length; lia).
  cbn [negb]. rewrite Hn, He, Heid. cbn [negb].
  rewrite parse_date_with_llm_none. cbv beta iota. rewrite Hres, Htd.
  apply String.eqb_neq in Htt. rewrite Htt. cbn [negb andb].
  rewrite Hfind, Hts. reflexivity.
Qed.

(** An exception of the reading of date and time leaves the first half of
    the block as it is, before any slot is looked at. *)
Lemma plan_booking_target_fails (env : Env) (request : ChatRequest.t)
  (d : list (string * pyval)) (slots : list pyval) (name_match email_match : list string)
  (e : exn) (w : World) :
  Py.assoc "slots" d = Some (PList slots) ->
  slots <> [] ->
  Py.truthy (arg d "event_type_id") = true ->
  Re.search Re.name_re (ChatRequest.message request) = Some name_match ->
  Re.search Re.email_re (ChatRequest.message request) = Some email_match ->
  resolve_target (ChatRequest.message request) None = inl e ->
  plan_booking env request (PDict d) w = (inl e, w).
Proof.
  intros Hs Hne Heid Hn He Hres.
  unfold plan_booking, PyOps.get, PyOps.get_default. rewrite Hs.
  change (match Py.assoc "event_type_id" d with Some v => v | None => PNone end)
    with (arg d "event_type_id").
  munfold. cbv beta iota. cbn [Py.truthy PyOps.len PyOps.iter].
  destruct slots as [|s0 slots']; [contradiction |].
  cbv beta iota.
  replace (0 <? Z.of_nat (length (s0 :: slots'))) with true
    by (symmetry; apply Z.ltb_lt; simpl length; lia).
  cbn [negb]. rewrite Hn, He, Heid. cbn [negb].
  rewrite parse_date_with_llm_none. cbv beta iota. rewrite Hres. reflexivity.
Qed.

(** ** C1: when auto-booking is attempted *)


(** ** The request as a whole *)

Lemma send_message_run (env : Env) (request : ChatRequest.t) (w w1 : World)
  (response : ServiceResponse.t) :
  process_message env (ChatRequest.message request) (ChatRequest.user_id request)
    (ChatRequest.session_id request) w = (inr response, w1) ->
  send_message env request w
  = match include_function_results env request response
            (create_response request response) w1 with
    | (inr a, w') => (inr a, w')
    | (inl e, w') => (inl (on_error e), w')
    end.
Proof.
  intros H. unfold send_message.
  rewrite try_except_run, (bind_run_inr _ _ _ _ _ H).
  destruct (include_function_results _ _ _ _ w1) as [[e|a] w']; reflexivity.
Qed.

Lemma create_response_calls (request : ChatRequest.t) (response : ServiceResponse.t)
  (first : FunctionCall.t) (rest : list FunctionCall.t) :
  ServiceResponse.function_calls response = Some (first :: rest) ->
  ChatResponse.requires_action (create_response request response) = true
  /\ ChatResponse.action_details (create_response request response) = Some first.
Proof. intros H. unfold create_response. rewrite H. split; reflexivity. Qed.

(** C2. Given the resolved target date and start time and the slots of the
    result (entries with a date and a start, as the slots handler writes
    them), the engine takes the first slot, in list order, whose date
    equals the target date and whose start contains the target time; if
    there is none, the first slot whose date equals the target date; and if
    no slot has the target date it takes none: the request then answers
    with the plain text of the slots result, [requires_action] stays true,
    the first call is echoed and no call has been made after the service
    returned. The slot the search returns is the slot of the booking plan,
    when the message gives a name and an email and the result an event
    type. *)
Theorem C2_slot_selection (target_date : pyval) (target_time : string)
  (slots : list pyval) (Hwf : Forall well_formed_slot slots) :
  (forall s,
      first_such (exact_match target_date target_time) slots s ->
      find_target_slot target_date target_time slots = inr s)
  /\ (forall s,
         (forall y, In y slots -> ~ exact_match target_date target_time y) ->
         first_such (date_match target_date) slots s ->
         find_target_slot target_date target_time slots = inr s)
  /\ ((forall y, In y slots -> ~ date_match target_date y) ->
      find_target_slot target_date target_time slots = inr PNone
      /\ forall env request w response w1 first rest results d,
          process_message env (ChatRequest.message request) (ChatRequest.user_id request)
            (ChatRequest.session_id request) w = (inr response, w1) ->
          ServiceResponse.function_calls response = Some (first :: rest) ->
          ServiceResponse.function_results response = Some results ->
          results !! FunctionCall.name first = Some (PDict d) ->
          Py.assoc "slots" d = Some (PList slots) ->
          resolve_target (ChatRequest.message request) None
          = inr (target_date, Some target_time) ->
          send_message env request w
          = (inr (ChatResponse.mk (Py.str (PDict d))
                    (or_text (ChatRequest.session_id request) "new_session")
                    true (Some first)),
             w1))
  /\ (forall s,
         find_target_slot target_date target_time slots = inr s ->
         Py.truthy s = true ->
         forall env request d name_match email_match w,
           Py.assoc "slots" d = Some (PList slots) ->
           Py.truthy (arg d "event_type_id") = true ->
           Re.search Re.name_re (ChatRequest.message request) = Some name_match ->
           Re.search Re.email_re (ChatRequest.message request) = Some email_match ->
           resolve_target (ChatRequest.message request) None
           = inr (target_date, Some target_time) ->
           Py.truthy target_date = true ->
           target_time <> EmptyString ->
           plan_booking env request (PDict d) w
           = (inr (Some (BookingPlan.mk (arg d "event_type_id")
                           (PyStr.strip (Re.group 1 name_match))
                           (Re.group 1 email_match) target_date target_time s)),
              w)).
Proof.
  split; [| split; [| split]];
    [| | | intros s Hfind Hts env request d nm em w Hs Heid Hn He Hres Htd Htt;
           exact (plan_booking_selected _ _ _ _ _ _ _ _ _ _ Hs Heid Hn He Hres Htd Htt
                    Hfind Hts)].
  - intros s. now apply find_target_slot_exact.
  - intros s. now apply find_target_slot_same_day.
  - intros Hno. split; [now apply find_target_slot_none |].
    intros env request w response w1 first rest results d Hpm Hc Hr Hl Hs Hres.
    rewrite (send_message_run _ _ _ _ _ Hpm).
    rewrite (include_function_results_found _ _ _ _ _ _ _ _ Hc Hr Hl).
    assert (Hcr : with_response (create_response request response) (Py.str (PDict d))
                  = ChatResponse.mk (Py.str (PDict d))
                      (or_text (ChatRequest.session_id request) "new_session")
                      true (Some first)).
    { destruct (create_response_calls request response _ _ Hc) as [H1 H2].
      unfold with_response. rewrite H1, H2. reflexivity. }
    rewrite Hcr.
    destruct (auto_booking_triggered _ _); [| reflexivity].
    rewrite auto_book_run, (plan_booking_no_date_match _ _ _ _ _ _ _ Hs Hwf Hres Hno).
    reflexivity.
Qed.

(** What the results stage can do: leave with a response and no call,
    raise before any call, or make the one booking call. *)
Lemma include_function_results_cases (env : Env) (request : ChatRequest.t)
  (response : ServiceResponse.t) (chat_response : ChatResponse.t) (w w' : World)
  (r : result ChatResponse.t) :
  include_function_results env request response chat_response w = (r, w') ->
  (exists text, r = inr (with_response chat_response text) /\ w' = w)
  \/ (exists e, r = inl e /\ w' = w)
  \/ (exists result p start_time end_time,
        slots_result_echoed response result
        /\ has_booking_keyword (ChatRequest.message request)
        /\ plan_booking env request result w = (inr (Some p), w)
        /\ log w' = (log w ++ [booking_call p start_time end_time])%list
        /\ sessions w' = sessions w
        /\ r = match book_event env (log w') with
               | inr booking =>
                   inr (booked_response p
                          (with_response chat_response (Py.str result)) booking)
               | inl e => inl e
               end).
Proof.
  intros H.
  destruct (ServiceResponse.function_calls response) as [[|first rest]|] eqn:Hc.
  1, 3: (left; destruct (include_function_results_not_triggered env request response
                 chat_response) with (w := w) as [text Ht];
         [right; intros (res & f & rs & results & Hc' & _); congruence |];
         rewrite Ht in H; inversion H; eauto).
  destruct (ServiceResponse.function_results response) as [results|] eqn:Hr.
  2: { left. destruct (include_function_results_not_triggered env request response
                 chat_response) with (w := w) as [text Ht];
         [right; intros (res & f & rs & results & _ & Hr' & _); congruence |].
       rewrite Ht in H; inversion H; eauto. }
  destruct (results !! FunctionCall.name first) as [result|] eqn:Hl.
  2: { left. destruct (include_function_results_not_triggered env request response
                 chat_response) with (w := w) as [text Ht];
         [right; intros (res & f & rs & results' & Hc' & Hr' & Hl' & _); congruence |].
       rewrite Ht in H; inversion H; eauto. }
  rewrite (include_function_results_found _ _ _ _ _ _ _ _ Hc Hr Hl) in H.
  destruct (auto_booking_triggered _ _) eqn:Ht.
  2: { left. inversion H. eauto. }
  apply auto_booking_triggered_spec in Ht as [Hn Hkw].
  rewrite auto_book_run in H.
  destruct (plan_booking_pure env request result w) as [rp Hp]. rewrite Hp in H.
  destruct rp as [e|[p|]].
  - right; left. inversion H. eauto.
  - apply book_planned_cases in H as [(e & -> & ->) | (st & en & Hlog & Hss & ->)].
    + right; left. eauto.
    + right; right. exists result, p, st, en. repeat split; auto.
      exists first, rest, results. auto.
  - left. inversion H. eauto.
Qed.

Lemma C2_slot_selection_witness :
  let slots := [slot_entry Scenario.slot_next_day; slot_entry Scenario.slot_1430] in
  Forall well_formed_slot slots
  /\ find_target_slot (PStr "2025-03-14") "14:30:00" slots
     = inr (slot_entry Scenario.slot_1430).
Proof.
  intros slots.
  assert (Hwf : Forall well_formed_slot slots).
  { repeat constructor; eexists _, _, _; repeat split; vm_compute; reflexivity. }
  split; [exact Hwf |].
  apply (proj1 (C2_slot_selection (PStr "2025-03-14") "14:30:00" slots Hwf)).
  exists [slot_entry Scenario.slot_next_day], []. split; [reflexivity |]. split.
  - exists "2025-03-14", "2025-03-14T14:30:00-07:00". split; [| split].
    + eexists. repeat split; vm_compute; reflexivity.
    + reflexivity.
    + exists "2025-03-14T", "-07:00". reflexivity.
  - intros y [<- | []] (date & start & (d & Heq & Hdate & _) & Hd & _).
    vm_compute in Heq. inversion Heq; subst d. vm_compute in Hdate.
    inversion Hdate; subst date. discriminate Hd.
Defined.

(** ** C4: the flags of the response *)

Lemma confirmation_names (name : string) (target_date : pyval) (target_time uid : string) :
  substring_of name (confirmation name target_date target_time uid)
  /\ substring_of (Py.str target_date) (confirmation name target_date target_time uid)
  /\ substring_of target_time (confirmation name target_date target_time uid).
Proof.
  unfold confirmation, substring_of. split; [| split].
  - eexists _, _. reflexivity.
  - exists ("Appointment booked successfully for " ++ name ++ " on ")%string,
      (" at " ++ target_time ++ ". Booking ID: " ++ uid)%string.
    now rewrite !append_assoc.
  - exists ("Appointment booked successfully for " ++ name ++ " on "
            ++ Py.str target_date ++ " at ")%string,
      (". Booking ID: " ++ uid)%string.
    now rewrite !append_assoc.
Qed.

Lemma app_one_neq {A : Type} (l : list A) (x : A) : (l ++ [x])%list <> l.
Proof.
  intros H. apply (f_equal (@length A)) in H. rewrite length_app in H.
  simpl in H. lia.
Qed.

(** The claim as stated fails: in the scenario a tool call was issued, the
    booking went through, and [action_details] does not echo the call. *)
Lemma C4_counterexample :
  let w0 := ChatService_init Scenario.env [] in
  exists response w1 first chat_response w2,
    process_message Scenario.env Scenario.message None None w0 = (inr response, w1)
    /\ ServiceResponse.function_calls response = Some [first]
    /\ send_message Scenario.env Scenario.request w0 = (inr chat_response, w2)
    /\ ChatResponse.action_details chat_response <> Some first.
Proof.
  intros w0. eexists _, _, _, _, _. split; [vm_compute; reflexivity |].
  split; [reflexivity |]. split; [vm_compute; reflexivity |].
  discriminate.
Qed.

(** C4, amended. Whenever the service returned and the request answers,
    one of two things happened. Either the router made no call of its own:
    then [requires_action] tells whether a tool call was issued and
    [action_details] echoes the first one. Or auto-booking went through,
    with one booking call that the provider accepted: then the response
    text is the confirmation, which names the attendee, the target date and
    the target time of day, [requires_action] is false and
    [action_details] is cleared. So [requires_action] is true exactly when
    a tool call was issued and auto-booking did not override it. *)
Theorem C4_response_flags (env : Env) (request : ChatRequest.t) (w w1 w2 : World)
  (response : ServiceResponse.t) (chat_response : ChatResponse.t) :
  process_message env (ChatRequest.message request) (ChatRequest.user_id request)
    (ChatRequest.session_id request) w = (inr response, w1) ->
  send_message env request w = (inr chat_response, w2) ->
  let calls := default [] (ServiceResponse.function_calls response) in
  ((log w2 = log w1
    /\ ChatResponse.requires_action chat_response
       = match calls with [] => false | _ => true end
    /\ ChatResponse.action_details chat_response = head calls)
   \/ (exists result p start_time end_time booking,
         slots_result_echoed response result
         /\ has_booking_keyword (ChatRequest.message request)
         /\ plan_booking env request result w1 = (inr (Some p), w1)
         /\ log w2 = (log w1 ++ [booking_call p start_time end_time])%list
         /\ book_event env (log w2) = inr booking
         /\ ChatResponse.response chat_response
            = confirmation (BookingPlan.name p) (BookingPlan.target_date p)
                (BookingPlan.target_time p) (Booking.uid booking)
         /\ substring_of (BookingPlan.name p) (ChatResponse.response chat_response)
         /\ substring_of (Py.str (BookingPlan.target_date p))
              (ChatResponse.response chat_response)
         /\ substring_of (BookingPlan.target_time p)
              (ChatResponse.response chat_response)
         /\ ChatResponse.requires_action chat_response = false
         /\ ChatResponse.action_details chat_response = None))
  /\ (ChatResponse.requires_action chat_response = true
      <-> calls <> [] /\ log w2 = log w1).
Proof.
  intros Hpm Hsm calls. rewrite (send_message_run _ _ _ _ _ Hpm) in Hsm.
  destruct (include_function_results _ _ _ _ w1) as [[e|a] w'] eqn:Hi;
    inversion Hsm; subst a w'; clear Hsm.
  apply include_function_results_cases in Hi
    as [(text & Heq & ->) | [(e & He & _) | (result & p & st & en & Hecho & Hkw & Hplan & Hlog & Hss & Hr)]].
  - assert (Hra : ChatResponse.requires_action chat_response
                  = match calls with [] => false | _ => true end)
      by (inversion Heq; reflexivity).
    assert (Had : ChatResponse.action_details chat_response = head calls)
      by (inversion Heq; reflexivity).
    clearbody calls. split.
    + left. repeat split; assumption.
    + rewrite Hra. destruct calls as [|c cs].
      * split; [discriminate | intros [H _]; congruence].
      * split; [intros _; split; [discriminate | reflexivity] | reflexivity].
  - discriminate He.
  - destruct (book_event env (log w2)) as [e|booking] eqn:Hb; [discriminate Hr |].
    inversion Hr; subst chat_response; clear Hr.
    destruct (confirmation_names (BookingPlan.name p) (BookingPlan.target_date p)
                (BookingPlan.target_time p) (Booking.uid booking)) as (N1 & N2 & N3).
    split.
    + right. exists result, p, st, en, booking. repeat split; auto.
    + cbn. split; [discriminate |]. intros [_ Heq]. rewrite Heq in Hlog.
      symmetry in Hlog. now apply app_one_neq in Hlog.
Qed.

Lemma C4_response_flags_witness :
  process_message Scenario.env (ChatRequest.message Scenario.request)
    (ChatRequest.user_id Scenario.request) (ChatRequest.session_id Scenario.request)
    Scenario.w0 = (inr Scenario.service_response, Scenario.w1)
  /\ send_message Scenario.env Scenario.request Scenario.w0
     = (inr Scenario.answer, Scenario.w2)
  /\ (ChatResponse.requires_action Scenario.answer = true
      <-> default [] (ServiceResponse.function_calls Scenario.service_response) <> []
          /\ log Scenario.w2 = log Scenario.w1).
Proof.
  assert (H1 : process_message Scenario.env (ChatRequest.message Scenario.request)
                 (ChatRequest.user_id Scenario.request)
                 (ChatRequest.session_id Scenario.request) Scenario.w0
               = (inr Scenario.service_response, Scenario.w1))
    by (vm_compute; reflexivity).
  assert (H2 : send_message Scenario.env Scenario.request Scenario.w0
               = (inr Scenario.answer, Scenario.w2))
    by (vm_compute; reflexivity).
  split; [exact H1 |]. split; [exact H2 |].
  exact (proj2 (C4_response_flags Scenario.env Scenario.request Scenario.w0 Scenario.w1
                  Scenario.w2 Scenario.service_response Scenario.answer H1 H2)).
Defined.

(** ** C3: what becomes of an exception in the auto-booking block *)

Lemma book_planned_run (env : Env) (p : BookingPlan.t) (chat_response : ChatResponse.t)
  (w : World) (start_time end_time : DateTime.datetime) :
  (s ← PyOps.get (BookingPlan.target_slot p) "start"; py_fromisoformat s) = inr start_time ->
  (s ← PyOps.get (BookingPlan.target_slot p) "end"; py_fromisoformat s) = inr end_time ->
  let l := (log w ++ [booking_call p start_time end_time])%list in
  book_planned env p chat_response w
  = (match book_event env l with
     | inr booking => inr (booked_response p chat_response booking)
     | inl e => inl e
     end,
     mkWorld (sessions w) (system_prompt w) l).
Proof.
  intros Hs He l. unfold book_planned. rewrite Hs, He. munfold. cbv beta iota.
  fold (booking_call p start_time end_time). fold l.
  destruct (book_event env l); reflexivity.
Qed.

(** The claim as stated fails. A request whose message writes the day of
    the month with 4301 digits is answered by the service with the slots of
    [get_available_slots]; the message has a keyword, a name and an
    address, so the block goes on to read date and time, and there the
    conversion of the day to a number raises [ValueError]. No call of the
    provider follows, and the request does not answer with the tool
    result: it fails with an [AppException] that wraps the message of the
    [ValueError]. *)
Lemma C3_counterexample :
  let run :=
    process_message Scenario.env Scenario.long_day_message None None Scenario.w0 in
  let outcome := send_message Scenario.env Scenario.long_day_request Scenario.w0 in
  let refusal :=
    "Exceeds the limit (4300 digits) for integer string conversion: value has 4301 digits; use sys.set_int_max_str_digits() to increase the limit" in
  exists response result,
    fst run = inr response
    /\ slots_result_echoed response result
    /\ has_booking_keyword Scenario.long_day_message
    /\ resolve_target Scenario.long_day_message None = inl (Exn ValueError refusal)
    /\ fst outcome = inl (Exn AppException ("Error processing message: " ++ refusal))
    /\ log (snd outcome) = log (snd run)
    /\ Forall (fun c => match c with BookEvent _ _ _ _ _ _ _ _ _ => False | _ => True end)
         (log (snd outcome)).
Proof.
  intros run outcome refusal. eexists _, _.
  split; [vm_compute; reflexivity |].
  split; [eexists _, _, _; repeat split; vm_compute; reflexivity |].
  split.
  { exists "book". split; [now left |].
    exists EmptyString, "Book".
    eexists. split; [| reflexivity]. vm_compute. reflexivity. }
  split; [vm_compute; reflexivity |].
  split; [vm_compute; reflexivity |].
  split; [vm_compute; reflexivity |].
  vm_compute. repeat constructor.
Qed.

(** C3, amended. An exception raised inside the delegated date extraction
    is absorbed there: the helper answers [None] and the engine goes on
    with the pattern fallback. Every exception that leaves the results
    stage fails the request: a [ValidationError] or [OpenAIAPIError] as it
    is, any other as an [AppException]; the request answers only when the
    stage itself answered. So an exception of the reading of date and time
    from the message fails the request, before any call of the provider,
    and the failure of the booking call fails the request, after the call
    has been made. *)
Theorem C3_exceptions_propagate (env : Env) (request : ChatRequest.t) :
  (forall w messages, exists e,
      chat_completion env messages [FnDict extract_datetime_schema] 1 w = (inl e, w)
      /\ exn_cls e = OpenAIAPIError
      /\ parse_date_with_llm env (ChatRequest.message request) w = (inr None, w))
  /\ (forall w response w1 e w2,
         process_message env (ChatRequest.message request) (ChatRequest.user_id request)
           (ChatRequest.session_id request) w = (inr response, w1) ->
         include_function_results env request response
           (create_response request response) w1 = (inl e, w2) ->
         send_message env request w = (inl (on_error e), w2))
  /\ (forall w response w1 chat_response w2,
         process_message env (ChatRequest.message request) (ChatRequest.user_id request)
           (ChatRequest.session_id request) w = (inr response, w1) ->
         send_message env request w = (inr chat_response, w2) ->
         include_function_results env request response
           (create_response request response) w1 = (inr chat_response, w2))
  /\ (forall w response w1 d slots name_match email_match e,
         process_message env (ChatRequest.message request) (ChatRequest.user_id request)
           (ChatRequest.session_id request) w = (inr response, w1) ->
         slots_result_echoed response (PDict d) ->
         has_booking_keyword (ChatRequest.message request) ->
         Py.assoc "slots" d = Some (PList slots) ->
         slots <> [] ->
         Py.truthy (arg d "event_type_id") = true ->
         Re.search Re.name_re (ChatRequest.message request) = Some name_match ->
         Re.search Re.email_re (ChatRequest.message request) = Some email_match ->
         resolve_target (ChatRequest.message request) None = inl e ->
         send_message env request w = (inl (on_error e), w1))
  /\ (forall w response w1 result p start_time end_time e,
         process_message env (ChatRequest.message request) (ChatRequest.user_id request)
           (ChatRequest.session_id request) w = (inr response, w1) ->
         slots_result_echoed response result ->
         has_booking_keyword (ChatRequest.message request) ->
         plan_booking env request result w1 = (inr (Some p), w1) ->
         (s ← PyOps.get (BookingPlan.target_slot p) "start"; py_fromisoformat s)
         = inr start_time ->
         (s ← PyOps.get (BookingPlan.target_slot p) "end"; py_fromisoformat s)
         = inr end_time ->
         book_event env (log w1 ++ [booking_call p start_time end_time])%list = inl e ->
         send_message env request w
         = (inl (on_error e),
            mkWorld (sessions w1) (system_prompt w1)
              (log w1 ++ [booking_call p start_time end_time])%list)).
Proof.
  split; [| split; [| split; [| split]]].
  - intros w messages. eexists. split; [apply chat_completion_dict_functions |].
    split; reflexivity.
  - intros w response w1 e w2 Hpm Hi.
    now rewrite (send_message_run _ _ _ _ _ Hpm), Hi.
  - intros w response w1 chat_response w2 Hpm Hsm.
    rewrite (send_message_run _ _ _ _ _ Hpm) in Hsm.
    destruct (include_function_results _ _ _ _ w1) as [[e|a] w'];
      inversion Hsm; reflexivity.
  - intros w response w1 d slots name_match email_match e Hpm Hecho Hkw Hs Hne Heid
      Hn He Hres.
    rewrite (send_message_run _ _ _ _ _ Hpm).
    rewrite (include_function_results_triggered _ _ _ _ _ Hecho Hkw).
    rewrite auto_book_run.
    now rewrite (plan_booking_target_fails _ _ _ _ _ _ _ _ Hs Hne Heid Hn He Hres).
  - intros w response w1 result p st en e Hpm Hecho Hkw Hplan Hs He Hb.
    rewrite (send_message_run _ _ _ _ _ Hpm).
    rewrite (include_function_results_triggered _ _ _ _ _ Hecho Hkw).
    rewrite auto_book_run, Hplan, (book_planned_run _ _ _ _ _ _ Hs He).
    cbv zeta. now rewrite Hb.
Qed.

(** The refused booking, run: the request fails with the wrapped message. *)
Example booking_failure_fails_request :
  fst (handle_request Scenario.env_refusing [] Scenario.request)
  = inl (Exn AppException "Error processing message: Cal.com API error: 400").
Proof. vm_compute. reflexivity. Qed.

(** ** The handlers leave the sessions alone *)

Lemma ks_ret {A : Type} (a : A) : keeps_sessions (mret a).
Proof. intros w r w' H. inversion H. auto. Qed.

Lemma ks_lift {A : Type} (x : result A) : keeps_sessions (lift x).
Proof. intros w r w' H. inversion H. auto. Qed.

Lemma ks_raise {A : Type} (e : exn) : keeps_sessions (@raise A e).
Proof. intros w r w' H. inversion H. auto. Qed.

Lemma ks_call {A : Type} (c : Call) (o : list Call -> result A) : keeps_sessions (call c o).
Proof. intros w r w' H. inversion H. auto. Qed.

Lemma ks_call_total {A : Type} (c : Call) (o : list Call -> A) :
  keeps_sessions (call_total c o).
Proof. apply ks_call. Qed.

Lemma ks_bind {A B : Type} (m : M A) (f : A -> M B) :
  keeps_sessions m -> (forall a, keeps_sessions (f a)) -> keeps_sessions (x ← m; f x).
Proof.
  intros Hm Hf w r w' H. rewrite bind_run in H.
  destruct (m w) as [[e|a] w1] eqn:E; destruct (Hm _ _ _ E) as [H1 H2].
  - inversion H; subst. auto.
  - destruct (Hf _ _ _ _ H) as [H3 H4]. split; congruence.
Qed.

Lemma ks_try {A : Type} (m : M A) (h : exn -> M A) :
  keeps_sessions m -> (forall e, keeps_sessions (h e)) -> keeps_sessions (try_except m h).
Proof.
  intros Hm Hh w r w' H. rewrite try_except_run in H.
  destruct (m w) as [[e|a] w1] eqn:E; destruct (Hm _ _ _ E) as [H1 H2].
  - destruct (Hh _ _ _ _ H) as [H3 H4]. split; congruence.
  - inversion H; subst. auto.
Qed.

Ltac ks_step :=
  match goal with
  | |- keeps_sessions (mbind _ _) => apply ks_bind; [| intros ?]
  | |- keeps_sessions (try_except _ _) => apply ks_try; [| intros ?]
  | |- keeps_sessions (lift _) => apply ks_lift
  | |- keeps_sessions (mret _) => apply ks_ret
  | |- keeps_sessions (raise _) => apply ks_raise
  | |- keeps_sessions (call_total _ _) => apply ks_call_total
  | |- keeps_sessions (call _ _) => apply ks_call
  | |- keeps_sessions (match ?x with _ => _ end) => destruct x
  end.

Lemma ks_select_event_type (env : Env) (duration : pyval) :
  keeps_sessions (select_event_type env duration).
Proof. unfold select_event_type. repeat ks_step. Qed.

Lemma ks_event_type_name_of (env : Env) (event_type_id : pyval) :
  keeps_sessions (event_type_name_of env event_type_id).
Proof. unfold event_type_name_of. repeat ks_step. Qed.

Lemma ks_dispatch (env : Env) (name : string) (args : pyval) :
  keeps_sessions (dispatch env name args).
Proof.
  unfold dispatch, _get_event_types, _get_available_slots, slots_request, slots_lookup,
    _book_event, _list_events, _cancel_event, _reschedule_event.
  repeat first
    [ apply ks_select_event_type | apply ks_event_type_name_of | ks_step ].
Qed.

Lemma ks_chat_completion (env : Env) (messages : list ChatMessage.t)
  (functions : list fn_arg) (temperature : Z) :
  keeps_sessions (chat_completion env messages functions temperature).
Proof. unfold chat_completion. repeat ks_step. Qed.

Lemma ks_plan_booking (env : Env) (request : ChatRequest.t) (slots_data : pyval) :
  keeps_sessions (plan_booking env request slots_data).
Proof.
  intros w r w' H. destruct (plan_booking_pure env request slots_data w) as [r' H'].
  rewrite H' in H. inversion H. auto.
Qed.

Lemma ks_include_function_results (env : Env) (request : ChatRequest.t)
  (response : ServiceResponse.t) (chat_response : ChatResponse.t) :
  keeps_sessions (include_function_results env request response chat_response).
Proof.
  unfold include_function_results, auto_book, book_planned.
  repeat first [ apply ks_plan_booking | ks_step ].
Qed.

(** ** C8: failures of tool calls stay in band *)

Lemma process_function_call_run (env : Env) (session_id : string)
  (results : gmap string pyval) (fc : FunctionCall.t) (w w1 : World) (r : result pyval) :
  dispatch env (FunctionCall.name fc) (FunctionCall.arguments fc) w = (r, w1) ->
  process_function_call env session_id results fc w
  = (inr (<[FunctionCall.name fc := outcome_value r]> results),
     with_turn w1 session_id (tool_turn (FunctionCall.name fc) r)).
Proof.
  intros H. unfold process_function_call.
  rewrite try_except_run, bind_run, H. destruct r; reflexivity.
Qed.

Lemma with_turn_lookup (w : World) (session_id : string) (t : ChatMessage.t)
  (h : ChatHistory.t) :
  sessions w !! session_id = Some h ->
  sessions (with_turn w session_id t) !! session_id = Some (h ++ [t])%list.
Proof.
  intros H. unfold with_turn. cbn [sessions].
  rewrite lookup_alter_eq, H. reflexivity.
Qed.

Lemma with_turn_lookup_ne (w : World) (session_id other : string) (t : ChatMessage.t) :
  session_id <> other ->
  sessions (with_turn w session_id t) !! other = sessions w !! other.
Proof. intros H. unfold with_turn. cbn [sessions]. now rewrite lookup_alter_ne. Qed.

Lemma dispatch_unknown (env : Env) (name : string) (args : pyval) (w : World) :
  is_known name = false ->
  dispatch env name args w
  = (inl (Exn ValidationError ("Unknown function: " ++ name)), w).
Proof.
  unfold is_known, known_functions. cbn [existsb]. rewrite !orb_false_iff.
  intros (H1 & H2 & H3 & H4 & H5 & H6 & _). unfold dispatch.
  now rewrite H1, H2, H3, H4, H5, H6.
Qed.

Lemma process_function_calls_from_spec (env : Env) (session_id : string)
  (calls : list FunctionCall.t) :
  forall (results0 : gmap string pyval) (w : World) (h : ChatHistory.t),
    sessions w !! session_id = Some h ->
    exists results w' turns,
      process_function_calls_from env session_id results0 calls w = (inr results, w')
      /\ sessions w' !! session_id = Some (h ++ turns)%list
      /\ Forall2 turn_of_call calls turns
      /\ (forall (i : nat) fc,
             calls !! i = Some fc -> is_known (FunctionCall.name fc) = false ->
             exists t, turns !! i = Some t
                       /\ ChatMessage.content t
                          = ("Error: Unknown function: " ++ FunctionCall.name fc)%string)
      /\ (forall n,
             is_known n = false ->
             results0 !! n = Some (unknown_error n)
             \/ (exists fc, In fc calls /\ FunctionCall.name fc = n) ->
             results !! n = Some (unknown_error n))
      /\ (forall pre fc post res1 w1 e w1',
             calls = (pre ++ fc :: post)%list ->
             process_function_calls_from env session_id results0 pre w = (inr res1, w1) ->
             dispatch env (FunctionCall.name fc) (FunctionCall.arguments fc) w1
             = (inl e, w1') ->
             exists t, turns !! length pre = Some t
                       /\ ChatMessage.content t = ("Error: " ++ exn_msg e)%string).
Proof.
  induction calls as [|fc rest IH]; intros results0 w h Hh.
  - exists results0, w, []. repeat split.
    + now rewrite app_nil_r.
    + constructor.
    + intros i fc Hi. rewrite lookup_nil in Hi. discriminate.
    + intros n Hn [H | (fc & [] & _)]. exact H.
    + intros pre fc post res1 w1 e w1' Hc. destruct pre; discriminate.
  - destruct (dispatch env (FunctionCall.name fc) (FunctionCall.arguments fc) w)
      as [r w1] eqn:Hd.
    pose proof (process_function_call_run env session_id results0 fc w w1 r Hd) as Hstep.
    destruct (ks_dispatch env _ _ _ _ _ Hd) as [Hss _].
    set (t := tool_turn (FunctionCall.name fc) r) in *.
    set (results1 := <[FunctionCall.name fc := outcome_value r]> results0) in *.
    assert (Hh1 : sessions (with_turn w1 session_id t) !! session_id = Some (h ++ [t])%list)
      by (apply with_turn_lookup; now rewrite Hss).
    destruct (IH results1 _ _ Hh1) as (results & w' & turns & Hrun & Hs & Hf & Hi & Hr & Hp).
    exists results, w', (t :: turns). repeat split.
    + cbn [process_function_calls_from]. now rewrite bind_run, Hstep.
    + now rewrite Hs, <- app_assoc.
    + constructor; [split; reflexivity | exact Hf].
    + intros [|i] fc0 Hfc0 Hk; cbn in Hfc0.
      * inversion Hfc0; subst fc0. exists t. split; [reflexivity |].
        rewrite (dispatch_unknown _ _ _ _ Hk) in Hd. inversion Hd; subst r. reflexivity.
      * destruct (Hi i fc0 Hfc0 Hk) as (t' & Ht' & Hc'). exists t'. auto.
    + intros n Hn Hor. apply Hr; [exact Hn |].
      destruct (decide (FunctionCall.name fc = n)) as [Heq | Hne].
      * left. subst results1 n. rewrite lookup_insert_eq.
        rewrite (dispatch_unknown _ _ _ _ Hn) in Hd. inversion Hd; subst r. reflexivity.
      * destruct Hor as [H0 | (fc0 & [<- | Hin] & Hname)].
        -- left. subst results1. now rewrite lookup_insert_ne.
        -- contradiction.
        -- right. eauto.
    + intros pre fc0 post res1 w1x e w1' Hc Hpre Hde. destruct pre as [|x pre].
      * cbn in Hc. inversion Hc; subst fc0 post. cbn in Hpre. inversion Hpre; subst.
        rewrite Hd in Hde. inversion Hde; subst r. exists t. split; reflexivity.
      * cbn in Hc. inversion Hc; subst x rest.
        cbn [process_function_calls_from] in Hpre. rewrite bind_run, Hstep in Hpre.
        apply (Hp pre fc0 post res1 w1x e w1' eq_refl Hpre Hde).
Qed.

(** C8. Whatever the list of dispatched calls, [_process_function_calls]
    returns and never raises. Every call, in order, appends one tool-result
    turn with its name to the history, also after a call that failed. A
    call to an unknown function leaves the turn [Error: Unknown function:
    name] and the in-band result [{error: Unknown function: name}]; a call
    whose handler raised [e] leaves the turn [Error: ] followed by the
    message of [e]. *)
Theorem C8_tool_failures_in_band (env : Env) (calls : list FunctionCall.t)
  (session_id : string) (w : World) (h : ChatHistory.t) :
  sessions w !! session_id = Some h ->
  exists results w' turns,
    _process_function_calls env calls session_id w = (inr results, w')
    /\ sessions w' !! session_id = Some (h ++ turns)%list
    /\ Forall2 turn_of_call calls turns
    /\ (forall (i : nat) fc,
           calls !! i = Some fc -> is_known (FunctionCall.name fc) = false ->
           (exists t, turns !! i = Some t
                      /\ ChatMessage.content t
                         = ("Error: Unknown function: " ++ FunctionCall.name fc)%string)
           /\ results !! FunctionCall.name fc = Some (unknown_error (FunctionCall.name fc)))
    /\ (forall pre fc post res1 w1 e w1',
           calls = (pre ++ fc :: post)%list ->
           _process_function_calls env pre session_id w = (inr res1, w1) ->
           dispatch env (FunctionCall.name fc) (FunctionCall.arguments fc) w1
           = (inl e, w1') ->
           exists t, turns !! length pre = Some t
                     /\ ChatMessage.content t = ("Error: " ++ exn_msg e)%string).
Proof.
  intros Hh. unfold _process_function_calls.
  destruct (process_function_calls_from_spec env session_id calls ∅ w h Hh)
    as (results & w' & turns & Hrun & Hs & Hf & Hi & Hr & Hp).
  exists results, w', turns. repeat split; auto.
  - apply Hr; [assumption |]. right. exists fc. split; [| reflexivity].
    apply list_elem_of_In. eapply list_elem_of_lookup_2. eassumption.
Qed.

Lemma C8_tool_failures_in_band_witness :
  sessions Scenario.w_session !! "s1" = Some [ChatMessage.mk SYSTEM "prompt" None None]
  /\ exists results w' turns,
      _process_function_calls Scenario.env Scenario.calls_mixed "s1" Scenario.w_session
      = (inr results, w')
      /\ sessions w' !! "s1"
         = Some ([ChatMessage.mk SYSTEM "prompt" None None] ++ turns)%list
      /\ Forall2 turn_of_call Scenario.calls_mixed turns.
Proof.
  assert (H : sessions Scenario.w_session !! "s1"
              = Some [ChatMessage.mk SYSTEM "prompt" None None])
    by (vm_compute; reflexivity).
  split; [exact H |].
  destruct (C8_tool_failures_in_band Scenario.env Scenario.calls_mixed "s1"
              Scenario.w_session _ H) as (results & w' & turns & H1 & H2 & H3 & _).
  exists results, w', turns. auto.
Defined.

(** The two calls, run: the unknown one leaves its error, the next one its
    result. *)
Example mixed_calls_run :
  match _process_function_calls Scenario.env Scenario.calls_mixed "s1" Scenario.w_session with
  | (inr results, w') =>
      results !! "fly_to_the_moon" = Some (unknown_error "fly_to_the_moon")
      /\ results !! "get_event_types"
         = Some (PDict [("event_types",
                          PList [PDict [("id", PInt 123); ("title", PStr "30 Min Meeting");
                                        ("description", PNone); ("length", PInt 30)]]);
                        ("total", PInt 1)])
      /\ map ChatMessage.content (default [] (sessions w' !! "s1"))
         = ["prompt"; "Error: Unknown function: fly_to_the_moon";
            "{'event_types': [{'id': 123, 'title': '30 Min Meeting', 'description': None, 'length': 30}], 'total': 1}"]
  | (inl _, _) => False
  end.
Proof. vm_compute. repeat split. Qed.

(** ** C9: one system turn per session *)

Lemma parse_response_role (response : Raw.completion) (p : parsed) :
  parse_response response = inr p -> ChatMessage.role (fst p) = ASSISTANT.
Proof.
  unfold parse_response. destruct (Raw.choices response) as [|message ?]; [discriminate |].
  destruct (parse_tool_calls _); [discriminate |]. intros [= <-]. reflexivity.
Qed.

Section Preservation.

Context (P : gmap string ChatHistory.t -> Prop).

Lemma pv_of_ks {A : Type} (m : M A) : keeps_sessions m -> preserves P m.
Proof. intros Hk w r w' HP H. destruct (Hk _ _ _ H) as [Hs _]. now rewrite Hs. Qed.

Lemma pv_bind {A B : Type} (m : M A) (f : A -> M B) :
  preserves P m -> (forall a, preserves P (f a)) -> preserves P (x ← m; f x).
Proof.
  intros Hm Hf w r w' HP H. rewrite bind_run in H.
  destruct (m w) as [[e|a] w1] eqn:E; pose proof (Hm _ _ _ HP E) as HP1.
  - inversion H; subst. exact HP1.
  - exact (Hf _ _ _ _ HP1 H).
Qed.

Lemma pv_bind_lift {A B : Type} (x : result A) (f : A -> M B) :
  (forall a, x = inr a -> preserves P (f a)) -> preserves P (y ← lift x; f y).
Proof.
  intros Hf w r w' HP H. rewrite bind_run in H. unfold lift in H.
  destruct x as [e|a]; [inversion H; subst; exact HP |].
  exact (Hf a eq_refl _ _ _ HP H).
Qed.

Lemma pv_try {A : Type} (m : M A) (h : exn -> M A) :
  preserves P m -> (forall e, preserves P (h e)) -> preserves P (try_except m h).
Proof.
  intros Hm Hh w r w' HP H. rewrite try_except_run in H.
  destruct (m w) as [[e|a] w1] eqn:E; pose proof (Hm _ _ _ HP E) as HP1.
  - exact (Hh _ _ _ _ HP1 H).
  - inversion H; subst. exact HP1.
Qed.

(** The property is kept when a turn that is no system turn is appended. *)
Hypothesis P_add :
  forall session_id m, ChatMessage.role m <> SYSTEM -> preserves P (add_message session_id m).

Lemma pv_process_function_call (env : Env) (session_id : string)
  (results : gmap string pyval) (fc : FunctionCall.t) :
  preserves P (process_function_call env session_id results fc).
Proof.
  unfold process_function_call. apply pv_try.
  - apply pv_bind; [apply pv_of_ks, ks_dispatch |]. intros result.
    apply pv_bind; [now apply P_add | intros []; apply pv_of_ks, ks_ret].
  - intros e. apply pv_bind; [now apply P_add | intros []; apply pv_of_ks, ks_ret].
Qed.

Lemma pv_process_function_calls_from (env : Env) (session_id : string)
  (calls : list FunctionCall.t) :
  forall results, preserves P (process_function_calls_from env session_id results calls).
Proof.
  induction calls as [|fc rest IH]; intros results; cbn [process_function_calls_from].
  - apply pv_of_ks, ks_ret.
  - apply pv_bind; [apply pv_process_function_call | intros r; apply IH].
Qed.

(** [process_message] once the session is there and the user turn is in. *)
Lemma pv_complete_and_dispatch (env : Env) (session_id : string)
  (functions : list fn_arg) :
  preserves P
    (history ← get_history session_id;
     completion ← chat_completion env (ChatHistory.get_messages history) functions 7;
     parsed_response ← lift (parse_response completion);
     add_message session_id (fst parsed_response);;
     function_results ←
       match snd parsed_response with
       | Some function_calls =>
           r ← _process_function_calls env function_calls session_id; mret (Some r)
       | None => mret None
       end;
     mret (ServiceResponse.mk (fst parsed_response) (snd parsed_response) function_results)).
Proof.
  apply pv_bind; [apply pv_of_ks; intros w r w' H; inversion H; auto | intros history].
  apply pv_bind; [apply pv_of_ks, ks_chat_completion | intros completion].
  apply pv_bind_lift. intros p Hp.
  apply pv_bind;
    [apply P_add; rewrite (parse_response_role _ _ Hp); discriminate | intros []].
  apply pv_bind; [| intros fr; apply pv_of_ks, ks_ret].
  destruct (snd p) as [function_calls|]; [| apply pv_of_ks, ks_ret].
  apply pv_bind; [apply pv_process_function_calls_from | intros r; apply pv_of_ks, ks_ret].
Qed.

Lemma pv_include_function_results (env : Env) (request : ChatRequest.t)
  (response : ServiceResponse.t) (chat_response : ChatResponse.t) :
  preserves P (include_function_results env request response chat_response).
Proof. apply pv_of_ks, ks_include_function_results. Qed.

End Preservation.

Lemma one_system_turn_add (h : ChatHistory.t) (m : ChatMessage.t) :
  ChatMessage.role m <> SYSTEM -> one_system_turn h ->
  one_system_turn (ChatHistory.add_message h m).
Proof.
  intros Hm (prompt & rest & -> & Hrest). exists prompt, (rest ++ [m])%list.
  split; [reflexivity |]. apply Forall_app. split; [exact Hrest |].
  constructor; [exact Hm | constructor].
Qed.

Lemma ok_add_message (session_id : string) (m : ChatMessage.t) :
  ChatMessage.role m <> SYSTEM -> preserves sessions_ok (add_message session_id m).
Proof.
  intros Hm w r w' Hok H. inversion H; subst; clear H. intros sid h.
  cbn [sessions]. rewrite lookup_alter.
  destruct (decide (session_id = sid)) as [<- | Hne]; [| apply Hok].
  destruct (sessions w !! session_id) as [h0|] eqn:E; cbn; [| discriminate].
  intros [= <-]. apply one_system_turn_add; [exact Hm | now apply (Hok session_id)].
Qed.

Lemma session_for_known (session_id : string) (w : World) (h : ChatHistory.t) :
  sessions w !! session_id = Some h -> session_for session_id w = (inr session_id, w).
Proof.
  intros H. unfold session_for. munfold. cbv beta iota. rewrite H. reflexivity.
Qed.

Lemma session_for_unknown (session_id : string) (w : World) :
  sessions w !! session_id = None ->
  session_for session_id w
  = (inr session_id,
     mkWorld (<[session_id := [system_turn w]]> (sessions w)) (system_prompt w) (log w)).
Proof.
  intros H. unfold session_for. munfold. cbv beta iota. rewrite H.
  cbv beta iota. unfold add_message. cbn.
  rewrite alter_insert_eq. reflexivity.
Qed.

Lemma ok_session_for (session_id : string) : preserves sessions_ok (session_for session_id).
Proof.
  intros w r w' Hok H. destruct (sessions w !! session_id) as [h|] eqn:E.
  - rewrite (session_for_known _ _ _ E) in H. inversion H; subst. exact Hok.
  - rewrite (session_for_unknown _ _ E) in H. inversion H; subst; clear H.
    intros sid h. cbn [sessions]. rewrite lookup_insert.
    destruct (decide (session_id = sid)) as [<- | Hne]; [| apply Hok].
    intros [= <-]. exists (system_prompt w), []. split; [reflexivity | constructor].
Qed.

Lemma ok_get_or_create_session (env : Env) (session_id : option string) :
  preserves sessions_ok (_get_or_create_session env session_id).
Proof.
  unfold _get_or_create_session. apply pv_bind; [| intros sid; apply ok_session_for].
  apply pv_of_ks. repeat ks_step.
Qed.

Lemma ok_process_message (env : Env) (message : string) (user_id session_id : option string) :
  preserves sessions_ok (process_message env message user_id session_id).
Proof.
  unfold process_message.
  apply pv_bind; [apply ok_get_or_create_session | intros sid].
  apply pv_bind; [now apply ok_add_message | intros []].
  apply pv_complete_and_dispatch. apply ok_add_message.
Qed.

Lemma ok_send_message (env : Env) (request : ChatRequest.t) :
  preserves sessions_ok (send_message env request).
Proof.
  unfold send_message. apply pv_try; [| intros e; apply pv_of_ks, ks_raise].
  apply pv_bind; [apply ok_process_message | intros response].
  apply pv_include_function_results.
Qed.

Lemma reachable_store_ok (env : Env) (w : World) : reachable env w -> store_ok w.
Proof.
  unfold store_ok.
  induction 1 as [l | w sid _ IH | w message user_id sid _ IH | w request _ IH].
  - intros sid h. cbn. rewrite lookup_empty. discriminate.
  - destruct (_get_or_create_session env sid w) as [r w'] eqn:E.
    exact (ok_get_or_create_session env sid _ _ _ IH E).
  - destruct (process_message env message user_id sid w) as [r w'] eqn:E.
    exact (ok_process_message env _ _ _ _ _ _ IH E).
  - destruct (send_message env request w) as [r w'] eqn:E.
    exact (ok_send_message env _ _ _ _ IH E).
Qed.

(** C9. In every world a chat service can reach, each session of the store
    starts with a system turn and has no other. A call of
    [_get_or_create_session] with an identifier that is already known
    returns it and changes nothing; with a given identifier that is not
    known it raises nothing, returns the identifier and stores under it a
    history made of exactly the system turn, all other sessions being as
    they were. *)
Theorem C9_one_system_turn (env : Env) :
  (forall w, reachable env w -> store_ok w)
  /\ (forall w session_id h,
         session_id <> EmptyString ->
         sessions w !! session_id = Some h ->
         _get_or_create_session env (Some session_id) w = (inr session_id, w))
  /\ (forall w session_id,
         session_id <> EmptyString ->
         sessions w !! session_id = None ->
         _get_or_create_session env (Some session_id) w
         = (inr session_id,
            mkWorld (<[session_id := [system_turn w]]> (sessions w))
              (system_prompt w) (log w))).
Proof.
  split; [apply reachable_store_ok | split].
  - intros w sid h Hne Hh. unfold _get_or_create_session.
    apply String.eqb_neq in Hne. rewrite Hne.
    erewrite bind_run_inr; [| reflexivity]. now apply (session_for_known _ _ h).
  - intros w sid Hne Hh. unfold _get_or_create_session.
    apply String.eqb_neq in Hne. rewrite Hne.
    erewrite bind_run_inr; [| reflexivity]. now apply session_for_unknown.
Qed.

(** ** C5: the session identifier of the response *)

Lemma add_message_run (session_id : string) (m : ChatMessage.t) (w : World) :
  add_message session_id m w = (inr tt, with_turn w session_id m).
Proof. reflexivity. Qed.

Lemma get_or_create_fresh (env : Env) (session_id : option string) (w : World) :
  session_id = None \/ session_id = Some EmptyString ->
  sessions w = ∅ ->
  let u := uuid4 env (log w ++ [Uuid4])%list in
  _get_or_create_session env session_id w
  = (inr u, mkWorld {[ u := [system_turn w] ]} (system_prompt w) (log w ++ [Uuid4])%list).
Proof.
  intros Hid Hs u. unfold _get_or_create_session.
  assert (Hcall : forall w0 : World,
             match session_id with
             | Some s =>
                 if String.eqb s EmptyString then call_total Uuid4 (uuid4 env) else mret s
             | None => call_total Uuid4 (uuid4 env)
             end w0
             = call_total Uuid4 (uuid4 env) w0)
    by (destruct Hid as [-> | ->]; reflexivity).
  rewrite bind_run, Hcall. unfold call_total, call. cbv beta iota zeta.
  rewrite session_for_unknown by (cbn [sessions]; rewrite Hs; apply lookup_empty).
  cbn [sessions system_prompt log]. rewrite Hs, insert_empty. reflexivity.
Qed.

Lemma recorded_under_add (u : string) (first second : ChatMessage.t)
  (session_id : string) (m : ChatMessage.t) :
  preserves (recorded_under u first second) (add_message session_id m).
Proof.
  intros w r w' (rest & Hs) H. rewrite add_message_run in H. inversion H; subst; clear H.
  unfold with_turn. cbn [sessions]. rewrite Hs.
  destruct (decide (session_id = u)) as [-> | Hne].
  - rewrite alter_singleton_eq. now exists (rest ++ [m])%list.
  - rewrite alter_singleton_ne by exact Hne. now exists rest.
Qed.

Lemma process_message_fresh_session (env : Env) (message : string)
  (user_id session_id : option string) (w w1 : World) (r : result ServiceResponse.t) :
  session_id = None \/ session_id = Some EmptyString ->
  sessions w = ∅ ->
  process_message env message user_id session_id w = (r, w1) ->
  recorded_under (uuid4 env (log w ++ [Uuid4])%list) (system_turn w)
    (ChatMessage.mk USER message None None) (sessions w1).
Proof.
  intros Hid Hs H. unfold process_message in H.
  rewrite bind_run, (get_or_create_fresh env session_id w Hid Hs) in H.
  cbv zeta in H. rewrite bind_run, add_message_run in H.
  refine (pv_complete_and_dispatch _ _ env _ _ _ _ _ _ H).
  - intros sid m _. apply recorded_under_add.
  - unfold with_turn. cbn [sessions]. rewrite alter_singleton_eq. now exists [].
Qed.

(** C5, on the code. When the request carries no session identifier the
    response names the session [new_session], while the turns of the
    conversation are recorded under the identifier the service generated:
    the store of the request's chat service holds that one session, which
    starts with the system turn and the user turn. Unless the generated
    identifier happens to be the text [new_session], the identifier of the
    response names no session at all. *)
Theorem C5_session_id_placeholder (env : Env) (l : list Call) (message : string)
  (user_id : option string) (chat_response : ChatResponse.t) (w : World) :
  handle_request env l (ChatRequest.mk message user_id None) = (inr chat_response, w) ->
  let w0 := ChatService_init env l in
  let u := uuid4 env (l ++ [Now; Uuid4])%list in
  ChatResponse.session_id chat_response = "new_session"
  /\ recorded_under u (system_turn w0) (ChatMessage.mk USER message None None) (sessions w)
  /\ (u <> "new_session" ->
      sessions w !! ChatResponse.session_id chat_response = None).
Proof.
  intros H w0 u. unfold handle_request in H. fold w0 in H.
  assert (Hu : u = uuid4 env (log w0 ++ [Uuid4])%list)
    by (unfold u, w0, ChatService_init; cbn [log]; now rewrite <- app_assoc).
  unfold send_message in H. rewrite try_except_run, bind_run in H.
  cbn [ChatRequest.message ChatRequest.user_id ChatRequest.session_id] in H.
  destruct (process_message env message user_id None w0) as [[e|response] w1] eqn:Hpm;
    [discriminate H |].
  pose proof (process_message_fresh_session env message user_id None w0 w1 _
                (or_introl eq_refl) eq_refl Hpm) as Hrec.
  rewrite <- Hu in Hrec.
  destruct (include_function_results env _ response _ w1) as [[e|a] w'] eqn:Hi;
    [discriminate H |].
  inversion H; subst a w'; clear H.
  destruct (ks_include_function_results _ _ _ _ _ _ _ Hi) as [Hss _].
  assert (Hid : ChatResponse.session_id chat_response = "new_session").
  { apply include_function_results_cases in Hi
      as [(text & Heq & _) | [(e & He & _) | (res & p & st & en & _ & _ & _ & _ & _ & Hr)]].
    - inversion Heq. reflexivity.
    - discriminate He.
    - destruct (book_event env (log w)); inversion Hr. reflexivity. }
  rewrite Hss. repeat split; [exact Hid | exact Hrec |].
  intros Hne. rewrite Hid. destruct Hrec as (rest & ->).
  now apply lookup_singleton_ne.
Qed.

Lemma C5_session_id_placeholder_witness :
  handle_request Scenario.env [] (ChatRequest.mk Scenario.message None None)
  = (inr Scenario.answer, Scenario.w2)
  /\ ChatResponse.session_id Scenario.answer = "new_session"
  /\ sessions Scenario.w2 !! "new_session" = None
  /\ is_Some (sessions Scenario.w2 !! Scenario.fresh_id).
Proof.
  assert (H : handle_request Scenario.env [] (ChatRequest.mk Scenario.message None None)
              = (inr Scenario.answer, Scenario.w2))
    by (vm_compute; reflexivity).
  destruct (C5_session_id_placeholder Scenario.env [] Scenario.message None
              Scenario.answer Scenario.w2 H) as (H1 & (rest & H2) & H3).
  split; [exact H |]. split; [exact H1 |]. split.
  - rewrite <- H1. apply H3. vm_compute. discriminate.
  - rewrite H2.
    change (uuid4 Scenario.env ([] ++ [Now; Uuid4])%list) with Scenario.fresh_id.
    rewrite lookup_singleton_eq. eauto.
Defined.

(** ** C10: the date range of [list_events] *)

Lemma get_dict (d : list (string * pyval)) (k : string) :
  PyOps.get (PDict d) k = inr (arg d k).
Proof. reflexivity. Qed.

Lemma add_days_ok (d : DateTime.datetime) (n : Z) :
  in_calendar d n -> DateTime.add_days d n = inr (shift_days d n).
Proof.
  unfold in_calendar, DateTime.add_days. intros [H1 H2].
  apply Z.leb_le in H1, H2. now rewrite H1, H2.
Qed.

(** C10, on the code. For arguments with an email, whatever [start_date]
    and [end_date] they carry, [_list_events] reads the clock and asks the
    provider for one range: from the Monday of the week of today to the
    Sunday of that week at 23:59:59. The start keeps the time of day of
    the moment of the call: it is not set back to 00:00. *)
Theorem C10_list_events_range (env : Env) (d : list (string * pyval)) (w : World) :
  let today := now env (log w ++ [Now])%list in
  Py.truthy (arg d "email") = true ->
  in_calendar today (-6) -> in_calendar today 6 ->
  let start_date := shift_days today (- DateTime.weekday today) in
  let end_date := DateTime.replace_hms (shift_days start_date 6) 23 59 59 in
  (exists r,
      _list_events env (PDict d) w
      = (r, mkWorld (sessions w) (system_prompt w)
              (log w ++ [Now; GetBookings (arg d "email") start_date end_date
                                (arg d "status")])%list))
  /\ DateTime.weekday start_date = 0
  /\ DateTime.weekday end_date = 6
  /\ (DateTime.hour start_date, DateTime.minute start_date, DateTime.second start_date)
     = (DateTime.hour today, DateTime.minute today, DateTime.second today)
  /\ (DateTime.hour end_date, DateTime.minute end_date, DateTime.second end_date)
     = (23, 59, 59).
Proof.
  intros today He Hlo Hhi start_date end_date.
  assert (Hw : 0 <= DateTime.weekday today < 7)
    by (unfold DateTime.weekday; apply Z.mod_pos_bound; lia).
  assert (H1 : DateTime.add_days today (- DateTime.weekday today) = inr start_date).
  { apply add_days_ok. unfold in_calendar in *. lia. }
  assert (H2 : DateTime.add_days start_date 6 = inr (shift_days start_date 6)).
  { apply add_days_ok. unfold in_calendar in *. unfold start_date, shift_days. cbn. lia. }
  assert (Hm : (DateTime.ordinal start_date + 6) mod 7 = 0).
  { unfold start_date, shift_days, DateTime.weekday. cbn [DateTime.ordinal].
    replace (DateTime.ordinal today + - ((DateTime.ordinal today + 6) mod 7) + 6)
      with ((DateTime.ordinal today + 6) - (DateTime.ordinal today + 6) mod 7) by lia.
    rewrite Zminus_mod, Z.mod_mod, Z.sub_diag by lia. reflexivity. }
  split; [| split; [| split; [| split]]].
  - unfold _list_events. rewrite !get_dict. munfold. cbv beta iota.
    rewrite He. cbn [negb]. cbv beta iota.
    fold today. rewrite H1. cbv beta iota. rewrite H2. cbv beta iota.
    cbn [log sessions system_prompt].
    rewrite <- app_assoc. cbn [app]. fold end_date.
    destruct (get_bookings env _); eexists; reflexivity.
  - exact Hm.
  - unfold end_date, DateTime.replace_hms, shift_days, DateTime.weekday.
    cbn [DateTime.ordinal].
    replace (DateTime.ordinal start_date + 6 + 6)
      with ((DateTime.ordinal start_date + 6) + 6) by lia.
    rewrite Zplus_mod, Hm. reflexivity.
  - reflexivity.
  - reflexivity.
Qed.

Lemma C10_list_events_range_witness :
  Py.truthy (arg Scenario.list_args "email") = true
  /\ DateTime.weekday
       (shift_days Scenario.wednesday_afternoon
          (- DateTime.weekday Scenario.wednesday_afternoon)) = 0.
Proof.
  assert (He : Py.truthy (arg Scenario.list_args "email") = true) by reflexivity.
  split; [exact He |].
  refine (proj1 (proj2 (C10_list_events_range Scenario.env Scenario.list_args
                          Scenario.w_session He _ _)));
    unfold in_calendar; vm_compute; split; discriminate.
Defined.

(** The call of a Wednesday at 15:42:10, for arguments that ask for
    January: the range starts on the Monday at 15:42:10. *)
Example list_events_wednesday :
  log (snd (_list_events Scenario.env (PDict Scenario.list_args) Scenario.w_session))
  = [Now;
     GetBookings (PStr "jane@example.com")
       (DateTime.mk 739320 15 42 10 0 None) (DateTime.mk 739326 23 59 59 0 None) PNone]
  /\ DateTime.isoformat (DateTime.mk 739320 15 42 10 0 None) = "2025-03-10T15:42:10"
  /\ DateTime.isoformat (DateTime.mk 739326 23 59 59 0 None) = "2025-03-16T23:59:59".
Proof. vm_compute. repeat split. Qed.

(** ** C6: alternative slots *)




(** The twelve slots, run: ten come back, the first of them on the 16th. *)
Example alternative_slots_run :
  match fst (_get_available_slots Scenario.env_alternatives Scenario.slots_args
               Scenario.w_session) with
  | inr (PDict d) =>
      match Py.assoc "alternative_slots" d with
      | Some (PList l) =>
          length l = 10%nat
          /\ head l = Some (PDict [("start", PStr "2025-03-16T09:00:00-07:00");
                                   ("end", PStr "2025-03-16T09:30:00-07:00");
                                   ("date", PStr "2025-03-16")])
      | _ => False
      end
  | _ => False
  end.
Proof. vm_compute. split; reflexivity. Qed.

(** ** C7: the default event type *)

Lemma insert_by_not_nil {A : Type} (key : A -> Z) (x : A) (l : list A) :
  insert_by key x l <> [].
Proof. destruct l as [|y r]; cbn; [discriminate | destruct (key x <=? key y); discriminate]. Qed.

Lemma sort_by_nil {A : Type} (key : A -> Z) (l : list A) : sort_by key l = [] -> l = [].
Proof.
  destruct l as [|x r]; [reflexivity |]. cbn. intros H.
  now apply insert_by_not_nil in H.
Qed.

Lemma is_first_min_le {A : Type} (key : A -> Z) (l : list A) (m : A) :
  is_first_min key l m -> forall y, In y l -> key m <= key y.
Proof.
  intros (pre & post & -> & Hpre & Hpost) y Hy. apply in_app_or in Hy as [Hy | [<- | Hy]].
  - specialize (Hpre y Hy). lia.
  - lia.
  - auto.
Qed.

(** The head of the sorted list is the first of the least elements. *)
Lemma sort_by_head {A : Type} (key : A -> Z) (l : list A) :
  forall x r, sort_by key l = x :: r -> is_first_min key l x.
Proof.
  induction l as [|a l IH]; intros x r H; [discriminate |].
  cbn [sort_by] in H. destruct (sort_by key l) as [|m r'] eqn:E.
  - apply sort_by_nil in E. subst l. cbn in H. inversion H; subst.
    exists [], []. repeat split; intros y [].
  - specialize (IH m r' eq_refl). cbn [insert_by] in H.
    destruct (key a <=? key m) eqn:Hle.
    + inversion H; subst. apply Z.leb_le in Hle. exists [], l.
      split; [reflexivity |]. split; [intros y [] |].
      intros y Hy. pose proof (is_first_min_le _ _ _ IH y Hy). lia.
    + inversion H; subst. apply Z.leb_gt in Hle.
      destruct IH as (pre & post & -> & Hpre & Hpost).
      exists (a :: pre), post. split; [reflexivity |]. split; [| exact Hpost].
      intros y [<- | Hy]; [exact Hle | auto].
Qed.

Lemma next_or_none_some {A : Type} (p : A -> bool) (l : list A) (x : A) :
  next_or_none p l = Some x <-> first_such (fun y => p y = true) l x.
Proof.
  induction l as [|a l IH]; cbn.
  - split; [discriminate | intros (pre & post & H & _); destruct pre; discriminate].
  - destruct (p a) eqn:Hp.
    + split.
      * intros [= <-]. exists [], l. repeat split; [exact Hp | intros y []].
      * intros (pre & post & H & Hx & Hpre).
        destruct pre as [|b pre]; cbn in H; injection H as Hab Hl.
        -- now rewrite Hab.
        -- exfalso. apply (Hpre b); [now left | rewrite <- Hab; exact Hp].
    + rewrite IH. split.
      * intros (pre & post & -> & Hx & Hpre). exists (a :: pre), post.
        repeat split; [exact Hx |]. intros y [<- | Hy]; [congruence | auto].
      * intros (pre & post & H & Hx & Hpre).
        destruct pre as [|b pre]; cbn in H; injection H as Hab Hl.
        -- rewrite <- Hab in Hx. congruence.
        -- exists pre, post. repeat split; [exact Hl | exact Hx |].
           intros y Hy. apply Hpre. now right.
Qed.

Lemma next_or_none_none {A : Type} (p : A -> bool) (l : list A) :
  next_or_none p l = None <-> forall y, In y l -> p y = false.
Proof.
  induction l as [|a l IH]; cbn; [split; [intros _ y [] | reflexivity] |].
  destruct (p a) eqn:Hp.
  - split; [discriminate | intros H; specialize (H a (or_introl eq_refl)); congruence].
  - rewrite IH. split; [intros H y [<- | Hy]; auto | intros H y Hy; apply H; now right].
Qed.

Lemma py_eqb_int (a b : Z) : Py.eqb (PInt a) (PInt b) = (a =? b).
Proof. reflexivity. Qed.

Lemma closest_event_type_spec (event_types : list EventType.t) (n : Z) :
  event_types <> [] ->
  exists et,
    closest_event_type event_types (PInt n) = inr et
    /\ ((exists e, In e event_types /\ EventType.length e = n) ->
        first_such (fun e => EventType.length e = n) event_types et)
    /\ ((forall e, In e event_types -> EventType.length e <> n) ->
        is_first_min (distance n) event_types et).
Proof.
  intros Hne. unfold closest_event_type.
  destruct (next_or_none _ event_types) as [et|] eqn:E.
  - exists et. split; [reflexivity |]. apply next_or_none_some in E.
    destruct E as (pre & post & -> & Hx & Hpre). rewrite py_eqb_int in Hx.
    apply Z.eqb_eq in Hx. split.
    + intros _. exists pre, post. repeat split; [exact Hx |].
      intros y Hy Hl. apply (Hpre y Hy). rewrite py_eqb_int. now apply Z.eqb_eq.
    + intros Hno. exfalso. apply (Hno et); [apply in_or_app; right; now left | exact Hx].
  - cbn [Py.as_int].
    destruct (sort_by (fun et => Z.abs (EventType.length et - n)) event_types)
      as [|et r] eqn:Es; [apply sort_by_nil in Es; contradiction |].
    exists et. split; [reflexivity |]. split.
    + intros (e & He & Hl). exfalso.
      pose proof (proj1 (next_or_none_none _ _) E e He) as Hf.
      cbv beta in Hf. rewrite py_eqb_int in Hf. apply Z.eqb_neq in Hf. contradiction.
    + intros _. exact (sort_by_head _ _ _ _ Es).
Qed.

Lemma arg_or_get (d : list (string * pyval)) (k : string) (v : pyval) :
  PyOps.get_default (PDict d) k v = inr (arg_or d k v).
Proof. reflexivity. Qed.






(** The four event types, run: for 30 minutes the first 15-minute type is
    chosen, for 45 the exact one, and booking half an hour without an event
    type books the former. *)
Example default_event_type_run :
  option_map EventType.id
    (match closest_event_type Scenario.four_types (PInt 30) with
     | inr et => Some et
     | inl _ => None
     end) = Some 11
  /\ option_map EventType.id
       (match closest_event_type Scenario.four_types (PInt 45) with
        | inr et => Some et
        | inl _ => None
        end) = Some 12
  /\ log (snd (_book_event Scenario.env_four_types (PDict Scenario.book_args)
                 Scenario.w_session))
     = [GetEventTypes;
        BookEvent (PInt 11) (Scenario.pdt 739324 14 30) (Scenario.pdt 739324 15 0)
          (PStr "Jane Doe") (PStr "jane@example.com") PNone PNone
          (PStr "America/Los_Angeles") (PStr "en")].
Proof. vm_compute. repeat split. Qed.

(** ** The properties on the scenario *)

Lemma keyword_in_scenario : has_booking_keyword Scenario.message.
Proof.
  exists "book". split; [now left |].
  exists EmptyString, "Book",
    " an appointment for Jane Doe (jane@example.com) on March 14th at 2:30pm".
  split; reflexivity.
Defined.


Lemma C9_one_system_turn_witness :
  _get_or_create_session Scenario.env (Some "s2") Scenario.w_session
  = (inr "s2",
     mkWorld (<["s2" := [system_turn Scenario.w_session]]> (sessions Scenario.w_session))
       (system_prompt Scenario.w_session) (log Scenario.w_session)).
Proof.
  apply (proj2 (proj2 (C9_one_system_turn Scenario.env))); [discriminate |].
  vm_compute. reflexivity.
Defined.

Lemma C3_exceptions_propagate_witness :
  fst (send_message Scenario.env_refusing Scenario.request
         (ChatService_init Scenario.env_refusing []))
  = inl (Exn AppException "Error processing message: Cal.com API error: 400").
Proof.
  pose (w0 := ChatService_init Scenario.env_refusing []).
  pose (run := process_message Scenario.env_refusing Scenario.message None None w0).
  pose (response := Scenario.ok Scenario.odd_response (fst run)).
  pose (w1 := snd run).
  pose (result := default PNone
                    (default ∅ (ServiceResponse.function_results response)
                       !! "get_available_slots")).
  pose (p := default (BookingPlan.mk PNone EmptyString EmptyString PNone EmptyString PNone)
               (Scenario.ok None
                  (fst (plan_booking Scenario.env_refusing Scenario.request result w1)))).
  assert (H1 : process_message Scenario.env_refusing
                 (ChatRequest.message Scenario.request)
                 (ChatRequest.user_id Scenario.request)
                 (ChatRequest.session_id Scenario.request) w0 = (inr response, w1))
    by (vm_compute; reflexivity).
  assert (H2 : slots_result_echoed response result)
    by (eexists _, _, _; repeat split; vm_compute; reflexivity).
  assert (H3 : plan_booking Scenario.env_refusing Scenario.request result w1
               = (inr (Some p), w1)) by (vm_compute; reflexivity).
  change (fst (send_message Scenario.env_refusing Scenario.request w0)
          = inl (Exn AppException "Error processing message: Cal.com API error: 400")).
  rewrite (proj2 (proj2 (proj2 (proj2 (C3_exceptions_propagate Scenario.env_refusing
                                         Scenario.request))))
             w0 response w1 result p (Scenario.pdt 739324 14 30) (Scenario.pdt 739324 15 0)
             (Exn CalComAPIError "Cal.com API error: 400")
             H1 H2 keyword_in_scenario H3).
  - reflexivity.
  - vm_compute. reflexivity.
  - vm_compute. reflexivity.
  - reflexivity.
Defined.

(** The request of the scenario when the only free slot is on another day:
    no booking, the plain slots result, [requires_action] true. *)
Example no_slot_on_the_day_run :
  handle_request Scenario.env_other_day [] Scenario.request
  = (inr (ChatResponse.mk
            "{'slots': [{'start': '2025-03-15T09:00:00-07:00', 'end': '2025-03-15T09:30:00-07:00', 'date': '2025-03-15'}], 'event_type_id': 123, 'event_type_name': '30 Min Meeting'}"
            "new_session" true (Some Scenario.slots_call)),
     snd (process_message Scenario.env_other_day Scenario.message None None
            (ChatService_init Scenario.env_other_day []))).
Proof. vm_compute. reflexivity. Qed.

(** The request of the scenario: the slot of 14:30 is booked and the
    response confirms it. *)
Example booking_run :
  fst (handle_request Scenario.env [] Scenario.request)
  = inr (ChatResponse.mk
           "Appointment booked successfully for Jane Doe on 2025-03-14 at 14:30:00. Booking ID: abc123"
           "new_session" false None)
  /\ last (log (snd (handle_request Scenario.env [] Scenario.request)))
     = Some (BookEvent (PInt 123) (Scenario.pdt 739324 14 30) (Scenario.pdt 739324 15 0)
         (PStr "Jane Doe") (PStr "jane@example.com")
         (PStr "Appointment with Jane Doe") (PStr "Scheduled appointment for Jane Doe")
         (PStr "America/Los_Angeles") (PStr "en")).
Proof. vm_compute. split; reflexivity. Qed.

(** A message without a keyword: the slots come back and nothing is
    booked. *)
Example no_keyword_run :
  fst (handle_request Scenario.env []
         (ChatRequest.mk "What times are open March 14th?" None None))
  = inr (ChatResponse.mk
           "{'slots': [{'start': '2025-03-14T14:30:00-07:00', 'end': '2025-03-14T15:00:00-07:00', 'date': '2025-03-14'}], 'event_type_id': 123, 'event_type_name': '30 Min Meeting'}"
           "new_session" true (Some Scenario.slots_call)).
Proof. vm_compute. reflexivity. Qed.

(** ** The adapter, the service and the router as a whole *)

Lemma convert_functions_objects (functions : list fn_arg) :
  (forall d, ~ In (FnDict d) functions) ->
  convert_functions functions = inr (function_objects functions).
Proof.
  induction functions as [|f r IH]; intros H; [reflexivity |].
  cbn [convert_functions]. destruct f as [c|d]; [| exfalso; apply (H d); now left].
  cbn [fn_attributes]. rewrite IH; [reflexivity |].
  intros d Hd. apply (H d). now right.
Qed.

Lemma convert_functions_mapping (functions : list fn_arg) :
  has_mapping functions -> exists e, convert_functions functions = inl e.
Proof.
  intros (d & Hd). induction functions as [|f r IH]; [destruct Hd |].
  cbn [convert_functions]. destruct f as [c|d']; [| cbn; eauto].
  cbn [fn_attributes]. destruct Hd as [Hd | Hd]; [discriminate |].
  destruct (IH Hd) as (e & ->). eauto.
Qed.

Lemma has_mapping_dec (functions : list fn_arg) :
  has_mapping functions \/ (forall d, ~ In (FnDict d) functions).
Proof.
  induction functions as [|f r [IH | IH]].
  - right. intros d [].
  - left. destruct IH as (d & Hd). exists d. now right.
  - destruct f as [c|d].
    + right. intros d [Hd | Hd]; [discriminate | exact (IH d Hd)].
    + left. exists d. now left.
Qed.

(** X1. [chat_completion] makes at most one request, and whatever goes
    wrong comes back as an [OpenAIAPIError]. If one of the functions is a
    plain mapping it fails before any request is made and the log of calls
    is as it was. Otherwise it makes exactly one request, which carries the
    messages, the function objects in their order and the temperature as
    given; the completion is returned as it is, and a failure of the
    endpoint is raised as [OpenAIAPIError] with the text [OpenAI API
    error: ] before its message. *)
Theorem X1_chat_completion_one_call (env : Env) (messages : list ChatMessage.t)
  (functions : list fn_arg) (temperature : Z) (w : World) :
  (has_mapping functions
   /\ exists msg,
        chat_completion env messages functions temperature w
        = (inl (Exn OpenAIAPIError msg), w))
  \/ ((forall d, ~ In (FnDict d) functions)
      /\ let c := CompletionsCreate messages (function_objects functions) temperature in
         chat_completion env messages functions temperature w
         = (wrap_openai (completions_create env (log w ++ [c])%list), after_call w c)).
Proof.
  destruct (has_mapping_dec functions) as [Hm | Hn].
  - left. split; [exact Hm |]. destruct (convert_functions_mapping _ Hm) as (e & He).
    unfold chat_completion. rewrite try_except_run, bind_run. unfold lift. rewrite He.
    eexists. reflexivity.
  - right. split; [exact Hn |]. intros c.
    unfold chat_completion. rewrite try_except_run, bind_run. unfold lift.
    rewrite (convert_functions_objects _ Hn). unfold call. cbv zeta.
    fold c. destruct (completions_create env _); reflexivity.
Qed.

Lemma function_objects_map (fs : list ChatFunction.t) :
  function_objects (map FnObj fs) = fs.
Proof.
  induction fs as [|f r IH]; [reflexivity |]. cbn. unfold function_objects in IH.
  now rewrite IH.
Qed.

Lemma chat_completion_objects (env : Env) (messages : list ChatMessage.t)
  (functions : list ChatFunction.t) (temperature : Z) (w : World) :
  let c := CompletionsCreate messages functions temperature in
  chat_completion env messages (map FnObj functions) temperature w
  = (wrap_openai (completions_create env (log w ++ [c])%list), after_call w c).
Proof.
  intros c. unfold chat_completion. rewrite try_except_run, bind_run. unfold lift.
  rewrite convert_functions_objects
    by (intros d Hd; apply in_map_iff in Hd as (f & Hf & _); discriminate).
  rewrite function_objects_map. unfold call. cbv zeta.
  fold c. destruct (completions_create env _); reflexivity.
Qed.

Lemma parse_tool_calls_ok (l : list Raw.tool_call) (fcs : list FunctionCall.t) :
  parse_tool_calls l = inr fcs ->
  Forall2 call_of_tool_call fcs
    (filter (fun tc => String.eqb (Raw.type_ tc) "function" = true) l).
Proof.
  revert fcs. induction l as [|tc r IH]; intros fcs H; cbn [parse_tool_calls] in H.
  - inversion H. constructor.
  - destruct (String.eqb (Raw.type_ tc) "function") eqn:E.
    + rewrite filter_cons_True by exact E.
      destruct (Raw.fn_arguments tc) as [e|args] eqn:Ha; [discriminate |].
      destruct (parse_tool_calls r) as [e|fcs'] eqn:Hr; [discriminate |].
      inversion H; subst. constructor; [split; [reflexivity | exact Ha] | now apply IH].
    + rewrite filter_cons_False by (rewrite E; discriminate). now apply IH.
Qed.

Lemma parse_tool_calls_err (l : list Raw.tool_call) (e : exn) :
  parse_tool_calls l = inl e ->
  exists tc, In tc l /\ Raw.type_ tc = "function" /\ Raw.fn_arguments tc = inl e.
Proof.
  induction l as [|tc r IH]; intros H; cbn [parse_tool_calls] in H; [discriminate |].
  destruct (String.eqb (Raw.type_ tc) "function") eqn:E.
  - destruct (Raw.fn_arguments tc) as [e'|args] eqn:Ha.
    + inversion H; subst. exists tc. apply String.eqb_eq in E. repeat split; auto. now left.
    + destruct (parse_tool_calls r) as [e'|fcs'] eqn:Hr; [| discriminate].
      inversion H; subst. destruct (IH eq_refl) as (tc' & Hin & Ht).
      exists tc'. split; [now right | exact Ht].
  - destruct (IH H) as (tc' & Hin & Ht). exists tc'. split; [now right | exact Ht].
Qed.

(** X2. [parse_response] reads the first choice only. When it returns, the
    message has the role of the assistant, the content of the choice (the
    empty text if there is none) and no name; the calls are those tool
    calls of the choice whose type is [function], in their order, each
    with its name and its decoded arguments, and the list of calls is
    [None] rather than empty when there is no such tool call. It fails,
    with an [OpenAIAPIError], exactly when there is no choice or when the
    arguments of a tool call of type [function] cannot be decoded; tool
    calls of another type are never decoded. *)
Theorem X2_parse_response_spec (response : Raw.completion) :
  match parse_response response with
  | inr (message, calls) =>
      exists m rest,
        Raw.choices response = m :: rest
        /\ message = ChatMessage.mk ASSISTANT (default EmptyString (Raw.content m)) None None
        /\ calls <> Some []
        /\ Forall2 call_of_tool_call (default [] calls) (function_tool_calls m)
  | inl e =>
      exn_cls e = OpenAIAPIError
      /\ (Raw.choices response = []
          \/ exists m rest tc e',
               Raw.choices response = m :: rest
               /\ In tc (function_tool_calls m)
               /\ Raw.fn_arguments tc = inl e'
               /\ exn_msg e = ("Error parsing OpenAI response: " ++ exn_msg e')%string)
  end.
Proof.
  unfold parse_response. destruct (Raw.choices response) as [|m rest] eqn:Hc.
  - split; [reflexivity | now left].
  - destruct (parse_tool_calls (Raw.tool_calls m)) as [e|fcs] eqn:Hp.
    + split; [reflexivity | right].
      destruct (parse_tool_calls_err _ _ Hp) as (tc & Hin & Ht & Ha).
      exists m, rest, tc, e. repeat split; auto.
      unfold function_tool_calls. apply list_elem_of_In, list_elem_of_filter.
      split; [now rewrite Ht | now apply list_elem_of_In].
    + exists m, rest. split; [reflexivity |]. split.
      { destruct (Raw.content m); reflexivity. }
      apply parse_tool_calls_ok in Hp. fold (function_tool_calls m) in Hp.
      destruct fcs as [|fc fcs]; (split; [discriminate | exact Hp]).
Qed.

Lemma get_or_create_session_run (env : Env) (given : option string) (w : World) :
  exists session_id w0,
    _get_or_create_session env given w = (inr session_id, w0)
    /\ sessions w0 !! session_id = Some (history_before w session_id)
    /\ others_kept w w0 session_id
    /\ system_prompt w0 = system_prompt w
    /\ names_session given session_id
    /\ exists l, log w0 = (log w ++ l)%list.
Proof.
  unfold _get_or_create_session.
  assert (H : exists sid w1,
             match given with
             | Some s =>
                 if String.eqb s EmptyString then call_total Uuid4 (uuid4 env) else mret s
             | None => call_total Uuid4 (uuid4 env)
             end w = (inr sid, w1)
             /\ sessions w1 = sessions w /\ system_prompt w1 = system_prompt w
             /\ names_session given sid
             /\ exists l, log w1 = (log w ++ l)%list).
  { destruct given as [s|]; [destruct (String.eqb s EmptyString) eqn:E |].
    - eexists _, _. split; [reflexivity |]. cbn [sessions system_prompt log].
      split; [reflexivity |]. split; [reflexivity |]. split; [| eexists; reflexivity].
      intros s' [= <-] Hne. apply String.eqb_neq in Hne. congruence.
    - exists s, w. split; [reflexivity |].
      split; [reflexivity |]. split; [reflexivity |].
      split; [| exists []; now rewrite app_nil_r].
      intros s' [= <-] _. reflexivity.
    - eexists _, _. split; [reflexivity |]. cbn [sessions system_prompt log].
      split; [reflexivity |]. split; [reflexivity |]. split; [| eexists; reflexivity].
      intros s' [=]. }
  destruct H as (sid & w1 & Hrun & Hss & Hsp & Hn & l & Hl).
  rewrite bind_run, Hrun. unfold history_before, others_kept. rewrite <- Hss.
  destruct (sessions w1 !! sid) as [h|] eqn:E.
  - rewrite (session_for_known _ _ _ E). exists sid, w1. rewrite E. repeat split; eauto.
  - rewrite (session_for_unknown _ _ E). eexists _, _. split; [reflexivity |].
    cbn [sessions system_prompt log]. rewrite E.
    split; [rewrite lookup_insert_eq; unfold system_turn; now rewrite Hsp |].
    split; [intros other Hne; now rewrite lookup_insert_ne by congruence |].
    repeat split; eauto.
Qed.

(** [process_message] from the completion request on, in a world where
    the session is stored. *)
Lemma process_message_run (env : Env) (message : string) (user_id given : option string)
  (w w0 : World) (session_id : string) (h : ChatHistory.t) :
  _get_or_create_session env given w = (inr session_id, w0) ->
  sessions w0 !! session_id = Some h ->
  let c := completion_call h message in
  let w1 := after_call (with_turn w0 session_id (user_turn message)) c in
  process_message env message user_id given w
  = match completions_create env (log w0 ++ [c])%list with
    | inl e => (inl (Exn OpenAIAPIError ("OpenAI API error: " ++ exn_msg e)), w1)
    | inr completion =>
        match parse_response completion with
        | inl e => (inl e, w1)
        | inr p =>
            let w2 := with_turn w1 session_id (fst p) in
            match snd p with
            | None => (inr (ServiceResponse.mk (fst p) None None), w2)
            | Some function_calls =>
                match _process_function_calls env function_calls session_id w2 with
                | (inr r, w3) =>
                    (inr (ServiceResponse.mk (fst p) (Some function_calls) (Some r)), w3)
                | (inl e, w3) => (inl e, w3)
                end
            end
        end
    end.
Proof.
  intros Hs Hh c w1. unfold process_message.
  rewrite (bind_run_inr _ _ _ _ _ Hs).
  rewrite bind_run, add_message_run.
  rewrite bind_run. unfold get_history at 1.
  rewrite (with_turn_lookup _ _ _ _ Hh). cbn [default from_option id].
  rewrite bind_run.
  rewrite chat_completion_objects. cbv zeta. fold (user_turn message).
  change (ChatHistory.get_messages (h ++ [user_turn message])%list)
    with (h ++ [user_turn message])%list.
  change (log (with_turn w0 session_id (user_turn message))) with (log w0).
  fold (completion_call h message). fold c. fold w1.
  destruct (completions_create env (log w0 ++ [c])%list) as [e|completion]; [reflexivity |].
  cbn [wrap_openai]. rewrite bind_run. unfold lift at 1.
  destruct (parse_response completion) as [e|p]; [reflexivity |].
  rewrite bind_run, add_message_run. cbv zeta.
  destruct (snd p) as [function_calls|]; [| reflexivity].
  rewrite !bind_run.
  destruct (_process_function_calls env function_calls session_id _) as [[e|r] w3];
    reflexivity.
Qed.

Lemma parse_response_error_class (response : Raw.completion) (e : exn) :
  parse_response response = inl e -> exn_cls e = OpenAIAPIError.
Proof.
  unfold parse_response. destruct (Raw.choices response) as [|m rest].
  - intros [= <-]. reflexivity.
  - destruct (parse_tool_calls _); [intros [= <-]; reflexivity | discriminate].
Qed.

Lemma process_function_calls_others (env : Env) (session_id : string)
  (calls : list FunctionCall.t) :
  forall (results : gmap string pyval) (w w' : World) (r : result (gmap string pyval)),
    process_function_calls_from env session_id results calls w = (r, w') ->
    forall other, other <> session_id -> sessions w' !! other = sessions w !! other.
Proof.
  induction calls as [|fc rest IH]; intros results w w' r H other Hne.
  - inversion H. reflexivity.
  - cbn [process_function_calls_from] in H. rewrite bind_run in H.
    destruct (dispatch env (FunctionCall.name fc) (FunctionCall.arguments fc) w)
      as [rd w1] eqn:Hd.
    rewrite (process_function_call_run env session_id results fc w w1 rd Hd) in H.
    rewrite (IH _ _ _ _ H other Hne).
    rewrite with_turn_lookup_ne by congruence.
    destruct (ks_dispatch env _ _ _ _ _ Hd) as [Hss _]. now rewrite Hss.
Qed.

(** X3. When [process_message] returns, the history of the session (the
    one named by the caller, if it named one) is the history the turn
    started from, then the user turn, then the reply, then one tool-result
    turn per call in the order of the calls; all other sessions are as
    they were. The reply and the calls are what [parse_response] makes of
    the completion, which was requested with the history as it stood after
    the user turn. The results are [None] exactly when the calls are. *)
Theorem X3_process_message_success (env : Env) (message : string)
  (user_id given : option string) (w w' : World) (response : ServiceResponse.t) :
  process_message env message user_id given w = (inr response, w') ->
  exists session_id turns l completion,
    names_session given session_id
    /\ completions_create env (l ++ [completion_call (history_before w session_id) message])%list
       = inr completion
    /\ parse_response completion
       = inr (ServiceResponse.message response, ServiceResponse.function_calls response)
    /\ sessions w' !! session_id
       = Some (history_before w session_id
               ++ [user_turn message; ServiceResponse.message response] ++ turns)%list
    /\ Forall2 turn_of_call (default [] (ServiceResponse.function_calls response)) turns
    /\ others_kept w w' session_id
    /\ (ServiceResponse.function_results response = None
        <-> ServiceResponse.function_calls response = None).
Proof.
  intros H.
  destruct (get_or_create_session_run env given w)
    as (sid & w0 & Hs & Hh & Ho & _ & Hn & _).
  rewrite (process_message_run env message user_id given w w0 sid _ Hs Hh) in H.
  cbv zeta in H.
  set (h := history_before w sid) in *. set (c := completion_call h message) in *.
  set (w1 := after_call (with_turn w0 sid (user_turn message)) c) in *.
  assert (Hh1 : sessions w1 !! sid = Some (h ++ [user_turn message])%list)
    by (apply (with_turn_lookup w0 sid (user_turn message) h Hh)).
  assert (Ho1 : others_kept w w1 sid).
  { intros other Hne. unfold w1, after_call. cbn [sessions].
    rewrite with_turn_lookup_ne by congruence. now apply Ho. }
  destruct (completions_create env (log w0 ++ [c])%list) as [e|completion] eqn:Hc;
    [discriminate |].
  destruct (parse_response completion) as [e|[reply calls]] eqn:Hp; [discriminate |].
  cbn [fst snd] in H.
  assert (Hh2 : sessions (with_turn w1 sid reply) !! sid
                = Some ((h ++ [user_turn message]) ++ [reply])%list)
    by (now apply with_turn_lookup).
  destruct calls as [calls|].
  - destruct (process_function_calls_from_spec env sid calls ∅ _ _ Hh2)
      as (results & w3 & turns & Hrun & Hs3 & Hf & _).
    unfold _process_function_calls in H. rewrite Hrun in H.
    inversion H; subst response w3; clear H.
    cbn [ServiceResponse.message ServiceResponse.function_calls
           ServiceResponse.function_results default from_option id].
    exists sid, turns, (log w0), completion.
    split; [exact Hn |]. split; [exact Hc |]. split; [exact Hp |].
    split; [rewrite Hs3, <- !app_assoc; reflexivity |].
    split; [exact Hf |]. split; [| split; discriminate].
    intros other Hne.
    rewrite (process_function_calls_others _ _ _ _ _ _ _ Hrun other Hne).
    rewrite with_turn_lookup_ne by congruence. now apply Ho1.
  - inversion H; subst response w'; clear H.
    cbn [ServiceResponse.message ServiceResponse.function_calls
           ServiceResponse.function_results default from_option id].
    exists sid, [], (log w0), completion.
    split; [exact Hn |]. split; [exact Hc |]. split; [exact Hp |].
    split; [rewrite Hh2, <- !app_assoc; reflexivity |].
    split; [constructor |]. split; [| split; reflexivity].
    intros other Hne. rewrite with_turn_lookup_ne by congruence. now apply Ho1.
Qed.

(** X4. [process_message] raises nothing but [OpenAIAPIError]. When it
    does, the user turn is already recorded: the history of the session is
    the history the turn started from followed by the user turn and
    nothing else, and all other sessions are as they were. *)
Theorem X4_process_message_failure (env : Env) (message : string)
  (user_id given : option string) (w w' : World) (e : exn) :
  process_message env message user_id given w = (inl e, w') ->
  exn_cls e = OpenAIAPIError
  /\ exists session_id,
       names_session given session_id
       /\ sessions w' !! session_id
          = Some (history_before w session_id ++ [user_turn message])%list
       /\ others_kept w w' session_id.
Proof.
  intros H.
  destruct (get_or_create_session_run env given w)
    as (sid & w0 & Hs & Hh & Ho & _ & Hn & _).
  rewrite (process_message_run env message user_id given w w0 sid _ Hs Hh) in H.
  cbv zeta in H.
  set (h := history_before w sid) in *. set (c := completion_call h message) in *.
  set (w1 := after_call (with_turn w0 sid (user_turn message)) c) in *.
  assert (Hh1 : sessions w1 !! sid = Some (h ++ [user_turn message])%list)
    by (apply (with_turn_lookup w0 sid (user_turn message) h Hh)).
  assert (Ho1 : others_kept w w1 sid).
  { intros other Hne. unfold w1, after_call. cbn [sessions].
    rewrite with_turn_lookup_ne by congruence. now apply Ho. }
  destruct (completions_create env (log w0 ++ [c])%list) as [e0|completion] eqn:Hc.
  { inversion H; subst. split; [reflexivity |]. exists sid. auto. }
  destruct (parse_response completion) as [e0|[reply calls]] eqn:Hp.
  { inversion H; subst. split; [exact (parse_response_error_class _ _ Hp) |].
    exists sid. auto. }
  cbn [fst snd] in H. exfalso.
  destruct calls as [calls|]; [| discriminate].
  assert (Hh2 : sessions (with_turn w1 sid reply) !! sid
                = Some ((h ++ [user_turn message]) ++ [reply])%list)
    by (now apply with_turn_lookup).
  destruct (process_function_calls_from_spec env sid calls ∅ _ _ Hh2)
    as (results & w3 & turns & Hrun & _).
  unfold _process_function_calls in H. rewrite Hrun in H. discriminate.
Qed.

Lemma X4_process_message_failure_witness :
  exists e w',
    process_message Cases.env_down "hello" None (Some "s1") Scenario.w_session = (inl e, w')
    /\ exn_cls e = OpenAIAPIError
    /\ sessions w' !! "s1"
       = Some [ChatMessage.mk SYSTEM "prompt" None None; user_turn "hello"].
Proof.
  pose (run := process_message Cases.env_down "hello" None (Some "s1") Scenario.w_session).
  assert (H : run = (inl (Exn OpenAIAPIError "OpenAI API error: Connection error."), snd run))
    by (vm_compute; reflexivity).
  exists (Exn OpenAIAPIError "OpenAI API error: Connection error."), (snd run).
  split; [exact H |].
  destruct (X4_process_message_failure Cases.env_down "hello" None (Some "s1")
              Scenario.w_session _ _ H) as (Hc & sid & Hn & Hh & _).
  split; [exact Hc |].
  rewrite (Hn "s1" eq_refl ltac:(discriminate)) in Hh. exact Hh.
Defined.

Lemma X3_process_message_success_witness :
  exists response w' turns,
    process_message Scenario.env "hello" None (Some "s1") Scenario.w_session
    = (inr response, w')
    /\ sessions w' !! "s1"
       = Some ([ChatMessage.mk SYSTEM "prompt" None None]
               ++ [user_turn "hello"; ServiceResponse.message response] ++ turns)%list
    /\ Forall2 turn_of_call (default [] (ServiceResponse.function_calls response)) turns.
Proof.
  pose (run := process_message Scenario.env "hello" None (Some "s1") Scenario.w_session).
  pose (response := Scenario.ok Scenario.odd_response (fst run)).
  assert (H : run = (inr response, snd run)) by (vm_compute; reflexivity).
  destruct (X3_process_message_success Scenario.env "hello" None (Some "s1")
              Scenario.w_session _ _ H)
    as (sid & turns & l & completion & Hn & _ & _ & Hh & Hf & _).
  exists response, (snd run), turns. split; [exact H |].
  rewrite (Hn "s1" eq_refl ltac:(discriminate)) in Hh. split; [exact Hh | exact Hf].
Defined.

Lemma grown_from_refl (ss : gmap string ChatHistory.t) : grown_from ss ss.
Proof. intros sid h H. exists []. split; [now rewrite app_nil_r | constructor]. Qed.

Lemma grown_add_message (ss0 : gmap string ChatHistory.t) (session_id : string)
  (m : ChatMessage.t) :
  ChatMessage.role m <> SYSTEM -> preserves (grown_from ss0) (add_message session_id m).
Proof.
  intros Hm w r w' HP H. rewrite add_message_run in H. inversion H; subst; clear H.
  intros sid h Hh. destruct (HP sid h Hh) as (turns & Ht & Hf).
  destruct (decide (session_id = sid)) as [-> | Hne].
  - exists (turns ++ [m])%list. split.
    + rewrite (with_turn_lookup _ _ _ _ Ht). now rewrite app_assoc.
    + apply Forall_app. split; [exact Hf | constructor; [exact Hm | constructor]].
  - exists turns. split; [| exact Hf]. now rewrite with_turn_lookup_ne.
Qed.

Lemma grown_session_for (ss0 : gmap string ChatHistory.t) (session_id : string) :
  preserves (grown_from ss0) (session_for session_id).
Proof.
  intros w r w' HP H. destruct (sessions w !! session_id) as [h|] eqn:E.
  - rewrite (session_for_known _ _ _ E) in H. inversion H; subst. exact HP.
  - rewrite (session_for_unknown _ _ E) in H. inversion H; subst; clear H.
    intros sid h Hh. destruct (HP sid h Hh) as (turns & Ht & Hf).
    exists turns. split; [| exact Hf]. cbn [sessions].
    rewrite lookup_insert_ne; [exact Ht |]. intros ->. congruence.
Qed.

Lemma grown_process_message (ss0 : gmap string ChatHistory.t) (env : Env)
  (message : string) (user_id session_id : option string) :
  preserves (grown_from ss0) (process_message env message user_id session_id).
Proof.
  unfold process_message. apply pv_bind.
  - unfold _get_or_create_session. apply pv_bind; [| intros sid; apply grown_session_for].
    apply pv_of_ks. repeat ks_step.
  - intros sid. apply pv_bind; [now apply grown_add_message | intros []].
    apply pv_complete_and_dispatch. intros s m. apply grown_add_message.
Qed.

Lemma grown_send_message (ss0 : gmap string ChatHistory.t) (env : Env)
  (request : ChatRequest.t) :
  preserves (grown_from ss0) (send_message env request).
Proof.
  unfold send_message. apply pv_try; [| intros e; apply pv_of_ks, ks_raise].
  apply pv_bind; [apply grown_process_message | intros response].
  apply pv_include_function_results.
Qed.

(** X5. A request never rewrites what a session holds: whether
    [send_message] returns or raises, every history that was stored before
    is stored after, under the same identifier, with turns appended at its
    end only, none of them a system turn. *)
Theorem X5_histories_only_grow (env : Env) (request : ChatRequest.t) (w : World)
  (session_id : string) (h : ChatHistory.t) :
  sessions w !! session_id = Some h ->
  exists turns,
    sessions (snd (send_message env request w)) !! session_id = Some (h ++ turns)%list
    /\ Forall (fun m => ChatMessage.role m <> SYSTEM) turns.
Proof.
  intros H. destruct (send_message env request w) as [r w'] eqn:E.
  exact (grown_send_message (sessions w) env request w r w' (grown_from_refl _) E
           session_id h H).
Qed.

Lemma X5_histories_only_grow_witness :
  exists turns,
    sessions (snd (send_message Scenario.env (ChatRequest.mk "hello" None (Some "s1"))
                     Scenario.w_session)) !! "s1"
    = Some ([ChatMessage.mk SYSTEM "prompt" None None] ++ turns)%list
    /\ Forall (fun m => ChatMessage.role m <> SYSTEM) turns.
Proof.
  apply (X5_histories_only_grow Scenario.env (ChatRequest.mk "hello" None (Some "s1"))
           Scenario.w_session "s1").
  vm_compute. reflexivity.
Defined.

Lemma process_function_calls_lookup_other (env : Env) (session_id : string)
  (calls : list FunctionCall.t) (n : string) :
  forall (results0 results : gmap string pyval) (w w' : World),
    process_function_calls_from env session_id results0 calls w = (inr results, w') ->
    ~ In n (call_names calls) ->
    results !! n = results0 !! n.
Proof.
  induction calls as [|fc rest IH]; intros results0 results w w' H Hn.
  - inversion H. reflexivity.
  - cbn [process_function_calls_from] in H. rewrite bind_run in H.
    destruct (dispatch env (FunctionCall.name fc) (FunctionCall.arguments fc) w)
      as [rd w1] eqn:Hd.
    rewrite (process_function_call_run env session_id results0 fc w w1 rd Hd) in H.
    rewrite (IH _ _ _ _ H) by (intros Hin; apply Hn; now right).
    apply lookup_insert_ne. intros Heq. apply Hn. now left.
Qed.

Lemma process_function_calls_last (env : Env) (session_id : string)
  (calls : list FunctionCall.t) :
  forall (results0 results : gmap string pyval) (w w' : World),
    process_function_calls_from env session_id results0 calls w = (inr results, w') ->
    forall pre fc post res1 w1 r w1',
      calls = (pre ++ fc :: post)%list ->
      ~ In (FunctionCall.name fc) (call_names post) ->
      process_function_calls_from env session_id results0 pre w = (inr res1, w1) ->
      dispatch env (FunctionCall.name fc) (FunctionCall.arguments fc) w1 = (r, w1') ->
      results !! FunctionCall.name fc = Some (outcome_value r).
Proof.
  induction calls as [|fc0 rest IH];
    intros results0 results w w' H pre fc post res1 w1 r w1' Hc Hn Hpre Hd.
  - destruct pre; discriminate.
  - cbn [process_function_calls_from] in H. rewrite bind_run in H.
    destruct (dispatch env (FunctionCall.name fc0) (FunctionCall.arguments fc0) w)
      as [rd wd] eqn:Hd0.
    rewrite (process_function_call_run env session_id results0 fc0 w wd rd Hd0) in H.
    destruct pre as [|x pre].
    + cbn in Hc. inversion Hc; subst fc0 post. cbn in Hpre. inversion Hpre; subst res1 w1.
      rewrite Hd0 in Hd. inversion Hd; subst rd wd.
      rewrite (process_function_calls_lookup_other _ _ _ _ _ _ _ _ H Hn).
      apply lookup_insert_eq.
    + cbn in Hc. inversion Hc; subst x rest.
      cbn [process_function_calls_from] in Hpre. rewrite bind_run in Hpre.
      rewrite (process_function_call_run env session_id results0 fc0 w wd rd Hd0) in Hpre.
      exact (IH _ _ _ _ H pre fc post res1 w1 r w1' eq_refl Hn Hpre Hd).
Qed.

Lemma process_function_calls_keys (env : Env) (session_id : string)
  (calls : list FunctionCall.t) :
  forall (results0 results : gmap string pyval) (w w' : World),
    process_function_calls_from env session_id results0 calls w = (inr results, w') ->
    forall n, is_Some (results !! n) <-> is_Some (results0 !! n) \/ In n (call_names calls).
Proof.
  induction calls as [|fc rest IH]; intros results0 results w w' H n.
  - inversion H. cbn. tauto.
  - cbn [process_function_calls_from] in H. rewrite bind_run in H.
    destruct (dispatch env (FunctionCall.name fc) (FunctionCall.arguments fc) w)
      as [rd w1] eqn:Hd.
    rewrite (process_function_call_run env session_id results0 fc w w1 rd Hd) in H.
    rewrite (IH _ _ _ _ H n). cbn [call_names map].
    destruct (decide (FunctionCall.name fc = n)) as [<- | Hne].
    + rewrite lookup_insert_eq. split; [intros _; right; now left | intros _; left; eauto].
    + rewrite lookup_insert_ne by exact Hne. cbn [In]. tauto.
Qed.

(** X6. The results of [_process_function_calls] are keyed by function
    name: a name has a result exactly when a call of the turn has that
    name, and when several calls share a name the result kept is the one
    of the last of them (its value, or its in-band error). *)
Theorem X6_function_results_by_name (env : Env) (calls : list FunctionCall.t)
  (session_id : string) (w w' : World) (results : gmap string pyval) :
  _process_function_calls env calls session_id w = (inr results, w') ->
  (forall n, is_Some (results !! n) <-> In n (call_names calls))
  /\ (forall pre fc post res1 w1 r w1',
         calls = (pre ++ fc :: post)%list ->
         ~ In (FunctionCall.name fc) (call_names post) ->
         _process_function_calls env pre session_id w = (inr res1, w1) ->
         dispatch env (FunctionCall.name fc) (FunctionCall.arguments fc) w1 = (r, w1') ->
         results !! FunctionCall.name fc = Some (outcome_value r)).
Proof.
  unfold _process_function_calls. intros H. split.
  - intros n. rewrite (process_function_calls_keys _ _ _ _ _ _ _ H n).
    rewrite lookup_empty. split; [intros [[x Hx] | Hin]; [discriminate | exact Hin] | auto].
  - exact (process_function_calls_last _ _ _ _ _ _ _ H).
Qed.

Lemma parse_response_calls (response : Raw.completion) (message : ChatMessage.t) :
  parse_response response <> inr (message, Some []).
Proof.
  unfold parse_response. destruct (Raw.choices response) as [|m rest]; [discriminate |].
  destruct (parse_tool_calls _) as [e|[|fc fcs]]; discriminate.
Qed.

Lemma process_message_results (env : Env) (message : string)
  (user_id given : option string) (w w' : World) (response : ServiceResponse.t) :
  process_message env message user_id given w = (inr response, w') ->
  match ServiceResponse.function_calls response with
  | Some calls =>
      exists results,
        calls <> []
        /\ ServiceResponse.function_results response = Some results
        /\ forall n, is_Some (results !! n) <-> In n (call_names calls)
  | None => ServiceResponse.function_results response = None
  end.
Proof.
  intros H.
  destruct (get_or_create_session_run env given w)
    as (sid & w0 & Hs & Hh & _).
  rewrite (process_message_run env message user_id given w w0 sid _ Hs Hh) in H.
  cbv zeta in H.
  destruct (completions_create env _) as [e|completion]; [discriminate |].
  destruct (parse_response completion) as [e|[reply calls]] eqn:Hp; [discriminate |].
  cbn [fst snd] in H. destruct calls as [calls|].
  - destruct (_process_function_calls env calls sid _) as [[e|results] w3] eqn:Hrun;
      [discriminate |].
    inversion H; subst; clear H. cbn. exists results.
    split; [intros ->; exact (parse_response_calls _ _ Hp) |].
    split; [reflexivity |].
    intros n. unfold _process_function_calls in Hrun.
    rewrite (process_function_calls_keys _ _ _ _ _ _ _ Hrun n), lookup_empty.
    split; [intros [[x Hx] | Hin]; [discriminate | exact Hin] | auto].
  - inversion H; subst. reflexivity.
Qed.

Lemma or_text_not_empty (x : option string) (y : string) :
  y <> EmptyString -> or_text x y <> EmptyString.
Proof.
  intros Hy. unfold or_text. destruct x as [s|]; [| exact Hy].
  destruct (String.eqb s EmptyString) eqn:E; [exact Hy | now apply String.eqb_neq].
Qed.

(** X7. The response of [send_message] outside auto-booking. If the
    service returned no call, the response is the reply's text, or the
    sentence [I'll check your scheduled events.] when that text is empty
    (so it is never empty), [requires_action] is false and there are no
    action details. If it returned calls, the first call has a result, and
    unless that call is [get_available_slots] under a message with a
    booking keyword the response is the text of that result,
    [requires_action] is true and the action details are the first call.
    In both cases nothing is called after the service returned. *)
Theorem X7_reply_without_booking (env : Env) (request : ChatRequest.t) (w w1 : World)
  (response : ServiceResponse.t) :
  process_message env (ChatRequest.message request) (ChatRequest.user_id request)
    (ChatRequest.session_id request) w = (inr response, w1) ->
  match ServiceResponse.function_calls response with
  | None =>
      send_message env request w
      = (inr (plain_response request (reply_text response) None), w1)
      /\ reply_text response <> EmptyString
  | Some calls =>
      exists first rest results result,
        calls = first :: rest
        /\ ServiceResponse.function_results response = Some results
        /\ results !! FunctionCall.name first = Some result
        /\ (auto_booking_triggered (FunctionCall.name first) (ChatRequest.message request)
            = false ->
            send_message env request w
            = (inr (plain_response request (Py.str result) (Some first)), w1))
  end.
Proof.
  intros H. pose proof (process_message_results _ _ _ _ _ _ _ H) as Hr.
  rewrite (send_message_run env request w w1 response H).
  destruct (ServiceResponse.function_calls response) as [calls|] eqn:Hc.
  - destruct Hr as (results & Hne & Hres & Hkeys).
    destruct calls as [|first rest]; [congruence |].
    destruct (proj2 (Hkeys (FunctionCall.name first)) (or_introl eq_refl))
      as [result Hl].
    exists first, rest, results, result. repeat split; auto.
    intros Ht.
    rewrite (include_function_results_found _ _ _ _ _ _ _ _ Hc Hres Hl), Ht.
    unfold create_response. rewrite Hc. reflexivity.
  - split; [| apply or_text_not_empty; discriminate].
    unfold include_function_results. rewrite Hr.
    unfold create_response. rewrite Hc. reflexivity.
Qed.

Lemma process_message_error_class (env : Env) (message : string)
  (user_id given : option string) (w w' : World) (e : exn) :
  process_message env message user_id given w = (inl e, w') ->
  exn_cls e = OpenAIAPIError.
Proof.
  intros H.
  destruct (get_or_create_session_run env given w) as (sid & w0 & Hs & Hh & _).
  rewrite (process_message_run env message user_id given w w0 sid _ Hs Hh) in H.
  cbv zeta in H.
  destruct (completions_create env _) as [e0|completion].
  { inversion H; subst. reflexivity. }
  destruct (parse_response completion) as [e0|[reply calls]] eqn:Hp.
  { inversion H; subst. exact (parse_response_error_class _ _ Hp). }
  cbn [fst snd] in H. exfalso. destruct calls as [calls|]; [| discriminate].
  match type of H with
  | context [_process_function_calls env calls sid ?w2] =>
      assert (Hh2 : is_Some (sessions w2 !! sid))
  end.
  { unfold with_turn, after_call. cbn [sessions]. rewrite !lookup_alter_eq, Hh. cbn. eauto. }
  destruct Hh2 as (h2 & Hh2).
  destruct (process_function_calls_from_spec env sid calls ∅ _ _ Hh2)
    as (results & w3 & turns & Hrun & _).
  unfold _process_function_calls in H. rewrite Hrun in H. discriminate.
Qed.

Lemma include_function_results_fails (env : Env) (request : ChatRequest.t)
  (response : ServiceResponse.t) (chat_response : ChatResponse.t) (w w' : World) (e : exn) :
  include_function_results env request response chat_response w = (inl e, w') ->
  enters_auto_booking request response.
Proof.
  unfold include_function_results. intros H.
  destruct (ServiceResponse.function_results response) as [results|]; [| discriminate].
  case_bool_decide; [discriminate |].
  destruct (ServiceResponse.function_calls response) as [[|first rest]|] eqn:Hc;
    try discriminate.
  destruct (results !! FunctionCall.name first) as [result|]; [| discriminate].
  destruct (auto_booking_triggered _ _) eqn:Ht; [| discriminate].
  exists first, rest. split; [exact Hc | exact Ht].
Qed.

Lemma on_error_class (e : exn) :
  exn_cls (on_error e) = ValidationError
  \/ exn_cls (on_error e) = OpenAIAPIError
  \/ exn_cls (on_error e) = AppException.
Proof. unfold on_error. destruct e as [[] msg]; cbn; auto. Qed.

(** X8. [send_message] raises nothing but [ValidationError],
    [OpenAIAPIError] and [AppException], and it fails in two ways only:
    [process_message] failed, and its [OpenAIAPIError] is raised as it is;
    or the service returned and the auto-booking block, entered because
    the first call is [get_available_slots] and the message has a booking
    keyword, raised. *)
Theorem X8_request_failures (env : Env) (request : ChatRequest.t) (w w' : World) (e : exn) :
  send_message env request w = (inl e, w') ->
  (exn_cls e = ValidationError \/ exn_cls e = OpenAIAPIError \/ exn_cls e = AppException)
  /\ ((process_message env (ChatRequest.message request) (ChatRequest.user_id request)
         (ChatRequest.session_id request) w = (inl e, w')
       /\ exn_cls e = OpenAIAPIError)
      \/ exists response w1 e0,
           process_message env (ChatRequest.message request) (ChatRequest.user_id request)
             (ChatRequest.session_id request) w = (inr response, w1)
           /\ enters_auto_booking request response
           /\ include_function_results env request response
                (create_response request response) w1 = (inl e0, w')
           /\ e = on_error e0).
Proof.
  intros H. unfold send_message in H. rewrite try_except_run, bind_run in H.
  destruct (process_message env _ _ _ w) as [[e0|response] w1] eqn:Hp.
  - pose proof (process_message_error_class _ _ _ _ _ _ _ Hp) as Hc.
    unfold raise in H. inversion H; subst; clear H.
    assert (He : on_error e0 = e0) by (unfold on_error; now rewrite Hc).
    rewrite He. split; [auto | left; auto].
  - destruct (include_function_results env request response _ w1) as [[e0|a] w2] eqn:Hi;
      [| discriminate].
    unfold raise in H. inversion H; subst; clear H.
    split; [apply on_error_class | right].
    exists response, w1, e0. repeat split; auto.
    exact (include_function_results_fails _ _ _ _ _ _ _ Hi).
Qed.

Lemma X8_request_failures_witness :
  exists e w',
    send_message Scenario.env_refusing Scenario.request
      (ChatService_init Scenario.env_refusing []) = (inl e, w')
    /\ (exists response w1 e0,
          process_message Scenario.env_refusing Scenario.message None None
            (ChatService_init Scenario.env_refusing []) = (inr response, w1)
          /\ enters_auto_booking Scenario.request response
          /\ e = on_error e0).
Proof.
  pose (run := send_message Scenario.env_refusing Scenario.request
                 (ChatService_init Scenario.env_refusing [])).
  assert (H : run = (inl (Exn AppException "Error processing message: Cal.com API error: 400"),
                     snd run)) by (vm_compute; reflexivity).
  eexists _, _. split; [exact H |].
  destruct (X8_request_failures Scenario.env_refusing Scenario.request _ _ _ H)
    as [_ [[_ Hc] | (response & w1 & e0 & Hp & Ha & _ & He)]]; [discriminate Hc |].
  exists response, w1, e0. auto.
Defined.

Ltac run_args :=
  repeat (rewrite bind_run; unfold lift at 1;
          first [rewrite get_dict | rewrite arg_or_get]; cbv beta iota).

(** X9. A tool call that lacks a required argument (absent, [None], empty
    or zero) is refused before anything is asked of the calendar: the
    handler raises the [ValidationError] of the first such argument in the
    order of its checks and the log of calls is unchanged. For
    [book_event] this holds when [event_type_id] is given. *)
Theorem X9_missing_argument_makes_no_call (env : Env) (name : string)
  (d : list (string * pyval)) (msg : string) (w : World) :
  first_missing (required_arguments name) d = Some msg ->
  (name = "book_event" -> Py.truthy (arg d "event_type_id") = true) ->
  dispatch env name (PDict d) w = (inl (Exn ValidationError msg), w).
Proof.
  unfold required_arguments, dispatch. intros H Hb.
  destruct (String.eqb name "get_event_types") eqn:E0.
  { apply String.eqb_eq in E0; subst name. discriminate H. }
  destruct (String.eqb name "get_available_slots") eqn:E1.
  { cbn [first_missing] in H. destruct (Py.truthy (arg d "date")) eqn:T1; [discriminate |].
    inversion H; subst msg. unfold _get_available_slots, slots_request.
    rewrite bind_run. run_args. rewrite T1. reflexivity. }
  destruct (String.eqb name "book_event") eqn:E2.
  { apply String.eqb_eq in E2. specialize (Hb E2). cbn [first_missing] in H.
    unfold _book_event. run_args. rewrite Hb. cbn [negb]. rewrite bind_run.
    unfold mret at 1, M_ret at 1. cbv beta iota. rewrite bind_run.
    destruct (Py.truthy (arg d "start_time")) eqn:T1;
      [| inversion H; subst msg; reflexivity].
    destruct (Py.truthy (arg d "end_time")) eqn:T2;
      [| inversion H; subst msg; reflexivity].
    destruct (Py.truthy (arg d "name")) eqn:T3;
      [| inversion H; subst msg; reflexivity].
    destruct (Py.truthy (arg d "email")) eqn:T4;
      [discriminate | inversion H; subst msg; reflexivity]. }
  destruct (String.eqb name "list_events") eqn:E3.
  { cbn [first_missing] in H. destruct (Py.truthy (arg d "email")) eqn:T1; [discriminate |].
    inversion H; subst msg. unfold _list_events. run_args. rewrite T1. reflexivity. }
  destruct (String.eqb name "cancel_event") eqn:E4.
  { cbn [first_missing] in H.
    destruct (Py.truthy (arg d "booking_id")) eqn:T1; [discriminate |].
    inversion H; subst msg. unfold _cancel_event. run_args. rewrite T1. reflexivity. }
  destruct (String.eqb name "reschedule_event") eqn:E5; [| discriminate H].
  cbn [first_missing] in H. unfold _reschedule_event. run_args. rewrite bind_run.
  destruct (Py.truthy (arg d "booking_id")) eqn:T1;
    [| inversion H; subst msg; reflexivity].
  destruct (Py.truthy (arg d "start_time")) eqn:T2;
    [| inversion H; subst msg; reflexivity].
  destruct (Py.truthy (arg d "end_time")) eqn:T3;
    [discriminate | inversion H; subst msg; reflexivity].
Qed.

(** X10. [_book_event] without [event_type_id] asks for the event types
    before it checks its arguments. When the start or the end time is
    missing, the handler has made one [get_event_types] call and then
    fails: with the provider's own exception, not wrapped, if that call
    failed; with [No event types available] if the list is empty; and
    otherwise with the [ValidationError] of the missing time. *)
Theorem X10_book_event_lookup_before_checks (env : Env) (d : list (string * pyval)) (w : World) :
  Py.truthy (arg d "event_type_id") = false ->
  Py.truthy (arg d "start_time") && Py.truthy (arg d "end_time") = false ->
  _book_event env (PDict d) w
  = (match get_event_types env (log w ++ [GetEventTypes])%list with
     | inl e => inl e
     | inr [] => inl (Exn ValidationError "No event types available")
     | inr (_ :: _) =>
         inl (Exn ValidationError
                (if Py.truthy (arg d "start_time") then "End time is required"
                 else "Start time is required"))
     end,
     after_call w GetEventTypes).
Proof.
  intros Hid Hse. unfold _book_event. run_args. rewrite Hid, Hse. cbn [negb].
  rewrite !bind_run. unfold mret at 1, M_ret at 1. cbv beta iota.
  unfold select_event_type. rewrite bind_run. unfold call at 1. cbv zeta.
  fold (after_call w GetEventTypes).
  destruct (get_event_types env (log w ++ [GetEventTypes])%list) as [e|[|et0 ets]];
    [reflexivity | reflexivity |].
  destruct (closest_event_type_spec (et0 :: ets) 30 ltac:(discriminate)) as (et & Hc & _).
  rewrite bind_run. unfold lift at 1. rewrite Hc. cbv beta iota.
  unfold mret at 1, M_ret at 1. cbv beta iota.
  destruct (Py.truthy (arg d "start_time")); [| reflexivity].
  cbn [andb] in Hse. rewrite Hse. reflexivity.
Qed.

Lemma X6_function_results_by_name_witness :
  exists results w',
    _process_function_calls Scenario.env Cases.calls_repeated "s1" Scenario.w_session
    = (inr results, w')
    /\ (forall n, is_Some (results !! n) <-> In n ["get_event_types"; "fly_to_the_moon"]).
Proof.
  pose (run := _process_function_calls Scenario.env Cases.calls_repeated "s1"
                 Scenario.w_session).
  assert (H : run = (inr (Scenario.ok ∅ (fst run)), snd run)) by (vm_compute; reflexivity).
  exists (Scenario.ok ∅ (fst run)), (snd run). split; [exact H |].
  destruct (X6_function_results_by_name Scenario.env Cases.calls_repeated "s1"
              Scenario.w_session _ _ H) as [Hk _].
  intros n. rewrite (Hk n). cbn. tauto.
Defined.

Lemma X7_reply_without_booking_witness :
  exists result,
    send_message Scenario.env Cases.question Scenario.w0
    = (inr (plain_response Cases.question (Py.str result) (Some Scenario.slots_call)),
       snd (process_message Scenario.env (ChatRequest.message Cases.question) None None
              Scenario.w0)).
Proof.
  pose (run := process_message Scenario.env (ChatRequest.message Cases.question) None None
                 Scenario.w0).
  pose (response := Scenario.ok Scenario.odd_response (fst run)).
  assert (H : process_message Scenario.env (ChatRequest.message Cases.question)
                (ChatRequest.user_id Cases.question) (ChatRequest.session_id Cases.question)
                Scenario.w0 = (inr response, snd run)) by (vm_compute; reflexivity).
  pose proof (X7_reply_without_booking Scenario.env Cases.question _ _ _ H) as T.
  assert (Hc : ServiceResponse.function_calls response = Some [Scenario.slots_call])
    by (vm_compute; reflexivity).
  rewrite Hc in T. destruct T as (first & rest & results & result & Heq & _ & _ & Hsend).
  inversion Heq; subst first rest. exists result. apply Hsend. vm_compute. reflexivity.
Defined.

Lemma X9_missing_argument_makes_no_call_witness :
  dispatch Scenario.env "cancel_event" (PDict [("reason", PStr "no time")])
    Scenario.w_session
  = (inl (Exn ValidationError "Booking ID is required"), Scenario.w_session).
Proof.
  apply (X9_missing_argument_makes_no_call Scenario.env "cancel_event"
           [("reason", PStr "no time")]); [reflexivity | discriminate].
Defined.

Lemma X10_book_event_lookup_before_checks_witness :
  _book_event Scenario.env (PDict [("name", PStr "Jane Doe")]) Scenario.w_session
  = (inl (Exn ValidationError "Start time is required"),
     after_call Scenario.w_session GetEventTypes).
Proof.
  exact (X10_book_event_lookup_before_checks Scenario.env [("name", PStr "Jane Doe")]
           Scenario.w_session eq_refl eq_refl).
Defined.

(** ** Dates and their texts: what is written is read back *)

Lemma int_digits_uint (d : Decimal.uint) :
  forall acc, PyStr.int_digits_acc acc (NilEmpty.string_of_uint d) = uint_val acc d.
Proof.
  induction d as [|l IH|l IH|l IH|l IH|l IH|l IH|l IH|l IH|l IH|l IH]; intros acc; cbn [NilEmpty.string_of_uint PyStr.int_digits_acc uint_val];
    try reflexivity; rewrite IH; f_equal;
    match goal with
    | |- context [PyStr.digit_val ?c] =>
        let v := eval vm_compute in (PyStr.digit_val c) in
        change (PyStr.digit_val c) with v
    end; lia.
Qed.

Lemma uint_val_acc (d : Decimal.uint) :
  forall acc, uint_val (Z.pos acc) d = Z.pos (Pos.of_uint_acc d acc).
Proof.
  induction d as [|l IH|l IH|l IH|l IH|l IH|l IH|l IH|l IH|l IH|l IH]; intros acc; cbn [uint_val Pos.of_uint_acc]; try reflexivity;
    rewrite <- IH; f_equal; lia.
Qed.

Lemma uint_val_of_uint (d : Decimal.uint) : uint_val 0 d = Z.of_N (Pos.of_uint d).
Proof.
  induction d as [|l IH|l IH|l IH|l IH|l IH|l IH|l IH|l IH|l IH|l IH];
    cbn [uint_val Pos.of_uint]; try reflexivity; try exact IH;
    match goal with
    | |- uint_val ?a _ = _ => let v := eval vm_compute in a in change a with v
    end; rewrite uint_val_acc; reflexivity.
Qed.

Lemma of_Z_pos (p : positive) :
  PyStr.of_Z (Z.pos p) = NilEmpty.string_of_uint (Pos.to_uint p).
Proof.
  unfold PyStr.of_Z. cbn [Z.to_int NilZero.string_of_int].
  pose proof (DecimalPos.Unsigned.to_uint_nonnil p) as H.
  destruct (Pos.to_uint p); [contradiction | reflexivity ..].
Qed.

Lemma int_of_digits_of_Z (n : Z) : 0 <= n -> PyStr.int_of_digits (PyStr.of_Z n) = n.
Proof.
  intros Hn. unfold PyStr.int_of_digits.
  destruct n as [|p|p]; [reflexivity | | lia].
  rewrite of_Z_pos, int_digits_uint, uint_val_of_uint.
  now rewrite DecimalPos.Unsigned.of_to.
Qed.

Lemma all_digits_uint (d : Decimal.uint) :
  PyStr.all_digits (NilEmpty.string_of_uint d) = true.
Proof. induction d as [|l IH|l IH|l IH|l IH|l IH|l IH|l IH|l IH|l IH|l IH]; cbn [NilEmpty.string_of_uint PyStr.all_digits]; auto. Qed.

Lemma all_digits_of_Z (n : Z) : 0 <= n -> PyStr.all_digits (PyStr.of_Z n) = true.
Proof.
  intros Hn. destruct n as [|p|p]; [reflexivity | | lia].
  rewrite of_Z_pos. apply all_digits_uint.
Qed.

Lemma uint_val_lower (d : Decimal.uint) :
  forall acc, 0 <= acc ->
    acc * 10 ^ Z.of_nat (String.length (NilEmpty.string_of_uint d)) <= uint_val acc d.
Proof.
  induction d as [|l IH|l IH|l IH|l IH|l IH|l IH|l IH|l IH|l IH|l IH]; intros acc Hacc;
    cbn [NilEmpty.string_of_uint String.length uint_val]; [cbn; lia | ..];
    rewrite Nat2Z.inj_succ, Z.pow_succ_r by lia;
    match goal with
    | |- _ <= uint_val ?a _ => pose proof (IH a ltac:(lia)) as Hl
    end;
    assert (0 <= 10 ^ Z.of_nat (String.length (NilEmpty.string_of_uint l)))
      by (apply Z.pow_nonneg; lia);
    nia.
Qed.

Lemma unorm_D0 (d l : Decimal.uint) : Decimal.unorm d = Decimal.D0 l -> l = Decimal.Nil.
Proof.
  induction d as [|d IH|d IH|d IH|d IH|d IH|d IH|d IH|d IH|d IH|d IH];
    cbn [Decimal.unorm]; intros H; try discriminate; auto.
  inversion H. reflexivity.
Qed.

Lemma length_of_Z (n : Z) (w : nat) :
  0 <= n < 10 ^ Z.of_nat w -> (1 <= w)%nat -> (String.length (PyStr.of_Z n) <= w)%nat.
Proof.
  intros [Hn Hw] H1. destruct n as [|p|p]; [cbn; lia | | lia].
  rewrite of_Z_pos.
  pose proof (DecimalPos.Unsigned.to_of (Pos.to_uint p)) as Hnorm.
  rewrite DecimalPos.Unsigned.of_to in Hnorm. cbn [N.to_uint] in Hnorm.
  pose proof (uint_val_of_uint (Pos.to_uint p)) as Hval.
  rewrite DecimalPos.Unsigned.of_to in Hval. cbn [Z.of_N] in Hval.
  destruct (Pos.to_uint p) as [|l|l|l|l|l|l|l|l|l|l] eqn:E;
    [exfalso; eapply DecimalPos.Unsigned.to_uint_nonnil; eassumption | ..].
  { symmetry in Hnorm. apply unorm_D0 in Hnorm. subst l. cbn. lia. }
  all: cbn [uint_val Z.mul Z.add] in Hval;
    cbn [NilEmpty.string_of_uint String.length];
    apply Nat.nlt_ge; intros Hlt;
    match type of Hval with
    | uint_val ?a _ = _ => pose proof (uint_val_lower l a ltac:(lia)) as Hlow
    end;
    rewrite Hval in Hlow;
    assert (Hp : 10 ^ Z.of_nat w <= 10 ^ Z.of_nat (String.length (NilEmpty.string_of_uint l)))
      by (apply Z.pow_le_mono_r; lia);
    assert (0 < 10 ^ Z.of_nat (String.length (NilEmpty.string_of_uint l)))
      by (apply Z.pow_pos_nonneg; lia);
    nia.
Qed.

Lemma length_append (a b : string) :
  String.length (a ++ b)%string = (String.length a + String.length b)%nat.
Proof. induction a as [|c a IH]; [reflexivity |]. sapp. cbn. now rewrite IH. Qed.

Lemma length_zeros (k : nat) : String.length (PyStr.zeros k) = k.
Proof. induction k as [|k IH]; [reflexivity |]. cbn. now rewrite IH. Qed.

Lemma all_digits_zeros (k : nat) (s : string) :
  PyStr.all_digits (PyStr.zeros k ++ s) = PyStr.all_digits s.
Proof. induction k as [|k IH]; [reflexivity |]. cbn [PyStr.zeros]. sapp. cbn. exact IH. Qed.

Lemma int_digits_zeros (k : nat) (s : string) :
  PyStr.int_digits_acc 0 (PyStr.zeros k ++ s) = PyStr.int_digits_acc 0 s.
Proof. induction k as [|k IH]; [reflexivity |]. cbn [PyStr.zeros]. sapp. cbn. exact IH. Qed.

Lemma zpad_digits (w : nat) (n : Z) :
  (1 <= w)%nat -> 0 <= n < 10 ^ Z.of_nat w -> digits_of w n (PyStr.zpad w n).
Proof.
  intros Hw Hn. pose proof (length_of_Z n w Hn Hw) as Hl. unfold digits_of, PyStr.zpad.
  split; [rewrite length_append, length_zeros; lia |]. split.
  - rewrite all_digits_zeros. apply all_digits_of_Z. lia.
  - unfold PyStr.int_of_digits. rewrite int_digits_zeros. apply int_of_digits_of_Z. lia.
Qed.

Lemma digits_n_ok (w : nat) (n : Z) (s : string) :
  digits_of w n s -> DateTime.digits_n w s = Some n.
Proof.
  intros (Hl & Hd & Hv). unfold DateTime.digits_n.
  rewrite Hl, Nat.eqb_refl, Hd, Hv. reflexivity.
Qed.

Lemma all_from_spec (f : Z -> bool) (fuel : nat) :
  forall a, all_from f fuel a = true ->
    forall n, a <= n < a + Z.of_nat fuel -> f n = true.
Proof.
  induction fuel as [|k IH]; intros a H n Hn; [lia |].
  cbn [all_from] in H. apply andb_true_iff in H as [Ha Hr].
  destruct (Z.eq_dec n a) as [-> | Hne]; [exact Ha |].
  apply (IH (a + 1) Hr). lia.
Qed.

Lemma month_day_table :
  all_from (month_day_ok 2025) (Z.to_nat 365) 0 = true
  /\ all_from (month_day_ok 2024) (Z.to_nat 366) 0 = true.
Proof. split; vm_compute; reflexivity. Qed.

Lemma is_leap_cases (y : Z) :
  DateTime.is_leap y = DateTime.is_leap 2024 \/ DateTime.is_leap y = DateTime.is_leap 2025.
Proof. destruct (DateTime.is_leap y); [left | right]; reflexivity. Qed.

Lemma month_day_ok_leap (y y' n : Z) :
  DateTime.is_leap y = DateTime.is_leap y' -> month_day_ok y n = month_day_ok y' n.
Proof.
  intros H. unfold month_day_ok, DateTime.days_in_month, DateTime.days_before_month.
  now rewrite H.
Qed.

Lemma month_day_spec (y n : Z) :
  0 <= n < 365 + (if DateTime.is_leap y then 1 else 0) ->
  month_day_ok y n = true.
Proof.
  intros Hn. destruct month_day_table as [T25 T24].
  destruct (DateTime.is_leap y) eqn:E.
  - rewrite (month_day_ok_leap y 2024 n) by (rewrite E; reflexivity).
    apply (all_from_spec _ _ _ T24). rewrite Z2Nat.id; lia.
  - rewrite (month_day_ok_leap y 2025 n) by (rewrite E; reflexivity).
    apply (all_from_spec _ _ _ T25). rewrite Z2Nat.id; lia.
Qed.

Lemma year_arith (n400 n100 n4 n1 : Z) :
  0 <= n400 -> 0 <= n100 <= 3 -> 0 <= n4 <= 24 -> 0 <= n1 <= 3 ->
  let year := n400 * 400 + 1 + n100 * 100 + n4 * 4 + n1 in
  DateTime.days_before_year year = 146097 * n400 + 36524 * n100 + 1461 * n4 + 365 * n1
  /\ DateTime.is_leap year = (n1 =? 3) && (negb (n4 =? 24) || (n100 =? 3)).
Proof.
  intros H400 H100 H4 H1 year. split.
  - unfold DateTime.days_before_year. subst year. cbv zeta.
    Z.div_mod_to_equations. lia.
  - unfold DateTime.is_leap. subst year.
    destruct (Z.eqb_spec n1 3); destruct (Z.eqb_spec n4 24); destruct (Z.eqb_spec n100 3);
      cbn [andb orb negb];
      repeat match goal with
        | |- context [?a mod ?b =? 0] => destruct (Z.eqb_spec (a mod b) 0)
        end; cbn [andb orb negb]; try reflexivity; exfalso;
      Z.div_mod_to_equations; lia.
Qed.

Lemma days_before_month_12 (y : Z) :
  DateTime.days_before_month y 12 = 334 + (if DateTime.is_leap y then 1 else 0).
Proof. reflexivity. Qed.

Lemma ord2ymd_ok (n0 : Z) :
  1 <= n0 ->
  let '(y, m, d) := DateTime.ord2ymd n0 in
  1 <= y /\ 1 <= m <= 12 /\ 1 <= d <= DateTime.days_in_month y m
  /\ DateTime.ymd2ord y m d = n0.
Proof.
  intros Hn0. unfold DateTime.ord2ymd. cbv zeta.
  set (n := n0 - 1).
  set (n400 := n / 146097). set (r1 := n mod 146097).
  set (n100 := r1 / 36524). set (r2 := r1 mod 36524).
  set (n4 := r2 / 1461). set (r3 := r2 mod 1461).
  set (n1 := r3 / 365). set (r4 := r3 mod 365).
  assert (E1 : n = 146097 * n400 + r1 /\ 0 <= r1 < 146097)
    by (split; [apply Z.div_mod | apply Z.mod_pos_bound]; lia).
  assert (E2 : r1 = 36524 * n100 + r2 /\ 0 <= r2 < 36524)
    by (split; [apply Z.div_mod | apply Z.mod_pos_bound]; lia).
  assert (E3 : r2 = 1461 * n4 + r3 /\ 0 <= r3 < 1461)
    by (split; [apply Z.div_mod | apply Z.mod_pos_bound]; lia).
  assert (E4 : r3 = 365 * n1 + r4 /\ 0 <= r4 < 365)
    by (split; [apply Z.div_mod | apply Z.mod_pos_bound]; lia).
  assert (Hn : n = n0 - 1) by reflexivity.
  clearbody n n400 r1 n100 r2 n4 r3 n1 r4.
  assert (B400 : 0 <= n400) by lia.
  assert (B100 : 0 <= n100 <= 4) by lia.
  assert (B4 : 0 <= n4 <= 24) by lia.
  assert (B1 : 0 <= n1 <= 4) by lia.
  destruct ((n1 =? 4) || (n100 =? 4)) eqn:Esp.
  - (* the last day of a leap year *)
    assert (Hy : exists m400 m100 m4,
               0 <= m400 /\ 0 <= m100 <= 3 /\ 0 <= m4 <= 24
               /\ n400 * 400 + 1 + n100 * 100 + n4 * 4 + n1 - 1
                  = m400 * 400 + 1 + m100 * 100 + m4 * 4 + 3
               /\ n0 = 146097 * m400 + 36524 * m100 + 1461 * m4 + 365 * 3 + 366
               /\ (m4 =? 24) && negb (m100 =? 3) = false).
    { apply orb_true_iff in Esp as [Esp | Esp]; apply Z.eqb_eq in Esp.
      - exists n400, n100, n4. 
        assert (n100 <= 3 \/ n100 = 4) as [H3 | H3] by lia.
        + repeat split; lia.
        + lia.
      - exists n400, 3, 24. repeat split; try lia. }
    destruct Hy as (m400 & m100 & m4 & H400 & H100 & H4 & Hyear & Hord & Hleap).
    rewrite Hyear.
    destruct (year_arith m400 m100 m4 3 H400 H100 H4 ltac:(lia)) as [Hdby Hil].
    cbv zeta in Hdby, Hil.
    assert (Hl : DateTime.is_leap (m400 * 400 + 1 + m100 * 100 + m4 * 4 + 3) = true).
    { rewrite Hil. destruct (Z.eqb_spec m4 24); destruct (Z.eqb_spec m100 3);
        cbn in *; congruence. }
    split; [lia |]. split; [lia |].
    split; [change (DateTime.days_in_month (m400 * 400 + 1 + m100 * 100 + m4 * 4 + 3) 12)
              with 31; lia |].
    unfold DateTime.ymd2ord. rewrite days_before_month_12, Hdby, Hl. lia.
  - apply orb_false_iff in Esp as [Esp1 Esp2].
    apply Z.eqb_neq in Esp1, Esp2.
    destruct (year_arith n400 n100 n4 n1 B400 ltac:(lia) B4 ltac:(lia)) as [Hdby Hil].
    cbv zeta in Hdby, Hil.
    set (year := n400 * 400 + 1 + n100 * 100 + n4 * 4 + n1) in *.
    rewrite <- Hil.
    pose proof (month_day_spec year r4) as Hmd.
    unfold month_day_ok, month_day in Hmd. cbv zeta in Hmd.
    assert (Hr4 : 0 <= r4 < 365 + (if DateTime.is_leap year then 1 else 0))
      by (destruct (DateTime.is_leap year); lia).
    specialize (Hmd Hr4).
    destruct (r4 <? _) eqn:Elt.
    + rewrite !andb_true_iff in Hmd. destruct Hmd as ((((M1 & M2) & D1) & D2) & Hs).
      apply Z.leb_le in M1, M2, D1, D2. apply Z.eqb_eq in Hs.
      split; [lia |]. split; [lia |]. split; [lia |].
      unfold DateTime.ymd2ord. rewrite Hdby. lia.
    + rewrite !andb_true_iff in Hmd. destruct Hmd as ((((M1 & M2) & D1) & D2) & Hs).
      apply Z.leb_le in M1, M2, D1, D2. apply Z.eqb_eq in Hs.
      split; [lia |]. split; [lia |]. split; [lia |].
      unfold DateTime.ymd2ord. rewrite Hdby. lia.
Qed.

Lemma days_before_month_nonneg (y m : Z) : 0 <= DateTime.days_before_month y m.
Proof.
  unfold DateTime.days_before_month.
  assert (0 <= nth (Z.to_nat (m - 1)) DateTime.DAYS_BEFORE_MONTH 0).
  { destruct (Z.to_nat (m - 1)) as [|[|[|[|[|[|[|[|[|[|[|[|[|k]]]]]]]]]]]]]; cbn; lia. }
  destruct ((2 <? m) && DateTime.is_leap y); lia.
Qed.

Lemma ord2ymd_valid (n0 : Z) :
  DateTime.MINORDINAL <= n0 <= DateTime.MAXORDINAL ->
  let '(y, m, d) := DateTime.ord2ymd n0 in
  valid_ymd y m d /\ DateTime.ymd2ord y m d = n0.
Proof.
  unfold DateTime.MINORDINAL, DateTime.MAXORDINAL. intros [H1 H2].
  pose proof (ord2ymd_ok n0 H1) as H. destruct (DateTime.ord2ymd n0) as [[y m] d].
  destruct H as (Hy & Hm & Hd & Ho). split; [| exact Ho].
  split; [| split; assumption]. split; [exact Hy |].
  destruct (Z.le_gt_cases y 9999) as [Hle | Hgt]; [exact Hle | exfalso].
  pose proof (days_before_month_nonneg y m) as Hb.
  unfold DateTime.ymd2ord, DateTime.days_before_year in Ho. cbv zeta in Ho.
  Z.div_mod_to_equations. lia.
Qed.

Lemma make_ok (y mo d h mi s us : Z) (off : option Z) :
  valid_ymd y mo d -> 0 <= h <= 23 -> 0 <= mi <= 59 -> 0 <= s <= 59 ->
  DateTime.make y mo d h mi s us off
  = inr (DateTime.mk (DateTime.ymd2ord y mo d) h mi s us off).
Proof.
  intros (Hy & Hm & Hd) Hh Hmi Hs. unfold DateTime.make.
  repeat match goal with
    | |- context [negb ((?a <=? ?b) && (?c <=? ?e))] =>
        replace ((a <=? b) && (c <=? e)) with true by lia; cbn [negb]
    end.
  reflexivity.
Qed.

Lemma digits_of_2 (n : Z) (s : string) :
  digits_of 2 n s ->
  exists a b, s = String a (String b EmptyString)
              /\ PyStr.is_digit a = true /\ PyStr.is_digit b = true.
Proof.
  intros (Hl & Hd & _). destruct s as [|a [|b [|c s]]]; try discriminate Hl.
  cbn in Hd. rewrite !andb_true_iff in Hd. exists a, b. tauto.
Qed.

Lemma digits_of_4 (n : Z) (s : string) :
  digits_of 4 n s ->
  exists a b c d, s = String a (String b (String c (String d EmptyString)))
                  /\ PyStr.is_digit a = true /\ PyStr.is_digit b = true
                  /\ PyStr.is_digit c = true /\ PyStr.is_digit d = true.
Proof.
  intros (Hl & Hd & _). destruct s as [|a [|b [|c [|d [|e s]]]]]; try discriminate Hl.
  cbn in Hd. rewrite !andb_true_iff in Hd. exists a, b, c, d. tauto.
Qed.

Lemma digits_of_6 (n : Z) (s : string) :
  digits_of 6 n s ->
  exists a b c d e f,
    s = String a (String b (String c (String d (String e (String f EmptyString)))))
    /\ PyStr.is_digit a = true /\ PyStr.is_digit b = true /\ PyStr.is_digit c = true
    /\ PyStr.is_digit d = true /\ PyStr.is_digit e = true /\ PyStr.is_digit f = true.
Proof.
  intros (Hl & Hd & _).
  destruct s as [|a [|b [|c [|d [|e [|f [|g s]]]]]]]; try discriminate Hl.
  cbn in Hd. rewrite !andb_true_iff in Hd. exists a, b, c, d, e, f. tauto.
Qed.

Lemma digit_not (a c : ascii) :
  PyStr.is_digit a = true -> PyStr.is_digit c = false -> Ascii.eqb a c = false.
Proof.
  intros Ha Hc. destruct (Ascii.eqb_spec a c) as [-> | Hne]; [congruence | reflexivity].
Qed.

Ltac digit_chars :=
  repeat match goal with
    | Hd : PyStr.is_digit ?a = true |- context [Ascii.eqb ?a ?c] =>
        rewrite (digit_not a c Hd eq_refl)
    end.

Ltac str_cbn :=
  cbn [PyStr.slice PyStr.drop PyStr.take substring String.length Nat.sub Nat.eqb Nat.ltb
         Nat.leb DateTime.is_at DateTime.char_at String.get negb andb orb
         PyStr.find_char option_map].

Lemma parse_hh_mm (h m : Z) (hs ms : string) :
  digits_of 2 h hs -> digits_of 2 m ms ->
  DateTime.parse_hh_mm_ss_ff (hs ++ ":" ++ ms) = Some (h, m, 0, 0).
Proof.
  intros Hh Hm. pose proof (digits_n_ok _ _ _ Hh) as Nh. pose proof (digits_n_ok _ _ _ Hm) as Nm.
  destruct (digits_of_2 _ _ Hh) as (a & b & -> & Da & Db).
  destruct (digits_of_2 _ _ Hm) as (c & d & -> & Dc & Dd).
  sapp. unfold DateTime.parse_hh_mm_ss_ff. str_cbn.
  rewrite Nh. cbn [mbind option_bind]. rewrite Nm. reflexivity.
Qed.

Lemma parse_hh_mm_ss (h m s : Z) (hs ms ss : string) :
  digits_of 2 h hs -> digits_of 2 m ms -> digits_of 2 s ss ->
  DateTime.parse_hh_mm_ss_ff (hs ++ ":" ++ ms ++ ":" ++ ss) = Some (h, m, s, 0).
Proof.
  intros Hh Hm Hs. pose proof (digits_n_ok _ _ _ Hh) as Nh.
  pose proof (digits_n_ok _ _ _ Hm) as Nm. pose proof (digits_n_ok _ _ _ Hs) as Ns.
  destruct (digits_of_2 _ _ Hh) as (a & b & -> & Da & Db).
  destruct (digits_of_2 _ _ Hm) as (c & d & -> & Dc & Dd).
  destruct (digits_of_2 _ _ Hs) as (e & f & -> & De & Df).
  sapp. unfold DateTime.parse_hh_mm_ss_ff. str_cbn.
  rewrite Nh. cbn [mbind option_bind]. rewrite Nm. cbn [mbind option_bind].
  rewrite Ns. reflexivity.
Qed.

Lemma parse_hh_mm_ss_us (h m s us : Z) (hs ms ss fs : string) :
  digits_of 2 h hs -> digits_of 2 m ms -> digits_of 2 s ss -> digits_of 6 us fs ->
  DateTime.parse_hh_mm_ss_ff (hs ++ ":" ++ ms ++ ":" ++ ss ++ "." ++ fs)
  = Some (h, m, s, us).
Proof.
  intros Hh Hm Hs Hf. pose proof (digits_n_ok _ _ _ Hh) as Nh.
  pose proof (digits_n_ok _ _ _ Hm) as Nm. pose proof (digits_n_ok _ _ _ Hs) as Ns.
  pose proof (digits_n_ok _ _ _ Hf) as Nf.
  destruct (digits_of_2 _ _ Hh) as (a & b & -> & Da & Db).
  destruct (digits_of_2 _ _ Hm) as (c & d & -> & Dc & Dd).
  destruct (digits_of_2 _ _ Hs) as (e & f & -> & De & Df).
  destruct (digits_of_6 _ _ Hf) as (f1 & f2 & f3 & f4 & f5 & f6 & -> & _).
  sapp. unfold DateTime.parse_hh_mm_ss_ff. str_cbn.
  rewrite Nh. cbn [mbind option_bind]. rewrite Nm. cbn [mbind option_bind].
  rewrite Ns. cbn [mbind option_bind]. rewrite Nf. reflexivity.
Qed.

(** The clock part of [isoformat]: it has no sign in it. *)
Lemma clock_no_sign (h m s : Z) (hs ms ss : string) (frac : string) (c : ascii) :
  digits_of 2 h hs -> digits_of 2 m ms -> digits_of 2 s ss ->
  frac = EmptyString \/ (exists us fs, digits_of 6 us fs /\ frac = ("." ++ fs)%string) ->
  PyStr.is_digit c = false -> c <> ":"%char -> c <> "."%char ->
  PyStr.has_char c (hs ++ ":" ++ ms ++ ":" ++ ss ++ frac) = false.
Proof.
  intros Hh Hm Hs Hfrac Hc Hcolon Hdot.
  destruct (digits_of_2 _ _ Hh) as (a & b & -> & Da & Db).
  destruct (digits_of_2 _ _ Hm) as (c1 & d & -> & Dc & Dd).
  destruct (digits_of_2 _ _ Hs) as (e & f & -> & De & Df).
  assert (Hcol : Ascii.eqb ":" c = false) by (apply Ascii.eqb_neq; congruence).
  assert (Hd : Ascii.eqb "." c = false) by (apply Ascii.eqb_neq; congruence).
  destruct Hfrac as [-> | (us & fs & Hf & ->)].
  - sapp. cbn [PyStr.has_char]. rewrite Hcol.
    rewrite !(digit_not _ c) by assumption. reflexivity.
  - destruct (digits_of_6 _ _ Hf) as (f1 & f2 & f3 & f4 & f5 & f6 & -> & D1 & D2 & D3 & D4 & D5 & D6).
    sapp. cbn [PyStr.has_char]. rewrite Hcol, Hd.
    rewrite !(digit_not _ c) by assumption. reflexivity.
Qed.

Lemma find_char_absent (c : ascii) (s : string) :
  PyStr.has_char c s = false -> PyStr.find_char c s = None.
Proof.
  induction s as [|a s IH]; [reflexivity |]. cbn [PyStr.has_char PyStr.find_char].
  intros H. apply orb_false_iff in H as [Ha Hs]. rewrite Ha, (IH Hs). reflexivity.
Qed.

Lemma find_char_after (c : ascii) (s rest : string) :
  PyStr.has_char c s = false ->
  PyStr.find_char c (s ++ String c rest) = Some (String.length s).
Proof.
  induction s as [|a s IH]; intros H.
  - sapp. cbn [PyStr.find_char]. now rewrite Ascii.eqb_refl.
  - cbn [PyStr.has_char] in H. apply orb_false_iff in H as [Ha Hs].
    sapp. cbn [PyStr.find_char String.length]. rewrite Ha, (IH Hs). reflexivity.
Qed.

Lemma has_char_app (c : ascii) (a b : string) :
  PyStr.has_char c (a ++ b) = PyStr.has_char c a || PyStr.has_char c b.
Proof.
  induction a as [|x a IH]; [reflexivity |]. sapp. cbn [PyStr.has_char].
  now rewrite IH, orb_assoc.
Qed.

Lemma take_app (s rest : string) : PyStr.take (String.length s) (s ++ rest) = s.
Proof.
  induction s as [|a s IH]; [destruct rest; reflexivity |].
  sapp. cbn [String.length PyStr.take]. now rewrite IH.
Qed.

Lemma drop_app (s rest : string) : PyStr.drop (String.length s) (s ++ rest) = rest.
Proof. induction s as [|a s IH]; [reflexivity |]. sapp. cbn [String.length PyStr.drop]. exact IH. Qed.

Lemma zpad2 (n : Z) : 0 <= n <= 99 -> digits_of 2 n (PyStr.zpad 2 n).
Proof. intros H. apply zpad_digits; [lia | cbn; lia]. Qed.

Lemma length_digits (w : nat) (n : Z) (s : string) : digits_of w n s -> String.length s = w.
Proof. now intros (H & _). Qed.

(** The offset part of [isoformat], without its sign. *)
Lemma parse_tz (a : Z) :
  0 <= a < 86400 ->
  let tz := (PyStr.zpad 2 (a / 3600)%Z ++ ":" ++ PyStr.zpad 2 (a mod 3600 / 60)%Z
             ++ (if (a mod 60 =? 0)%Z then EmptyString
                 else ":" ++ PyStr.zpad 2 (a mod 60)%Z))%string in
  (let n := String.length tz in negb ((n =? 5)%nat || (n =? 8)%nat || (n =? 15)%nat)) = false
  /\ (exists f, DateTime.parse_hh_mm_ss_ff tz
                = Some (a / 3600, a mod 3600 / 60, a mod 60, f))
  /\ (forall c, PyStr.is_digit c = false -> c <> ":"%char -> c <> "."%char ->
                PyStr.has_char c tz = false).
Proof.
  intros Ha tz.
  assert (H1 : digits_of 2 (a / 3600) (PyStr.zpad 2 (a / 3600)))
    by (apply zpad2; Z.div_mod_to_equations; lia).
  assert (H2 : digits_of 2 (a mod 3600 / 60) (PyStr.zpad 2 (a mod 3600 / 60)))
    by (apply zpad2; Z.div_mod_to_equations; lia).
  assert (H3 : digits_of 2 (a mod 60) (PyStr.zpad 2 (a mod 60)))
    by (apply zpad2; Z.div_mod_to_equations; lia).
  subst tz. cbv zeta. destruct (Z.eqb_spec (a mod 60) 0) as [E0 | E0].
  - rewrite append_nil_r. split; [| split].
    + rewrite !length_append, (length_digits _ _ _ H1), (length_digits _ _ _ H2).
      reflexivity.
    + exists 0. rewrite (parse_hh_mm _ _ _ _ H1 H2). now rewrite E0.
    + intros c Hc Hcol Hdot.
      pose proof (clock_no_sign _ _ _ _ _ _ EmptyString c H1 H2 H3 (or_introl eq_refl)
                    Hc Hcol Hdot) as Hn.
      rewrite append_nil_r in Hn.
      rewrite !has_char_app in Hn. rewrite !has_char_app.
      repeat (apply orb_false_iff in Hn as [? Hn]).
      repeat (apply orb_false_iff; split);
        first [assumption | reflexivity | apply Ascii.eqb_neq; congruence].
  - split; [| split].
    + rewrite !length_append, (length_digits _ _ _ H1), (length_digits _ _ _ H2),
        (length_digits _ _ _ H3). reflexivity.
    + exists 0. exact (parse_hh_mm_ss _ _ _ _ _ _ H1 H2 H3).
    + intros c Hc Hcol Hdot.
      pose proof (clock_no_sign _ _ _ _ _ _ EmptyString c H1 H2 H3 (or_introl eq_refl)
                    Hc Hcol Hdot) as Hn.
      now rewrite append_nil_r in Hn.
Qed.

Lemma drop_S_app (s rest : string) (c : ascii) :
  PyStr.drop (S (String.length s)) (s ++ String c rest) = rest.
Proof.
  induction s as [|a s IH]; [reflexivity |]. sapp. cbn [String.length PyStr.drop].
  exact IH.
Qed.

Lemma parse_isoformat_time_ok (h m s us : Z) (off : option Z) (hs ms ss : string) :
  digits_of 2 h hs -> digits_of 2 m ms -> digits_of 2 s ss ->
  0 <= us <= 999999 ->
  match off with Some o => -86400 < o < 86400 | None => True end ->
  DateTime.parse_isoformat_time
    (hs ++ ":" ++ ms ++ ":" ++ ss
     ++ (if us =? 0 then EmptyString else "." ++ PyStr.zpad 6 us)
     ++ DateTime.fmt_offset off)
  = Some (h, m, s, us, off).
Proof.
  intros Hh Hm Hs Hus Hoff.
  set (frac := if us =? 0 then EmptyString else ("." ++ PyStr.zpad 6 us)%string).
  assert (Hfrac : frac = EmptyString
                  \/ exists us' fs, digits_of 6 us' fs /\ frac = ("." ++ fs)%string).
  { subst frac. destruct (us =? 0); [now left | right].
    exists us, (PyStr.zpad 6 us). split; [| reflexivity].
    apply zpad_digits; [lia | cbn; lia]. }
  set (body := (hs ++ ":" ++ ms ++ ":" ++ ss ++ frac)%string).
  assert (Hparse : DateTime.parse_hh_mm_ss_ff body = Some (h, m, s, us)).
  { subst body frac. destruct (Z.eqb_spec us 0) as [-> | Hne].
    - rewrite append_nil_r. now apply parse_hh_mm_ss.
    - apply parse_hh_mm_ss_us; auto. apply zpad_digits; [lia | cbn; lia]. }
  assert (Hnosign : forall c, PyStr.is_digit c = false -> c <> ":"%char -> c <> "."%char ->
                              PyStr.has_char c body = false)
    by (intros c; now apply (clock_no_sign h m s)).
  assert (Hlen : (String.length body <? 2)%nat = false).
  { subst body. destruct (digits_of_2 _ _ Hh) as (a & b & -> & _). sapp. reflexivity. }
  assert (Hassoc : forall offs,
             (hs ++ ":" ++ ms ++ ":" ++ ss ++ frac ++ offs)%string = (body ++ offs)%string).
  { intros offs. subst body. now rewrite !append_assoc. }
  rewrite Hassoc. clearbody body. clear Hassoc Hfrac frac.
  unfold DateTime.parse_isoformat_time.
  destruct off as [o|].
  - unfold DateTime.fmt_offset.
    assert (Ha : 0 <= Z.abs o < 86400) by lia.
    destruct (parse_tz (Z.abs o) Ha) as (Htzlen & (f & Htz) & Htzsign).
    cbv zeta in Htzlen, Htz, Htzsign.
    set (tz := (PyStr.zpad 2 (Z.abs o / 3600)%Z ++ ":"
                ++ PyStr.zpad 2 (Z.abs o mod 3600 / 60)%Z
                ++ (if (Z.abs o mod 60 =? 0)%Z then EmptyString
                    else ":" ++ PyStr.zpad 2 (Z.abs o mod 60)%Z))%string) in *.
    assert (Hl2 : forall c, (String.length (body ++ String c tz) <? 2)%nat = false).
    { intros c. rewrite length_append. apply Nat.ltb_ge. apply Nat.ltb_ge in Hlen.
      cbn [String.length]. lia. }
    destruct (o <? 0) eqn:Eneg.
    + apply Z.ltb_lt in Eneg. sapp. rewrite Hl2.
      rewrite (find_char_after "-" body tz) by (now apply Hnosign).
      rewrite take_app, Hparse. cbn [mbind option_bind]. cbv beta iota zeta.
      rewrite drop_S_app, Htzlen, Htz. cbn [mbind option_bind]. cbv beta iota zeta.
      replace (-1 * (Z.abs o / 3600 * 3600 + Z.abs o mod 3600 / 60 * 60 + Z.abs o mod 60))
        with o by (Z.div_mod_to_equations; lia).
      replace ((-86400 <? o) && (o <? 86400)) with true by lia. reflexivity.
    + apply Z.ltb_ge in Eneg. sapp. rewrite Hl2.
      rewrite (find_char_absent "-")
        by (rewrite has_char_app; cbn [PyStr.has_char];
            rewrite Hnosign, Htzsign by (reflexivity || discriminate); reflexivity).
      rewrite (find_char_after "+" body tz) by (now apply Hnosign).
      rewrite take_app, Hparse. cbn [mbind option_bind]. cbv beta iota zeta.
      rewrite drop_S_app, Htzlen, Htz. cbn [mbind option_bind]. cbv beta iota zeta.
      replace (1 * (Z.abs o / 3600 * 3600 + Z.abs o mod 3600 / 60 * 60 + Z.abs o mod 60))
        with o by (Z.div_mod_to_equations; lia).
      replace ((-86400 <? o) && (o <? 86400)) with true by lia. reflexivity.
  - cbn [DateTime.fmt_offset]. rewrite append_nil_r, Hlen.
    rewrite !find_char_absent by (now apply Hnosign).
    rewrite Hparse. reflexivity.
Qed.

Lemma days_in_month_le (y m : Z) : DateTime.days_in_month y m <= 31.
Proof.
  unfold DateTime.days_in_month. destruct ((m =? 2) && DateTime.is_leap y); [lia |].
  destruct (Z.to_nat (m - 1)) as [|[|[|[|[|[|[|[|[|[|[|[|[|k]]]]]]]]]]]]]; cbn; lia.
Qed.

Lemma fromisoformat_parts (y mo d : Z) (ys ms ds t : string) (sep c : ascii) :
  digits_of 4 y ys -> digits_of 2 mo ms -> digits_of 2 d ds ->
  DateTime.fromisoformat (ys ++ "-" ++ ms ++ "-" ++ ds ++ String sep (String c t))
  = match DateTime.parse_isoformat_time (String c t) with
    | Some (h, m, sec, f, off) => DateTime.make y mo d h m sec f off
    | None =>
        inl (Exn ValueError
               ("Invalid isoformat string: "
                ++ PyStr.repr (ys ++ "-" ++ ms ++ "-" ++ ds ++ String sep (String c t))))
    end.
Proof.
  intros Hy Hm Hd. pose proof (digits_n_ok _ _ _ Hy) as Ny.
  pose proof (digits_n_ok _ _ _ Hm) as Nm. pose proof (digits_n_ok _ _ _ Hd) as Nd.
  destruct (digits_of_4 _ _ Hy) as (y1 & y2 & y3 & y4 & -> & _).
  destruct (digits_of_2 _ _ Hm) as (m1 & m2 & -> & _).
  destruct (digits_of_2 _ _ Hd) as (d1 & d2 & -> & _).
  sapp. unfold DateTime.fromisoformat. cbv zeta. str_cbn.
  rewrite Ny, Nm, Nd. reflexivity.
Qed.

Lemma isoformat_round_trip (d : DateTime.datetime) :
  valid_datetime d -> DateTime.fromisoformat (DateTime.isoformat d) = inr d.
Proof.
  destruct d as [o h mi s us off]. unfold valid_datetime.
  cbn [DateTime.ordinal DateTime.hour DateTime.minute DateTime.second
         DateTime.microsecond DateTime.utcoffset].
  intros (Ho & Hh & Hmi & Hs & Hus & Hoff).
  pose proof (ord2ymd_valid o Ho) as Hymd.
  unfold DateTime.isoformat, DateTime.fmt_date.
  cbn [DateTime.ordinal DateTime.hour DateTime.minute DateTime.second
         DateTime.microsecond DateTime.utcoffset].
  destruct (DateTime.ord2ymd o) as [[y mo] dd].
  destruct Hymd as [Hv Hord]. pose proof Hv as (Hy & Hmo & Hdd).
  pose proof (days_in_month_le y mo) as Hdim.
  assert (Dy : digits_of 4 y (PyStr.zpad 4 y)) by (apply zpad_digits; [lia | cbn; lia]).
  assert (Dmo : digits_of 2 mo (PyStr.zpad 2 mo)) by (apply zpad2; lia).
  assert (Ddd : digits_of 2 dd (PyStr.zpad 2 dd)) by (apply zpad2; lia).
  assert (Dh : digits_of 2 h (PyStr.zpad 2 h)) by (apply zpad2; lia).
  assert (Dmi : digits_of 2 mi (PyStr.zpad 2 mi)) by (apply zpad2; lia).
  assert (Ds : digits_of 2 s (PyStr.zpad 2 s)) by (apply zpad2; lia).
  pose proof (parse_isoformat_time_ok h mi s us off _ _ _ Dh Dmi Ds Hus Hoff) as Ht.
  set (t := (PyStr.zpad 2 h ++ ":" ++ PyStr.zpad 2 mi ++ ":" ++ PyStr.zpad 2 s
             ++ (if (us =? 0)%Z then EmptyString else "." ++ PyStr.zpad 6 us)
             ++ DateTime.fmt_offset off)%string) in *.
  assert (Hne : exists c r, t = String c r).
  { subst t. destruct (digits_of_2 _ _ Dh) as (a & b & -> & _). sapp. eauto. }
  destruct Hne as (c & r & Et). rewrite Et in Ht |- *.
  match goal with
  | |- DateTime.fromisoformat ?x = _ =>
      replace x
        with (PyStr.zpad 4 y ++ "-" ++ PyStr.zpad 2 mo ++ "-" ++ PyStr.zpad 2 dd
              ++ String "T" (String c r))%string
        by (rewrite !append_assoc; sapp; reflexivity)
  end.
  rewrite (fromisoformat_parts y mo dd _ _ _ r "T" c Dy Dmo Ddd), Ht.
  rewrite make_ok by assumption. now rewrite Hord.
Qed.

Lemma slot_entry_start (slot : AvailableSlot.t) :
  valid_datetime (AvailableSlot.start slot) ->
  (s ← PyOps.get (slot_entry slot) "start"; py_fromisoformat s)
  = inr (AvailableSlot.start slot).
Proof. intros H. cbn. now apply isoformat_round_trip. Qed.

Lemma slot_entry_end (slot : AvailableSlot.t) :
  valid_datetime (AvailableSlot.end_ slot) ->
  (s ← PyOps.get (slot_entry slot) "end"; py_fromisoformat s)
  = inr (AvailableSlot.end_ slot).
Proof. intros H. cbn. now apply isoformat_round_trip. Qed.

(** X11. The times of a slot survive the way from the calendar to the
    booking. For every date and time the library can hold, with or without
    an offset and whatever the microseconds, [fromisoformat] reads back
    what [isoformat] wrote. So when the slot chosen by auto-booking is an
    entry the slots handler wrote for a slot of the provider, the booking
    call carries exactly the start and the end of that slot, and the
    parse cannot fail. *)
Theorem X11_booked_times_are_slot_times (env : Env) (p : BookingPlan.t)
  (slot : AvailableSlot.t) (chat_response : ChatResponse.t) (w : World) :
  BookingPlan.target_slot p = slot_entry slot ->
  valid_datetime (AvailableSlot.start slot) ->
  valid_datetime (AvailableSlot.end_ slot) ->
  DateTime.fromisoformat (DateTime.isoformat (AvailableSlot.start slot))
  = inr (AvailableSlot.start slot)
  /\ DateTime.fromisoformat (DateTime.isoformat (AvailableSlot.end_ slot))
     = inr (AvailableSlot.end_ slot)
  /\ let c := booking_call p (AvailableSlot.start slot) (AvailableSlot.end_ slot) in
     book_planned env p chat_response w
     = (match book_event env (log w ++ [c])%list with
        | inr booking => inr (booked_response p chat_response booking)
        | inl e => inl e
        end,
        after_call w c).
Proof.
  intros Hp Hs He. split; [now apply isoformat_round_trip |].
  split; [now apply isoformat_round_trip |]. intros c.
  apply book_planned_run; rewrite Hp; [now apply slot_entry_start | now apply slot_entry_end].
Qed.

Lemma X11_booked_times_are_slot_times_witness :
  book_planned Scenario.env plan_1430 pending_response Scenario.w_session
  = (inr (ChatResponse.mk
            "Appointment booked successfully for Jane Doe on 2025-03-14 at 14:30:00. Booking ID: abc123"
            "s1" false None),
     after_call Scenario.w_session
       (BookEvent (PInt 123) (Scenario.pdt 739324 14 30) (Scenario.pdt 739324 15 0)
          (PStr "Jane Doe") (PStr "jane@example.com")
          (PStr "Appointment with Jane Doe") (PStr "Scheduled appointment for Jane Doe")
          (PStr "America/Los_Angeles") (PStr "en"))).
Proof.
  assert (Hs : valid_datetime (AvailableSlot.start Scenario.slot_1430))
    by (unfold valid_datetime, DateTime.MINORDINAL, DateTime.MAXORDINAL; cbn; lia).
  assert (He : valid_datetime (AvailableSlot.end_ Scenario.slot_1430))
    by (unfold valid_datetime, DateTime.MINORDINAL, DateTime.MAXORDINAL; cbn; lia).
  exact (proj2 (proj2 (X11_booked_times_are_slot_times Scenario.env plan_1430
                         Scenario.slot_1430 pending_response Scenario.w_session
                         eq_refl Hs He))).
Defined.

(** ** The date helper: ranges and written dates *)

Lemma date_add_ok (d n : Z) :
  valid_date (d + n) -> Date.add_days d n = inr (d + n).
Proof.
  unfold valid_date, Date.add_days. intros [H1 H2]. cbv zeta.
  replace ((DateTime.MINORDINAL <=? d + n) && (d + n <=? DateTime.MAXORDINAL)) with true
    by lia.
  reflexivity.
Qed.

Lemma date_add_inv (d n o : Z) : Date.add_days d n = inr o -> o = d + n /\ valid_date o.
Proof.
  unfold Date.add_days, valid_date. cbv zeta.
  destruct ((DateTime.MINORDINAL <=? d + n) && (d + n <=? DateTime.MAXORDINAL)) eqn:E;
    [| discriminate].
  intros [= <-]. split; [reflexivity | lia].
Qed.

Lemma weekday_range (d : Z) : 0 <= Date.weekday d <= 6.
Proof. unfold Date.weekday. pose proof (Z.mod_pos_bound (d + 6) 7). lia. Qed.

Lemma weekday_monday (d : Z) : Date.weekday (d - Date.weekday d) = 0.
Proof. unfold Date.weekday. Z.div_mod_to_equations. lia. Qed.

Lemma weekday_le (d : Z) : 1 <= d -> 1 <= d - Date.weekday d.
Proof. unfold Date.weekday. intros H. Z.div_mod_to_equations. lia. Qed.

(** X12. The weeks of [get_date_range] run from Monday to Sunday and
    follow one another. For a reference date with two weeks of calendar
    after it, [this_week] is the seven days from the Monday on or before
    the reference date, so it contains the reference date, and
    [next_week] is the seven days that start the day after [this_week]
    ends; neither asks the clock. *)
Theorem X12_date_range_weeks (env : Env) (reference_date : Z) (w : World) :
  DateTime.MINORDINAL <= reference_date ->
  reference_date + 13 <= DateTime.MAXORDINAL ->
  let monday := reference_date - Date.weekday reference_date in
  get_date_range env "this_week" (Some reference_date) w = (inr (monday, monday + 6), w)
  /\ get_date_range env "next_week" (Some reference_date) w
     = (inr (monday + 7, monday + 13), w)
  /\ Date.weekday monday = 0
  /\ monday <= reference_date <= monday + 6.
Proof.
  intros H1 H2 monday. unfold DateTime.MINORDINAL in H1.
  pose proof (weekday_range reference_date) as Hw.
  pose proof (weekday_le reference_date H1) as Hm.
  assert (A1 : Date.add_days reference_date (- Date.weekday reference_date) = inr monday)
    by (apply date_add_ok; unfold valid_date, DateTime.MINORDINAL; subst monday; lia).
  assert (A2 : Date.add_days monday 6 = inr (monday + 6))
    by (apply date_add_ok; unfold valid_date, DateTime.MINORDINAL; subst monday; lia).
  assert (A3 : Date.add_days reference_date (7 - Date.weekday reference_date)
               = inr (monday + 7)).
  { replace (monday + 7) with (reference_date + (7 - Date.weekday reference_date))
      by (subst monday; lia).
    apply date_add_ok. unfold valid_date, DateTime.MINORDINAL. lia. }
  assert (A4 : Date.add_days (monday + 7) 6 = inr (monday + 13)).
  { replace (monday + 13) with (monday + 7 + 6) by lia.
    apply date_add_ok. unfold valid_date, DateTime.MINORDINAL. subst monday. lia. }
  split; [| split; [| split]].
  - unfold get_date_range. cbn [String.eqb Ascii.eqb Bool.eqb].
    munfold. cbv beta iota. rewrite A1. cbv beta iota. rewrite A2. reflexivity.
  - unfold get_date_range. cbn [String.eqb Ascii.eqb Bool.eqb].
    munfold. cbv beta iota. rewrite A3. cbv beta iota. rewrite A4. reflexivity.
  - apply weekday_monday.
  - subst monday. lia.
Qed.

Lemma X12_date_range_weeks_witness :
  get_date_range Scenario.env "this_week" (Some 739322) Scenario.w_session
  = (inr (739320, 739326), Scenario.w_session)
  /\ get_date_range Scenario.env "next_week" (Some 739322) Scenario.w_session
     = (inr (739327, 739333), Scenario.w_session).
Proof.
  destruct (X12_date_range_weeks Scenario.env 739322 Scenario.w_session)
    as (H1 & H2 & _); [unfold DateTime.MINORDINAL; lia | unfold DateTime.MAXORDINAL; lia |].
  split; [exact H1 | exact H2].
Defined.

Lemma month_cases (m : Z) :
  1 <= m <= 12 ->
  m = 1 \/ m = 2 \/ m = 3 \/ m = 4 \/ m = 5 \/ m = 6 \/ m = 7 \/ m = 8 \/ m = 9
  \/ m = 10 \/ m = 11 \/ m = 12.
Proof. lia. Qed.

Ltac each_month H :=
  apply month_cases in H;
  repeat (destruct H as [H | H]; [subst |]); [.. | subst].

Lemma days_before_month_succ (y m : Z) :
  1 <= m <= 11 ->
  DateTime.days_before_month y (m + 1)
  = DateTime.days_before_month y m + DateTime.days_in_month y m.
Proof.
  intros H. assert (H' : 1 <= m <= 12) by lia. each_month H'; try lia;
    unfold DateTime.days_before_month, DateTime.days_in_month;
    destruct (DateTime.is_leap y); reflexivity.
Qed.

Lemma days_before_year_succ (y : Z) :
  DateTime.days_before_year (y + 1)
  = DateTime.days_before_year y + 365 + (if DateTime.is_leap y then 1 else 0).
Proof.
  unfold DateTime.days_before_year, DateTime.is_leap. cbv zeta.
  destruct (Z.eqb_spec (y mod 4) 0); destruct (Z.eqb_spec (y mod 100) 0);
    destruct (Z.eqb_spec (y mod 400) 0); cbn [andb orb negb];
    Z.div_mod_to_equations; lia.
Qed.

Lemma days_in_month_ge (y m : Z) : 1 <= m <= 12 -> 28 <= DateTime.days_in_month y m.
Proof.
  intros H. each_month H; unfold DateTime.days_in_month, DateTime.DAYS_IN_MONTH;
    destruct (DateTime.is_leap y); vm_compute; discriminate.
Qed.

Lemma year_end (y : Z) :
  DateTime.days_before_month y 12 + 31 = 365 + (if DateTime.is_leap y then 1 else 0).
Proof. unfold DateTime.days_before_month. destruct (DateTime.is_leap y); reflexivity. Qed.

Lemma month_end_le (y m : Z) :
  1 <= m <= 12 ->
  DateTime.days_before_month y m + DateTime.days_in_month y m
  <= 365 + (if DateTime.is_leap y then 1 else 0).
Proof.
  intros H. each_month H;
    unfold DateTime.days_before_month, DateTime.days_in_month,
      DateTime.DAYS_IN_MONTH, DateTime.DAYS_BEFORE_MONTH;
    destruct (DateTime.is_leap y); vm_compute; discriminate.
Qed.

Lemma days_before_year_max (y : Z) :
  y <= 9999 -> DateTime.days_before_year (y + 1) <= DateTime.MAXORDINAL.
Proof.
  unfold DateTime.days_before_year, DateTime.MAXORDINAL. cbv zeta. intros H.
  Z.div_mod_to_equations. lia.
Qed.

Lemma days_before_year_nonneg (y : Z) : 1 <= y -> 0 <= DateTime.days_before_year y.
Proof.
  unfold DateTime.days_before_year. cbv zeta. intros H. Z.div_mod_to_equations. lia.
Qed.

Lemma date_make_ok (y m d : Z) :
  valid_ymd y m d -> Date.make y m d = inr (DateTime.ymd2ord y m d).
Proof.
  intros (Hy & Hm & Hd). unfold Date.make.
  repeat match goal with
    | |- context [negb ((?a <=? ?b) && (?c <=? ?e))] =>
        replace ((a <=? b) && (c <=? e)) with true by lia; cbn [negb]
    end.
  reflexivity.
Qed.

(** The last day of a month, one day before the first of the next. *)
Lemma month_last_day (y m : Z) :
  1 <= y <= 9999 -> 1 <= m <= 12 -> (y < 9999 \/ m < 12) ->
  (first ← (if m =? 12 then Date.make (y + 1) 1 1 else Date.make y (m + 1) 1);
   Date.add_days first (-1))
  = inr (DateTime.ymd2ord y m (DateTime.days_in_month y m))
  /\ valid_date (DateTime.ymd2ord y m (DateTime.days_in_month y m)).
Proof.
  intros [Hy Hy9999] Hm Hlast.
  pose proof (days_in_month_ge y m Hm) as Hge.
  pose proof (month_end_le y m Hm) as Hle.
  pose proof (days_before_year_nonneg y Hy) as H0.
  pose proof (days_before_month_nonneg y m) as H0m.
  assert (Hy' : y <= 9999 -> valid_date (DateTime.ymd2ord y m (DateTime.days_in_month y m))).
  { intros Hy9. pose proof (days_before_year_max y Hy9) as Hmax.
    rewrite days_before_year_succ in Hmax.
    unfold valid_date, DateTime.ymd2ord, DateTime.MINORDINAL. lia. }
  destruct (Z.eqb_spec m 12) as [-> | Hne].
  - assert (Hy9 : y < 9999) by lia.
    rewrite date_make_ok
      by (unfold valid_ymd; repeat split; try lia;
          change (DateTime.days_in_month (y + 1) 1) with 31; lia).
    cbn [mbind result_bind].
    assert (E : DateTime.ymd2ord (y + 1) 1 1 + -1
                = DateTime.ymd2ord y 12 (DateTime.days_in_month y 12)).
    { unfold DateTime.ymd2ord. rewrite days_before_year_succ.
      change (DateTime.days_in_month y 12) with 31.
      change (DateTime.days_before_month (y + 1) 1) with 0.
      pose proof (year_end y). lia. }
    split; [| apply Hy'; lia].
    rewrite <- E. apply date_add_ok. rewrite E. apply Hy'. lia.
  - assert (Hm11 : 1 <= m <= 11) by lia.
    rewrite date_make_ok
      by (unfold valid_ymd; repeat split; try lia;
          pose proof (days_in_month_ge y (m + 1)); lia).
    cbn [mbind result_bind].
    assert (E : DateTime.ymd2ord y (m + 1) 1 + -1
                = DateTime.ymd2ord y m (DateTime.days_in_month y m)).
    { unfold DateTime.ymd2ord. rewrite (days_before_month_succ y m Hm11). lia. }
    split; [| now apply Hy'].
    rewrite <- E. apply date_add_ok. rewrite E. now apply Hy'.
Qed.

Lemma date_make_inv (y m d o : Z) :
  Date.make y m d = inr o -> o = DateTime.ymd2ord y m d /\ valid_ymd y m d.
Proof.
  unfold Date.make, valid_ymd.
  destruct ((1 <=? y) && (y <=? 9999)) eqn:E1; [| discriminate].
  destruct ((1 <=? m) && (m <=? 12)) eqn:E2; [| discriminate].
  destruct ((1 <=? d) && (d <=? DateTime.days_in_month y m)) eqn:E3; [| discriminate].
  cbn [negb]. intros [= <-]. split; [reflexivity | lia].
Qed.

Lemma get_date_range_month (env : Env) (reference_date y m d : Z) (w : World) :
  DateTime.ord2ymd reference_date = (y, m, d) ->
  get_date_range env "this_month" (Some reference_date) w
  = (start ← Date.make y m 1;
     first ← (if m =? 12 then Date.make (y + 1) 1 1 else Date.make y (m + 1) 1);
     end_ ← Date.add_days first (-1);
     mret (start, end_),
     w).
Proof.
  intros H. unfold get_date_range. cbn [String.eqb Ascii.eqb Bool.eqb].
  munfold. cbv beta iota. rewrite H. cbv beta iota.
  destruct (Date.make y m 1) as [e|start]; [reflexivity |]. cbv beta iota.
  destruct (if m =? 12 then Date.make (y + 1) 1 1 else Date.make y (m + 1) 1)
    as [e|first]; [reflexivity |]. cbv beta iota.
  destruct (Date.add_days first (-1)); reflexivity.
Qed.

(** X13. [this_month] of [get_date_range] is the month of the reference
    date, whole: it runs from day 1 to the last day of that month of that
    year and contains the reference date. The one exception is December
    9999, where the first day of the month after does not exist and the
    function raises [ValueError]. *)
Theorem X13_date_range_month (env : Env) (reference_date y m d : Z) (w : World) :
  valid_date reference_date ->
  DateTime.ord2ymd reference_date = (y, m, d) ->
  (y < 9999 \/ m < 12 ->
   let first := DateTime.ymd2ord y m 1 in
   let last := DateTime.ymd2ord y m (DateTime.days_in_month y m) in
   get_date_range env "this_month" (Some reference_date) w = (inr (first, last), w)
   /\ first <= reference_date <= last)
  /\ (y = 9999 -> m = 12 ->
      get_date_range env "this_month" (Some reference_date) w
      = (inl (Exn ValueError "year 10000 is out of range"), w)).
Proof.
  intros Hv Ho. pose proof (ord2ymd_valid reference_date Hv) as H. rewrite Ho in H.
  destruct H as [(Hy & Hm & Hd) Hord].
  pose proof (days_in_month_ge y m Hm) as Hge.
  rewrite (get_date_range_month env _ _ _ _ w Ho).
  rewrite (date_make_ok y m 1) by (unfold valid_ymd; lia).
  split.
  - intros Hlast first last.
    destruct (month_last_day y m Hy Hm Hlast) as [Hl _].
    destruct (if m =? 12 then Date.make (y + 1) 1 1 else Date.make y (m + 1) 1)
      as [e|f]; [discriminate Hl |].
    munfold. cbv beta iota in Hl |- *.
    rewrite Hl. split; [reflexivity |].
    subst first last. unfold DateTime.ymd2ord in *. lia.
  - intros -> ->. reflexivity.
Qed.

Lemma X13_date_range_month_witness :
  get_date_range Scenario.env "this_month" (Some 739322) Scenario.w_session
  = (inr (739311, 739341), Scenario.w_session).
Proof.
  refine (proj1 (proj1 (X13_date_range_month Scenario.env 739322 2025 3 12
                          Scenario.w_session _ eq_refl) _)).
  - unfold valid_date, DateTime.MINORDINAL, DateTime.MAXORDINAL. lia.
  - left. lia.
Defined.

Lemma get_date_range_clock (env : Env) (range_type : string) (w : World) :
  get_date_range env range_type None w
  = get_date_range env range_type
      (Some (DateTime.ordinal (now env (log w ++ [Now])%list))) (after_call w Now).
Proof. reflexivity. Qed.

(** X14. Whatever the range type, a range that [get_date_range] returns
    for a day of the calendar is a range of days of the calendar with its
    start no later than its end, and no call is made when the reference
    date is given. [tomorrow] and [next_week] lie after the reference
    date; every other range contains it. A range type the function does
    not know is not refused: it gives the reference date alone, as [today]
    does. Without a reference date the clock is asked once and its day is
    the reference date. *)
Theorem X14_date_range_contains (env : Env) (range_type : string)
  (reference_date s e : Z) (w w' : World) :
  valid_date reference_date ->
  get_date_range env range_type (Some reference_date) w = (inr (s, e), w') ->
  w' = w
  /\ s <= e /\ valid_date s /\ valid_date e
  /\ (if looks_ahead range_type then reference_date < s else s <= reference_date <= e)
  /\ (known_range range_type = false -> s = reference_date /\ e = reference_date)
  /\ get_date_range env range_type None w
     = get_date_range env range_type
         (Some (DateTime.ordinal (now env (log w ++ [Now])%list))) (after_call w Now).
Proof.
  intros Hv H.
  assert (Hgoal : w' = w
    /\ s <= e /\ valid_date s /\ valid_date e
    /\ (if looks_ahead range_type then reference_date < s else s <= reference_date <= e)
    /\ (known_range range_type = false -> s = reference_date /\ e = reference_date));
    [| destruct Hgoal as (G1 & G2 & G3 & G4 & G5 & G6);
       exact (conj G1 (conj G2 (conj G3 (conj G4 (conj G5
                (conj G6 (get_date_range_clock env range_type w)))))))].
  pose proof (weekday_range reference_date) as Hwd.
  unfold looks_ahead, known_range. cbn [existsb].
  unfold get_date_range in H. munfold. cbv beta iota in H.
  destruct (String.eqb range_type "today") eqn:E1.
  { inversion H; subst s e w'. apply String.eqb_eq in E1. subst range_type.
    cbn [String.eqb Ascii.eqb Bool.eqb orb].
    repeat split; auto; try lia; try discriminate; unfold valid_date in *; lia. }
  destruct (String.eqb range_type "tomorrow") eqn:E2.
  { destruct (Date.add_days reference_date 1) as [x|t] eqn:A; [discriminate |].
    inversion H; subst s e w'. apply date_add_inv in A as [-> A]. cbn [orb].
    repeat split; auto; try lia; try discriminate; unfold valid_date in *; lia. }
  destruct (String.eqb range_type "this_week") eqn:E3.
  { destruct (Date.add_days reference_date _) as [x|a] eqn:A; [discriminate |].
    cbv beta iota in H.
    destruct (Date.add_days a 6) as [x|b] eqn:B; [discriminate |].
    inversion H; subst. apply date_add_inv in A as [-> A], B as [-> B].
    assert (String.eqb range_type "next_week" = false) as ->.
    { apply String.eqb_eq in E3. subst. reflexivity. }
    cbn [orb].
    repeat split; auto; try lia; try discriminate; unfold valid_date in *; lia. }
  destruct (String.eqb range_type "next_week") eqn:E4.
  { destruct (Date.add_days reference_date _) as [x|a] eqn:A; [discriminate |].
    cbv beta iota in H.
    destruct (Date.add_days a 6) as [x|b] eqn:B; [discriminate |].
    inversion H; subst. apply date_add_inv in A as [-> A], B as [-> B].
    cbn [orb].
    repeat split; auto; try lia; try discriminate; unfold valid_date in *; lia. }
  destruct (String.eqb range_type "this_month") eqn:E5.
  { cbn [orb]. pose proof (ord2ymd_valid reference_date Hv) as Hymd.
    destruct (DateTime.ord2ymd reference_date) as [[y m] d].
    destruct Hymd as [(Hy & Hm & Hd) Hord]. cbv beta iota in H.
    pose proof (days_in_month_ge y m Hm) as Hge.
    rewrite (date_make_ok y m 1) in H by (unfold valid_ymd; lia). cbv beta iota in H.
    destruct (if m =? 12 then Date.make (y + 1) 1 1 else Date.make y (m + 1) 1)
      as [x|f] eqn:F; [discriminate |]. cbv beta iota in H.
    destruct (Date.add_days f (-1)) as [x|l] eqn:L; [discriminate |].
    inversion H; subst s e w'; clear H.
    assert (Hlast : y < 9999 \/ m < 12).
    { destruct (Z.eqb_spec m 12); [| lia].
      apply date_make_inv in F as [_ ((F1 & F2) & _)]. lia. }
    destruct (month_last_day y m Hy Hm Hlast) as [Hl Hlv].
    rewrite F in Hl. munfold. cbv beta iota in Hl. rewrite L in Hl.
    inversion Hl; subst l.
    pose proof (days_before_year_nonneg y ltac:(lia)) as H0.
    pose proof (days_before_month_nonneg y m) as H0m.
    unfold valid_date, DateTime.ymd2ord, DateTime.MINORDINAL in *.
    repeat split; auto; try lia; try discriminate. }
  inversion H; subst. cbn [orb].
  repeat split; auto; try lia; unfold valid_date in *; lia.
Qed.

Lemma X14_date_range_contains_witness :
  valid_date 739322
  /\ get_date_range Scenario.env "this_week" (Some 739322) Scenario.w_session
     = (inr (739320, 739326), Scenario.w_session)
  /\ 739320 <= 739326
  /\ 739320 <= 739322 <= 739326.
Proof.
  assert (H : get_date_range Scenario.env "this_week" (Some 739322) Scenario.w_session
              = (inr (739320, 739326), Scenario.w_session)) by reflexivity.
  assert (Hv : valid_date 739322)
    by (unfold valid_date, DateTime.MINORDINAL, DateTime.MAXORDINAL; lia).
  destruct (X14_date_range_contains Scenario.env "this_week" 739322 739320 739326
              Scenario.w_session Scenario.w_session Hv H) as (_ & G2 & _ & _ & G5 & _).
  split; [exact Hv |]. split; [exact H |]. split; [exact G2 | exact G5].
Defined.

Lemma ymd_re_groups :
  Re.ymd_re = Re.seqs [year_re; Re.Lit "-"; month_re; Re.Lit "-"; day_re].
Proof. reflexivity. Qed.

Lemma take_prefix (a r : string) :
  PyStr.take (String.length (a ++ r) - String.length r) (a ++ r) = a.
Proof.
  rewrite length_append. replace (String.length a + String.length r - String.length r)%nat
    with (String.length a) by lia.
  apply take_app.
Qed.

Lemma run_year (ys rest : string) (y : Z) (caps : list string)
  (k : string -> list string -> option Re.found) :
  digits_of 4 y ys ->
  Re.run year_re (ys ++ rest) caps k = k rest (caps ++ [ys])%list.
Proof.
  intros Hy. pose proof (take_prefix ys rest) as Ht.
  destruct (digits_of_4 _ _ Hy) as (a & b & c & d & -> & Da & Db & Dc & Dd).
  revert Ht. sapp. intros Ht.
  unfold year_re. cbn [Re.run Re.seqs]. rewrite Da, Db, Dc, Dd. now rewrite Ht.
Qed.

Lemma sub_SS (n : nat) : (S (S n) - n)%nat = 2%nat.
Proof. lia. Qed.

Lemma sub_S (n : nat) : (S n - n)%nat = 1%nat.
Proof. lia. Qed.

Ltac pad_value :=
  match goal with
  | |- context [PyStr.zpad 2 ?n] =>
      let v := eval vm_compute in (PyStr.zpad 2 n) in
      change (PyStr.zpad 2 n) with v in *
  end.

Lemma run_month (mo : Z) (r : string) (caps : list string)
  (k : string -> list string -> option Re.found) (x : Re.found) :
  1 <= mo <= 12 ->
  k (String "-" r) (caps ++ [PyStr.zpad 2 mo])%list = Some x ->
  Re.run month_re (PyStr.zpad 2 mo ++ String "-" r) caps k = Some x.
Proof.
  intros Hmo Hk. each_month Hmo; pad_value; sapp; unfold month_re;
    cbn [Re.run PyStr.startswith PyStr.drop String.length Ascii.eqb Bool.eqb
           PyStr.in_range PyStr.code];
    cbn [Nat.sub]; rewrite ?sub_SS, ?sub_S; cbn [PyStr.take];
    vm_compute (PyStr.in_range _ _ _); cbv beta iota;
    rewrite ?Hk; reflexivity.
Qed.

Lemma day_cases (d : Z) :
  1 <= d <= 31 ->
  d = 1 \/ d = 2 \/ d = 3 \/ d = 4 \/ d = 5 \/ d = 6 \/ d = 7 \/ d = 8 \/ d = 9 \/ d = 10 \/
  d = 11 \/ d = 12 \/ d = 13 \/ d = 14 \/ d = 15 \/ d = 16 \/ d = 17 \/ d = 18 \/ d = 19 \/
  d = 20 \/ d = 21 \/ d = 22 \/ d = 23 \/ d = 24 \/ d = 25 \/ d = 26 \/ d = 27 \/ d = 28 \/
  d = 29 \/ d = 30 \/ d = 31.
Proof. lia. Qed.

Lemma run_day (dd : Z) (caps : list string)
  (k : string -> list string -> option Re.found) (x : Re.found) :
  1 <= dd <= 31 ->
  k EmptyString (caps ++ [PyStr.zpad 2 dd])%list = Some x ->
  Re.run day_re (PyStr.zpad 2 dd) caps k = Some x.
Proof.
  intros Hdd Hk. apply day_cases in Hdd.
  repeat (destruct Hdd as [Hdd | Hdd]; [subst |]); [.. | subst];
    pad_value; unfold day_re;
    cbn [Re.run PyStr.startswith PyStr.drop String.length Ascii.eqb Bool.eqb
           PyStr.in_range PyStr.code];
    cbn [Nat.sub PyStr.take];
    vm_compute (PyStr.in_range _ _ _); cbv beta iota;
    rewrite ?Hk; reflexivity.
Qed.

Lemma match_ymd (y mo dd : Z) :
  1 <= y <= 9999 -> 1 <= mo <= 12 -> 1 <= dd <= 31 ->
  Re.match_ Re.ymd_re
    (PyStr.zpad 4 y ++ "-" ++ PyStr.zpad 2 mo ++ "-" ++ PyStr.zpad 2 dd)
  = Some ([PyStr.zpad 4 y; PyStr.zpad 2 mo; PyStr.zpad 2 dd], EmptyString).
Proof.
  intros Hy Hmo Hdd.
  assert (Dy : digits_of 4 y (PyStr.zpad 4 y)) by (apply zpad_digits; [lia | cbn; lia]).
  unfold Re.match_. rewrite ymd_re_groups. cbn [Re.seqs Re.run].
  rewrite (run_year _ _ y _ _ Dy). sapp.
  cbn [PyStr.startswith Ascii.eqb Bool.eqb PyStr.drop String.length].
  apply run_month; [exact Hmo |].
  cbn [PyStr.startswith Ascii.eqb Bool.eqb PyStr.drop String.length].
  apply run_day; [exact Hdd |]. reflexivity.
Qed.

Lemma digit_not_space (c : ascii) : PyStr.is_digit c = true -> PyStr.is_space c = false.
Proof. unfold PyStr.is_digit, PyStr.is_space, PyStr.in_range. lia. Qed.

Lemma strptime_strftime (o : Z) :
  valid_date o ->
  DateTime.strptime_ymd (DateTime.fmt_date o) = inr (DateTime.mk o 0 0 0 0 None).
Proof.
  intros Hv. pose proof (ord2ymd_valid o Hv) as H. unfold DateTime.fmt_date.
  destruct (DateTime.ord2ymd o) as [[y mo] dd]. destruct H as [Hymd Hord].
  pose proof Hymd as (Hy & Hmo & Hdd). pose proof (days_in_month_le y mo) as Hle.
  unfold DateTime.strptime_ymd. rewrite match_ymd by lia.
  assert (Dy : digits_of 4 y (PyStr.zpad 4 y)) by (apply zpad_digits; [lia | cbn; lia]).
  assert (Dmo : digits_of 2 mo (PyStr.zpad 2 mo)) by (apply zpad2; lia).
  assert (Ddd : digits_of 2 dd (PyStr.zpad 2 dd)) by (apply zpad2; lia).
  assert (Hstrip : PyStr.lstrip (PyStr.zpad 2 dd) = PyStr.zpad 2 dd).
  { destruct (digits_of_2 _ _ Ddd) as (a & b & -> & Da & _).
    cbn [PyStr.lstrip]. now rewrite (digit_not_space a Da). }
  rewrite Hstrip.
  destruct Dy as (_ & _ & ->). destruct Dmo as (_ & _ & ->). destruct Ddd as (_ & _ & ->).
  rewrite make_ok by (assumption || lia). now rewrite Hord.
Qed.

Lemma strptime_only_value_error (s : string) (e : exn) :
  DateTime.strptime_ymd s = inl e -> exn_cls e = ValueError.
Proof.
  unfold DateTime.strptime_ymd, DateTime.make.
  destruct (Re.match_ Re.ymd_re s) as [[caps rest]|]; [| intros [= <-]; reflexivity].
  destruct caps as [|y [|mo [|d [|x caps]]]]; try (intros [= <-]; reflexivity).
  destruct rest; [| intros [= <-]; reflexivity].
  repeat match goal with
    | |- context [if ?b then _ else _] => destruct b
    end; intros [= <-]; reflexivity.
Qed.

Lemma uint_val_upper (d : Decimal.uint) :
  forall acc, 0 <= acc ->
    uint_val acc d < (acc + 1) * 10 ^ Z.of_nat (String.length (NilEmpty.string_of_uint d)).
Proof.
  induction d as [|l IH|l IH|l IH|l IH|l IH|l IH|l IH|l IH|l IH|l IH]; intros acc Hacc;
    cbn [NilEmpty.string_of_uint String.length uint_val]; [cbn; lia | ..];
    rewrite Nat2Z.inj_succ, Z.pow_succ_r by lia;
    match goal with
    | |- uint_val ?a _ < _ => pose proof (IH a ltac:(lia)) as Hl
    end;
    assert (0 < 10 ^ Z.of_nat (String.length (NilEmpty.string_of_uint l)))
      by (apply Z.pow_pos_nonneg; lia);
    nia.
Qed.

Lemma length_of_Z_lower (n : Z) (w : nat) :
  10 ^ Z.of_nat w <= n -> (w < String.length (PyStr.of_Z n))%nat.
Proof.
  intros Hn.
  assert (Hpos : 0 < 10 ^ Z.of_nat w) by (apply Z.pow_pos_nonneg; lia).
  destruct n as [|p|p]; [lia | | lia].
  rewrite of_Z_pos.
  pose proof (uint_val_of_uint (Pos.to_uint p)) as Hval.
  rewrite DecimalPos.Unsigned.of_to in Hval. cbn [Z.of_N] in Hval.
  pose proof (uint_val_upper (Pos.to_uint p) 0 ltac:(lia)) as Hup.
  rewrite Hval in Hup.
  apply Nat2Z.inj_lt. apply (Z.pow_lt_mono_r_iff 10); lia.
Qed.

Lemma zpad_four (y : Z) : 1000 <= y <= 9999 -> PyStr.zpad 4 y = PyStr.of_Z y.
Proof.
  intros Hy. unfold PyStr.zpad.
  pose proof (length_of_Z y 4 ltac:(cbn; lia) ltac:(lia)) as H1.
  pose proof (length_of_Z_lower y 3 ltac:(cbn; lia)) as H2.
  replace (4 - String.length (PyStr.of_Z y))%nat with 0%nat by lia. reflexivity.
Qed.

Lemma strftime_four_digits (d : DateTime.datetime) :
  valid_date (DateTime.ordinal d) -> 1000 <= year_of d ->
  DateTime.strftime_ymd d = DateTime.fmt_date (DateTime.ordinal d).
Proof.
  intros Hv Hy. pose proof (ord2ymd_valid _ Hv) as H.
  unfold DateTime.strftime_ymd, DateTime.fmt_date, year_of in *.
  destruct (DateTime.ord2ymd (DateTime.ordinal d)) as [[y mo] dd].
  destruct H as [(Hy' & _) _]. rewrite zpad_four by lia. reflexivity.
Qed.

Lemma no_match_short_year (y : Z) (rest : string) :
  1 <= y < 1000 -> Re.match_ Re.ymd_re (PyStr.of_Z y ++ "-" ++ rest) = None.
Proof.
  intros Hy.
  pose proof (length_of_Z y 3 ltac:(cbn; lia) ltac:(lia)) as H1.
  pose proof (length_of_Z_lower y 0 ltac:(cbn; lia)) as H2.
  pose proof (all_digits_of_Z y ltac:(lia)) as Hd.
  unfold Re.match_. rewrite ymd_re_groups. unfold year_re. cbn [Re.seqs Re.run].
  destruct (PyStr.of_Z y) as [|a [|b [|c [|x s]]]]; cbn [String.length] in H1, H2;
    try lia; cbn [PyStr.all_digits] in Hd; rewrite ?andb_true_iff in Hd; sapp.
  - destruct Hd as [-> _]. reflexivity.
  - destruct Hd as (-> & -> & _). reflexivity.
  - destruct Hd as (-> & -> & -> & _). reflexivity.
Qed.

Lemma strptime_short_year (d : DateTime.datetime) :
  valid_date (DateTime.ordinal d) -> year_of d < 1000 ->
  exists e, DateTime.strptime_ymd (DateTime.strftime_ymd d) = inl e
            /\ exn_cls e = ValueError.
Proof.
  intros Hv Hy. pose proof (ord2ymd_valid _ Hv) as H.
  unfold DateTime.strftime_ymd, year_of in *.
  destruct (DateTime.ord2ymd (DateTime.ordinal d)) as [[y mo] dd].
  destruct H as [(Hy' & _) _]. unfold DateTime.strptime_ymd.
  rewrite no_match_short_year by lia. eexists. split; reflexivity.
Qed.

(** X15. [strftime] writes the year of a date as the number it is and
    [strptime] reads a year of four digits. So a date from the year 1000
    on, written with [%Y-%m-%d], is read back as the same day at midnight:
    the text [format_date] writes and the [date] field of a slot entry pass
    [is_valid_date]. A date before the year 1000 is written with a year of
    fewer than four digits, which is not read back: [is_valid_date] answers
    [False] for the text [format_date] wrote. [is_valid_date] itself never
    raises on a text: whatever the parse rejects gives [False]; a value
    that is not a text raises [TypeError], which it does not catch. *)
Theorem X15_written_dates_are_valid (d : DateTime.datetime) :
  valid_date (DateTime.ordinal d) ->
  (1000 <= year_of d ->
     DateTime.strptime_ymd (DateTime.strftime_ymd d) = inr (midnight d)
     /\ is_valid_date (PStr (format_date d)) = inr true
     /\ (forall slot, AvailableSlot.start slot = d ->
           (s ← PyOps.get (slot_entry slot) "date"; is_valid_date s) = inr true))
  /\ (year_of d < 1000 ->
        (exists e, DateTime.strptime_ymd (DateTime.strftime_ymd d) = inl e
                   /\ exn_cls e = ValueError)
        /\ is_valid_date (PStr (format_date d)) = inr false)
  /\ (forall s, exists b, is_valid_date (PStr s) = inr b)
  /\ (forall v, (forall s, v <> PStr s) ->
        exists e, is_valid_date v = inl e /\ exn_cls e = TypeError).
Proof.
  intros Hv. split; [| split; [| split]].
  - intros Hy. pose proof (strptime_strftime _ Hv) as H.
    rewrite <- (strftime_four_digits d Hv Hy) in H.
    assert (Hf : is_valid_date (PStr (format_date d)) = inr true).
    { unfold is_valid_date, format_date. cbn [py_strptime_ymd]. now rewrite H. }
    split; [exact H |]. split; [exact Hf |]. intros slot <-. exact Hf.
  - intros Hy. destruct (strptime_short_year d Hv Hy) as (e & He & Hc).
    split; [eauto |].
    unfold is_valid_date, format_date. cbn [py_strptime_ymd]. now rewrite He, Hc.
  - intros s. unfold is_valid_date. cbn [py_strptime_ymd].
    destruct (DateTime.strptime_ymd s) as [e|x] eqn:E; [| eauto].
    rewrite (strptime_only_value_error _ _ E). eauto.
  - intros v Hne. destruct v; try (eexists; split; reflexivity).
    exfalso. now apply (Hne s).
Qed.

Lemma X15_written_dates_are_valid_witness :
  (DateTime.strptime_ymd (DateTime.strftime_ymd Scenario.wednesday_afternoon)
   = inr (DateTime.mk 739322 0 0 0 0 None)
   /\ is_valid_date (PStr "2025-03-12") = inr true)
  /\ (format_date (DateTime.mk 364877 0 0 0 0 None) = "999-12-31"
      /\ is_valid_date (PStr "999-12-31") = inr false).
Proof.
  split.
  - destruct (X15_written_dates_are_valid Scenario.wednesday_afternoon) as (H & _).
    + unfold valid_date, DateTime.MINORDINAL, DateTime.MAXORDINAL. cbn. lia.
    + destruct H as (H1 & H2 & _); [vm_compute; discriminate |].
      split; [exact H1 | exact H2].
  - split; [reflexivity |].
    destruct (X15_written_dates_are_valid (DateTime.mk 364877 0 0 0 0 None))
      as (_ & H & _).
    + unfold valid_date, DateTime.MINORDINAL, DateTime.MAXORDINAL. cbn. lia.
    + destruct H as (_ & H2); [vm_compute; reflexivity |]. exact H2.
Defined.

(** ** The calendar service: requests, slots, bookings *)

Lemma io_bind_run {A B : Type} (m : IO A) (f : A -> IO B) (l : list Http.request) :
  (m ≫= f) l = match m l with
               | (inr a, l') => f a l'
               | (inl e, l') => (inl e, l')
               end.
Proof. reflexivity. Qed.

Lemma io_try_run {A : Type} (m : IO A) (h : raised -> IO A) (l : list Http.request) :
  io_try m h l = match m l with
                 | (inr a, l') => (inr a, l')
                 | (inl e, l') => h e l'
                 end.
Proof. reflexivity. Qed.


Lemma assoc_dict_set_other (k k' : string) (v : pyval) (d : list (string * pyval)) :
  k' <> k -> Py.assoc k' (dict_set k v d) = Py.assoc k' d.
Proof.
  intros Hk. induction d as [|[k0 v0] r IH]; cbn.
  - destruct (String.eqb k' k) eqn:E; [apply String.eqb_eq in E; contradiction | reflexivity].
  - destruct (String.eqb k0 k) eqn:E; cbn.
    + apply String.eqb_eq in E. subst k0.
      destruct (String.eqb k' k) eqn:E'; [apply String.eqb_eq in E'; contradiction | reflexivity].
    + now rewrite IH.
Qed.


Lemma make_request_run (transport : list Http.request -> Http.answer) (api_key : string)
  (timeout_seconds : Z) (method endpoint : string) (params : option (list (string * pyval)))
  (data : pyval) (l : list Http.request) :
  CalCom._make_request transport api_key timeout_seconds method endpoint params data l
  = let l' := (l ++ [request_of api_key timeout_seconds method endpoint
                       (default [] params) data])%list in
    (CalCom.response_of (transport l'), l').
Proof. reflexivity. Qed.

Section Sends.

Context {P : Http.request -> Prop}.


Lemma sends_lift {A : Type} (r : result A) : sends 0 P (io_lift r).
Proof. intros l. exists []. cbn. rewrite app_nil_r. auto. Qed.



Lemma sends_bind {A B : Type} (n k : nat) (m : IO A) (f : A -> IO B) :
  sends n P m -> (forall a, sends k P (f a)) -> sends (n + k) P (m ≫= f).
Proof.
  intros Hm Hf l. rewrite io_bind_run. destruct (Hm l) as (a1 & E1 & L1 & P1).
  destruct (m l) as [[e|a] l1]; cbn [snd] in *; subst l1.
  - exists a1. split; [reflexivity |]. split; [lia | exact P1].
  - destruct (Hf a (l ++ a1)%list) as (a2 & E2 & L2 & P2).
    exists (a1 ++ a2)%list. rewrite E2, app_assoc. split; [reflexivity |].
    split; [rewrite length_app; lia | apply Forall_app; auto].
Qed.


End Sends.











(** *** The slots *)

Lemma get_event_types_log (transport : list Http.request -> Http.answer)
  (api_key : string) (timeout_seconds : Z) (EventType_ : pyval -> result EventType.t)
  (l : list Http.request) :
  snd (CalCom.get_event_types transport api_key timeout_seconds EventType_ l)
  = (l ++ [request_of api_key timeout_seconds "GET" "event-types" [] PNone])%list.
Proof.
  unfold CalCom.get_event_types. rewrite io_bind_run, make_request_run. cbv zeta.
  set (l' := (l ++ _)%list).
  destruct (transport l') as [body|c t|m|e]; try reflexivity.
  cbn [CalCom.response_of]. rewrite io_bind_run. unfold io_lift at 1.
  destruct (PyOps.get_default body "event_types" (PList [])) as [e|v]; [reflexivity |].
  rewrite io_bind_run. unfold io_lift at 1.
  destruct (PyOps.iter v) as [e|items]; [reflexivity |]. reflexivity.
Qed.

Lemma get_available_slots_run (transport : list Http.request -> Http.answer)
  (api_key : string) (timeout_seconds : Z) (EventType_ : pyval -> result EventType.t)
  (event_type_id : pyval) (start_date end_date : DateTime.datetime) (timezone : pyval)
  (l : list Http.request) :
  CalCom.get_available_slots transport api_key timeout_seconds EventType_
    event_type_id start_date end_date timezone l
  = match CalCom.get_event_types transport api_key timeout_seconds EventType_ l with
    | (inl e, l1) => (inl e, l1)
    | (inr event_types, l1) =>
        match next_or_none (wanted event_type_id) event_types with
        | None => (inr [], l1)
        | Some et =>
            let l2 :=
              (l1 ++ [request_of api_key timeout_seconds "GET" "slots"
                        (slots_params event_type_id start_date end_date timezone)
                        PNone])%list in
            (match transport l2 with
             | Http.Json response =>
                 match CalCom.parse_slots (CalCom.duration_of et) response with
                 | inr slots => inr slots
                 | inl _ => inr []
                 end
             | _ => inr []
             end, l2)
        end
    end.
Proof.
  unfold CalCom.get_available_slots. rewrite io_bind_run.
  destruct (CalCom.get_event_types _ _ _ _ l) as [[e|event_types] l1]; [reflexivity |].
  fold (wanted event_type_id).
  destruct (next_or_none (wanted event_type_id) event_types) as [et|]; [| reflexivity].
  rewrite io_try_run, io_bind_run, make_request_run. cbv zeta.
  fold (slots_params event_type_id start_date end_date timezone).
  cbn [default from_option id].
  destruct (transport _) as [body|c t|m|e]; try reflexivity.
  cbn [CalCom.response_of]. unfold io_lift. destruct (CalCom.parse_slots _ body); reflexivity.
Qed.

(** X17. [get_available_slots] fails in one way only: when the event types
    cannot be had, and then with the failure of that lookup and after that
    single request. Once the event types are there it always returns a
    list. With no event type of the identifier asked for the list is empty
    and no slots are requested. Otherwise exactly one slots request
    follows, with the identifier, the two times in ISO form and the time
    zone as its parameters, and whenever that request does not come back
    with a body the list is empty as well. *)
Theorem X17_slots_never_fail_after_lookup
  (transport : list Http.request -> Http.answer)
  (api_key : string) (timeout_seconds : Z) (EventType_ : pyval -> result EventType.t)
  (event_type_id : pyval) (start_date end_date : DateTime.datetime) (timezone : pyval)
  (l : list Http.request) :
  let lookup := CalCom.get_event_types transport api_key timeout_seconds EventType_ l in
  let outcome :=
    CalCom.get_available_slots transport api_key timeout_seconds EventType_
      event_type_id start_date end_date timezone l in
  let request :=
    request_of api_key timeout_seconds "GET" "slots"
      (slots_params event_type_id start_date end_date timezone) PNone in
  match fst lookup with
  | inl e => outcome = (inl e, snd lookup)
  | inr event_types =>
      exists slots,
        fst outcome = inr slots
        /\ match next_or_none (wanted event_type_id) event_types with
           | None => slots = [] /\ snd outcome = snd lookup
           | Some _ =>
               snd outcome = (snd lookup ++ [request])%list
               /\ ((forall body, transport (snd lookup ++ [request])%list <> Http.Json body)
                   -> slots = [])
           end
  end.
Proof.
  cbv zeta. rewrite get_available_slots_run.
  destruct (CalCom.get_event_types _ _ _ _ l) as [[e|event_types] l1]; cbn [fst snd];
    [reflexivity |].
  destruct (next_or_none (wanted event_type_id) event_types) as [et|].
  - cbv zeta. cbn [fst snd].
    destruct (transport _) as [body|c t|m|e] eqn:Ht.
    + destruct (CalCom.parse_slots _ body) as [e|slots].
      * exists []. split; [reflexivity |]. split; [reflexivity |]. reflexivity.
      * exists slots. split; [reflexivity |]. split; [reflexivity |].
        intros H. exfalso. exact (H body eq_refl).
    + exists []. repeat split.
    + exists []. repeat split.
    + exists []. repeat split.
  - exists []. repeat split.
Qed.

Lemma add_minutes_between (d d' : DateTime.datetime) (n : Z) :
  add_minutes d n = inr d' -> DateTime.minutes_between d d' = inr n.
Proof.
  unfold add_minutes. cbv zeta.
  destruct (_ && _); [| discriminate]. intros H. injection H as <-.
  unfold DateTime.minutes_between. cbn [DateTime.utcoffset DateTime.ordinal DateTime.hour
    DateTime.minute DateTime.second DateTime.microsecond].
  set (secs := DateTime.hour d * 3600 + DateTime.minute d * 60 + DateTime.second d + n * 60).
  assert (E : forall off,
    ((DateTime.ordinal d + secs / 86400) * 86400 + secs mod 86400 / 3600 * 3600
     + secs mod 86400 mod 3600 / 60 * 60 + secs mod 86400 mod 60 - off) * 1000000
    + DateTime.microsecond d
    - ((DateTime.ordinal d * 86400 + DateTime.hour d * 3600 + DateTime.minute d * 60
        + DateTime.second d - off) * 1000000 + DateTime.microsecond d)
    = n * 60000000).
  { intros off. subst secs. Z.div_mod_to_equations. lia. }
  destruct (DateTime.utcoffset d) as [off|].
  - rewrite E. now rewrite Z.quot_mul.
  - rewrite E. now rewrite Z.quot_mul.
Qed.

Lemma slot_at_lasts (duration : Z) (v : pyval) (s : AvailableSlot.t) :
  CalCom.slot_at duration v = inr (Some s) -> lasts duration s.
Proof.
  unfold CalCom.slot_at. destruct (PyOps.str_in "Z" v) as [e|z]; [discriminate |]. cbn.
  destruct (if z then py_replace v "Z" "+00:00" else inr v) as [e|v']; [discriminate |].
  cbn. destruct (py_fromisoformat v') as [e|st]; cbn.
  - destruct (exn_class_eqb _ _); discriminate.
  - destruct (add_minutes st duration) as [e|en] eqn:Ha; cbn.
    + destruct (exn_class_eqb _ _); discriminate.
    + intros H. injection H as <-. split; [exact Ha | now apply add_minutes_between].
Qed.

Lemma day_slots_lasts (duration : Z) (time_slots : list pyval)
  (acc slots : list AvailableSlot.t) :
  Forall (lasts duration) acc ->
  CalCom.day_slots duration time_slots acc = inr slots ->
  Forall (lasts duration) slots.
Proof.
  revert acc. induction time_slots as [|slot rest IH]; intros acc Hacc H; cbn in H.
  - now injection H as <-.
  - destruct slot as [| | | |?|d]; try (now apply (IH acc)).
    destruct (Py.assoc "time" d) as [v|]; [| now apply (IH acc)].
    destruct (CalCom.slot_at duration v) as [e|o] eqn:Hs; [discriminate |].
    cbn in H. apply (IH (acc ++ option_list o)%list); [| exact H]. apply Forall_app.
    split; [exact Hacc |].
    destruct o as [s|]; [| constructor]. constructor; [| constructor].
    now apply (slot_at_lasts duration v).
Qed.

Lemma all_slots_lasts (duration : Z) (items : list (string * pyval))
  (acc slots : list AvailableSlot.t) :
  Forall (lasts duration) acc ->
  CalCom.all_slots duration items acc = inr slots ->
  Forall (lasts duration) slots.
Proof.
  revert acc. induction items as [|[k v] rest IH]; intros acc Hacc H; cbn in H.
  - now injection H as <-.
  - destruct v as [| | | |day|?]; try (now apply (IH acc)).
    destruct (CalCom.day_slots duration day acc) as [e|acc'] eqn:Hd; [discriminate |].
    cbn in H. apply (IH acc'); [| exact H]. now apply (day_slots_lasts duration day acc).
Qed.

Lemma parse_slots_lasts (duration : Z) (response : pyval) (slots : list AvailableSlot.t) :
  CalCom.parse_slots duration response = inr slots -> Forall (lasts duration) slots.
Proof.
  unfold CalCom.parse_slots. intros H.
  destruct response as [| | | | |d]; try (injection H as <-; constructor).
  destruct (Py.assoc "slots" d) as [v|]; [| injection H as <-; constructor].
  destruct v as [| | | | |items]; try discriminate.
  now apply (all_slots_lasts duration items []).
Qed.

(** X18. Every slot [get_available_slots] returns lasts as long as the
    event type says: with the first event type of the identifier asked for,
    the end of each slot is its start moved by the length of that event
    type in minutes, or by thirty minutes when the length is zero, and that
    many minutes lie between start and end. *)
Theorem X18_slots_last_the_event_length
  (transport : list Http.request -> Http.answer)
  (api_key : string) (timeout_seconds : Z) (EventType_ : pyval -> result EventType.t)
  (event_type_id : pyval) (start_date end_date : DateTime.datetime) (timezone : pyval)
  (l : list Http.request) (event_types : list EventType.t) (et : EventType.t)
  (slots : list AvailableSlot.t) :
  fst (CalCom.get_event_types transport api_key timeout_seconds EventType_ l)
  = inr event_types ->
  next_or_none (wanted event_type_id) event_types = Some et ->
  fst (CalCom.get_available_slots transport api_key timeout_seconds EventType_
         event_type_id start_date end_date timezone l) = inr slots ->
  let duration := if EventType.length et =? 0 then 30 else EventType.length et in
  Forall (lasts duration) slots.
Proof.
  intros H0 Het H. rewrite get_available_slots_run in H.
  destruct (CalCom.get_event_types _ _ _ _ l) as [[e|ets] l1]; cbn [fst] in H0;
    [discriminate |].
  injection H0 as ->. rewrite Het in H. cbv zeta in H. cbn [fst] in H.
  fold (CalCom.duration_of et).
  destruct (transport _) as [body|c t|m|e]; try (injection H as <-; constructor).
  destruct (CalCom.parse_slots _ body) as [e|slots'] eqn:Hp.
  - injection H as <-. constructor.
  - injection H as <-. now apply (parse_slots_lasts _ body).
Qed.

Lemma X18_slots_last_the_event_length_witness :
  Forall (lasts 30)
    [AvailableSlot.mk (DateTime.mk 738959 14 30 0 0 (Some 0))
       (DateTime.mk 738959 15 0 0 0 (Some 0))].
Proof.
  exact (X18_slots_last_the_event_length Office.transport "key" 30 Office.EventType_
           (PInt 7) Office.day Office.day_end (PStr "America/Los_Angeles") []
           [EventType.mk 7 "meeting" "Meeting" None 30 false]
           (EventType.mk 7 "meeting" "Meeting" None 30 false)
           [AvailableSlot.mk (DateTime.mk 738959 14 30 0 0 (Some 0))
              (DateTime.mk 738959 15 0 0 0 (Some 0))]
           eq_refl eq_refl eq_refl).
Defined.

Lemma make_value_error (y mo d h mi s us : Z) (off : option Z) (e : exn) :
  DateTime.make y mo d h mi s us off = inl e -> exn_cls e = ValueError.
Proof.
  unfold DateTime.make.
  repeat match goal with
         | |- context [if ?b then _ else _] => destruct b
         end; intros H; inversion H; reflexivity.
Qed.

Lemma fromisoformat_value_error (s : string) (e : exn) :
  DateTime.fromisoformat s = inl e -> exn_cls e = ValueError.
Proof.
  unfold DateTime.fromisoformat. cbv zeta.
  destruct (DateTime.digits_n 4 _) as [y|]; [| intros H; inversion H; reflexivity].
  destruct (DateTime.digits_n 2 _) as [mo|]; [| intros H; inversion H; reflexivity].
  destruct (DateTime.digits_n 2 _) as [d|]; [| intros H; inversion H; reflexivity].
  destruct (negb _); [intros H; inversion H; reflexivity |].
  destruct (PyStr.drop 11 s) as [|c r].
  - apply make_value_error.
  - destruct (DateTime.parse_isoformat_time _) as [[[[[h m] sec] f] off]|].
    + apply make_value_error.
    + intros H; inversion H; reflexivity.
Qed.

Lemma replace_char_absent (c : ascii) (t s : string) :
  PyStr.contains (String c EmptyString) s = false -> replace_char c t s = s.
Proof.
  induction s as [|a r IH]; [reflexivity |]. cbn [PyStr.contains PyStr.startswith].
  intros H. apply orb_false_iff in H as [H1 H2].
  destruct (Ascii.eqb c a) eqn:E; [destruct r; discriminate |].
  cbn [replace_char]. rewrite Ascii.eqb_sym, E. cbn. now rewrite IH.
Qed.

Lemma slot_at_text (duration : Z) (t : string) :
  fits duration t -> CalCom.slot_at duration (PStr t) = inr (slot_of_text duration t).
Proof.
  intros Hf. unfold CalCom.slot_at, slot_of_text. cbn [PyOps.str_in]. cbn [mbind result_bind].
  assert (E : (if PyStr.contains "Z" t then py_replace (PStr t) "Z" "+00:00"
               else inr (PStr t)) = inr (PStr (replace_char "Z" "+00:00" t))).
  { destruct (PyStr.contains "Z" t) eqn:Ec; [reflexivity |].
    now rewrite (replace_char_absent "Z" "+00:00" t Ec). }
  rewrite E. cbn [py_fromisoformat].
  destruct (DateTime.fromisoformat _) as [e|st] eqn:Hp; cbn.
  - rewrite Hp. cbn. now rewrite (fromisoformat_value_error _ e Hp).
  - rewrite Hp. cbn. destruct (Hf st Hp) as (en & ->). reflexivity.
Qed.

Lemma slot_at_not_text (duration : Z) (v : pyval) :
  (forall t, v <> PStr t) -> exists e, CalCom.slot_at duration v = inl e.
Proof.
  intros Hv. unfold CalCom.slot_at.
  destruct v as [|b|n|t|x|d]; try (cbn; eauto; fail).
  - exfalso. exact (Hv t eq_refl).
  - cbn [PyOps.str_in]. cbn [mbind result_bind]. destruct (existsb _ x); cbn; eauto.
  - cbn [PyOps.str_in]. cbn [mbind result_bind]. destruct (existsb _ d); cbn; eauto.
Qed.

Lemma day_slots_texts (duration : Z) (time_slots : list pyval) (texts : list string)
  (acc : list AvailableSlot.t) :
  day_times time_slots = map PStr texts ->
  Forall (fits duration) texts ->
  CalCom.day_slots duration time_slots acc
  = inr (acc ++ omap (slot_of_text duration) texts)%list.
Proof.
  revert texts acc. induction time_slots as [|slot rest IH]; intros texts acc Ht Hf.
  - destruct texts; [| discriminate]. cbn. now rewrite app_nil_r.
  - cbn [CalCom.day_slots]. unfold day_times in Ht. cbn [omap list_omap] in Ht.
    fold (day_times rest) in Ht.
    destruct slot as [| | | |?|d]; try (now apply IH).
    destruct (Py.assoc "time" d) as [v|]; [| now apply IH].
    destruct texts as [|t texts']; [discriminate |]. cbn [map] in Ht.
    injection Ht as -> Ht. inversion Hf as [|? ? Hf1 Hf2]; subst.
    rewrite (slot_at_text duration t Hf1). cbn [mbind result_bind].
    rewrite (IH texts' _ Ht Hf2). cbn [omap list_omap].
    destruct (slot_of_text duration t) as [s|]; cbn [option_list].
    + now rewrite <- app_assoc.
    + now rewrite app_nil_r.
Qed.

Lemma day_slots_not_text (duration : Z) (time_slots : list pyval)
  (acc : list AvailableSlot.t) (v : pyval) :
  In v (day_times time_slots) -> (forall t, v <> PStr t) ->
  exists e, CalCom.day_slots duration time_slots acc = inl e.
Proof.
  intros Hin Hv. revert acc Hin.
  induction time_slots as [|slot rest IH]; intros acc Hin; [destruct Hin |].
  cbn [CalCom.day_slots]. unfold day_times in Hin. cbn [omap list_omap] in Hin.
  fold (day_times rest) in Hin.
  destruct slot as [| | | |?|d]; try (now apply IH).
  destruct (Py.assoc "time" d) as [v0|]; [| now apply IH].
  destruct (CalCom.slot_at duration v0) as [e|o] eqn:Hs; [cbn; eauto |].
  cbn [mbind result_bind]. destruct Hin as [-> | Hin]; [| now apply IH].
  destruct (slot_at_not_text duration v Hv) as (e & He). congruence.
Qed.

Lemma all_slots_texts (duration : Z) (items : list (string * pyval)) (texts : list string)
  (acc : list AvailableSlot.t) :
  slot_times items = map PStr texts ->
  Forall (fits duration) texts ->
  CalCom.all_slots duration items acc
  = inr (acc ++ omap (slot_of_text duration) texts)%list.
Proof.
  revert texts acc. induction items as [|[k v] rest IH]; intros texts acc Ht Hf.
  - destruct texts; [| discriminate]. cbn. now rewrite app_nil_r.
  - cbn [CalCom.all_slots]. unfold slot_times in Ht. cbn [map concat snd] in Ht.
    fold (slot_times rest) in Ht.
    destruct v as [| | | |day|?]; try (now apply IH).
    symmetry in Ht. apply map_eq_app in Ht as (t1 & t2 & -> & H1 & H2).
    apply Forall_app in Hf as [Hf1 Hf2].
    rewrite (day_slots_texts duration day t1 acc (eq_sym H1) Hf1). cbn [mbind result_bind].
    rewrite (IH t2 _ (eq_sym H2) Hf2). now rewrite omap_app, app_assoc.
Qed.

Lemma all_slots_not_text (duration : Z) (items : list (string * pyval))
  (acc : list AvailableSlot.t) (v : pyval) :
  In v (slot_times items) -> (forall t, v <> PStr t) ->
  exists e, CalCom.all_slots duration items acc = inl e.
Proof.
  intros Hin Hv. revert acc Hin.
  induction items as [|[k x] rest IH]; intros acc Hin; [destruct Hin |].
  cbn [CalCom.all_slots]. unfold slot_times in Hin. cbn [map concat snd] in Hin.
  fold (slot_times rest) in Hin.
  destruct x as [| | | |day|?]; try (now apply IH).
  apply in_app_or in Hin as [Hin | Hin].
  - destruct (day_slots_not_text duration day acc v Hin Hv) as (e & ->). cbn. eauto.
  - destruct (CalCom.day_slots duration day acc) as [e|acc']; [cbn; eauto |].
    cbn [mbind result_bind]. now apply IH.
Qed.

(** X19. What [get_available_slots] makes of an answer whose [slots] is a
    mapping from days to lists. The values under [time] are read in the
    order of the answer; days that are no list, and entries that are no
    mapping or have no [time], are passed over. When all these values are
    texts, the slots returned are, in that order, those of the texts that
    are a date and a time once [Z] is written [+00:00]; the other texts are
    dropped one by one (here no end of a slot falls outside the calendar).
    When one of the values is not a text, nothing is returned at all: the
    list is empty, whatever the other entries are. *)
Theorem X19_slots_follow_the_answer
  (transport : list Http.request -> Http.answer)
  (api_key : string) (timeout_seconds : Z) (EventType_ : pyval -> result EventType.t)
  (event_type_id : pyval) (start_date end_date : DateTime.datetime) (timezone : pyval)
  (l : list Http.request) (event_types : list EventType.t) (et : EventType.t)
  (d items : list (string * pyval)) :
  let lookup := CalCom.get_event_types transport api_key timeout_seconds EventType_ l in
  let request :=
    request_of api_key timeout_seconds "GET" "slots"
      (slots_params event_type_id start_date end_date timezone) PNone in
  let outcome :=
    fst (CalCom.get_available_slots transport api_key timeout_seconds EventType_
           event_type_id start_date end_date timezone l) in
  fst lookup = inr event_types ->
  next_or_none (wanted event_type_id) event_types = Some et ->
  transport (snd lookup ++ [request])%list = Http.Json (PDict d) ->
  Py.assoc "slots" d = Some (PDict items) ->
  (forall texts,
     slot_times items = map PStr texts ->
     Forall (fits (CalCom.duration_of et)) texts ->
     outcome = inr (omap (slot_of_text (CalCom.duration_of et)) texts))
  /\ (forall v,
        In v (slot_times items) -> (forall t, v <> PStr t) -> outcome = inr []).
Proof.
  cbv zeta. intros H0 Het Ht Hs. rewrite get_available_slots_run.
  destruct (CalCom.get_event_types _ _ _ _ l) as [[e|ets] l1]; cbn [fst snd] in *;
    [discriminate |].
  injection H0 as ->. rewrite Het. cbv zeta. cbn [fst]. rewrite Ht.
  unfold CalCom.parse_slots. rewrite Hs. split.
  - intros texts Hx Hf. now rewrite (all_slots_texts _ items texts [] Hx Hf).
  - intros v Hin Hv.
    destruct (all_slots_not_text (CalCom.duration_of et) items [] v Hin Hv) as (e & ->).
    reflexivity.
Qed.

Lemma X19_slots_follow_the_answer_witness :
  fst (CalCom.get_available_slots Office.transport "key" 30 Office.EventType_
         (PInt 7) Office.day Office.day_end (PStr "America/Los_Angeles") [])
  = inr (omap (slot_of_text 30) ["2024-03-14T14:30:00.000Z"; "soon"]).
Proof.
  refine (proj1 (X19_slots_follow_the_answer Office.transport "key" 30 Office.EventType_
                   (PInt 7) Office.day Office.day_end (PStr "America/Los_Angeles") []
                   [EventType.mk 7 "meeting" "Meeting" None 30 false]
                   (EventType.mk 7 "meeting" "Meeting" None 30 false)
                   [("slots",
                     PDict [("2024-03-14",
                             PList [PDict [("time", PStr "2024-03-14T14:30:00.000Z")];
                                    PDict [("time", PStr "soon")];
                                    PStr "closed"]);
                            ("note", PStr "none")])]
                   [("2024-03-14",
                     PList [PDict [("time", PStr "2024-03-14T14:30:00.000Z")];
                            PDict [("time", PStr "soon")];
                            PStr "closed"]);
                    ("note", PStr "none")]
                   eq_refl eq_refl eq_refl eq_refl)
            ["2024-03-14T14:30:00.000Z"; "soon"] eq_refl _).
  repeat constructor; intros st H; vm_compute in H; inversion H; subst;
    eexists; vm_compute; reflexivity.
Defined.

(** *** Bookings *)

Lemma startswith_app (n b : string) : PyStr.startswith n (n ++ b) = true.
Proof.
  induction n as [|c n IH]; [reflexivity |]. rewrite append_cons.
  cbn [PyStr.startswith]. now rewrite Ascii.eqb_refl.
Qed.

Lemma contains_here (n b : string) : PyStr.contains n (n ++ b) = true.
Proof.
  generalize (startswith_app n b). generalize (n ++ b). intros s H.
  destruct s; cbn [PyStr.contains]; now rewrite H.
Qed.

Lemma contains_app_r (n a x : string) :
  PyStr.contains n x = true -> PyStr.contains n (a ++ x) = true.
Proof.
  intros H. induction a as [|c a IH]; [exact H |].
  rewrite append_cons. cbn [PyStr.contains]. rewrite IH. apply orb_true_r.
Qed.

Lemma contains_cons (n x : string) (c : ascii) :
  PyStr.contains n x = true -> PyStr.contains n (String c x) = true.
Proof. intros H. cbn [PyStr.contains]. rewrite H. apply orb_true_r. Qed.

Lemma startswith_split (n s : string) :
  PyStr.startswith n s = true -> exists b, s = n ++ b.
Proof.
  revert s. induction n as [|c n IH]; intros s H; [exists s; reflexivity |].
  destruct s as [|a s]; [discriminate |]. cbn in H.
  destruct (Ascii.eqb c a) eqn:E; [| discriminate]. apply Ascii.eqb_eq in E. subst a.
  destruct (IH s H) as (b & ->). now exists b.
Qed.

Lemma contains_split (n s : string) :
  PyStr.contains n s = true -> exists a b, s = a ++ n ++ b.
Proof.
  induction s as [|c s IH]; cbn [PyStr.contains]; intros H.
  - apply orb_true_iff in H as [H | H]; [| discriminate].
    destruct (startswith_split _ _ H) as (b & Hb). exists EmptyString, b. exact Hb.
  - apply orb_true_iff in H as [H | H].
    + destruct (startswith_split _ _ H) as (b & Hb). exists EmptyString, b. exact Hb.
    + destruct (IH H) as (a & b & ->). exists (String c a), b. reflexivity.
Qed.

Lemma repr_body_app (q : ascii) (a b : string) :
  PyStr.repr_body q (a ++ b) = PyStr.repr_body q a ++ PyStr.repr_body q b.
Proof.
  induction a as [|c a IH]; [reflexivity |]. rewrite append_cons.
  cbn [PyStr.repr_body]. now rewrite IH, append_assoc.
Qed.

Lemma contains_repr (text : string) :
  PyStr.contains "no_available_users_found_error" text = true ->
  PyStr.contains "no_available_users_found_error" (PyStr.repr text) = true.
Proof.
  intros H. destruct (contains_split _ _ H) as (a & b & ->).
  unfold PyStr.repr. cbv zeta.
  set (q := if _ && _ then PyStr.dquote else PyStr.squote).
  assert (E : PyStr.repr_body q "no_available_users_found_error"
              = "no_available_users_found_error")
    by (subst q; destruct (_ && _); reflexivity).
  rewrite !repr_body_app, E. apply contains_cons. rewrite !append_assoc.
  apply contains_app_r. apply contains_here.
Qed.

Lemma asks_retry_text (cls_message : string) (status_code : Z) (k text : string) :
  PyStr.contains "no_available_users_found_error" text = true ->
  asks_retry (inl (App AppClass.CalComAPIError cls_message status_code [(k, PStr text)]))
  = true.
Proof.
  intros H. unfold asks_retry, Py.str. cbn [Py.repr map fst snd Py.sep_join fold_left].
  apply (contains_app_r _ "{"). rewrite !append_assoc.
  apply contains_app_r. apply (contains_app_r _ ": ").
  destruct (contains_split _ _ (contains_repr text H)) as (a & b & ->).
  rewrite !append_assoc. apply contains_app_r. apply contains_here.
Qed.

Lemma book_event_run (transport : list Http.request -> Http.answer)
  (api_key : string) (timeout_seconds : Z)
  (Attendee_ : pyval -> result Attendee.t) (Booking_ : pyval -> result Booking.t)
  (Booking_of :
     pyval -> pyval -> pyval -> DateTime.datetime -> DateTime.datetime -> string ->
     list Attendee.t -> pyval -> result Booking.t)
  (event_type_id : pyval) (start_time end_time : DateTime.datetime)
  (name email title description timezone language : pyval) (l : list Http.request) :
  let post location :=
    request_of api_key timeout_seconds "POST" "bookings" []
      (CalCom.booking_data event_type_id start_time end_time name email title description
         timezone language location) in
  let booked (r : raised + pyval) : raised + Booking.t :=
    match r with
    | inl e => inl e
    | inr response =>
        lifted (CalCom.booking_of_response Attendee_ Booking_ Booking_of response
                  event_type_id start_time end_time name email title timezone)
    end in
  let l1 := (l ++ [post "inPerson"])%list in
  let l2 := (l1 ++ [post "userPhone"])%list in
  CalCom.book_event transport api_key timeout_seconds Attendee_ Booking_ Booking_of
    event_type_id start_time end_time name email title description timezone language l
  = if asks_retry (CalCom.response_of (transport l1))
    then (booked (CalCom.response_of (transport l2)), l2)
    else (booked (CalCom.response_of (transport l1)), l1).
Proof.
  cbv zeta. unfold CalCom.book_event. cbv zeta.
  rewrite io_try_run, io_bind_run, make_request_run. cbv zeta. cbn [default from_option id].
  set (l1 := (l ++ _)%list).
  destruct (CalCom.response_of (transport l1)) as [e|response] eqn:E1.
  - destruct e as [cls message status details|e]; [| reflexivity].
    destruct cls; try reflexivity. cbn [asks_retry].
    destruct (PyStr.contains _ _); [| reflexivity].
    rewrite io_bind_run, make_request_run. cbv zeta. cbn [default from_option id].
    set (l2 := (l1 ++ _)%list).
    destruct (CalCom.response_of (transport l2)) as [e|response]; [reflexivity |].
    unfold io_lift, lifted. reflexivity.
  - cbn [asks_retry]. unfold io_lift, lifted.
    destruct (CalCom.booking_of_response _ _ _ response _ _ _ _ _ _ _); reflexivity.
Qed.

(** X20. [book_event] posts the booking with the location [inPerson] and
    tries again at most once. The second request is made exactly when the
    first fails with an error of the calendar whose details, written out,
    mention [no_available_users_found_error]; it carries the same body but
    for the location, which is [userPhone], and then the outcome of
    [book_event] is the outcome of that second request, booking or
    failure, with no third request. In every other case the outcome is that
    of the first request: its booking, or its failure raised as it is. A
    status error or a request error whose text mentions
    [no_available_users_found_error] counts; a body, or a failure of
    another kind, never leads to a second request. *)
Theorem X20_book_event_second_attempt (transport : list Http.request -> Http.answer)
  (api_key : string) (timeout_seconds : Z)
  (Attendee_ : pyval -> result Attendee.t) (Booking_ : pyval -> result Booking.t)
  (Booking_of :
     pyval -> pyval -> pyval -> DateTime.datetime -> DateTime.datetime -> string ->
     list Attendee.t -> pyval -> result Booking.t)
  (event_type_id : pyval) (start_time end_time : DateTime.datetime)
  (name email title description timezone language : pyval) (l : list Http.request) :
  let post location :=
    request_of api_key timeout_seconds "POST" "bookings" []
      (CalCom.booking_data event_type_id start_time end_time name email title description
         timezone language location) in
  let booked (r : raised + pyval) : raised + Booking.t :=
    match r with
    | inl e => inl e
    | inr response =>
        lifted (CalCom.booking_of_response Attendee_ Booking_ Booking_of response
                  event_type_id start_time end_time name email title timezone)
    end in
  let l1 := (l ++ [post "inPerson"])%list in
  let l2 := (l1 ++ [post "userPhone"])%list in
  let first := CalCom.response_of (transport l1) in
  let second := CalCom.response_of (transport l2) in
  CalCom.book_event transport api_key timeout_seconds Attendee_ Booking_ Booking_of
    event_type_id start_time end_time name email title description timezone language l
  = (if asks_retry first then (booked second, l2) else (booked first, l1))
  /\ (forall status_code text,
        transport l1 = Http.HTTPStatusError status_code text ->
        PyStr.contains "no_available_users_found_error" text = true ->
        asks_retry first = true)
  /\ (forall message,
        transport l1 = Http.RequestError message ->
        PyStr.contains "no_available_users_found_error" message = true ->
        asks_retry first = true)
  /\ (forall body, transport l1 = Http.Json body -> asks_retry first = false)
  /\ (forall e, transport l1 = Http.Failure e -> asks_retry first = false).
Proof.
  cbv zeta. split; [apply book_event_run |].
  split; [intros c text -> H; now apply asks_retry_text |].
  split; [intros m -> H; now apply asks_retry_text |].
  split; [intros body -> | intros e ->]; reflexivity.
Qed.

Lemma is_attendee_text (email : string) (attendees : list Attendee.t) :
  CalCom.is_attendee (PStr email) attendees
  = inr (existsb (fun a => String.eqb (PyStr.lower (Attendee.email a)) (PyStr.lower email))
           attendees).
Proof.
  induction attendees as [|a r IH]; [reflexivity |].
  cbn [CalCom.is_attendee py_lower existsb]. cbn [mbind result_bind].
  destruct (String.eqb _ _); [reflexivity | exact IH].
Qed.

Lemma filter_bookings_text (email : string) (bookings : list Booking.t) :
  CalCom.filter_bookings (PStr email) bookings
  = inr (filter (fun b => attends email b = true) bookings).
Proof.
  induction bookings as [|b r IH]; [reflexivity |].
  cbn [CalCom.filter_bookings]. rewrite is_attendee_text. cbn [mbind result_bind].
  rewrite IH. cbn [mbind result_bind mret result_ret]. fold (attends email b).
  rewrite orb_false_r. destruct (attends email b) eqn:E.
  - now rewrite filter_cons_True by exact E.
  - now rewrite filter_cons_False by (rewrite E; discriminate).
Qed.

Lemma get_bookings_run (transport : list Http.request -> Http.answer)
  (api_key : string) (timeout_seconds : Z) (Booking_ : pyval -> result Booking.t)
  (email : pyval) (start_date end_date : option DateTime.datetime) (status : pyval)
  (l : list Http.request) :
  let l1 :=
    (l ++ [request_of api_key timeout_seconds "GET" "bookings"
             (bookings_params email start_date end_date status) PNone])%list in
  CalCom.get_bookings transport api_key timeout_seconds Booking_
    email start_date end_date status l
  = (match CalCom.response_of (transport l1) with
     | inl e => inl e
     | inr response =>
         match bookings_of Booking_ response with
         | inl e => inl (Other e)
         | inr bookings =>
             if Py.truthy email then lifted (CalCom.filter_bookings email bookings)
             else inr bookings
         end
     end, l1).
Proof.
  cbv zeta. unfold CalCom.get_bookings. cbv zeta.
  fold (bookings_params email start_date end_date status).
  rewrite io_bind_run, make_request_run. cbv zeta. cbn [default from_option id].
  destruct (CalCom.response_of _) as [e|response]; [reflexivity |].
  unfold bookings_of. rewrite io_bind_run. unfold io_lift at 1.
  destruct (PyOps.get_default response "bookings" (PList [])) as [e|v]; [reflexivity |].
  rewrite io_bind_run. unfold io_lift at 1. cbn [mbind result_bind].
  destruct (PyOps.iter v) as [e|items]; [reflexivity |].
  rewrite io_bind_run. unfold io_lift at 1. cbn [mbind result_bind].
  destruct (traverse Booking_ items) as [e|bookings]; [reflexivity |].
  destruct (Py.truthy email); reflexivity.
Qed.

(** X21. [get_bookings] makes one request, whose parameters are, in this
    order, the address, the two dates in ISO form and the status, each only
    if it is given and not empty. When the answer is read as a list of
    bookings: without an address the bookings are returned as they were
    read; with an address the bookings returned are those with an attendee
    of that address, letter case apart, in the order of the answer, and
    nothing else, a booking being never kept on account of its owner. *)
Theorem X21_bookings_of_an_attendee (transport : list Http.request -> Http.answer)
  (api_key : string) (timeout_seconds : Z) (Booking_ : pyval -> result Booking.t)
  (email : pyval) (start_date end_date : option DateTime.datetime) (status : pyval)
  (l : list Http.request) (response : pyval) (bookings : list Booking.t) :
  let request :=
    request_of api_key timeout_seconds "GET" "bookings"
      (bookings_params email start_date end_date status) PNone in
  let outcome :=
    CalCom.get_bookings transport api_key timeout_seconds Booking_
      email start_date end_date status l in
  transport (l ++ [request])%list = Http.Json response ->
  bookings_of Booking_ response = inr bookings ->
  snd outcome = (l ++ [request])%list
  /\ (Py.truthy email = false -> fst outcome = inr bookings)
  /\ (forall address,
        email = PStr address -> address <> EmptyString ->
        fst outcome = inr (filter (fun b => attends address b = true) bookings)).
Proof.
  cbv zeta. intros Ht Hb. rewrite get_bookings_run. cbv zeta. cbn [fst snd].
  rewrite Ht. cbn [CalCom.response_of]. rewrite Hb.
  split; [reflexivity |]. split.
  - intros ->. reflexivity.
  - intros address -> Ha. cbn [Py.truthy].
    destruct (String.eqb address EmptyString) eqn:E;
      [apply String.eqb_eq in E; contradiction |].
    cbn [negb]. now rewrite filter_bookings_text.
Qed.

Lemma X21_bookings_of_an_attendee_witness :
  fst (CalCom.get_bookings Office.transport "key" 30 Office.Booking_
         (PStr "Ada@Example.com") None None PNone [])
  = inr [Office.booking_of 1 "b-1" "ada@example.com" "Ada";
         Office.booking_of 3 "b-3" "ADA@example.com" "Ada"].
Proof.
  refine (proj2 (proj2 (X21_bookings_of_an_attendee Office.transport "key" 30
                          Office.Booking_ (PStr "Ada@Example.com") None None PNone []
                          Office.bookings_body
                          [Office.booking_of 1 "b-1" "ada@example.com" "Ada";
                           Office.booking_of 2 "b-2" "bob@example.com" "Bob";
                           Office.booking_of 3 "b-3" "ADA@example.com" "Ada"]
                          eq_refl eq_refl))
            "Ada@Example.com" eq_refl _).
  discriminate.
Defined.

(** ** Logging, errors and the endpoints of the calendar *)

(** *** What is logged *)

Lemma pyval_nested_ind (P : pyval -> Prop) :
  P PNone -> (forall b, P (PBool b)) -> (forall n, P (PInt n)) -> (forall s, P (PStr s)) ->
  (forall l, Forall P l -> P (PList l)) ->
  (forall d, Forall (fun kv => P (snd kv)) d -> P (PDict d)) ->
  forall v, P v.
Proof.
  intros HN HB HI HS HL HD. fix IH 1. intros [|b|n|s|l|d].
  - exact HN.
  - apply HB.
  - apply HI.
  - apply HS.
  - apply HL. induction l as [|x r IHl]; constructor; [apply IH | exact IHl].
  - apply HD. induction d as [|[k x] r IHd]; constructor; [apply IH | exact IHd].
Qed.

Lemma sanitize_value_dict (key : string) (d : list (string * pyval)) :
  sanitize_value key (PDict d) = PDict (sanitize_sensitive_data d).
Proof. reflexivity. Qed.

Lemma sanitize_value_idem (v : pyval) (key : string) :
  sanitize_value key (sanitize_value key v) = sanitize_value key v.
Proof.
  revert key. induction v as [|b|n|s|l IH|d IH] using pyval_nested_ind; intros key;
    try reflexivity.
  - cbn [sanitize_value]. destruct (is_sensitive key) eqn:E; cbn [sanitize_value];
      now rewrite E.
  - rewrite !sanitize_value_dict. f_equal.
    induction d as [|[k x] r IHd]; [reflexivity |].
    inversion IH as [|? ? H1 H2]; subst. cbn [snd] in H1.
    change (sanitize_sensitive_data ((k, x) :: r))
      with ((k, sanitize_value k x) :: sanitize_sensitive_data r).
    change (sanitize_sensitive_data ((k, sanitize_value k x) :: sanitize_sensitive_data r))
      with ((k, sanitize_value k (sanitize_value k x))
            :: sanitize_sensitive_data (sanitize_sensitive_data r)).
    rewrite (H1 k). f_equal. now apply IHd.
Qed.

Lemma assoc_sanitize (k : string) (d : list (string * pyval)) :
  Py.assoc k (sanitize_sensitive_data d) = option_map (sanitize_value k) (Py.assoc k d).
Proof.
  induction d as [|[k' x] r IH]; [reflexivity |].
  cbn [sanitize_sensitive_data map fst snd Py.assoc].
  destruct (String.eqb k k') eqn:E; [| exact IH].
  apply String.eqb_eq in E. now subst k'.
Qed.

Lemma reach_not_dict (path : list string) (key : string) (v : pyval) :
  (forall d, v <> PDict d) -> reach (path ++ [key]) v = None.
Proof.
  intros H. destruct path as [|k p]; cbn; destruct v; try reflexivity;
    exfalso; eapply H; reflexivity.
Qed.

Lemma reach_sanitize (path : list string) (key : string) (d : list (string * pyval)) :
  reach (path ++ [key]) (PDict (sanitize_sensitive_data d))
  = option_map (sanitize_value key) (reach (path ++ [key]) (PDict d)).
Proof.
  revert d. induction path as [|k p IH]; intros d.
  - cbn [app reach]. rewrite assoc_sanitize. destruct (Py.assoc key d); reflexivity.
  - cbn [app reach]. rewrite assoc_sanitize.
    destruct (Py.assoc k d) as [x|]; [| reflexivity]. cbn [option_map].
    destruct x as [|b|n|s|l|d']; try (rewrite !reach_not_dict by discriminate; reflexivity).
    + rewrite (reach_not_dict p key (PStr s)) by discriminate.
      rewrite reach_not_dict; [reflexivity |].
      intros d0. cbn [sanitize_value]. destruct (is_sensitive k); discriminate.
    + rewrite sanitize_value_dict. apply IH.
Qed.

(** X22. [sanitize_sensitive_data] keeps the keys of a mapping and their
    order, and sanitizing twice is sanitizing once. What is found in the
    outcome by following keys through nested mappings is what was found in
    the data, sanitized under the last key: a text found under a key that
    names a sensitive field (letter case apart) is always the mask, at any
    depth. A list is kept as it is under any key, so the texts inside a
    list, and the mappings inside it, are never masked. *)
Theorem X22_sanitize_masks_texts_in_mappings (data : list (string * pyval)) :
  map fst (sanitize_sensitive_data data) = map fst data
  /\ sanitize_sensitive_data (sanitize_sensitive_data data) = sanitize_sensitive_data data
  /\ (forall path key,
        reach (path ++ [key]) (PDict (sanitize_sensitive_data data))
        = option_map (sanitize_value key) (reach (path ++ [key]) (PDict data)))
  /\ (forall path key s,
        is_sensitive key = true ->
        reach (path ++ [key]) (PDict (sanitize_sensitive_data data)) = Some (PStr s) ->
        s = "********")
  /\ (forall path key l,
        reach (path ++ [key]) (PDict data) = Some (PList l) ->
        reach (path ++ [key]) (PDict (sanitize_sensitive_data data)) = Some (PList l)).
Proof.
  split; [unfold sanitize_sensitive_data; rewrite map_map; reflexivity |].
  split.
  { generalize (sanitize_value_idem (PDict data) EmptyString).
    rewrite !sanitize_value_dict. now intros [= ->]. }
  split; [intros; apply reach_sanitize |].
  split.
  - intros path key s Hk. rewrite reach_sanitize.
    destruct (reach (path ++ [key]) (PDict data)) as [v|]; [| discriminate].
    cbn [option_map]. destruct v; cbn [sanitize_value]; try discriminate.
    rewrite Hk. now intros [= <-].
  - intros path key l H. rewrite reach_sanitize, H. reflexivity.
Qed.

(** *** The endpoints of the calendar *)

Lemma sends_get (transport : list Http.request -> Http.answer) (api_key : string)
  (timeout_seconds : Z) (endpoint : string) (params : option (list (string * pyval)))
  (data : pyval) :
  sends 1 is_get
    (CalCom._make_request transport api_key timeout_seconds "GET" endpoint params data).
Proof.
  intros l. rewrite make_request_run. cbv zeta. cbn [snd].
  eexists. split; [reflexivity |]. split; [cbn; lia |].
  constructor; [reflexivity | constructor].
Qed.

Lemma get_event_reads (transport : list Http.request -> Http.answer)
  (api_key : string) (timeout_seconds : Z) (EventType_ : pyval -> result EventType.t)
  (Attendee_ : pyval -> result Attendee.t)
  (Event_of :
     pyval -> pyval -> pyval -> pyval -> DateTime.datetime -> DateTime.datetime -> pyval ->
     list Attendee.t -> EventType.t -> result Event.t)
  (booking_id : pyval) :
  sends 2 is_get
    (CalCom.get_event transport api_key timeout_seconds EventType_ Attendee_ Event_of
       booking_id).
Proof.
  unfold CalCom.get_event.
  apply (sends_bind 1 1); [apply sends_get | intros response].
  apply (sends_bind 0 1); [apply sends_lift | intros booking_data].
  apply (sends_bind 0 1); [apply sends_lift | intros event_type_id].
  apply (sends_bind 1 0); [apply sends_get | intros event_type_response].
  apply (sends_bind 0 0); [apply sends_lift | intros event_type_data]. apply sends_lift.
Qed.

Section EndpointFacts.

Context (transport : list Http.request -> Http.answer).
Context (api_key : string) (timeout_seconds : Z).
Context (EventType_ : pyval -> result EventType.t).
Context (Attendee_ : pyval -> result Attendee.t).
Context (Booking_ : pyval -> result Booking.t).
Context (Event_of :
  pyval -> pyval -> pyval -> pyval -> DateTime.datetime -> DateTime.datetime -> pyval ->
  list Attendee.t -> EventType.t -> result Event.t).

Lemma check_booking_run (booking_id : string) (l : list Http.request) :
  CalComRouter.check_booking transport api_key timeout_seconds EventType_ Attendee_ Event_of
    booking_id l
  = match CalCom.get_event transport api_key timeout_seconds EventType_ Attendee_ Event_of
            (PStr booking_id) l with
    | (inr _, l') => (inr tt, l')
    | (inl _, l') => (inl (not_found booking_id), l')
    end.
Proof.
  unfold CalComRouter.check_booking. rewrite io_try_run, io_bind_run.
  destruct (CalCom.get_event _ _ _ _ _ _ _ l) as [[e|ev] l']; reflexivity.
Qed.

Lemma cancel_data (reason : option string) :
  (if Py.truthy (PyOps.of_opt_str reason)
   then PDict [("reason", PyOps.of_opt_str reason)] else PDict [])
  = match reason with
    | Some (String c r) => PDict [("reason", PStr (String c r))]
    | _ => PDict []
    end.
Proof. destruct reason as [[|c r]|]; reflexivity. Qed.

Lemma reschedule_data (reason : option string) :
  (if Py.truthy (PyOps.of_opt_str reason)
   then [("reason", PyOps.of_opt_str reason)] else [])
  = match reason with
    | Some (String c r) => [("reason", PStr (String c r))]
    | _ => []
    end.
Proof. destruct reason as [[|c r]|]; reflexivity. Qed.

Lemma cancel_event_run (booking_id : string) (reason : option string)
  (l : list Http.request) :
  CalComRouter.cancel_event transport api_key timeout_seconds EventType_ Attendee_ Event_of
    booking_id reason l
  = match CalCom.get_event transport api_key timeout_seconds EventType_ Attendee_ Event_of
            (PStr booking_id) l with
    | (inl _, l1) => (inl (not_found booking_id), l1)
    | (inr _, l1) =>
        let l2 := (l1 ++ [cancel_request api_key timeout_seconds booking_id reason])%list in
        (match transport l2 with
         | Http.Json _ => inr (CancelEventResponse.mk true booking_id "CANCELLED")
         | Http.HTTPStatusError status_code text =>
             inl (App AppClass.CalComAPIError
                    ("Cal.com API error: " ++ PyStr.of_Z status_code) status_code
                    [("response", PStr text)])
         | Http.RequestError message =>
             inl (App AppClass.CalComAPIError
                    ("Cal.com API request error: " ++ message) 500
                    [("error", PStr message)])
         | Http.Failure e =>
             inl (App AppClass.AppException ("Error cancelling event: " ++ exn_msg e) 500 [])
         end, l2)
    end.
Proof.
  unfold CalComRouter.cancel_event. rewrite io_try_run, io_bind_run, check_booking_run.
  destruct (CalCom.get_event _ _ _ _ _ _ _ l) as [[e|ev] l1]; [reflexivity |].
  rewrite io_bind_run. unfold CalCom.cancel_booking. cbv zeta.
  rewrite make_request_run. cbv zeta. cbn [default from_option id Py.str].
  rewrite cancel_data. fold (cancel_request api_key timeout_seconds booking_id reason).
  destruct (transport _) as [body|c t|m|e]; reflexivity.
Qed.

Lemma reschedule_event_run (booking_id : string) (request : RescheduleEventRequest.t)
  (l : list Http.request) :
  CalComRouter.reschedule_event transport api_key timeout_seconds EventType_ Attendee_
    Booking_ Event_of booking_id request l
  = match CalCom.get_event transport api_key timeout_seconds EventType_ Attendee_ Event_of
            (PStr booking_id) l with
    | (inl _, l1) => (inl (not_found booking_id), l1)
    | (inr _, l1) =>
        let l2 :=
          (l1 ++ [reschedule_request api_key timeout_seconds booking_id
                    (RescheduleEventRequest.new_start_time request)
                    (RescheduleEventRequest.new_end_time request)
                    (RescheduleEventRequest.reason request)])%list in
        (match transport l2 with
         | Http.Json response =>
             match (booking ← PyOps.get_default response "booking" (PDict []);
                    Booking_ booking) with
             | inr booking =>
                 inr (RescheduleEventResponse.mk true (Booking.uid booking)
                        (Booking.title booking) (Booking.start_time booking)
                        (Booking.end_time booking) (Booking.status booking))
             | inl e =>
                 inl (App AppClass.AppException
                        ("Error rescheduling event: " ++ exn_msg e) 500 [])
             end
         | Http.HTTPStatusError status_code text =>
             inl (App AppClass.CalComAPIError
                    ("Cal.com API error: " ++ PyStr.of_Z status_code) status_code
                    [("response", PStr text)])
         | Http.RequestError message =>
             inl (App AppClass.CalComAPIError
                    ("Cal.com API request error: " ++ message) 500
                    [("error", PStr message)])
         | Http.Failure e =>
             inl (App AppClass.AppException
                    ("Error rescheduling event: " ++ exn_msg e) 500 [])
         end, l2)
    end.
Proof.
  unfold CalComRouter.reschedule_event. rewrite io_try_run, io_bind_run, check_booking_run.
  destruct (CalCom.get_event _ _ _ _ _ _ _ l) as [[e|ev] l1]; [reflexivity |].
  rewrite io_bind_run. unfold CalCom.reschedule_booking. cbv zeta.
  rewrite io_bind_run, make_request_run. cbv zeta. cbn [default from_option id Py.str].
  rewrite reschedule_data.
  fold (reschedule_request api_key timeout_seconds booking_id
          (RescheduleEventRequest.new_start_time request)
          (RescheduleEventRequest.new_end_time request)
          (RescheduleEventRequest.reason request)).
  destruct (transport _) as [response|c t|m|e]; try reflexivity.
  cbn [CalCom.response_of]. rewrite io_bind_run. unfold io_lift at 1.
  destruct (PyOps.get_default response "booking" (PDict [])) as [e|b]; [reflexivity |].
  cbn [mbind result_bind]. unfold io_lift. destruct (Booking_ b); reflexivity.
Qed.

End EndpointFacts.

(** X23. The endpoint that cancels a booking looks the booking up first,
    with requests that only read. If the lookup fails, for whatever reason
    (a status error, the network, an answer that cannot be read), the
    endpoint raises [NotFoundError] with status 404, the message [Booking
    with ID ... not found] and the identifier as details, and no
    cancellation is sent. If the lookup succeeds, exactly one [DELETE]
    follows, to [bookings/<id>], with the reason as its body when one is
    given and not empty. Whatever the body of the answer, the response then
    says [CANCELLED] for the identifier asked; an error of the calendar is
    raised as it is, with its status code, and any other failure as an
    [AppException] with status 500. *)
Theorem X23_cancel_looks_up_first (transport : list Http.request -> Http.answer)
  (api_key : string) (timeout_seconds : Z) (EventType_ : pyval -> result EventType.t)
  (Attendee_ : pyval -> result Attendee.t)
  (Event_of :
     pyval -> pyval -> pyval -> pyval -> DateTime.datetime -> DateTime.datetime -> pyval ->
     list Attendee.t -> EventType.t -> result Event.t)
  (booking_id : string) (reason : option string) (l : list Http.request) :
  let lookup :=
    CalCom.get_event transport api_key timeout_seconds EventType_ Attendee_ Event_of
      (PStr booking_id) l in
  let outcome :=
    CalComRouter.cancel_event transport api_key timeout_seconds EventType_ Attendee_
      Event_of booking_id reason l in
  let l2 := (snd lookup ++ [cancel_request api_key timeout_seconds booking_id reason])%list in
  (exists reads,
     snd lookup = (l ++ reads)%list /\ (length reads <= 2)%nat /\ Forall is_get reads)
  /\ match fst lookup with
     | inl _ => outcome = (inl (not_found booking_id), snd lookup)
     | inr _ =>
         outcome
         = (match transport l2 with
            | Http.Json _ => inr (CancelEventResponse.mk true booking_id "CANCELLED")
            | Http.HTTPStatusError status_code text =>
                inl (App AppClass.CalComAPIError
                       ("Cal.com API error: " ++ PyStr.of_Z status_code) status_code
                       [("response", PStr text)])
            | Http.RequestError message =>
                inl (App AppClass.CalComAPIError
                       ("Cal.com API request error: " ++ message) 500
                       [("error", PStr message)])
            | Http.Failure e =>
                inl (App AppClass.AppException
                       ("Error cancelling event: " ++ exn_msg e) 500 [])
            end, l2)
     end.
Proof.
  cbv zeta. split; [apply get_event_reads |].
  rewrite cancel_event_run.
  destruct (CalCom.get_event _ _ _ _ _ _ _ l) as [[e|ev] l1]; reflexivity.
Qed.

(** X24. The endpoint that reschedules a booking looks the booking up
    first, with requests that only read, and like the cancellation it
    raises [NotFoundError] with status 404 on any failure of the lookup,
    without sending the change. If the lookup succeeds, exactly one
    [PATCH] follows, to [bookings/<id>], with the new start and end in ISO
    form and the reason when one is given and not empty. The response
    describes the booking of the answer, not the request: its identifier,
    title, times and status are those of the [booking] the calendar sent
    back. An answer that holds no valid booking is an [AppException] with
    status 500, although the change was sent; an error of the calendar is
    raised as it is. *)
Theorem X24_reschedule_looks_up_first (transport : list Http.request -> Http.answer)
  (api_key : string) (timeout_seconds : Z) (EventType_ : pyval -> result EventType.t)
  (Attendee_ : pyval -> result Attendee.t) (Booking_ : pyval -> result Booking.t)
  (Event_of :
     pyval -> pyval -> pyval -> pyval -> DateTime.datetime -> DateTime.datetime -> pyval ->
     list Attendee.t -> EventType.t -> result Event.t)
  (booking_id : string) (request : RescheduleEventRequest.t) (l : list Http.request) :
  let lookup :=
    CalCom.get_event transport api_key timeout_seconds EventType_ Attendee_ Event_of
      (PStr booking_id) l in
  let outcome :=
    CalComRouter.reschedule_event transport api_key timeout_seconds EventType_ Attendee_
      Booking_ Event_of booking_id request l in
  let l2 :=
    (snd lookup ++ [reschedule_request api_key timeout_seconds booking_id
                      (RescheduleEventRequest.new_start_time request)
                      (RescheduleEventRequest.new_end_time request)
                      (RescheduleEventRequest.reason request)])%list in
  (exists reads,
     snd lookup = (l ++ reads)%list /\ (length reads <= 2)%nat /\ Forall is_get reads)
  /\ match fst lookup with
     | inl _ => outcome = (inl (not_found booking_id), snd lookup)
     | inr _ =>
         outcome
         = (match transport l2 with
            | Http.Json response =>
                match (booking ← PyOps.get_default response "booking" (PDict []);
                       Booking_ booking) with
                | inr booking =>
                    inr (RescheduleEventResponse.mk true (Booking.uid booking)
                           (Booking.title booking) (Booking.start_time booking)
                           (Booking.end_time booking) (Booking.status booking))
                | inl e =>
                    inl (App AppClass.AppException
                           ("Error rescheduling event: " ++ exn_msg e) 500 [])
                end
            | Http.HTTPStatusError status_code text =>
                inl (App AppClass.CalComAPIError
                       ("Cal.com API error: " ++ PyStr.of_Z status_code) status_code
                       [("response", PStr text)])
            | Http.RequestError message =>
                inl (App AppClass.CalComAPIError
                       ("Cal.com API request error: " ++ message) 500
                       [("error", PStr message)])
            | Http.Failure e =>
                inl (App AppClass.AppException
                       ("Error rescheduling event: " ++ exn_msg e) 500 [])
            end, l2)
     end.
Proof.
  cbv zeta. split; [apply get_event_reads |].
  rewrite reschedule_event_run.
  destruct (CalCom.get_event _ _ _ _ _ _ _ l) as [[e|ev] l1]; reflexivity.
Qed.

Lemma strptime_midnight (s : string) (d : DateTime.datetime) :
  DateTime.strptime_ymd s = inr d -> d = DateTime.mk (DateTime.ordinal d) 0 0 0 0 None.
Proof.
  unfold DateTime.strptime_ymd, DateTime.make.
  destruct (Re.match_ Re.ymd_re s) as [[caps rest]|]; [| discriminate].
  destruct caps as [|y [|mo [|dd [|x caps]]]]; try discriminate.
  destruct rest; [| discriminate].
  repeat match goal with
    | |- context [if ?b then _ else _] => destruct b
    end; try discriminate; intros [= <-]; reflexivity.
Qed.

(** X25. The endpoint of the slots reads its date with the format
    [%Y-%m-%d]. A text that is no such date is refused with
    [ValidationError], status 400 and the message [Invalid date format: ...
    Expected format: YYYY-MM-DD], before any request is made. Otherwise the
    service is asked for the slots of that one day, from 00:00:00 to
    23:59:59 without offset, in the time zone [America/Los_Angeles]; each
    slot is returned as its start and end in ISO form, in the order of the
    service, and a failure of the service is raised as it is when it is an
    error of the calendar and as an [AppException] otherwise. *)
Theorem X25_slots_of_a_day (transport : list Http.request -> Http.answer)
  (api_key : string) (timeout_seconds : Z) (EventType_ : pyval -> result EventType.t)
  (event_type_id : Z) (date : string) (l : list Http.request) :
  let outcome :=
    CalComRouter.get_available_slots transport api_key timeout_seconds EventType_
      event_type_id date l in
  match DateTime.strptime_ymd date with
  | inl _ =>
      outcome
      = (inl (App AppClass.ValidationError
                ("Invalid date format: " ++ date ++ ". Expected format: YYYY-MM-DD")
                400 []), l)
  | inr day =>
      day = DateTime.mk (DateTime.ordinal day) 0 0 0 0 None
      /\ outcome
         = match CalCom.get_available_slots transport api_key timeout_seconds EventType_
                   (PInt event_type_id) day
                   (DateTime.mk (DateTime.ordinal day) 23 59 59 0 None)
                   (PStr "America/Los_Angeles") l with
           | (inr slots, l') => (inr (map CalComRouter.slot_times_entry slots), l')
           | (inl e, l') =>
               (inl (CalComRouter.on_failure
                       [AppClass.ValidationError; AppClass.CalComAPIError]
                       "Error getting available slots: " e), l')
           end
  end.
Proof.
  cbv zeta. unfold CalComRouter.get_available_slots. rewrite io_try_run, io_bind_run.
  destruct (DateTime.strptime_ymd date) as [e|day] eqn:E.
  - rewrite (strptime_only_value_error _ _ E). reflexivity.
  - split; [exact (strptime_midnight _ _ E) |].
    cbn [mret IO_ret fst snd]. rewrite io_bind_run.
    rewrite (strptime_midnight _ _ E) at 2. unfold DateTime.replace_hms.
    cbn [DateTime.ordinal DateTime.microsecond DateTime.utcoffset].
    destruct (CalCom.get_available_slots _ _ _ _ _ _ _ _ l) as [[e|slots] l']; reflexivity.
Qed.

(** X26. The endpoint that books an event refuses a request without
    attendees with [ValidationError], status 400 and the field named in
    the details, before any request is made. Otherwise only the first
    attendee goes to the calendar: the booking is made in that attendee's
    name, address and time zone (no time zone is sent as [None], not as a
    default zone), in the language [en], and the first request is the
    [POST] of that body with the location [inPerson]. The response carries
    the identifier, title, times and status of the booking made, with all
    the attendees of the request; a failure of the service is raised as it
    is when it is an error of the calendar and as an [AppException]
    otherwise. *)
Theorem X26_booking_for_the_first_attendee (transport : list Http.request -> Http.answer)
  (api_key : string) (timeout_seconds : Z)
  (Attendee_ : pyval -> result Attendee.t) (Booking_ : pyval -> result Booking.t)
  (Booking_of :
     pyval -> pyval -> pyval -> DateTime.datetime -> DateTime.datetime -> string ->
     list Attendee.t -> pyval -> result Booking.t)
  (request : BookEventRequest.t) (l : list Http.request) :
  let outcome :=
    CalComRouter.book_event transport api_key timeout_seconds Attendee_ Booking_ Booking_of
      request l in
  match BookEventRequest.attendees request with
  | [] =>
      outcome
      = (inl (App AppClass.ValidationError "At least one attendee is required" 400
                [("field", PStr "attendees")]), l)
  | attendee :: _ =>
      let body :=
        CalCom.booking_data (PInt (BookEventRequest.event_type_id request))
          (BookEventRequest.start_time request) (BookEventRequest.end_time request)
          (PStr (AttendeeSchema.name attendee)) (PStr (AttendeeSchema.email attendee))
          (PyOps.of_opt_str (BookEventRequest.title request))
          (PyOps.of_opt_str (BookEventRequest.description request))
          (PyOps.of_opt_str (AttendeeSchema.timezone attendee)) (PStr "en") "inPerson" in
      outcome
      = match CalCom.book_event transport api_key timeout_seconds Attendee_ Booking_
                Booking_of (PInt (BookEventRequest.event_type_id request))
                (BookEventRequest.start_time request) (BookEventRequest.end_time request)
                (PStr (AttendeeSchema.name attendee)) (PStr (AttendeeSchema.email attendee))
                (PyOps.of_opt_str (BookEventRequest.title request))
                (PyOps.of_opt_str (BookEventRequest.description request))
                (PyOps.of_opt_str (AttendeeSchema.timezone attendee)) (PStr "en") l with
        | (inr booking, l') =>
            (inr (BookEventResponse.mk (Booking.uid booking) (Booking.title booking)
                    (Booking.start_time booking) (Booking.end_time booking)
                    (BookEventRequest.attendees request) (Booking.status booking)), l')
        | (inl e, l') =>
            (inl (CalComRouter.on_failure
                    [AppClass.ValidationError; AppClass.CalComAPIError]
                    "Error booking event: " e), l')
        end
      /\ (exists more,
            snd outcome
            = (l ++ request_of api_key timeout_seconds "POST" "bookings" [] body :: more)%list
            /\ (length more <= 1)%nat)
      /\ reach ["responses"; "name"] body = Some (PStr (AttendeeSchema.name attendee))
      /\ reach ["responses"; "email"] body = Some (PStr (AttendeeSchema.email attendee))
      /\ reach ["timeZone"] body = Some (PyOps.of_opt_str (AttendeeSchema.timezone attendee))
      /\ reach ["language"] body = Some (PStr "en")
  end.
Proof.
  cbv zeta. unfold CalComRouter.book_event. rewrite io_try_run.
  destruct (BookEventRequest.attendees request) as [|attendee others] eqn:Ha;
    [reflexivity |].
  rewrite io_bind_run.
  split; [| split; [| repeat split]].
  - destruct (CalCom.book_event _ _ _ _ _ _ _ _ _ _ _ _ _ _ _ l) as [[e|b] l'];
      reflexivity.
  - rewrite book_event_run. cbv zeta.
    destruct (asks_retry _).
    + eexists [_]. split; [| cbn; lia].
      rewrite <- app_assoc. cbn [app].
      destruct (CalCom.response_of _) as [e|response]; [reflexivity |].
      destruct (CalCom.booking_of_response _ _ _ response _ _ _ _ _ _ _); reflexivity.
    + exists []. split; [| cbn; lia].
      destruct (CalCom.response_of _) as [e|response]; [reflexivity |].
      destruct (CalCom.booking_of_response _ _ _ response _ _ _ _ _ _ _); reflexivity.
Qed.

Section FailsOnly.

Context {P : raised -> Prop}.

Lemma fails_only_ret {A : Type} (a : A) : fails_only P (mret a : IO A).
Proof. intros l e H. discriminate. Qed.

Lemma fails_only_raise {A : Type} (e : raised) : P e -> fails_only P (io_raise e : IO A).
Proof. intros H l e' [= <-]. exact H. Qed.

Lemma fails_only_lift {A : Type} (r : result A) :
  (forall x, P (Other x)) -> fails_only P (io_lift r).
Proof. intros H l e. unfold io_lift. cbn. destruct r; intros [= <-]. apply H. Qed.

Lemma fails_only_bind {A B : Type} (m : IO A) (f : A -> IO B) :
  fails_only P m -> (forall a, fails_only P (f a)) -> fails_only P (m ≫= f).
Proof.
  intros Hm Hf l e. rewrite io_bind_run. specialize (Hm l).
  destruct (m l) as [[e1|a] l1]; cbn [fst] in *.
  - intros [= <-]. now apply Hm.
  - apply Hf.
Qed.

Lemma fails_only_try {A : Type} (Q : raised -> Prop) (m : IO A) (h : raised -> IO A) :
  fails_only Q m -> (forall e, Q e -> fails_only P (h e)) -> fails_only P (io_try m h).
Proof.
  intros Hm Hh l e. rewrite io_try_run. specialize (Hm l).
  destruct (m l) as [[e1|a] l1]; cbn [fst] in *.
  - apply Hh. now apply Hm.
  - discriminate.
Qed.

End FailsOnly.

Lemma fails_only_weaken {A : Type} (P Q : raised -> Prop) (m : IO A) :
  (forall e, P e -> Q e) -> fails_only P m -> fails_only Q m.
Proof. intros H Hm l e He. apply H. exact (Hm l e He). Qed.

Lemma make_request_failure (transport : list Http.request -> Http.answer)
  (api_key : string) (timeout_seconds : Z) (method endpoint : string)
  (params : option (list (string * pyval))) (data : pyval) :
  fails_only service_failure
    (CalCom._make_request transport api_key timeout_seconds method endpoint params data).
Proof.
  intros l e. rewrite make_request_run. cbv zeta. cbn [fst].
  destruct (transport _); cbn; intros [= <-]; reflexivity.
Qed.

Ltac service_step :=
  first
    [ apply make_request_failure
    | apply fails_only_lift; intros; exact I
    | apply fails_only_ret
    | apply fails_only_raise ].

Section ServiceFailures.

Context (transport : list Http.request -> Http.answer).
Context (api_key : string) (timeout_seconds : Z).
Context (EventType_ : pyval -> result EventType.t).
Context (Attendee_ : pyval -> result Attendee.t).
Context (Booking_ : pyval -> result Booking.t).
Context (Booking_of :
  pyval -> pyval -> pyval -> DateTime.datetime -> DateTime.datetime -> string ->
  list Attendee.t -> pyval -> result Booking.t).
Context (Event_of :
  pyval -> pyval -> pyval -> pyval -> DateTime.datetime -> DateTime.datetime -> pyval ->
  list Attendee.t -> EventType.t -> result Event.t).

Lemma get_event_types_failure :
  fails_only service_failure
    (CalCom.get_event_types transport api_key timeout_seconds EventType_).
Proof.
  unfold CalCom.get_event_types.
  apply fails_only_bind; [service_step | intros response].
  apply fails_only_bind; [service_step | intros v].
  apply fails_only_bind; [service_step | intros items]. service_step.
Qed.

Lemma get_available_slots_failure (event_type_id : pyval)
  (start_date end_date : DateTime.datetime) (timezone : pyval) :
  fails_only service_failure
    (CalCom.get_available_slots transport api_key timeout_seconds EventType_
       event_type_id start_date end_date timezone).
Proof.
  unfold CalCom.get_available_slots.
  apply fails_only_bind; [apply get_event_types_failure | intros event_types].
  destruct (next_or_none _ event_types); [| service_step].
  apply (fails_only_try (fun _ => True)); [intros l e _; exact I |].
  intros e _. service_step.
Qed.

Lemma book_event_failure (event_type_id : pyval) (start_time end_time : DateTime.datetime)
  (name email title description timezone language : pyval) :
  fails_only service_failure
    (CalCom.book_event transport api_key timeout_seconds Attendee_ Booking_ Booking_of
       event_type_id start_time end_time name email title description timezone language).
Proof.
  unfold CalCom.book_event. cbv zeta.
  apply (fails_only_try service_failure).
  - apply fails_only_bind; [service_step | intros response; service_step].
  - intros [cls message status details|x] He; [| service_step; exact I].
    cbn in He. subst cls. destruct (PyStr.contains _ _); [| service_step; reflexivity].
    apply fails_only_bind; [service_step | intros response; service_step].
Qed.

Lemma get_bookings_failure (email : pyval) (start_date end_date : option DateTime.datetime)
  (status : pyval) :
  fails_only service_failure
    (CalCom.get_bookings transport api_key timeout_seconds Booking_
       email start_date end_date status).
Proof.
  unfold CalCom.get_bookings. cbv zeta.
  apply fails_only_bind; [service_step | intros response].
  apply fails_only_bind; [service_step | intros v].
  apply fails_only_bind; [service_step | intros items].
  apply fails_only_bind; [service_step | intros bookings].
  destruct (Py.truthy email); service_step.
Qed.

Lemma cancel_booking_failure (booking_id reason : pyval) :
  fails_only service_failure
    (CalCom.cancel_booking transport api_key timeout_seconds booking_id reason).
Proof. unfold CalCom.cancel_booking. service_step. Qed.

Lemma reschedule_booking_failure (booking_id : pyval)
  (start_time end_time : DateTime.datetime) (reason : pyval) :
  fails_only service_failure
    (CalCom.reschedule_booking transport api_key timeout_seconds Booking_
       booking_id start_time end_time reason).
Proof.
  unfold CalCom.reschedule_booking. cbv zeta.
  apply fails_only_bind; [service_step | intros response].
  apply fails_only_bind; [service_step | intros v]. service_step.
Qed.

Lemma get_event_failure (booking_id : pyval) :
  fails_only service_failure
    (CalCom.get_event transport api_key timeout_seconds EventType_ Attendee_ Event_of
       booking_id).
Proof.
  unfold CalCom.get_event.
  apply fails_only_bind; [service_step | intros response].
  apply fails_only_bind; [service_step | intros booking_data].
  apply fails_only_bind; [service_step | intros event_type_id].
  apply fails_only_bind; [service_step | intros event_type_response].
  apply fails_only_bind; [service_step | intros event_type_data]. service_step.
Qed.

End ServiceFailures.

Lemma on_failure_endpoint (passed : list AppClass.t) (what : string) (e : raised) :
  inner_failure e -> endpoint_failure (CalComRouter.on_failure passed what e).
Proof.
  intros H. destruct e as [cls message status details|x]; cbn [CalComRouter.on_failure].
  - destruct (existsb _ passed); [| cbn; auto].
    destruct H as [H | H]; [cbn in H; subst cls; exact I | exact H].
  - cbn. auto.
Qed.

Lemma closed_endpoint {A : Type} (m : IO A) (passed : list AppClass.t) (what : string) :
  fails_only inner_failure m ->
  fails_only endpoint_failure
    (io_try m (fun e => io_raise (CalComRouter.on_failure passed what e))).
Proof.
  intros Hm. apply (fails_only_try inner_failure); [exact Hm |].
  intros e He. apply fails_only_raise. now apply on_failure_endpoint.
Qed.

Lemma service_inner {A : Type} (m : IO A) :
  fails_only service_failure m -> fails_only inner_failure m.
Proof. apply fails_only_weaken. intros e H. now left. Qed.

Section EndpointFailures.

Context (transport : list Http.request -> Http.answer).
Context (api_key : string) (timeout_seconds : Z).
Context (EventType_ : pyval -> result EventType.t).
Context (Attendee_ : pyval -> result Attendee.t).
Context (Booking_ : pyval -> result Booking.t).
Context (Booking_of :
  pyval -> pyval -> pyval -> DateTime.datetime -> DateTime.datetime -> string ->
  list Attendee.t -> pyval -> result Booking.t).
Context (Event_of :
  pyval -> pyval -> pyval -> pyval -> DateTime.datetime -> DateTime.datetime -> pyval ->
  list Attendee.t -> EventType.t -> result Event.t).
Context (ListEventsResponse_ : list EventEntry.t -> Z -> result ListEventsResponse.t).

Lemma event_types_endpoint_failure :
  fails_only endpoint_failure
    (CalComRouter.get_event_types transport api_key timeout_seconds EventType_).
Proof.
  apply closed_endpoint. apply service_inner.
  apply fails_only_bind; [apply get_event_types_failure | intros ets; apply fails_only_ret].
Qed.

Lemma slots_endpoint_failure (event_type_id : Z) (date : string) :
  fails_only endpoint_failure
    (CalComRouter.get_available_slots transport api_key timeout_seconds EventType_
       event_type_id date).
Proof.
  apply closed_endpoint. apply fails_only_bind.
  - destruct (DateTime.strptime_ymd date) as [e|day]; [| apply fails_only_ret].
    destruct (exn_class_eqb _ _); apply fails_only_raise; [right | left]; reflexivity.
  - intros range. apply service_inner.
    apply fails_only_bind; [apply get_available_slots_failure |].
    intros slots. apply fails_only_ret.
Qed.

Lemma book_endpoint_failure (request : BookEventRequest.t) :
  fails_only endpoint_failure
    (CalComRouter.book_event transport api_key timeout_seconds Attendee_ Booking_ Booking_of
       request).
Proof.
  apply closed_endpoint. destruct (BookEventRequest.attendees request) as [|a r].
  - apply fails_only_raise. right. reflexivity.
  - apply service_inner.
    apply fails_only_bind; [apply book_event_failure | intros b; apply fails_only_ret].
Qed.

Lemma event_entries_run (bookings : list Booking.t) (events : list EventEntry.t)
  (l : list Http.request) :
  exists entries reads,
    CalComRouter.event_entries transport api_key timeout_seconds EventType_ Attendee_
      Event_of bookings events l
    = (inr (events ++ entries)%list, (l ++ reads)%list)
    /\ fetched
         (fun booking =>
            CalCom.get_event transport api_key timeout_seconds EventType_ Attendee_
              Event_of (PStr (Booking.uid booking)))
         bookings l entries (l ++ reads)%list
    /\ (length entries <= length bookings)%nat
    /\ (length reads <= 2 * length bookings)%nat
    /\ Forall is_get reads.
Proof.
  revert events l. induction bookings as [|b rest IH]; intros events l.
  - exists [], []. cbn. rewrite !app_nil_r. split; [reflexivity |].
    split; [constructor | auto].
  - cbn [CalComRouter.event_entries]. rewrite io_bind_run, io_try_run, io_bind_run.
    destruct (get_event_reads transport api_key timeout_seconds EventType_ Attendee_
                Event_of (PStr (Booking.uid b)) l) as (r1 & E1 & L1 & G1).
    destruct (CalCom.get_event _ _ _ _ _ _ _ l) as [[e|ev] l1] eqn:Eg;
      cbn [snd] in E1; subst l1.
    + destruct (IH events (l ++ r1)%list) as (entries & r2 & E2 & F2 & Le & Lr & G2).
      exists entries, (r1 ++ r2)%list. cbn [mret IO_ret]. rewrite E2, app_assoc.
      split; [reflexivity |].
      split; [eapply fetched_left_out; [exact Eg | exact F2] |].
      split; [cbn; lia |].
      split; [rewrite length_app; cbn; lia | apply Forall_app; auto].
    + destruct (IH (events ++ [CalComRouter.entry_of ev])%list (l ++ r1)%list)
        as (entries & r2 & E2 & F2 & Le & Lr & G2).
      exists (CalComRouter.entry_of ev :: entries), (r1 ++ r2)%list.
      cbn [mret IO_ret]. rewrite E2, <- !app_assoc. cbn [app]. rewrite app_assoc.
      split; [reflexivity |].
      split; [eapply fetched_had; [exact Eg | exact F2] |].
      split; [cbn; lia |].
      split; [rewrite length_app; cbn; lia | apply Forall_app; auto].
Qed.

Lemma list_endpoint_failure (request : ListEventsRequest.t) :
  fails_only endpoint_failure
    (CalComRouter.list_events transport api_key timeout_seconds EventType_ Attendee_ Booking_
       Event_of ListEventsResponse_ request).
Proof.
  apply closed_endpoint. apply service_inner.
  apply fails_only_bind; [apply get_bookings_failure | intros bookings].
  apply fails_only_bind; [| intros events; apply fails_only_lift; intros; exact I].
  intros l e H. destruct (event_entries_run bookings [] l) as (en & rd & E & _).
  rewrite E in H. discriminate.
Qed.

Lemma check_booking_failure (booking_id : string) :
  fails_only inner_failure
    (CalComRouter.check_booking transport api_key timeout_seconds EventType_ Attendee_
       Event_of booking_id).
Proof.
  intros l e. rewrite check_booking_run.
  destruct (CalCom.get_event _ _ _ _ _ _ _ l) as [[x|ev] l1]; cbn [fst]; intros [= <-].
  right. reflexivity.
Qed.

Lemma cancel_endpoint_failure (booking_id : string) (reason : option string) :
  fails_only endpoint_failure
    (CalComRouter.cancel_event transport api_key timeout_seconds EventType_ Attendee_
       Event_of booking_id reason).
Proof.
  apply closed_endpoint.
  apply fails_only_bind; [apply check_booking_failure | intros _].
  apply service_inner.
  apply fails_only_bind; [apply cancel_booking_failure | intros r; apply fails_only_ret].
Qed.

Lemma reschedule_endpoint_failure (booking_id : string)
  (request : RescheduleEventRequest.t) :
  fails_only endpoint_failure
    (CalComRouter.reschedule_event transport api_key timeout_seconds EventType_ Attendee_
       Booking_ Event_of booking_id request).
Proof.
  apply closed_endpoint.
  apply fails_only_bind; [apply check_booking_failure | intros _].
  apply service_inner.
  apply fails_only_bind; [apply reschedule_booking_failure |].
  intros b; apply fails_only_ret.
Qed.

End EndpointFailures.

(** X27. No exception other than one of the application leaves an
    endpoint of the calendar. Every failure of the six endpoints is a
    [ValidationError] with status 400, a [NotFoundError] with status 404,
    an error of the calendar with the status it carries, or an
    [AppException] with status 500 and no details. The handler registered
    for these exceptions answers with the status code of the exception as
    the status of the response, and a body whose [error] holds the same
    status code, the message, the name of the class in lower case as the
    code, and the details only when there are some. *)
Theorem X27_failures_of_the_endpoints (transport : list Http.request -> Http.answer)
  (api_key : string) (timeout_seconds : Z)
  (EventType_ : pyval -> result EventType.t) (Attendee_ : pyval -> result Attendee.t)
  (Booking_ : pyval -> result Booking.t)
  (Booking_of :
     pyval -> pyval -> pyval -> DateTime.datetime -> DateTime.datetime -> string ->
     list Attendee.t -> pyval -> result Booking.t)
  (Event_of :
     pyval -> pyval -> pyval -> pyval -> DateTime.datetime -> DateTime.datetime -> pyval ->
     list Attendee.t -> EventType.t -> result Event.t)
  (ListEventsResponse_ : list EventEntry.t -> Z -> result ListEventsResponse.t) :
  fails_only endpoint_failure
    (CalComRouter.get_event_types transport api_key timeout_seconds EventType_)
  /\ (forall event_type_id date,
        fails_only endpoint_failure
          (CalComRouter.get_available_slots transport api_key timeout_seconds EventType_
             event_type_id date))
  /\ (forall request,
        fails_only endpoint_failure
          (CalComRouter.book_event transport api_key timeout_seconds Attendee_ Booking_
             Booking_of request))
  /\ (forall request,
        fails_only endpoint_failure
          (CalComRouter.list_events transport api_key timeout_seconds EventType_ Attendee_
             Booking_ Event_of ListEventsResponse_ request))
  /\ (forall booking_id reason,
        fails_only endpoint_failure
          (CalComRouter.cancel_event transport api_key timeout_seconds EventType_ Attendee_
             Event_of booking_id reason))
  /\ (forall booking_id request,
        fails_only endpoint_failure
          (CalComRouter.reschedule_event transport api_key timeout_seconds EventType_
             Attendee_ Booking_ Event_of booking_id request))
  /\ (forall cls message status_code details,
        let response := app_exception_handler cls message status_code details in
        let body := JSONResponse.content response in
        JSONResponse.status_code response = status_code
        /\ reach ["error"; "status_code"] body = Some (PInt status_code)
        /\ reach ["error"; "message"] body = Some (PStr message)
        /\ reach ["error"; "code"] body = Some (PStr (PyStr.lower (AppClass.name cls)))
        /\ reach ["error"; "details"] body
           = match details with
             | [] => None
             | _ => Some (PDict details)
             end).
Proof.
  split; [apply event_types_endpoint_failure |].
  split; [intros; apply slots_endpoint_failure |].
  split; [intros; apply book_endpoint_failure |].
  split; [intros; apply list_endpoint_failure |].
  split; [intros; apply cancel_endpoint_failure |].
  split; [intros; apply reschedule_endpoint_failure |].
  intros cls message status_code details. cbv zeta.
  split; [reflexivity |]. split; [reflexivity |]. split; [reflexivity |].
  split; [reflexivity |]. destruct details; reflexivity.
Qed.

(** X28. The endpoint that lists events asks for the bookings of the
    address with one request; if that fails, the failure is the failure of
    the endpoint. After that the event of every booking is looked up, in
    the order of the bookings, each lookup after the requests of the ones
    before it: a booking whose event is had gives one entry, with the uid,
    title, description, times, status and attendees of that event, and a
    booking whose lookup fails gives none and does not fail the listing.
    The lookups only read, with at most two requests for each booking. The
    response is built from exactly these entries, in that order, and its
    total is their number, not that of the bookings; the only failure left
    is that of building the response, raised as an [AppException]. *)
Theorem X28_events_without_details_are_left_out
  (transport : list Http.request -> Http.answer)
  (api_key : string) (timeout_seconds : Z)
  (EventType_ : pyval -> result EventType.t) (Attendee_ : pyval -> result Attendee.t)
  (Booking_ : pyval -> result Booking.t)
  (Event_of :
     pyval -> pyval -> pyval -> pyval -> DateTime.datetime -> DateTime.datetime -> pyval ->
     list Attendee.t -> EventType.t -> result Event.t)
  (ListEventsResponse_ : list EventEntry.t -> Z -> result ListEventsResponse.t)
  (request : ListEventsRequest.t) (l : list Http.request) :
  let lookup :=
    CalCom.get_bookings transport api_key timeout_seconds Booking_
      (PStr (ListEventsRequest.user_email request)) (ListEventsRequest.start_date request)
      (ListEventsRequest.end_date request)
      (PyOps.of_opt_str (ListEventsRequest.status request)) l in
  let outcome :=
    CalComRouter.list_events transport api_key timeout_seconds EventType_ Attendee_ Booking_
      Event_of ListEventsResponse_ request l in
  match fst lookup with
  | inl e =>
      outcome
      = (inl (CalComRouter.on_failure [AppClass.ValidationError; AppClass.CalComAPIError]
                "Error listing events: " e), snd lookup)
  | inr bookings =>
      exists entries reads,
        fetched
          (fun booking =>
             CalCom.get_event transport api_key timeout_seconds EventType_ Attendee_
               Event_of (PStr (Booking.uid booking)))
          bookings (snd lookup) entries (snd lookup ++ reads)%list
        /\ snd outcome = (snd lookup ++ reads)%list
        /\ (length reads <= 2 * length bookings)%nat
        /\ Forall is_get reads
        /\ (length entries <= length bookings)%nat
        /\ fst outcome
           = match ListEventsResponse_ entries (Z.of_nat (length entries)) with
             | inr response => inr response
             | inl e =>
                 inl (App AppClass.AppException
                        ("Error listing events: " ++ exn_msg e) 500 [])
             end
  end.
Proof.
  cbv zeta. unfold CalComRouter.list_events. rewrite io_try_run, io_bind_run.
  destruct (CalCom.get_bookings _ _ _ _ _ _ _ _ l) as [[e|bookings] l1]; cbn [fst snd];
    [reflexivity |].
  rewrite io_bind_run.
  destruct (event_entries_run transport api_key timeout_seconds EventType_ Attendee_
              Event_of bookings [] l1) as (entries & reads & E & F & Le & Lr & G).
  rewrite E. cbn [app]. exists entries, reads. unfold io_lift.
  split; [exact F |].
  destruct (ListEventsResponse_ entries _) as [x|r]; cbn [fst snd]; auto 6.
Qed.
